(** * sgh_dd: a shallow embedding of the multi-threaded sg copy engine

  The definitions below follow [testing/sgh_dd.cpp].  Integers of the C++
  source are embedded as [Z]; where the source narrows a value (a cast to
  [uint8_t], [uint32_t], an [atomic<int>] that wraps) the wrap-around is
  written out.  Byte buffers are lists of byte values (each a [Z] in
  [0, 256)) indexed with stdpp's list lookup and insert.  System calls and
  ioctls are not executed: their results are read from an explicit list of
  outcomes that the embedded function consumes, and the calls that reached
  the kernel are recorded in a trace.  A worker is embedded on its own, as
  a computation over its request element, its deferred array and the state
  it shares; the workers of one copy are put together by a scheduler that
  runs, step by step, the READ half or the WRITE half of a loop turn of
  one of them on the state they share.
  Diagnostic output, the snapshots of [sg_take_snap] and the helper thread
  that aborts a multiple request are left out. *)

From Stdlib Require Import ZArith Lia Bool List Sorted.
From stdpp Require Import base tactics option list gmap.

Local Open Scope Z_scope.

(** ** Machine integers *)

Module MachInt.

Definition u8 (x : Z) : Z := x mod 256.
Definition u16 (x : Z) : Z := x mod 65536.
Definition u32 (x : Z) : Z := x mod 4294967296.
Definition u64 (x : Z) : Z := x mod 18446744073709551616.

(** Two's complement reading of the low 32 bits: what an [int] holds after
    an [atomic<int>] operation wraps. *)
Definition s32 (x : Z) : Z :=
  let r := u32 x in if r <? 2147483648 then r else r - 4294967296.

Definition INT_MAX : Z := 2147483647.

End MachInt.
Import MachInt.

(** ** Unaligned big-endian stores and loads *)

Module Unaligned.

(** Modelled from the spec: the [sg_put_unaligned_be*] and
    [sg_get_unaligned_be32] helpers of [include/sg_unaligned.h], which is
    not part of the sources at hand.  The spec calls the stored value
    "big-endian": the most significant byte goes to the lowest offset.
    A store that would fall outside the buffer leaves the model's buffer
    unchanged at that index (the C code would write out of bounds). *)
Definition sg_put_unaligned_be16 (val : Z) (p : nat) (buf : list Z) : list Z :=
  <[(p + 1)%nat := u8 val]> (<[p := u8 (Z.shiftr val 8)]> buf).

Definition sg_put_unaligned_be24 (val : Z) (p : nat) (buf : list Z) : list Z :=
  <[(p + 2)%nat := u8 val]>
    (<[(p + 1)%nat := u8 (Z.shiftr val 8)]>
       (<[p := u8 (Z.shiftr val 16)]> buf)).

Definition sg_put_unaligned_be32 (val : Z) (p : nat) (buf : list Z) : list Z :=
  <[(p + 3)%nat := u8 val]>
    (<[(p + 2)%nat := u8 (Z.shiftr val 8)]>
       (<[(p + 1)%nat := u8 (Z.shiftr val 16)]>
          (<[p := u8 (Z.shiftr val 24)]> buf))).

Definition sg_put_unaligned_be64 (val : Z) (p : nat) (buf : list Z) : list Z :=
  sg_put_unaligned_be32 (u32 val) (p + 4)
    (sg_put_unaligned_be32 (u32 (Z.shiftr val 32)) p buf).

(** A byte read outside the buffer reads as 0 in the model. *)
Definition byte_at (buf : list Z) (p : nat) : Z := default 0 (buf !! p).

Definition sg_get_unaligned_be32 (buf : list Z) (p : nat) : Z :=
  Z.shiftl (byte_at buf p) 24 + Z.shiftl (byte_at buf (p + 1)) 16
  + Z.shiftl (byte_at buf (p + 2)) 8 + byte_at buf (p + 3).

Definition sg_get_unaligned_be24 (buf : list Z) (p : nat) : Z :=
  Z.shiftl (byte_at buf p) 16 + Z.shiftl (byte_at buf (p + 1)) 8
  + byte_at buf (p + 2).

End Unaligned.
Import Unaligned.

(** ** CDB construction: [sg_build_scsi_cdb] *)

Module Cdb.

Definition rd_opcode : list Z := [0x8; 0x28; 0xa8; 0x88].
Definition ve_opcode : list Z := [0xff; 0x2f; 0xaf; 0x8f].
Definition wr_opcode : list Z := [0xa; 0x2a; 0xaa; 0x8a].

Definition opcode (tbl : list Z) (sz_ind : nat) : Z := default 0 (tbl !! sz_ind).

(** [memset(cdbp, 0, cdb_sz)] on the command scratch area. *)
Definition memset0 (n : Z) (buf : list Z) : list Z :=
  let k := Z.to_nat n in
  replicate (Nat.min k (length buf)) 0 ++ drop k buf.

(** [cdbp[i] |= bits] *)
Definition or_byte (i : nat) (bits : Z) (buf : list Z) : list Z :=
  <[i := Z.lor (byte_at buf i) bits]> buf.

Definition rw_opcode (write_true : bool) (sz_ind : nat) : Z :=
  u8 (if write_true then opcode wr_opcode sz_ind else opcode rd_opcode sz_ind).

(** [blocks] is the source's [unsigned int] (a value in [0, 2^32)),
    [start_block] its [int64_t].  The result pairs the return value with
    the command bytes left in [cdbp]. *)
Definition sg_build_scsi_cdb (cdbp : list Z) (cdb_sz : Z) (blocks : Z)
    (start_block : Z) (ver_true write_true fua dpo : bool) : Z * list Z :=
  let cdbp := memset0 cdb_sz cdbp in
  if ver_true && (cdb_sz <? 10) then (1, cdbp)
  else
    let cdb_sz := if ver_true then 10 else cdb_sz in
    let fua := if ver_true then false else fua in
    let cdbp := if ver_true
                then <[0%nat := opcode ve_opcode 1]> (or_byte 1 0x2 cdbp)
                else cdbp in
    let cdbp := if dpo then or_byte 1 0x10 cdbp else cdbp in
    let cdbp := if fua then or_byte 1 0x8 cdbp else cdbp in
    if cdb_sz =? 6 then
      let cdbp := <[0%nat := rw_opcode write_true 0]> cdbp in
      let cdbp := sg_put_unaligned_be24 (Z.land 0x1fffff start_block) 1 cdbp in
      let cdbp := <[4%nat := if blocks =? 256 then 0 else u8 blocks]> cdbp in
      if 256 <? blocks then (1, cdbp)
      else if negb (Z.land (start_block + blocks - 1) (Z.lnot 0x1fffff) =? 0)
      then (1, cdbp)
      else if dpo || fua then (1, cdbp)
      else (0, cdbp)
    else if cdb_sz =? 10 then
      let cdbp := if ver_true then cdbp
                  else <[0%nat := rw_opcode write_true 1]> cdbp in
      let cdbp := sg_put_unaligned_be32 (u32 start_block) 2 cdbp in
      let cdbp := sg_put_unaligned_be16 (u16 blocks) 7 cdbp in
      if negb (Z.land blocks (Z.lnot 0xffff) =? 0) then (1, cdbp)
      else (0, cdbp)
    else if cdb_sz =? 12 then
      let cdbp := <[0%nat := rw_opcode write_true 2]> cdbp in
      let cdbp := sg_put_unaligned_be32 (u32 start_block) 2 cdbp in
      let cdbp := sg_put_unaligned_be32 (u32 blocks) 6 cdbp in
      (0, cdbp)
    else if cdb_sz =? 16 then
      let cdbp := <[0%nat := rw_opcode write_true 3]> cdbp in
      let cdbp := sg_put_unaligned_be64 (u64 start_block) 2 cdbp in
      let cdbp := sg_put_unaligned_be32 (u32 blocks) 10 cdbp in
      (0, cdbp)
    else (1, cdbp).

End Cdb.
Import Cdb.

(** ** Constants *)

Module Const.

(** File types, the [FT_*] macros of the source. *)
Definition FT_OTHER : Z := 1.
Definition FT_SG : Z := 2.
Definition FT_DEV_NULL : Z := 4.
Definition FT_ST : Z := 8.
Definition FT_CHAR : Z := 16.
Definition FT_BLOCK : Z := 32.
Definition FT_FIFO : Z := 64.
Definition FT_RANDOM_0_FF : Z := 128.
Definition FT_ERROR : Z := 256.

Definition SGP_PRE_FETCH10 : Z := 0x34.
Definition SGP_PRE_FETCH16 : Z := 0x90.
Definition MONO_MRQ_ID_INIT : Z := 0x10000.
Definition SENSE_BUFF_LEN : Z := 64.
Definition SGV4_FLAG_POLLED : Z := 0x800.

(** Modelled from the spec: the [SG_LIB_CAT_*] exit and sense categories of
    [include/sg_lib.h], which is not part of the sources at hand.  The spec
    names them (Clean, ConditionMet, Recovered, AbortedCommand,
    UnitAttention, MediumHard, Miscompare, NotReady, OTHER); the numbers
    are those of the sg3_utils header. *)
Definition SG_LIB_CAT_CLEAN : Z := 0.
Definition SG_LIB_CAT_NOT_READY : Z := 2.
Definition SG_LIB_CAT_MEDIUM_HARD : Z := 3.
Definition SG_LIB_CAT_UNIT_ATTENTION : Z := 6.
Definition SG_LIB_CAT_ABORTED_COMMAND : Z := 11.
Definition SG_LIB_CAT_MISCOMPARE : Z := 14.
Definition SG_LIB_CAT_RECOVERED : Z := 20.
Definition SG_LIB_CAT_CONDITION_MET : Z := 25.
Definition SG_LIB_CAT_OTHER : Z := 99.

(** Modelled from the spec: the request flag bits of the Linux sg driver
    header ([uapi_sg.h], not part of the sources at hand).  The spec lists
    the flags by name (direct-I/O, mmap-I/O, queue-at-head, queue-at-tail,
    dout-offset, immediate, stop-if, share, do-on-other, no-dxfer,
    keep-share, multiple-reqs, meta-out-if); each is one bit, numbered as
    in the driver header. *)
Definition SG_FLAG_DIRECT_IO : Z := 0x1.
Definition SG_FLAG_MMAP_IO : Z := 0x4.
Definition SG_FLAG_Q_AT_TAIL : Z := 0x10.
Definition SG_FLAG_Q_AT_HEAD : Z := 0x20.
Definition SG_FLAG_NO_DXFER : Z := 0x10000.
Definition SGV4_FLAG_DOUT_OFFSET : Z := 0x40.
Definition SGV4_FLAG_IMMED : Z := 0x400.
Definition SGV4_FLAG_STOP_IF : Z := 0x1000.
Definition SGV4_FLAG_SHARE : Z := 0x4000.
Definition SGV4_FLAG_DO_ON_OTHER : Z := 0x8000.
Definition SGV4_FLAG_NO_DXFER : Z := 0x10000.
Definition SGV4_FLAG_KEEP_SHARE : Z := 0x20000.
Definition SGV4_FLAG_MULTIPLE_REQS : Z := 0x40000.
Definition SGV4_FLAG_META_OUT_IF : Z := 0x200000.

(** Modelled from the spec: completion-info bits and transfer directions
    of the same driver header, and the SAM status CHECK CONDITION. *)
Definition SG_INFO_CHECK : Z := 0x1.
Definition SG_INFO_DIRECT_IO : Z := 0x2.
Definition SG_INFO_DIRECT_IO_MASK : Z := 0x6.
Definition SG_INFO_MRQ_FINI : Z := 0x20.
Definition SG_DXFER_NONE : Z := -1.
Definition SG_DXFER_TO_DEV : Z := -2.
Definition SG_DXFER_FROM_DEV : Z := -3.
Definition SAM_STAT_CHECK_CONDITION : Z := 0x2.

(** Modelled from the spec: [sizeof(struct sg_io_v4)], the size in bytes
    of one "sg_io_v4-shaped header" (declared in the kernel's [bsg.h], not
    part of the sources at hand). *)
Definition SIZEOF_SG_IO_V4 : Z := 160.

(** Modelled from the spec: the [errno] values (Linux [errno.h]) that the
    retry loops of the source test for. *)
Definition EINTR : Z := 4.
Definition E2BIG : Z := 7.
Definition EAGAIN : Z := 11.
Definition ENOMEM : Z := 12.
Definition EBUSY : Z := 16.
Definition ENODATA : Z := 61.

End Const.
Import Const.

(** ** Structures *)

(** Addresses that the source stores in request headers.  The model keeps
    which object an address designates, not its numeric value. *)
Inductive ptr :=
| NullPtr
| CmdPtr                (* [rep->cmd] *)
| SbPtr                 (* [rep->sb] *)
| RepPtr (id : Z)       (* the worker's [Rq_elem] *)
| BufPtr (off : Z)      (* [rep->buffp + off] *)
| ArrPtr                (* the deferred array's storage *)
| CmdArrPtr.            (* the bulk CDB area of an MRQ *)

Module Fl.

(** [struct flags_t]: the per-side request modifiers that the embedded
    functions read.  [mmap] is the source's small count. *)
Record t := mk {
  coe : bool;
  dio : bool;
  dpo : bool;
  ff : bool;
  fua : bool;
  polled : bool;
  mrq_svb : bool;
  noxfer : bool;
  qhead : bool;
  qtail : bool;
  random : bool;
  mout_if : bool;
  same_fds : bool;
  v4 : bool;
  zero : bool;
  mmap : Z
}.

End Fl.

Module G.

(** [struct global_collection]: the one instance visible to all threads.
    The fields with a setter below are the ones workers update. *)
Record t := mk {
  infd : Z;
  skip : Z;
  in_type : Z;
  cdbsz_in : Z;
  in_flags : Fl.t;
  in_rem_count : Z;
  in_partial : Z;
  in_stop : bool;
  nmrqs : Z;
  outfd : Z;
  seek : Z;
  out_type : Z;
  out2fd : Z;
  out2_type : Z;
  cdbsz_out : Z;
  aen : Z;
  m_aen : Z;
  out_flags : Fl.t;
  out_blk : Z;
  out_count : Z;
  out_rem_count : Z;
  out_partial : Z;
  out_stop : bool;
  bs : Z;
  bpt : Z;
  cmd_timeout : Z;
  outregfd : Z;
  ofsplit : Z;
  dio_incomplete_count : Z;
  sum_of_resids : Z;
  fail_mask : Z;
  dry_run : Z;
  chkaddr : Z;
  ofile2_given : bool;
  mrq_cmds : bool;
  mrq_async : bool;
  noshare : bool;
  unbalanced_mrq : bool;
  verify : bool;
  prefetch : bool
}.

Definition set_in_rem_count (v : Z) (x : t) : t :=
  mk (infd x) (skip x) (in_type x) (cdbsz_in x) (in_flags x) v (in_partial
    x) (in_stop x) (nmrqs x) (outfd x) (seek x) (out_type x) (out2fd x)
    (out2_type x) (cdbsz_out x) (aen x) (m_aen x) (out_flags x) (out_blk x)
    (out_count x) (out_rem_count x) (out_partial x) (out_stop x) (bs x) (bpt
    x) (cmd_timeout x) (outregfd x) (ofsplit x) (dio_incomplete_count x)
    (sum_of_resids x) (fail_mask x) (dry_run x) (chkaddr x) (ofile2_given x)
    (mrq_cmds x) (mrq_async x) (noshare x) (unbalanced_mrq x) (verify x)
    (prefetch x).

Definition set_in_partial (v : Z) (x : t) : t :=
  mk (infd x) (skip x) (in_type x) (cdbsz_in x) (in_flags x) (in_rem_count
    x) v (in_stop x) (nmrqs x) (outfd x) (seek x) (out_type x) (out2fd x)
    (out2_type x) (cdbsz_out x) (aen x) (m_aen x) (out_flags x) (out_blk x)
    (out_count x) (out_rem_count x) (out_partial x) (out_stop x) (bs x) (bpt
    x) (cmd_timeout x) (outregfd x) (ofsplit x) (dio_incomplete_count x)
    (sum_of_resids x) (fail_mask x) (dry_run x) (chkaddr x) (ofile2_given x)
    (mrq_cmds x) (mrq_async x) (noshare x) (unbalanced_mrq x) (verify x)
    (prefetch x).

Definition set_in_stop (v : bool) (x : t) : t :=
  mk (infd x) (skip x) (in_type x) (cdbsz_in x) (in_flags x) (in_rem_count
    x) (in_partial x) v (nmrqs x) (outfd x) (seek x) (out_type x) (out2fd x)
    (out2_type x) (cdbsz_out x) (aen x) (m_aen x) (out_flags x) (out_blk x)
    (out_count x) (out_rem_count x) (out_partial x) (out_stop x) (bs x) (bpt
    x) (cmd_timeout x) (outregfd x) (ofsplit x) (dio_incomplete_count x)
    (sum_of_resids x) (fail_mask x) (dry_run x) (chkaddr x) (ofile2_given x)
    (mrq_cmds x) (mrq_async x) (noshare x) (unbalanced_mrq x) (verify x)
    (prefetch x).

Definition set_out_blk (v : Z) (x : t) : t :=
  mk (infd x) (skip x) (in_type x) (cdbsz_in x) (in_flags x) (in_rem_count
    x) (in_partial x) (in_stop x) (nmrqs x) (outfd x) (seek x) (out_type x)
    (out2fd x) (out2_type x) (cdbsz_out x) (aen x) (m_aen x) (out_flags x) v
    (out_count x) (out_rem_count x) (out_partial x) (out_stop x) (bs x) (bpt
    x) (cmd_timeout x) (outregfd x) (ofsplit x) (dio_incomplete_count x)
    (sum_of_resids x) (fail_mask x) (dry_run x) (chkaddr x) (ofile2_given x)
    (mrq_cmds x) (mrq_async x) (noshare x) (unbalanced_mrq x) (verify x)
    (prefetch x).

Definition set_out_count (v : Z) (x : t) : t :=
  mk (infd x) (skip x) (in_type x) (cdbsz_in x) (in_flags x) (in_rem_count
    x) (in_partial x) (in_stop x) (nmrqs x) (outfd x) (seek x) (out_type x)
    (out2fd x) (out2_type x) (cdbsz_out x) (aen x) (m_aen x) (out_flags x)
    (out_blk x) v (out_rem_count x) (out_partial x) (out_stop x) (bs x) (bpt
    x) (cmd_timeout x) (outregfd x) (ofsplit x) (dio_incomplete_count x)
    (sum_of_resids x) (fail_mask x) (dry_run x) (chkaddr x) (ofile2_given x)
    (mrq_cmds x) (mrq_async x) (noshare x) (unbalanced_mrq x) (verify x)
    (prefetch x).

Definition set_out_rem_count (v : Z) (x : t) : t :=
  mk (infd x) (skip x) (in_type x) (cdbsz_in x) (in_flags x) (in_rem_count
    x) (in_partial x) (in_stop x) (nmrqs x) (outfd x) (seek x) (out_type x)
    (out2fd x) (out2_type x) (cdbsz_out x) (aen x) (m_aen x) (out_flags x)
    (out_blk x) (out_count x) v (out_partial x) (out_stop x) (bs x) (bpt x)
    (cmd_timeout x) (outregfd x) (ofsplit x) (dio_incomplete_count x)
    (sum_of_resids x) (fail_mask x) (dry_run x) (chkaddr x) (ofile2_given x)
    (mrq_cmds x) (mrq_async x) (noshare x) (unbalanced_mrq x) (verify x)
    (prefetch x).

Definition set_out_partial (v : Z) (x : t) : t :=
  mk (infd x) (skip x) (in_type x) (cdbsz_in x) (in_flags x) (in_rem_count
    x) (in_partial x) (in_stop x) (nmrqs x) (outfd x) (seek x) (out_type x)
    (out2fd x) (out2_type x) (cdbsz_out x) (aen x) (m_aen x) (out_flags x)
    (out_blk x) (out_count x) (out_rem_count x) v (out_stop x) (bs x) (bpt
    x) (cmd_timeout x) (outregfd x) (ofsplit x) (dio_incomplete_count x)
    (sum_of_resids x) (fail_mask x) (dry_run x) (chkaddr x) (ofile2_given x)
    (mrq_cmds x) (mrq_async x) (noshare x) (unbalanced_mrq x) (verify x)
    (prefetch x).

Definition set_out_stop (v : bool) (x : t) : t :=
  mk (infd x) (skip x) (in_type x) (cdbsz_in x) (in_flags x) (in_rem_count
    x) (in_partial x) (in_stop x) (nmrqs x) (outfd x) (seek x) (out_type x)
    (out2fd x) (out2_type x) (cdbsz_out x) (aen x) (m_aen x) (out_flags x)
    (out_blk x) (out_count x) (out_rem_count x) (out_partial x) v (bs x)
    (bpt x) (cmd_timeout x) (outregfd x) (ofsplit x) (dio_incomplete_count
    x) (sum_of_resids x) (fail_mask x) (dry_run x) (chkaddr x) (ofile2_given
    x) (mrq_cmds x) (mrq_async x) (noshare x) (unbalanced_mrq x) (verify x)
    (prefetch x).

Definition set_dio_incomplete_count (v : Z) (x : t) : t :=
  mk (infd x) (skip x) (in_type x) (cdbsz_in x) (in_flags x) (in_rem_count
    x) (in_partial x) (in_stop x) (nmrqs x) (outfd x) (seek x) (out_type x)
    (out2fd x) (out2_type x) (cdbsz_out x) (aen x) (m_aen x) (out_flags x)
    (out_blk x) (out_count x) (out_rem_count x) (out_partial x) (out_stop x)
    (bs x) (bpt x) (cmd_timeout x) (outregfd x) (ofsplit x) v (sum_of_resids
    x) (fail_mask x) (dry_run x) (chkaddr x) (ofile2_given x) (mrq_cmds x)
    (mrq_async x) (noshare x) (unbalanced_mrq x) (verify x) (prefetch x).

Definition set_sum_of_resids (v : Z) (x : t) : t :=
  mk (infd x) (skip x) (in_type x) (cdbsz_in x) (in_flags x) (in_rem_count
    x) (in_partial x) (in_stop x) (nmrqs x) (outfd x) (seek x) (out_type x)
    (out2fd x) (out2_type x) (cdbsz_out x) (aen x) (m_aen x) (out_flags x)
    (out_blk x) (out_count x) (out_rem_count x) (out_partial x) (out_stop x)
    (bs x) (bpt x) (cmd_timeout x) (outregfd x) (ofsplit x)
    (dio_incomplete_count x) v (fail_mask x) (dry_run x) (chkaddr x)
    (ofile2_given x) (mrq_cmds x) (mrq_async x) (noshare x) (unbalanced_mrq
    x) (verify x) (prefetch x).

End G.

Module Glob.

(** The file-scope variables of sgh_dd.cpp that workers read or update. *)
Record t := mk {
  mono_pack_id : Z;
  mono_mrq_id : Z;
  pos_index : Z;
  num_ebusy : Z;
  num_start_eagain : Z;
  num_fin_eagain : Z;
  num_abort_req : Z;
  num_abort_req_success : Z;
  num_miscompare : Z;
  num_waiting_calls : Z;
  exit_status : Z;
  dd_count : Z
}.

Definition set_mono_pack_id (v : Z) (x : t) : t :=
  mk v (mono_mrq_id x) (pos_index x) (num_ebusy x) (num_start_eagain x)
    (num_fin_eagain x) (num_abort_req x) (num_abort_req_success x)
    (num_miscompare x) (num_waiting_calls x) (exit_status x) (dd_count x).

Definition set_mono_mrq_id (v : Z) (x : t) : t :=
  mk (mono_pack_id x) v (pos_index x) (num_ebusy x) (num_start_eagain x)
    (num_fin_eagain x) (num_abort_req x) (num_abort_req_success x)
    (num_miscompare x) (num_waiting_calls x) (exit_status x) (dd_count x).

Definition set_pos_index (v : Z) (x : t) : t :=
  mk (mono_pack_id x) (mono_mrq_id x) v (num_ebusy x) (num_start_eagain x)
    (num_fin_eagain x) (num_abort_req x) (num_abort_req_success x)
    (num_miscompare x) (num_waiting_calls x) (exit_status x) (dd_count x).

Definition set_num_ebusy (v : Z) (x : t) : t :=
  mk (mono_pack_id x) (mono_mrq_id x) (pos_index x) v (num_start_eagain x)
    (num_fin_eagain x) (num_abort_req x) (num_abort_req_success x)
    (num_miscompare x) (num_waiting_calls x) (exit_status x) (dd_count x).

Definition set_num_start_eagain (v : Z) (x : t) : t :=
  mk (mono_pack_id x) (mono_mrq_id x) (pos_index x) (num_ebusy x) v
    (num_fin_eagain x) (num_abort_req x) (num_abort_req_success x)
    (num_miscompare x) (num_waiting_calls x) (exit_status x) (dd_count x).

Definition set_num_fin_eagain (v : Z) (x : t) : t :=
  mk (mono_pack_id x) (mono_mrq_id x) (pos_index x) (num_ebusy x)
    (num_start_eagain x) v (num_abort_req x) (num_abort_req_success x)
    (num_miscompare x) (num_waiting_calls x) (exit_status x) (dd_count x).

Definition set_num_abort_req (v : Z) (x : t) : t :=
  mk (mono_pack_id x) (mono_mrq_id x) (pos_index x) (num_ebusy x)
    (num_start_eagain x) (num_fin_eagain x) v (num_abort_req_success x)
    (num_miscompare x) (num_waiting_calls x) (exit_status x) (dd_count x).

Definition set_num_abort_req_success (v : Z) (x : t) : t :=
  mk (mono_pack_id x) (mono_mrq_id x) (pos_index x) (num_ebusy x)
    (num_start_eagain x) (num_fin_eagain x) (num_abort_req x) v
    (num_miscompare x) (num_waiting_calls x) (exit_status x) (dd_count x).

Definition set_num_miscompare (v : Z) (x : t) : t :=
  mk (mono_pack_id x) (mono_mrq_id x) (pos_index x) (num_ebusy x)
    (num_start_eagain x) (num_fin_eagain x) (num_abort_req x)
    (num_abort_req_success x) v (num_waiting_calls x) (exit_status x)
    (dd_count x).

Definition set_num_waiting_calls (v : Z) (x : t) : t :=
  mk (mono_pack_id x) (mono_mrq_id x) (pos_index x) (num_ebusy x)
    (num_start_eagain x) (num_fin_eagain x) (num_abort_req x)
    (num_abort_req_success x) (num_miscompare x) v (exit_status x) (dd_count
    x).

Definition set_exit_status (v : Z) (x : t) : t :=
  mk (mono_pack_id x) (mono_mrq_id x) (pos_index x) (num_ebusy x)
    (num_start_eagain x) (num_fin_eagain x) (num_abort_req x)
    (num_abort_req_success x) (num_miscompare x) (num_waiting_calls x) v
    (dd_count x).

End Glob.

Module H3.

(** [struct sg_io_hdr], the v3 interface header: the fields sgh_dd sets or
    reads. *)
Record t := mk {
  interface_id : Z;
  dxfer_direction : Z;
  cmd_len : Z;
  mx_sb_len : Z;
  dxfer_len : Z;
  dxferp : ptr;
  cmdp : ptr;
  sbp : ptr;
  timeout : Z;
  flags : Z;
  pack_id : Z;
  usr_ptr : ptr;
  info : Z;
  resid : Z
}.

End H3.

Module H4.

(** [struct sg_io_v4], the v4 interface header: the fields sgh_dd sets or
    reads. *)
Record t := mk {
  guard : Z;
  request_len : Z;
  request : ptr;
  dout_xfer_len : Z;
  din_xfer_len : Z;
  dout_xferp : ptr;
  din_xferp : ptr;
  timeout : Z;
  flags : Z;
  usr_ptr : ptr;
  spare_in : Z;
  response : ptr;
  max_response_len : Z;
  request_extra : Z;
  info : Z;
  din_resid : Z;
  dout_resid : Z;
  device_status : Z;
  transport_status : Z;
  driver_status : Z;
  response_len : Z;
  spare_out : Z
}.

Definition set_request (v : ptr) (x : t) : t :=
  mk (guard x) (request_len x) v (dout_xfer_len x) (din_xfer_len x)
    (dout_xferp x) (din_xferp x) (timeout x) (flags x) (usr_ptr x) (spare_in
    x) (response x) (max_response_len x) (request_extra x) (info x)
    (din_resid x) (dout_resid x) (device_status x) (transport_status x)
    (driver_status x) (response_len x) (spare_out x).

Definition set_flags (v : Z) (x : t) : t :=
  mk (guard x) (request_len x) (request x) (dout_xfer_len x) (din_xfer_len
    x) (dout_xferp x) (din_xferp x) (timeout x) v (usr_ptr x) (spare_in x)
    (response x) (max_response_len x) (request_extra x) (info x) (din_resid
    x) (dout_resid x) (device_status x) (transport_status x) (driver_status
    x) (response_len x) (spare_out x).

Definition set_request_extra (v : Z) (x : t) : t :=
  mk (guard x) (request_len x) (request x) (dout_xfer_len x) (din_xfer_len
    x) (dout_xferp x) (din_xferp x) (timeout x) (flags x) (usr_ptr x)
    (spare_in x) (response x) (max_response_len x) v (info x) (din_resid x)
    (dout_resid x) (device_status x) (transport_status x) (driver_status x)
    (response_len x) (spare_out x).

Definition set_info (v : Z) (x : t) : t :=
  mk (guard x) (request_len x) (request x) (dout_xfer_len x) (din_xfer_len
    x) (dout_xferp x) (din_xferp x) (timeout x) (flags x) (usr_ptr x)
    (spare_in x) (response x) (max_response_len x) (request_extra x) v
    (din_resid x) (dout_resid x) (device_status x) (transport_status x)
    (driver_status x) (response_len x) (spare_out x).

Definition set_din_resid (v : Z) (x : t) : t :=
  mk (guard x) (request_len x) (request x) (dout_xfer_len x) (din_xfer_len
    x) (dout_xferp x) (din_xferp x) (timeout x) (flags x) (usr_ptr x)
    (spare_in x) (response x) (max_response_len x) (request_extra x) (info
    x) v (dout_resid x) (device_status x) (transport_status x)
    (driver_status x) (response_len x) (spare_out x).

Definition set_dout_xfer_len (v : Z) (x : t) : t :=
  mk (guard x) (request_len x) (request x) v (din_xfer_len x) (dout_xferp x)
    (din_xferp x) (timeout x) (flags x) (usr_ptr x) (spare_in x) (response
    x) (max_response_len x) (request_extra x) (info x) (din_resid x)
    (dout_resid x) (device_status x) (transport_status x) (driver_status x)
    (response_len x) (spare_out x).

Definition set_din_xfer_len (v : Z) (x : t) : t :=
  mk (guard x) (request_len x) (request x) (dout_xfer_len x) v (dout_xferp
    x) (din_xferp x) (timeout x) (flags x) (usr_ptr x) (spare_in x)
    (response x) (max_response_len x) (request_extra x) (info x) (din_resid
    x) (dout_resid x) (device_status x) (transport_status x) (driver_status
    x) (response_len x) (spare_out x).

Definition set_dout_xferp (v : ptr) (x : t) : t :=
  mk (guard x) (request_len x) (request x) (dout_xfer_len x) (din_xfer_len
    x) v (din_xferp x) (timeout x) (flags x) (usr_ptr x) (spare_in x)
    (response x) (max_response_len x) (request_extra x) (info x) (din_resid
    x) (dout_resid x) (device_status x) (transport_status x) (driver_status
    x) (response_len x) (spare_out x).

Definition set_din_xferp (v : ptr) (x : t) : t :=
  mk (guard x) (request_len x) (request x) (dout_xfer_len x) (din_xfer_len
    x) (dout_xferp x) v (timeout x) (flags x) (usr_ptr x) (spare_in x)
    (response x) (max_response_len x) (request_extra x) (info x) (din_resid
    x) (dout_resid x) (device_status x) (transport_status x) (driver_status
    x) (response_len x) (spare_out x).

End H4.

Module R.

(** [Rq_elem], one instance per worker thread.  [io_hdr4_0] and [io_hdr4_1]
    are the two slots of the source's [io_hdr4[2]]; [buffp] is the content
    of the worker's data buffer and [cmd] that of its CDB scratch area. *)
Record t := mk {
  wr : bool;
  has_share : bool;
  both_sg : bool;
  same_sg : bool;
  only_in_sg : bool;
  only_out_sg : bool;
  id : Z;
  bs : Z;
  infd : Z;
  outfd : Z;
  out2fd : Z;
  outregfd : Z;
  iblk : Z;
  oblk : Z;
  num_blks : Z;
  buffp : list Z;
  io_hdr : H3.t;
  io_hdr4_0 : H4.t;
  io_hdr4_1 : H4.t;
  cmd : list Z;
  dio_incomplete_count : Z;
  resid : Z;
  rd_p_id : Z;
  rep_count : Z;
  rq_id : Z;
  mrq_id : Z;
  mrq_index : Z;
  in_mrq_q_blks : Z;
  out_mrq_q_blks : Z
}.

Definition set_wr (v : bool) (x : t) : t :=
  mk v (has_share x) (both_sg x) (same_sg x) (only_in_sg x) (only_out_sg x)
    (id x) (bs x) (infd x) (outfd x) (out2fd x) (outregfd x) (iblk x) (oblk
    x) (num_blks x) (buffp x) (io_hdr x) (io_hdr4_0 x) (io_hdr4_1 x) (cmd x)
    (dio_incomplete_count x) (resid x) (rd_p_id x) (rep_count x) (rq_id x)
    (mrq_id x) (mrq_index x) (in_mrq_q_blks x) (out_mrq_q_blks x).

Definition set_iblk (v : Z) (x : t) : t :=
  mk (wr x) (has_share x) (both_sg x) (same_sg x) (only_in_sg x)
    (only_out_sg x) (id x) (bs x) (infd x) (outfd x) (out2fd x) (outregfd x)
    v (oblk x) (num_blks x) (buffp x) (io_hdr x) (io_hdr4_0 x) (io_hdr4_1 x)
    (cmd x) (dio_incomplete_count x) (resid x) (rd_p_id x) (rep_count x)
    (rq_id x) (mrq_id x) (mrq_index x) (in_mrq_q_blks x) (out_mrq_q_blks x).

Definition set_oblk (v : Z) (x : t) : t :=
  mk (wr x) (has_share x) (both_sg x) (same_sg x) (only_in_sg x)
    (only_out_sg x) (id x) (bs x) (infd x) (outfd x) (out2fd x) (outregfd x)
    (iblk x) v (num_blks x) (buffp x) (io_hdr x) (io_hdr4_0 x) (io_hdr4_1 x)
    (cmd x) (dio_incomplete_count x) (resid x) (rd_p_id x) (rep_count x)
    (rq_id x) (mrq_id x) (mrq_index x) (in_mrq_q_blks x) (out_mrq_q_blks x).

Definition set_num_blks (v : Z) (x : t) : t :=
  mk (wr x) (has_share x) (both_sg x) (same_sg x) (only_in_sg x)
    (only_out_sg x) (id x) (bs x) (infd x) (outfd x) (out2fd x) (outregfd x)
    (iblk x) (oblk x) v (buffp x) (io_hdr x) (io_hdr4_0 x) (io_hdr4_1 x)
    (cmd x) (dio_incomplete_count x) (resid x) (rd_p_id x) (rep_count x)
    (rq_id x) (mrq_id x) (mrq_index x) (in_mrq_q_blks x) (out_mrq_q_blks x).

Definition set_buffp (v : list Z) (x : t) : t :=
  mk (wr x) (has_share x) (both_sg x) (same_sg x) (only_in_sg x)
    (only_out_sg x) (id x) (bs x) (infd x) (outfd x) (out2fd x) (outregfd x)
    (iblk x) (oblk x) (num_blks x) v (io_hdr x) (io_hdr4_0 x) (io_hdr4_1 x)
    (cmd x) (dio_incomplete_count x) (resid x) (rd_p_id x) (rep_count x)
    (rq_id x) (mrq_id x) (mrq_index x) (in_mrq_q_blks x) (out_mrq_q_blks x).

Definition set_io_hdr (v : H3.t) (x : t) : t :=
  mk (wr x) (has_share x) (both_sg x) (same_sg x) (only_in_sg x)
    (only_out_sg x) (id x) (bs x) (infd x) (outfd x) (out2fd x) (outregfd x)
    (iblk x) (oblk x) (num_blks x) (buffp x) v (io_hdr4_0 x) (io_hdr4_1 x)
    (cmd x) (dio_incomplete_count x) (resid x) (rd_p_id x) (rep_count x)
    (rq_id x) (mrq_id x) (mrq_index x) (in_mrq_q_blks x) (out_mrq_q_blks x).

Definition set_io_hdr4_0 (v : H4.t) (x : t) : t :=
  mk (wr x) (has_share x) (both_sg x) (same_sg x) (only_in_sg x)
    (only_out_sg x) (id x) (bs x) (infd x) (outfd x) (out2fd x) (outregfd x)
    (iblk x) (oblk x) (num_blks x) (buffp x) (io_hdr x) v (io_hdr4_1 x) (cmd
    x) (dio_incomplete_count x) (resid x) (rd_p_id x) (rep_count x) (rq_id
    x) (mrq_id x) (mrq_index x) (in_mrq_q_blks x) (out_mrq_q_blks x).

Definition set_io_hdr4_1 (v : H4.t) (x : t) : t :=
  mk (wr x) (has_share x) (both_sg x) (same_sg x) (only_in_sg x)
    (only_out_sg x) (id x) (bs x) (infd x) (outfd x) (out2fd x) (outregfd x)
    (iblk x) (oblk x) (num_blks x) (buffp x) (io_hdr x) (io_hdr4_0 x) v (cmd
    x) (dio_incomplete_count x) (resid x) (rd_p_id x) (rep_count x) (rq_id
    x) (mrq_id x) (mrq_index x) (in_mrq_q_blks x) (out_mrq_q_blks x).

Definition set_cmd (v : list Z) (x : t) : t :=
  mk (wr x) (has_share x) (both_sg x) (same_sg x) (only_in_sg x)
    (only_out_sg x) (id x) (bs x) (infd x) (outfd x) (out2fd x) (outregfd x)
    (iblk x) (oblk x) (num_blks x) (buffp x) (io_hdr x) (io_hdr4_0 x)
    (io_hdr4_1 x) v (dio_incomplete_count x) (resid x) (rd_p_id x)
    (rep_count x) (rq_id x) (mrq_id x) (mrq_index x) (in_mrq_q_blks x)
    (out_mrq_q_blks x).

Definition set_dio_incomplete_count (v : Z) (x : t) : t :=
  mk (wr x) (has_share x) (both_sg x) (same_sg x) (only_in_sg x)
    (only_out_sg x) (id x) (bs x) (infd x) (outfd x) (out2fd x) (outregfd x)
    (iblk x) (oblk x) (num_blks x) (buffp x) (io_hdr x) (io_hdr4_0 x)
    (io_hdr4_1 x) (cmd x) v (resid x) (rd_p_id x) (rep_count x) (rq_id x)
    (mrq_id x) (mrq_index x) (in_mrq_q_blks x) (out_mrq_q_blks x).

Definition set_resid (v : Z) (x : t) : t :=
  mk (wr x) (has_share x) (both_sg x) (same_sg x) (only_in_sg x)
    (only_out_sg x) (id x) (bs x) (infd x) (outfd x) (out2fd x) (outregfd x)
    (iblk x) (oblk x) (num_blks x) (buffp x) (io_hdr x) (io_hdr4_0 x)
    (io_hdr4_1 x) (cmd x) (dio_incomplete_count x) v (rd_p_id x) (rep_count
    x) (rq_id x) (mrq_id x) (mrq_index x) (in_mrq_q_blks x) (out_mrq_q_blks
    x).

Definition set_rd_p_id (v : Z) (x : t) : t :=
  mk (wr x) (has_share x) (both_sg x) (same_sg x) (only_in_sg x)
    (only_out_sg x) (id x) (bs x) (infd x) (outfd x) (out2fd x) (outregfd x)
    (iblk x) (oblk x) (num_blks x) (buffp x) (io_hdr x) (io_hdr4_0 x)
    (io_hdr4_1 x) (cmd x) (dio_incomplete_count x) (resid x) v (rep_count x)
    (rq_id x) (mrq_id x) (mrq_index x) (in_mrq_q_blks x) (out_mrq_q_blks x).

Definition set_rep_count (v : Z) (x : t) : t :=
  mk (wr x) (has_share x) (both_sg x) (same_sg x) (only_in_sg x)
    (only_out_sg x) (id x) (bs x) (infd x) (outfd x) (out2fd x) (outregfd x)
    (iblk x) (oblk x) (num_blks x) (buffp x) (io_hdr x) (io_hdr4_0 x)
    (io_hdr4_1 x) (cmd x) (dio_incomplete_count x) (resid x) (rd_p_id x) v
    (rq_id x) (mrq_id x) (mrq_index x) (in_mrq_q_blks x) (out_mrq_q_blks x).

Definition set_rq_id (v : Z) (x : t) : t :=
  mk (wr x) (has_share x) (both_sg x) (same_sg x) (only_in_sg x)
    (only_out_sg x) (id x) (bs x) (infd x) (outfd x) (out2fd x) (outregfd x)
    (iblk x) (oblk x) (num_blks x) (buffp x) (io_hdr x) (io_hdr4_0 x)
    (io_hdr4_1 x) (cmd x) (dio_incomplete_count x) (resid x) (rd_p_id x)
    (rep_count x) v (mrq_id x) (mrq_index x) (in_mrq_q_blks x)
    (out_mrq_q_blks x).

Definition set_mrq_id (v : Z) (x : t) : t :=
  mk (wr x) (has_share x) (both_sg x) (same_sg x) (only_in_sg x)
    (only_out_sg x) (id x) (bs x) (infd x) (outfd x) (out2fd x) (outregfd x)
    (iblk x) (oblk x) (num_blks x) (buffp x) (io_hdr x) (io_hdr4_0 x)
    (io_hdr4_1 x) (cmd x) (dio_incomplete_count x) (resid x) (rd_p_id x)
    (rep_count x) (rq_id x) v (mrq_index x) (in_mrq_q_blks x)
    (out_mrq_q_blks x).

Definition set_mrq_index (v : Z) (x : t) : t :=
  mk (wr x) (has_share x) (both_sg x) (same_sg x) (only_in_sg x)
    (only_out_sg x) (id x) (bs x) (infd x) (outfd x) (out2fd x) (outregfd x)
    (iblk x) (oblk x) (num_blks x) (buffp x) (io_hdr x) (io_hdr4_0 x)
    (io_hdr4_1 x) (cmd x) (dio_incomplete_count x) (resid x) (rd_p_id x)
    (rep_count x) (rq_id x) (mrq_id x) v (in_mrq_q_blks x) (out_mrq_q_blks
    x).

Definition set_in_mrq_q_blks (v : Z) (x : t) : t :=
  mk (wr x) (has_share x) (both_sg x) (same_sg x) (only_in_sg x)
    (only_out_sg x) (id x) (bs x) (infd x) (outfd x) (out2fd x) (outregfd x)
    (iblk x) (oblk x) (num_blks x) (buffp x) (io_hdr x) (io_hdr4_0 x)
    (io_hdr4_1 x) (cmd x) (dio_incomplete_count x) (resid x) (rd_p_id x)
    (rep_count x) (rq_id x) (mrq_id x) (mrq_index x) v (out_mrq_q_blks x).

Definition set_out_mrq_q_blks (v : Z) (x : t) : t :=
  mk (wr x) (has_share x) (both_sg x) (same_sg x) (only_in_sg x)
    (only_out_sg x) (id x) (bs x) (infd x) (outfd x) (out2fd x) (outregfd x)
    (iblk x) (oblk x) (num_blks x) (buffp x) (io_hdr x) (io_hdr4_0 x)
    (io_hdr4_1 x) (cmd x) (dio_incomplete_count x) (resid x) (rd_p_id x)
    (rep_count x) (rq_id x) (mrq_id x) (mrq_index x) (in_mrq_q_blks x) v.

End R.

(** [struct sg_io_extra], the additional parameters of [sg_start_io] and
    [sg_finish_io]. *)
Module X.

Record t := mk {
  is_wr2 : bool;
  prefetch : bool;
  dout_is_split : bool;
  hpv4_ind : Z;
  blk_offset : Z;
  blks : Z
}.

(** [struct sg_io_extra xtr {}] *)
Definition zero : t := mk false false false 0 0 0.

End X.

(** [mrq_arr_t]: the deferred array pairs each pending v4 header with a copy
    of its CDB.  The source keeps two vectors that are always pushed to and
    cleared together; the model keeps one list of pairs.  Each CDB copy is
    the [big_cdb] of 32 bytes; the model keeps the [cdbsz] bytes that
    [memcpy] wrote. *)
Definition mrq_arr_t : Type := list (H4.t * list Z).

(** ** The kernel as seen by the program *)

(** What a completed call hands back: the header fields the source reads
    after the call.  [k_category] stands for the result of the library's
    [sg_err_category3] / [sg_err_category_new] on the returned status and
    sense bytes, and [k_sense_code] for the response code found by
    [sg_scsi_normalize_sense] (both from [lib/], not modelled).  For the
    v3 interface [k_din_resid] carries the header's [resid].  [k_data] is
    the bytes a [read(2)] on an ordinary descriptor delivered. *)
Record kresp := mk_kresp {
  k_info : Z;
  k_din_resid : Z;
  k_dout_resid : Z;
  k_device_status : Z;
  k_transport_status : Z;
  k_driver_status : Z;
  k_response_len : Z;
  k_spare_out : Z;
  k_usr_ptr : ptr;
  k_ctl_response : bool;
  k_category : Z;
  k_sense_code : option Z;
  k_data : list Z
}.

(** The result of one system call: an error with its [errno], or success
    with the (non-negative) return value, what the call handed back and,
    for a multiple-request call, the response array. *)
Inductive sysres :=
| SysErr (errno : Z)
| SysOk (ret : Z) (resp : kresp) (elems : list kresp).

(** The calls that reached the kernel, oldest first. *)
Inductive kevent :=
| EvWriteV3 (fd : Z) (h : H3.t) (cdb : list Z)
| EvReadV3 (fd : Z) (pack_id : Z)
| EvSubmitV4 (fd : Z) (h : H4.t) (cdb : list Z)
| EvReceiveV4 (fd : Z) (pack_id : Z)
| EvAbortV4 (fd : Z) (pack_id : Z)
| EvMrqSubmit (fd : Z) (blocking : bool) (ctl : H4.t) (arr : mrq_arr_t)
| EvMrqReceive (fd : Z) (ctl : H4.t)
| EvNumWaiting (fd : Z)
| EvSwapShare (read_side_fd to_fd : Z) (before : bool)
| EvLseek (fd : Z) (pos : Z)
| EvRead (fd : Z) (len : Z)
| EvWrite (fd : Z) (len : Z).

(** ** State of one worker and of what it shares *)

Module St.

(** [clp] and [glob] are shared with the other workers; [rep] and
    [def_arr] belong to the worker ([rel] and [deferred_arr] of
    [read_write_thread]); [ktrace] records the calls made so far and
    [oracle] holds the results of the calls still to come. *)
Record t := mk {
  clp : G.t;
  glob : Glob.t;
  rep : R.t;
  def_arr : mrq_arr_t;
  ktrace : list kevent;
  oracle : list sysres
}.

Definition set_clp (v : G.t) (x : t) : t :=
  mk v (glob x) (rep x) (def_arr x) (ktrace x) (oracle x).
Definition set_glob (v : Glob.t) (x : t) : t :=
  mk (clp x) v (rep x) (def_arr x) (ktrace x) (oracle x).
Definition set_rep (v : R.t) (x : t) : t :=
  mk (clp x) (glob x) v (def_arr x) (ktrace x) (oracle x).
Definition set_def_arr (v : mrq_arr_t) (x : t) : t :=
  mk (clp x) (glob x) (rep x) v (ktrace x) (oracle x).
Definition set_ktrace (v : list kevent) (x : t) : t :=
  mk (clp x) (glob x) (rep x) (def_arr x) v (oracle x).
Definition set_oracle (v : list sysres) (x : t) : t :=
  mk (clp x) (glob x) (rep x) (def_arr x) (ktrace x) v.

End St.

(** ** A state monad with process exit *)

Module Run.

(** A computation either returns, ends the process ([err_exit] of the
    source), or needs a call result when [oracle] has none left. *)
Inductive outcome (A : Type) : Type :=
| Ret (a : A) (s : St.t)
| Exited (code : Z) (s : St.t)
| Starved (s : St.t).
Arguments Ret {A} a s.
Arguments Exited {A} code s.
Arguments Starved {A} s.

Definition M (A : Type) : Type := St.t -> outcome A.

Definition ret {A} (a : A) : M A := fun s => Ret a s.

Definition bind {A B} (m : M A) (k : A -> M B) : M B :=
  fun s => match m s with
           | Ret a s' => k a s'
           | Exited c s' => Exited c s'
           | Starved s' => Starved s'
           end.

Definition get : M St.t := fun s => Ret s s.
Definition modify (f : St.t -> St.t) : M unit := fun s => Ret tt (f s).
Definition err_exit (code : Z) : M Z := fun s => Exited code s.

Definition get_clp : M G.t := fun s => Ret (St.clp s) s.
Definition get_rep : M R.t := fun s => Ret (St.rep s) s.
Definition get_glob : M Glob.t := fun s => Ret (St.glob s) s.
Definition upd_clp (f : G.t -> G.t) : M unit :=
  modify (fun s => St.set_clp (f (St.clp s)) s).
Definition upd_rep (f : R.t -> R.t) : M unit :=
  modify (fun s => St.set_rep (f (St.rep s)) s).
Definition upd_glob (f : Glob.t -> Glob.t) : M unit :=
  modify (fun s => St.set_glob (f (St.glob s)) s).

(** Record a call that reached the kernel. *)
Definition emit (e : kevent) : M unit :=
  modify (fun s => St.set_ktrace (St.ktrace s ++ [e]) s).

(** Take the result of the next system call. *)
Definition syscall : M sysres :=
  fun s => match St.oracle s with
           | [] => Starved s
           | r :: o => Ret r (St.set_oracle o s)
           end.

End Run.
Import Run.

(** stdpp's monad notations ([x ← c; k], [c;; k], [''(a, b) ← c; k]) are
    used for [M]. *)
#[global] Instance M_ret : MRet M := @ret.
#[global] Instance M_bind : MBind M := fun A B k m => bind m k.

(** ** Pass-through driver *)

Module Drv.

#[global] Instance ptr_eq_dec : EqDecision ptr.
Proof. solve_decision. Defined.

(** [flags & f] is non-zero. *)
Definition has_flag (flags f : Z) : bool := negb (Z.land flags f =? 0).

(** [if (c) flags |= f;] *)
Definition or_if (c : bool) (f : Z) (flags : Z) : Z :=
  if c then Z.lor flags f else flags.

Definition x_prefetch (xtrp : option X.t) : bool :=
  match xtrp with Some x => X.prefetch x | None => false end.
Definition x_is_wr2 (xtrp : option X.t) : bool :=
  match xtrp with Some x => X.is_wr2 x | None => false end.
Definition x_dout_is_split (xtrp : option X.t) : bool :=
  match xtrp with Some x => X.dout_is_split x | None => false end.
Definition x_hpv4_ind (xtrp : option X.t) : Z :=
  match xtrp with Some x => X.hpv4_ind x | None => 0 end.
Definition x_blks (xtrp : option X.t) : Z :=
  match xtrp with Some x => X.blks x | None => 0 end.
Definition x_blk_offset (xtrp : option X.t) : Z :=
  match xtrp with Some x => X.blk_offset x | None => 0 end.

(** [rep->io_hdr4[ind]] *)
Definition io_hdr4 (ind : Z) (rep : R.t) : H4.t :=
  if ind =? 0 then R.io_hdr4_0 rep else R.io_hdr4_1 rep.
Definition set_io_hdr4 (ind : Z) (h : H4.t) (rep : R.t) : R.t :=
  if ind =? 0 then R.set_io_hdr4_0 h rep else R.set_io_hdr4_1 h rep.

(** [memset(h4p, 0, sizeof(struct sg_io_v4))] and the v3 counterpart. *)
Definition h4_zero : H4.t :=
  H4.mk 0 0 NullPtr 0 0 NullPtr NullPtr 0 0 NullPtr 0 NullPtr 0 0 0 0 0 0 0 0
    0 0.
Definition h3_zero : H3.t :=
  H3.mk 0 0 0 0 0 NullPtr NullPtr NullPtr 0 0 0 NullPtr 0 0.

Definition side_flags (wr : bool) (clp : G.t) : Fl.t :=
  if wr then G.out_flags clp else G.in_flags clp.

(** [err_exit(code, text)] prints and calls [exit(1)]. *)
Definition err_exit {A} (code : Z) : M A := fun s => Exited 1 s.

Definition stop_both : M unit :=
  upd_clp (fun c => G.set_out_stop true (G.set_in_stop true c)).

Definition buffp_onto_next : M unit :=
  clp ← get_clp;
  if (0 <? G.nmrqs clp) && G.unbalanced_mrq clp then
    upd_rep (fun r =>
      let i := R.mrq_index r + 1 in
      R.set_mrq_index (if G.nmrqs clp <=? i then 0 else i) r)
  else mret tt.

(** The byte offset into the worker's buffer that [get_buffp] adds. *)
Definition get_buffp_off (clp : G.t) (rep : R.t) : Z :=
  if (0 <? G.nmrqs clp) && G.unbalanced_mrq clp && (0 <? R.mrq_index rep)
  then R.mrq_index rep * G.bs clp * G.bpt clp
  else 0.
Definition get_buffp (clp : G.t) (rep : R.t) : ptr :=
  BufPtr (get_buffp_off clp rep).

(** [atomic_fetch_add(&mono_mrq_id, 1)]: yields the old value; the new
    one wraps as an [int] does. *)
Definition fetch_add_mono_mrq_id : M Z :=
  g ← get_glob;
  upd_glob (Glob.set_mono_mrq_id (s32 (Glob.mono_mrq_id g + 1)));;
  mret (Glob.mono_mrq_id g).

(** The counter updates inside the retry loops: [start] selects
    [num_start_eagain] ([sg_start_io]) or [num_fin_eagain]
    ([sg_finish_io]).  The counters are [atomic<int>], so [++] wraps as
    an [int] does. *)
Definition count_retry (start : bool) (e : Z) : M unit :=
  if e =? EAGAIN then
    upd_glob (fun g =>
      if start
      then Glob.set_num_start_eagain (s32 (Glob.num_start_eagain g + 1)) g
      else Glob.set_num_fin_eagain (s32 (Glob.num_fin_eagain g + 1)) g)
  else if e =? EBUSY then
    upd_glob (fun g => Glob.set_num_ebusy (s32 (Glob.num_ebusy g + 1)) g)
  else mret tt.

(** [while (((res = call(...)) < 0) && ((EINTR == errno) ||
    (EAGAIN == errno) || (EBUSY == errno))) { ...; yield(); }]:
    yields the result of the first call that is not retried.  Every turn
    takes one result from [oracle], so [fuel] beyond its length is never
    used. *)
Fixpoint retry_call (start : bool) (fuel : nat) : M sysres :=
  match fuel with
  | O => fun s => Starved s
  | S fuel' =>
    r ← syscall;
    match r with
    | SysErr e =>
      if (e =? EINTR) || (e =? EAGAIN) || (e =? EBUSY)
      then count_retry start e;; retry_call start fuel'
      else mret r
    | SysOk _ _ _ => mret r
    end
  end.

(** Run a loop whose every turn consumes a call result. *)
Definition with_fuel {A} (f : nat -> M A) : M A :=
  fun s => f (S (length (St.oracle s))) s.

(** *** [process_mrq_response] *)

(** The kernel writes its response into the array elements: the header
    keeps what the program put in and takes the completion fields. *)
Definition apply_resp (r : kresp) (h : H4.t) : H4.t :=
  H4.mk (H4.guard h) (H4.request_len h) (H4.request h) (H4.dout_xfer_len h)
    (H4.din_xfer_len h) (H4.dout_xferp h) (H4.din_xferp h) (H4.timeout h)
    (H4.flags h) (k_usr_ptr r) (H4.spare_in h) (H4.response h)
    (H4.max_response_len h) (H4.request_extra h)
    (k_info r) (k_din_resid r) (k_dout_resid r) (k_device_status r)
    (k_transport_status r) (k_driver_status r) (k_response_len r)
    (k_spare_out r).

(** Modelled from the spec: [sg_scsi_status_is_bad] of the library
    ([lib/sg_lib.c], not part of the sources at hand).  The spec speaks of
    a "non-zero device status not matching expected conditions": with the
    vendor bit masked off, every SAM status other than GOOD (0) and
    CONDITION MET (4) is bad. *)
Definition sg_scsi_status_is_bad (sstatus : Z) : bool :=
  let s := Z.land sstatus 0xfe in
  negb ((s =? 0) || (s =? 4)).

(** The verdict on one element in the request array scan: the value of
    [ok] when the turn reaches [if (ok && f1)]. *)
Definition mrq_elem_good (a : H4.t) (sense_code : option Z) : bool :=
  let ok := true in
  let ok := if has_flag (H4.info a) SG_INFO_CHECK then false else ok in
  let ok := if sg_scsi_status_is_bad (H4.device_status a)
               || negb (H4.transport_status a =? 0)
               || negb (H4.driver_status a =? 0)
            then false else ok in
  let ok := if 0 <? H4.response_len a then
              match sense_code with
              | Some rc => if (0x70 <=? rc) && has_flag rc 0x1 then true
                           else ok
              | None => ok
              end
            else ok in
  ok.

(** The scan loop [for (k = 0, j = 0; (k < num_mrq) && (j < n_subm);
    ++k, j += f1, ++a_v4p)] over the elements still ahead of [a_v4p];
    yields [(n_good, good_inblks, good_outblks)]. *)
Fixpoint mrq_scan (bs : Z) (arr : list (H4.t * option Z)) (k j num_mrq n_subm : Z)
    (acc : Z * Z * Z) : Z * Z * Z :=
  match arr with
  | [] => acc
  | (a, sc) :: rest =>
    if (k <? num_mrq) && (j <? n_subm) then
      let f1 := if H4.info a =? 0 then 0 else 1 in
      let '(n_good, gin, gout) := acc in
      let acc' :=
        if mrq_elem_good a sc && (f1 =? 1) then
          (n_good + 1,
           (if u32 bs <=? H4.din_xfer_len a
            then u32 (gin + u32 (H4.din_xfer_len a - H4.din_resid a) / u32 bs)
            else gin),
           (if u32 bs <=? H4.dout_xfer_len a
            then u32 (gout + u32 (H4.dout_xfer_len a - H4.dout_resid a) / u32 bs)
            else gout))
        else acc in
      mrq_scan bs rest (k + 1) (j + f1) num_mrq n_subm acc'
    else acc
  end.

(** Yields [(n_good, good_inblks, good_outblks)]; [-1] for [n_good] when
    the control object claims more unsubmitted requests than there are. *)
Definition process_mrq_response (rep : R.t) (ctl : H4.t)
    (arr : list (H4.t * option Z)) (num_mrq : Z) : Z * Z * Z :=
  let n_subm := num_mrq - H4.dout_resid ctl in
  if n_subm <? 0 then (-1, 0, 0)
  else mrq_scan (R.bs rep) arr 0 0 num_mrq n_subm (0, 0, 0).

(** The response array before the kernel has answered: the deferred
    headers as submitted. *)
Definition resp_arr_init (arr : mrq_arr_t) : list (H4.t * option Z) :=
  map (fun hc => (fst hc, None)) arr.

(** The kernel writes the responses [elems] into the array from element
    [off] on; elements it gives no response for stay as they were. *)
Fixpoint write_resp (off : nat) (elems : list kresp)
    (arr : list (H4.t * option Z)) : list (H4.t * option Z) :=
  match arr with
  | [] => []
  | (h, sc) :: arr' =>
    match off with
    | S off' => (h, sc) :: write_resp off' elems arr'
    | O =>
      match elems with
      | [] => arr
      | r :: elems' =>
        (apply_resp r h, k_sense_code r) :: write_resp O elems' arr'
      end
    end
  end.

(** [if (num_good < nrq) { resid_blks = ...; if (resid_blks > 0)
    gcoll.in_rem_count += resid_blks; ... }] *)
Definition mrq_add_back (in_fin_blks out_fin_blks : Z) : M unit :=
  rep ← get_rep;
  let resid_in := s32 (R.in_mrq_q_blks rep - in_fin_blks) in
  let resid_out := s32 (R.out_mrq_q_blks rep - out_fin_blks) in
  upd_clp (fun c =>
    let c := if 0 <? resid_in
             then G.set_in_rem_count (G.in_rem_count c + resid_in) c else c in
    if 0 <? resid_out
    then G.set_out_rem_count (G.out_rem_count c + resid_out) c else c).

End Drv.
Import Drv.

(** ** MRQ engine *)

Module Mrq.

(** [split_def_arr]: elements flagged [DO_ON_OTHER] go to [o_fd_def_arr]
    with the flag masked out, the others to [fd_def_arr]. *)
Fixpoint split_def_arr (def_arr : mrq_arr_t) : mrq_arr_t * mrq_arr_t :=
  match def_arr with
  | [] => ([], [])
  | (h, c) :: rest =>
    let '(fd_def_arr, o_fd_def_arr) := split_def_arr rest in
    if has_flag (H4.flags h) SGV4_FLAG_DO_ON_OTHER then
      (fd_def_arr,
       (H4.set_flags (Z.land (H4.flags h) (Z.lnot SGV4_FLAG_DO_ON_OTHER)) h,
        c) :: o_fd_def_arr)
    else ((h, c) :: fd_def_arr, o_fd_def_arr)
  end.

(** [h4p->request = 0] when the CDBs travel in the bulk area, else the
    address of the element's CDB copy. *)
Definition set_requests (mrq_cmds : bool) (arr : mrq_arr_t) : mrq_arr_t :=
  map (fun hc => (H4.set_request (if mrq_cmds then NullPtr else CmdArrPtr)
                    (fst hc), snd hc)) arr.

(** The polling loop [for (k = 0; k < 100000; ++k)] on
    [SG_GET_NUM_WAITING]: yields [false] when the ioctl failed. *)
Fixpoint poll_num_waiting (fd : Z) (want : Z) (turns : nat) : M bool :=
  match turns with
  | O => mret true
  | S turns' =>
    upd_glob (fun g =>
      Glob.set_num_waiting_calls (Glob.num_waiting_calls g + 1) g);;
    r ← syscall;
    match r with
    | SysErr _ => mret false
    | SysOk nwait _ _ =>
      emit (EvNumWaiting fd);;
      if want <=? nwait then mret true
      else poll_num_waiting fd want turns'
    end
  end.

Definition poll_limit : nat := Z.to_nat 100000.

(** One [SG_IORECEIVE] of the non-blocking path followed by
    [process_mrq_response], which scans from the start of the array while
    the kernel wrote from element [off] on.  Yields [None] for an early
    [return -1], else [(res, half_num, array)]. *)
Definition async_receive (rarr : list (H4.t * option Z)) (off : nat)
    (fd : Z) (ctl : H4.t) (last : bool)
    : M (option (Z * Z * list (H4.t * option Z))) :=
  r ← syscall;
  match r with
  | SysErr e =>
    if negb (e =? ENODATA) then mret None
    else
      (* [half_num = 0]: the scan loop is not entered and [res] stays at
         the [-1] the ioctl returned *)
      mret (Some (-1, 0, rarr))
  | SysOk ret resp elems =>
    emit (EvMrqReceive fd ctl);;
    rep ← get_rep;
    let ctl' := apply_resp resp ctl in
    let rarr' := write_resp off elems rarr in
    let half_num := H4.info ctl' in
    let '(num_good, in_fin_blks, out_fin_blks) :=
      process_mrq_response rep ctl' rarr' half_num in
    if num_good <? 0 then mret (Some (-1, half_num, rarr'))
    else if num_good <? half_num then
      mrq_add_back in_fin_blks out_fin_blks;;
      (if last then mret (Some (-1, half_num, rarr')) else mret None)
    else mret (Some (ret, half_num, rarr'))
  end.

(** [sgh_do_async_mrq]: submit of full non-blocking, then two rounds of
    wait-and-receive. *)
Definition sgh_do_async_mrq (arr : mrq_arr_t) (fd : Z) (ctlop : H4.t)
    (nrq : Z) : M Z :=
  clp ← get_clp;
  let half := Z.quot nrq 2 in
  let hold_ctlo := ctlop in
  let flags := Z.lor SGV4_FLAG_MULTIPLE_REQS
                 (if Fl.polled (G.in_flags clp) || Fl.polled (G.out_flags clp)
                  then Z.lor SGV4_FLAG_IMMED SGV4_FLAG_POLLED
                  else SGV4_FLAG_IMMED) in
  let ctlop := H4.set_flags flags ctlop in
  r ← syscall;
  match r with
  | SysErr _ => mret (-1)
  | SysOk _ _ _ =>
    emit (EvMrqSubmit fd false ctlop arr);;
    ok ← poll_num_waiting fd half poll_limit;
    if negb ok then mret (-1)
    else
      let rflags := Z.lor SGV4_FLAG_MULTIPLE_REQS SGV4_FLAG_IMMED in
      first ← async_receive (resp_arr_init arr) 0 fd
                (H4.set_flags rflags ctlop) false;
      match first with
      | None => mret (-1)
      | Some (res, half_num, rarr) =>
        let rest := nrq - half_num in
        if rest <? 1 then mret res
        else
          ok ← poll_num_waiting fd rest poll_limit;
          if negb ok then mret (-1)
          else
            second ← async_receive rarr (Z.to_nat half_num) fd
                       (H4.set_flags rflags hold_ctlo) true;
            match second with
            | None => mret (-1)
            | Some (res2, _, _) => mret res2
            end
      end
  end.

(** The file descriptor the multiple request is sent to; [None] is the
    "why am I here? No sg devices" branch. *)
Definition mrq_fd (rep : R.t) : option Z :=
  if R.both_sg rep || R.same_sg rep then Some (R.infd rep)
  else if R.only_in_sg rep then Some (R.infd rep)
  else if R.only_out_sg rep then Some (R.outfd rep)
  else None.

(** The controlling object [ctl_v4] as set up before the submit. *)
Definition mrq_ctl (clp : G.t) (nrq : Z) (request_extra : Z) : H4.t :=
  let flags := SGV4_FLAG_MULTIPLE_REQS in
  let flags :=
    if negb (G.mrq_async clp) then
      or_if (Fl.mrq_svb (G.in_flags clp) || Fl.mrq_svb (G.out_flags clp))
        SGV4_FLAG_SHARE (Z.lor flags SGV4_FLAG_STOP_IF)
    else flags in
  H4.mk 81 (if G.mrq_cmds clp then nrq * 16 else 0)
    (if G.mrq_cmds clp then CmdArrPtr else NullPtr)
    (nrq * SIZEOF_SG_IO_V4) (nrq * SIZEOF_SG_IO_V4) ArrPtr ArrPtr 0 flags NullPtr 0 NullPtr 0
    request_extra 0 0 0 0 0 0 0 0.

(** [SG_IO] (ordered blocking) is used when none of the variable blocking
    modes applies; otherwise the call is [SG_IOSUBMIT]. *)
Definition mrq_uses_sg_io (clp : G.t) : bool :=
  negb (G.unbalanced_mrq clp) && negb (G.mrq_async clp)
  && negb (Fl.mrq_svb (G.in_flags clp) || Fl.mrq_svb (G.out_flags clp)).

(** The blocking submit from label [try_again] down to label [fini];
    [++num_ebusy] is on an [atomic<int>] and wraps. *)
Fixpoint mrq_try_again (fd : Z) (ctl : H4.t) (nrq : Z) (fuel : nat) : M Z :=
  match fuel with
  | O => fun s => Starved s
  | S fuel' =>
    r ← syscall;
    match r with
    | SysErr e =>
      if e =? E2BIG then mret (-1)
      else if e =? EBUSY then
        upd_glob (fun g => Glob.set_num_ebusy (s32 (Glob.num_ebusy g + 1)) g);;
        mrq_try_again fd ctl nrq fuel'
      else mret (-1)
    | SysOk ret resp elems =>
      s ← get;
      emit (EvMrqSubmit fd (mrq_uses_sg_io (St.clp s)) ctl (St.def_arr s));;
      let ctl' := apply_resp resp ctl in
      let '(num_good, in_fin_blks, out_fin_blks) :=
        process_mrq_response (St.rep s) ctl'
          (write_resp 0 elems (resp_arr_init (St.def_arr s))) nrq in
      res ← (if num_good <? 0 then mret (-1)
             else if num_good <? nrq then
               mrq_add_back in_fin_blks out_fin_blks;; mret (-1)
             else mret ret);
      upd_rep (fun r => R.set_out_mrq_q_blks 0 (R.set_in_mrq_q_blks 0 r));;
      mret res
    end
  end.

(** The body of [sgh_do_deferred_mrq] between the set-up of the request
    pointers and label [fini].  The helper thread that aborts every
    [m_aen]-th multiple request runs concurrently with the submit and is
    not modelled; the decision to launch it shows in [request_extra]. *)
Definition mrq_submit (nrq : Z) : M Z :=
  s ← get;
  let clp := St.clp s in
  let rep := St.rep s in
  match mrq_fd rep with
  | None => mret (-1)
  | Some fd =>
    mrq_pack_id ← fetch_add_mono_mrq_id;
    let launch_mrq_abort :=
      (0 <? G.m_aen clp) && negb (MONO_MRQ_ID_INIT =? mrq_pack_id)
      && (Z.rem (mrq_pack_id - MONO_MRQ_ID_INIT) (G.m_aen clp) =? 0) in
    let ctl_v4 :=
      mrq_ctl clp nrq (if launch_mrq_abort then mrq_pack_id else 0) in
    upd_rep (R.set_mrq_id mrq_pack_id);;
    if G.mrq_async clp && negb (R.both_sg rep) then
      let '(fd_def_arr, o_fd_def_arr) := split_def_arr (St.def_arr s) in
      let num_fd := Z.of_nat (length fd_def_arr) in
      let o_num_fd := Z.of_nat (length o_fd_def_arr) in
      res ← (if 0 <? num_fd then
               r ← sgh_do_async_mrq
                     (set_requests (G.mrq_cmds clp) fd_def_arr) fd
                     (H4.set_dout_xfer_len (num_fd * SIZEOF_SG_IO_V4)
                        (H4.set_din_xfer_len (num_fd * SIZEOF_SG_IO_V4) ctl_v4)) num_fd;
               upd_rep (R.set_in_mrq_q_blks 0);;
               mret r
             else mret 0);
      if negb (res =? 0) then mret res
      else if 0 <? o_num_fd then
        r ← sgh_do_async_mrq
              (set_requests (G.mrq_cmds clp) o_fd_def_arr) (R.outfd rep)
              (H4.set_dout_xfer_len (o_num_fd * SIZEOF_SG_IO_V4)
                 (H4.set_din_xfer_len (o_num_fd * SIZEOF_SG_IO_V4) ctl_v4)) o_num_fd;
        upd_rep (R.set_out_mrq_q_blks 0);;
        mret r
      else mret res
    else with_fuel (mrq_try_again fd ctl_v4 nrq)
  end.

(** [sgh_do_deferred_mrq]: sets up a multiple request from the deferred
    array and sends it.  [0] on success, [1] when the bulk CDB area cannot
    be allocated, else [-1].  The result of [calloc] is taken from
    [oracle] like that of a system call. *)
Definition sgh_do_deferred_mrq : M Z :=
  s ← get;
  let clp := St.clp s in
  let nrq := Z.of_nat (length (St.def_arr s)) in
  if nrq <? 1 then mret 0
  else
    cmd_ap ← (if G.mrq_cmds clp then
                r ← syscall;
                mret (match r with SysErr _ => false | SysOk _ _ _ => true end)
              else mret true);
    if negb cmd_ap then mret 1
    else
      modify (fun s =>
        St.set_def_arr (set_requests (G.mrq_cmds clp) (St.def_arr s)) s);;
      res ← mrq_submit nrq;
      (* fini: *)
      modify (St.set_def_arr []);;
      mret res.

End Mrq.
Import Mrq.

(** ** [sg_start_io] and [sg_finish_io] *)

Module Io.

(** The CDB part of [sg_start_io]: build the command and, for a
    PRE-FETCH, patch opcode and IMMED bit.  [None] is [return -1]. *)
Definition start_io_cdb (clp : G.t) (rep : R.t) (xtrp : option X.t)
    : option (list Z) * list Z :=
  let wr := R.wr rep in
  let fl := side_flags wr clp in
  let cdbsz := if wr then G.cdbsz_out clp else G.cdbsz_in clp in
  let blk := if wr then R.oblk rep else R.iblk rep in
  let '(res, cmd) :=
    if Fl.v4 fl && x_dout_is_split xtrp then
      sg_build_scsi_cdb (R.cmd rep) cdbsz (u32 (x_blks xtrp))
        (blk + u32 (x_blk_offset xtrp)) (G.verify clp) true
        (Fl.fua fl) (Fl.dpo fl)
    else
      sg_build_scsi_cdb (R.cmd rep) cdbsz (u32 (R.num_blks rep)) blk
        (if wr then G.verify clp else false) wr (Fl.fua fl) (Fl.dpo fl) in
  if negb (res =? 0) then (None, cmd)
  else if x_prefetch xtrp then
    if cdbsz =? 10 then
      (Some (<[1%nat := 0x2]> (<[0%nat := SGP_PRE_FETCH10]> cmd)),
       <[1%nat := 0x2]> (<[0%nat := SGP_PRE_FETCH10]> cmd))
    else if cdbsz =? 16 then
      (Some (<[1%nat := 0x2]> (<[0%nat := SGP_PRE_FETCH16]> cmd)),
       <[1%nat := 0x2]> (<[0%nat := SGP_PRE_FETCH16]> cmd))
    else (None, cmd)
  else (Some cmd, cmd).

(** The request flags composed from the per-side flags and the share
    state, before the interface-specific additions. *)
Definition start_io_flags (clp : G.t) (rep : R.t) : Z :=
  let wr := R.wr rep in
  let fl := side_flags wr clp in
  let qhead := Fl.qhead fl in
  let qtail := if qhead then false else Fl.qtail fl in
  let mmap := negb (Fl.mmap fl =? 0) in
  let flags := 0 in
  let flags := or_if (mmap && (G.noshare clp || (0 <=? R.outregfd rep)))
                 SG_FLAG_MMAP_IO flags in
  let flags := or_if (Fl.noxfer fl) SG_FLAG_NO_DXFER flags in
  let flags := or_if (Fl.dio fl) SG_FLAG_DIRECT_IO flags in
  let flags := or_if (Fl.polled fl) SGV4_FLAG_POLLED flags in
  let flags := or_if qhead SG_FLAG_Q_AT_HEAD flags in
  let flags := or_if qtail SG_FLAG_Q_AT_TAIL flags in
  let flags := or_if (Fl.mout_if fl) SGV4_FLAG_META_OUT_IF flags in
  if R.has_share rep then
    let flags := Z.lor flags SGV4_FLAG_SHARE in
    if wr then Z.lor flags SGV4_FLAG_NO_DXFER
    else or_if (R.outregfd rep <? 0) SGV4_FLAG_NO_DXFER flags
  else flags.

(** The pack-id part of [sg_start_io]: with both sides sg a READ takes
    twice the next value of [mono_pack_id] and remembers it in
    [rd_p_id], and a write-side command takes [rd_p_id + 1]; otherwise
    every command takes the next value of [mono_pack_id].  Yields the
    pack-id, the request element and the new value of [mono_pack_id].
    The source doubles an [int]; the model wraps the product as the
    hardware does. *)
Definition assign_pack_id (rep : R.t) (mono_pack_id : Z) : Z * R.t * Z :=
  let '(pack_id, rep, mono) :=
    if R.both_sg rep then
      if R.wr rep then (s32 (R.rd_p_id rep + 1), rep, mono_pack_id)
      else
        let pack_id := s32 (2 * mono_pack_id) in
        (pack_id, R.set_rd_p_id pack_id rep, s32 (mono_pack_id + 1))
    else (mono_pack_id, rep, s32 (mono_pack_id + 1)) in
  (pack_id, R.set_rq_id pack_id rep, mono).

Definition start_io_pack_id : M Z :=
  s ← get;
  let '(pack_id, rep, mono) :=
    assign_pack_id (St.rep s) (Glob.mono_pack_id (St.glob s)) in
  upd_glob (Glob.set_mono_pack_id mono);;
  upd_rep (fun _ => rep);;
  mret pack_id.

(** The additions made for the v4 interface; yields
    [(flags, nblks, spare_in)]. *)
Definition start_io_v4_flags (clp : G.t) (rep : R.t) (xtrp : option X.t)
    (fd : Z) (flags : Z) : Z * Z * Z :=
  let wr := R.wr rep in
  let nblks := R.num_blks rep in
  let flags := or_if ((0 <? G.nmrqs clp) && R.both_sg rep
                      && (R.outfd rep =? fd)) SGV4_FLAG_DO_ON_OTHER flags in
  let '(flags, nblks, spare_in) :=
    if x_dout_is_split xtrp && (0 <? nblks) then
      let upper := x_hpv4_ind xtrp =? 1 in
      let flags := or_if upper SGV4_FLAG_DOUT_OFFSET flags in
      let spare_in := if upper then u32 (G.bs clp * x_blk_offset xtrp)
                      else 0 in
      let nblks := x_blks xtrp in
      let flags := or_if ((x_hpv4_ind xtrp =? 0) && (nblks <? R.num_blks rep))
                     SGV4_FLAG_KEEP_SHARE flags in
      (flags, nblks, spare_in)
    else (flags, nblks, 0) in
  let flags :=
    if G.ofile2_given clp && wr && R.has_share rep && negb (x_is_wr2 xtrp)
    then Z.lor flags SGV4_FLAG_KEEP_SHARE
    else or_if (has_flag (G.fail_mask clp) 1) SGV4_FLAG_KEEP_SHARE flags in
  (flags, nblks, spare_in).

(** The v3 header as filled in before [write(fd, hp, ...)]. *)
Definition start_io_hdr3 (clp : G.t) (rep : R.t) (xtrp : option X.t)
    (pack_id flags : Z) : H3.t :=
  let wr := R.wr rep in
  let cdbsz := if wr then G.cdbsz_out clp else G.cdbsz_in clp in
  let none := wr && x_prefetch xtrp in
  H3.mk 83 (if negb wr then SG_DXFER_FROM_DEV
            else if x_prefetch xtrp then SG_DXFER_NONE else SG_DXFER_TO_DEV)
    cdbsz SENSE_BUFF_LEN
    (if none then 0 else u32 (G.bs clp * R.num_blks rep))
    (if none then NullPtr else get_buffp clp rep)
    CmdPtr SbPtr (G.cmd_timeout clp) flags pack_id (RepPtr (R.id rep)) 0 0.

(** The v4 header as filled in at label [do_v4]. *)
Definition start_io_hdr4 (clp : G.t) (rep : R.t) (xtrp : option X.t)
    (pack_id flags nblks spare_in : Z) : H4.t :=
  let wr := R.wr rep in
  let cdbsz := if wr then G.cdbsz_out clp else G.cdbsz_in clp in
  let dout := wr && negb (x_prefetch xtrp) in
  let din := negb wr && (0 <? nblks) in
  H4.mk 81 cdbsz CmdPtr
    (if dout then u32 (G.bs clp * nblks) else 0)
    (if din then u32 (G.bs clp * nblks) else 0)
    (if dout then get_buffp clp rep else NullPtr)
    (if din then get_buffp clp rep else NullPtr)
    (G.cmd_timeout clp) flags (RepPtr (R.id rep)) spare_in SbPtr
    SENSE_BUFF_LEN pack_id 0 0 0 0 0 0 0 0.

(** The test hook that aborts every [aen]-th command after its submit. *)
Definition start_io_abort (fd : Z) (pack_id : Z) : M unit :=
  clp ← get_clp;
  rep ← get_rep;
  if (0 <? G.aen clp) && (0 <? R.rep_count rep)
     && (Z.rem (R.rq_id rep) (G.aen clp) =? 0) then
    upd_glob (fun g => Glob.set_num_abort_req (Glob.num_abort_req g + 1) g);;
    r ← syscall;
    match r with
    | SysErr _ => mret tt
    | SysOk _ _ _ =>
      emit (EvAbortV4 fd pack_id);;
      upd_glob (fun g =>
        Glob.set_num_abort_req_success (Glob.num_abort_req_success g + 1) g)
    end
  else mret tt.

(** [sg_start_io]: [0] on success, [1] on [ENOMEM], else [-1]; the second
    component is the value left in the caller's [pack_id]. *)
Definition sg_start_io (pack_id : Z) (xtrp : option X.t) : M (Z * Z) :=
  clp ← get_clp;
  rep ← get_rep;
  let wr := R.wr rep in
  let v4 := Fl.v4 (side_flags wr clp) in
  let fd := if wr then (if x_is_wr2 xtrp then R.out2fd rep else R.outfd rep)
            else R.infd rep in
  let '(built, cmd) := start_io_cdb clp rep xtrp in
  upd_rep (R.set_cmd cmd);;
  match built with
  | None => mret (-1, pack_id)
  | Some cmd =>
    let flags := start_io_flags clp rep in
    pack_id ← start_io_pack_id;
    if v4 then
      let '(flags, nblks, spare_in) :=
        start_io_v4_flags clp rep xtrp fd flags in
      let h4 := start_io_hdr4 clp rep xtrp pack_id flags nblks spare_in in
      upd_rep (set_io_hdr4 (x_hpv4_ind xtrp) h4);;
      if 0 <? G.nmrqs clp then
        upd_rep (fun r =>
          if wr
          then R.set_out_mrq_q_blks (u32 (R.out_mrq_q_blks r + nblks)) r
          else R.set_in_mrq_q_blks (u32 (R.in_mrq_q_blks r + nblks)) r);;
        modify (fun s =>
          St.set_def_arr
            (St.def_arr s
             ++ [(h4, take (Z.to_nat (if wr then G.cdbsz_out clp
                                      else G.cdbsz_in clp)) cmd)]) s);;
        s ← get;
        if G.nmrqs clp <=? Z.of_nat (length (St.def_arr s)) then
          res ← sgh_do_deferred_mrq;
          mret (res, pack_id)
        else mret (0, pack_id)
      else
        r ← with_fuel (retry_call true);
        match r with
        | SysErr e => mret (if e =? ENOMEM then 1 else -1, pack_id)
        | SysOk _ _ _ =>
          emit (EvSubmitV4 fd h4 cmd);;
          start_io_abort fd pack_id;;
          mret (0, pack_id)
        end
    else
      let h3 := start_io_hdr3 clp rep xtrp pack_id flags in
      upd_rep (R.set_io_hdr h3);;
      r ← with_fuel (retry_call true);
      match r with
      | SysErr e => mret (if e =? ENOMEM then 1 else -1, pack_id)
      | SysOk _ _ _ => emit (EvWriteV3 fd h3 cmd);; mret (0, pack_id)
      end
  end.

(** The classification switch shared by the v3 and v4 finish paths:
    [Some res] is [return res], [None] falls out of the switch. *)
Definition finish_category (res : Z) : M (option Z) :=
  if (res =? SG_LIB_CAT_CLEAN) || (res =? SG_LIB_CAT_CONDITION_MET)
     || (res =? SG_LIB_CAT_RECOVERED) then mret None
  else if (res =? SG_LIB_CAT_ABORTED_COMMAND)
          || (res =? SG_LIB_CAT_UNIT_ATTENTION) then mret (Some res)
  else if res =? SG_LIB_CAT_MISCOMPARE then
    upd_glob (fun g =>
      Glob.set_num_miscompare (Glob.num_miscompare g + 1) g);;
    mret (Some res)
  else mret (Some res).

(** [sg_finish_io]: [0] when successful, [SG_LIB_CAT_UNIT_ATTENTION] or
    [SG_LIB_CAT_ABORTED_COMMAND] to try again, another category or [-1]
    on error. *)
Definition sg_finish_io (wr : bool) (pack_id : Z) (xtrp : option X.t) : M Z :=
  clp ← get_clp;
  rep ← get_rep;
  let fl := side_flags wr clp in
  let fd := if wr then (if x_is_wr2 xtrp then R.out2fd rep else R.outfd rep)
            else R.infd rep in
  if Fl.v4 fl then
    (* do_v4: *)
    if 0 <? G.nmrqs clp then
      upd_rep (R.set_resid 0);;
      mret 0
    else
      let ind := x_hpv4_ind xtrp in
      let h4 := H4.set_request_extra pack_id (io_hdr4 ind rep) in
      let h4 := if Fl.mout_if fl
                then H4.set_din_resid 0 (H4.set_info 0 h4) else h4 in
      upd_rep (set_io_hdr4 ind h4);;
      r ← with_fuel (retry_call false);
      match r with
      | SysErr _ => mret (-1)
      | SysOk _ resp _ =>
        emit (EvReceiveV4 fd pack_id);;
        let h4 := apply_resp resp h4 in
        upd_rep (set_io_hdr4 ind h4);;
        if Fl.mout_if fl && (H4.info h4 =? 0) && (H4.din_resid h4 =? 0)
        then mret 0
        else if negb (bool_decide (H4.usr_ptr h4 = RepPtr (R.id rep)))
        then err_exit 0
        else
          c ← finish_category (k_category resp);
          match c with
          | Some res => mret res
          | None =>
            upd_rep (fun r =>
              R.set_resid (H4.din_resid h4)
                (R.set_dio_incomplete_count
                   (if Fl.dio fl
                       && negb (has_flag (H4.info h4) SG_INFO_DIRECT_IO)
                    then 1 else 0) r));;
            mret 0
          end
      end
  else
    r ← with_fuel (retry_call false);
    match r with
    | SysErr _ => mret (-1)
    | SysOk _ resp _ =>
      emit (EvReadV3 fd pack_id);;
      if negb (bool_decide (k_usr_ptr resp = RepPtr (R.id rep)))
      then err_exit 0
      else
        let h3 := H3.mk 83 (if wr then SG_DXFER_TO_DEV else SG_DXFER_FROM_DEV)
                    0 0 0 NullPtr NullPtr NullPtr 0 0 pack_id
                    (k_usr_ptr resp) (k_info resp) (k_din_resid resp) in
        upd_rep (R.set_io_hdr h3);;
        c ← finish_category (k_category resp);
        match c with
        | Some res => mret res
        | None =>
          upd_rep (fun r =>
            R.set_resid (H3.resid h3)
              (R.set_dio_incomplete_count
                 (if Fl.dio fl
                     && negb (has_flag (H3.info h3) SG_INFO_DIRECT_IO_MASK)
                  then 1 else 0) r));;
          mret 0
        end
    end.

End Io.
Import Io.

(** ** The two halves of a segment copy *)

Module Seg.

(** [if (exit_status <= 0) exit_status = res;] *)
Definition record_exit_status (res : Z) : M unit :=
  upd_glob (fun g =>
    if Glob.exit_status g <=? 0 then Glob.set_exit_status res g else g).

(** [memset(buffp + off, v, len)] *)
Definition buf_fill (off len v : Z) (buf : list Z) : list Z :=
  let o := Z.to_nat off in
  let n := Z.to_nat len in
  take o buf ++ replicate (Nat.min n (length buf - o)) v ++ drop (o + n) buf.

(** [if (rep->dio_incomplete_count || rep->resid) { clp->... += ...; }] *)
Definition account_resid : M unit :=
  rep ← get_rep;
  if negb (R.dio_incomplete_count rep =? 0) || negb (R.resid rep =? 0) then
    upd_clp (fun c =>
      G.set_sum_of_resids (s32 (G.sum_of_resids c + R.resid rep))
        (G.set_dio_incomplete_count
           (s32 (G.dio_incomplete_count c + R.dio_incomplete_count rep)) c))
  else mret tt.

(** The tail of [sg_in_rd_cmd] under [case 0:]. *)
Definition in_rd_done : M unit :=
  account_resid;;
  rep ← get_rep;
  upd_clp (fun c => G.set_in_rem_count (G.in_rem_count c - R.num_blks rep) c).

(** [sg_in_rd_cmd]: the [while (1)] loop that starts and finishes the READ
    of the segment, repeating it after AbortedCommand or UnitAttention. *)
Fixpoint sg_in_rd_loop (pack_id : Z) (fuel : nat) : M unit :=
  match fuel with
  | O => fun s => Starved s
  | S fuel' =>
    '(res, pack_id) ← sg_start_io pack_id None;
    if res =? 1 then err_exit ENOMEM
    else if res <? 0 then stop_both
    else
      rep ← get_rep;
      clp ← get_clp;
      res ← sg_finish_io (R.wr rep) pack_id None;
      if (res =? SG_LIB_CAT_ABORTED_COMMAND)
         || (res =? SG_LIB_CAT_UNIT_ATTENTION) then
        sg_in_rd_loop pack_id fuel'
      else if res =? SG_LIB_CAT_MEDIUM_HARD then
        if negb (Fl.coe (G.in_flags clp)) then
          record_exit_status res;; stop_both
        else
          upd_rep (fun r =>
            R.set_buffp (buf_fill (get_buffp_off clp r)
                           (R.num_blks r * R.bs r) 0 (R.buffp r)) r);;
          in_rd_done
      else if res =? 0 then in_rd_done
      else record_exit_status res;; stop_both
  end.

Definition sg_in_rd_cmd : M unit := with_fuel (sg_in_rd_loop 0).

(** [sg_wr_swap_share]: the loop retries while the ioctl fails with
    [EBUSY], giving up once [k > 10000]. *)
Fixpoint swap_share_loop (read_side_fd to_fd : Z) (before : bool) (k : Z)
    (fuel : nat) : M bool :=
  match fuel with
  | O => fun s => Starved s
  | S fuel' =>
    r ← syscall;
    match r with
    | SysErr e =>
      if e =? EBUSY then
        if 10000 <? k then mret false
        else swap_share_loop read_side_fd to_fd before (k + 1) fuel'
      else mret true
    | SysOk _ _ _ => emit (EvSwapShare read_side_fd to_fd before);; mret true
    end
  end.

Definition sg_wr_swap_share (to_fd : Z) (before : bool) : M bool :=
  rep ← get_rep;
  with_fuel (swap_share_loop (R.infd rep) to_fd before 0).

(** The PRE-FETCH section of [sg_out_wr_cmd], from label [again] on:
    [None] is [goto fini], [Some pack_id] falls through to the write. *)
Fixpoint out_prefetch (xtr : X.t) (pack_id : Z) (fuel : nat) : M (option Z) :=
  match fuel with
  | O => fun s => Starved s
  | S fuel' =>
    '(res, pack_id) ← sg_start_io pack_id (Some xtr);
    if res =? 1 then err_exit ENOMEM
    else if res <? 0 then stop_both;; mret None
    else
      rep ← get_rep;
      res ← sg_finish_io (R.wr rep) pack_id (Some xtr);
      if (res =? SG_LIB_CAT_ABORTED_COMMAND)
         || (res =? SG_LIB_CAT_UNIT_ATTENTION) then
        out_prefetch xtr pack_id fuel'
      else if (res =? SG_LIB_CAT_CONDITION_MET) || (res =? 0) then
        mret (Some pack_id)
      else record_exit_status res;; stop_both;; mret None
  end.

(** The [while (1)] loop of [sg_out_wr_cmd] after label [split_upper]: one
    write (or verify) command, repeated after AbortedCommand or
    UnitAttention, until control reaches label [fini]. *)
Fixpoint out_write (xtr : X.t) (nblks : Z) (pack_id : Z) (fuel : nat) : M Z :=
  match fuel with
  | O => fun s => Starved s
  | S fuel' =>
    '(res, pack_id) ← sg_start_io pack_id (Some xtr);
    if res =? 1 then err_exit ENOMEM
    else if res <? 0 then stop_both;; mret pack_id
    else
      rep ← get_rep;
      clp ← get_clp;
      res ← sg_finish_io (R.wr rep) pack_id (Some xtr);
      if (res =? SG_LIB_CAT_ABORTED_COMMAND)
         || (res =? SG_LIB_CAT_UNIT_ATTENTION) then
        out_write xtr nblks pack_id fuel'
      else if (res =? SG_LIB_CAT_MEDIUM_HARD)
              && negb (Fl.coe (G.out_flags clp)) then
        record_exit_status res;; stop_both;; mret pack_id
      else if (res =? SG_LIB_CAT_MEDIUM_HARD)
              || (res =? SG_LIB_CAT_CONDITION_MET) || (res =? 0) then
        (if negb (X.is_wr2 xtr) then
           account_resid;;
           upd_clp (fun c => G.set_out_rem_count (G.out_rem_count c - nblks) c)
         else mret tt);;
        mret pack_id
      else if res =? SG_LIB_CAT_MISCOMPARE then
        upd_glob (fun g =>
          Glob.set_num_miscompare (Glob.num_miscompare g + 1) g);;
        record_exit_status res;; stop_both;; mret pack_id
      else record_exit_status res;; stop_both;; mret pack_id
  end.

(** [sg_out_wr_cmd]: optional PRE-FETCH, then the write of the segment,
    in two halves when [ofsplit] applies. *)
Definition sg_out_wr_cmd (is_wr2 prefetch : bool) : M unit :=
  clp ← get_clp;
  rep ← get_rep;
  let ofsplit := u32 (G.ofsplit clp) in
  let swap := R.has_share rep && is_wr2 in
  (if swap then sg_wr_swap_share (R.out2fd rep) true;; mret tt else mret tt);;
  pf ← (if prefetch
        then with_fuel (out_prefetch (X.mk is_wr2 true false 0 0 0) 0)
        else mret (Some 0));
  match pf with
  | None => mret tt
  | Some pack_id =>
    (* start write (or verify) on current segment on sg device *)
    let split := (0 <? ofsplit) && (s32 ofsplit <? R.num_blks rep) in
    let xtr := if split then X.mk is_wr2 false true 0 0 (s32 ofsplit)
               else X.mk is_wr2 false false 0 0 0 in
    let nblks := if split then s32 ofsplit else R.num_blks rep in
    pack_id ← with_fuel (out_write xtr nblks pack_id);
    (* fini: set up upper half of split *)
    rep ← get_rep;
    if X.dout_is_split xtr && (s32 ofsplit <? R.num_blks rep) then
      let blks := s32 (u32 (R.num_blks rep) - ofsplit) in
      with_fuel (out_write (X.mk is_wr2 false true 1 (s32 ofsplit) blks)
                   blks pack_id);;
      mret tt
    else mret tt
  end;;
  (if swap then sg_wr_swap_share (R.outfd rep) false;; mret tt else mret tt).

(** *** Ordinary reads and writes *)

(** The address-as-data filler of [normal_in_rd] ([iflag=00,ff]): the inner
    loop [for (j = 0; j < (rep->bs - 3); j += 4)]. *)
Fixpoint fill_words (fuel : nat) (pos off j bs : Z) (buf : list Z) : list Z :=
  match fuel with
  | O => buf
  | S fuel' =>
    if j <? bs - 3 then
      fill_words fuel' pos off (j + 4) bs
        (sg_put_unaligned_be32 pos (Z.to_nat (off + j)) buf)
    else buf
  end.

(** The outer loop [for (k = 0, off = 0; k < blocks; ++k, off += rep->bs,
    ++pos)]; [pos] and [off] are [uint32_t]. *)
Fixpoint fill_blocks (fuel : nat) (k blocks pos off bs : Z) (buf : list Z)
    : list Z :=
  match fuel with
  | O => buf
  | S fuel' =>
    if k <? blocks then
      fill_blocks fuel' (k + 1) blocks (u32 (pos + 1)) (u32 (off + bs)) bs
        (fill_words (Z.to_nat bs) pos off 0 bs buf)
    else buf
  end.

Definition fill_addr (iblk blocks bs : Z) (buf : list Z) : list Z :=
  fill_blocks (Z.to_nat blocks) 0 blocks (u32 iblk) 0 bs buf.

(** [while (((res = read/write(...)) < 0) && ((EINTR == errno) ||
    (EAGAIN == errno))) yield();] *)
Fixpoint retry_rw (fuel : nat) : M sysres :=
  match fuel with
  | O => fun s => Starved s
  | S fuel' =>
    r ← syscall;
    match r with
    | SysErr e =>
      if (e =? EINTR) || (e =? EAGAIN) then retry_rw fuel' else mret r
    | SysOk _ _ _ => mret r
    end
  end.

(** The tail of [normal_in_rd] from [if (res < blocks * rep->bs)] on. *)
Definition in_rd_tail (res blocks : Z) : M bool :=
  rep ← get_rep;
  if res <? blocks * R.bs rep then
    let partial := 0 <? Z.rem res (R.bs rep) in
    let blocks := Z.quot res (R.bs rep) + (if partial then 1 else 0) in
    (if partial
     then upd_clp (fun c => G.set_in_partial (s32 (G.in_partial c + 1)) c)
     else mret tt);;
    upd_rep (R.set_num_blks blocks);;
    upd_clp (fun c => G.set_in_rem_count (G.in_rem_count c - blocks) c);;
    mret true
  else
    upd_clp (fun c => G.set_in_rem_count (G.in_rem_count c - blocks) c);;
    mret false.

(** [normal_in_rd]: [true] means it wants to stop the copy.  The words of
    [mrand48_r] for [iflag=random] come from [oracle] as one piece of
    data. *)
Definition normal_in_rd (blocks : Z) : M bool :=
  clp ← get_clp;
  rep ← get_rep;
  let same_fds := Fl.same_fds (G.in_flags clp)
                  || Fl.same_fds (G.out_flags clp) in
  let fl := G.in_flags clp in
  if G.in_type clp =? FT_RANDOM_0_FF then
    (if Fl.zero fl && Fl.ff fl && (4 <=? R.bs rep) then
       upd_rep (fun r =>
         R.set_buffp (fill_addr (R.iblk r) blocks (R.bs r) (R.buffp r)) r)
     else if Fl.zero fl then
       upd_rep (fun r =>
         R.set_buffp (buf_fill 0 (blocks * R.bs r) 0 (R.buffp r)) r)
     else if Fl.ff fl then
       upd_rep (fun r =>
         R.set_buffp (buf_fill 0 (blocks * R.bs r) 0xff (R.buffp r)) r)
     else
       r ← syscall;
       match r with
       | SysErr _ => mret tt
       | SysOk _ resp _ =>
         upd_rep (fun r =>
           R.set_buffp (k_data resp ++ drop (length (k_data resp))
                                         (R.buffp r)) r)
       end);;
    upd_clp (fun c => G.set_in_rem_count (G.in_rem_count c - blocks) c);;
    mret false
  else
    seek_ok ← (if negb same_fds then
                 r ← syscall;
                 match r with
                 | SysErr _ => mret false
                 | SysOk _ _ _ =>
                   emit (EvLseek (R.infd rep) (R.iblk rep * R.bs rep));;
                   mret true
                 end
               else mret true);
    if negb seek_ok then stop_both;; mret true
    else
      r ← with_fuel retry_rw;
      match r with
      | SysErr _ =>
        if Fl.coe fl then
          upd_rep (fun r =>
            R.set_buffp (buf_fill 0 (R.num_blks r * R.bs r) 0 (R.buffp r)) r);;
          in_rd_tail (R.num_blks rep * R.bs rep) blocks
        else stop_both;; mret true
      | SysOk res resp _ =>
        emit (EvRead (G.infd clp) (blocks * R.bs rep));;
        upd_rep (fun r =>
          R.set_buffp (take (Z.to_nat res) (k_data resp)
                       ++ drop (Z.to_nat res) (R.buffp r)) r);;
        in_rd_tail res blocks
      end.

(** [normal_out_wr] *)
Definition normal_out_wr (blocks : Z) : M unit :=
  clp ← get_clp;
  rep ← get_rep;
  r ← with_fuel retry_rw;
  let tail (res : Z) : M unit :=
    if res <? blocks * R.bs rep then
      let partial := 0 <? Z.rem res (R.bs rep) in
      let blocks := Z.quot res (R.bs rep) + (if partial then 1 else 0) in
      (if partial
       then upd_clp (fun c => G.set_out_partial (s32 (G.out_partial c + 1)) c)
       else mret tt);;
      upd_rep (R.set_num_blks blocks);;
      upd_clp (fun c => G.set_out_rem_count (G.out_rem_count c - blocks) c)
    else
      upd_clp (fun c => G.set_out_rem_count (G.out_rem_count c - blocks) c) in
  match r with
  | SysErr _ =>
    if Fl.coe (G.out_flags clp) then tail (R.num_blks rep * R.bs rep)
    else stop_both
  | SysOk res _ _ =>
    emit (EvWrite (G.outfd clp) (blocks * R.bs rep));;
    tail res
  end.

(** *** The address check ([--chkaddr]) *)

(** The inner loop [for (j = 0; j < num; j += 4)], left by [break] at the
    first word that differs from [addr]; yields the final [j]. *)
Fixpoint chk_words (fuel : nat) (buf : list Z) (addr off j num : Z) : Z :=
  match fuel with
  | O => j
  | S fuel' =>
    if j <? num then
      if negb (addr =? sg_get_unaligned_be32 buf (Z.to_nat (off + j)))
      then j
      else chk_words fuel' buf addr off (j + 4) num
    else j
  end.

(** The outer loop [for (k = 0, off = 0; k < blocks; ++k, ++addr,
    off += rep->bs)], left by [break] when the inner loop stopped early;
    yields the final [k]. *)
Fixpoint chk_blocks (fuel : nat) (buf : list Z) (k blocks addr off bs num : Z)
    : Z :=
  match fuel with
  | O => k
  | S fuel' =>
    if k <? blocks then
      if chk_words (Z.to_nat num) buf addr off 0 num <? num then k
      else chk_blocks fuel' buf (k + 1) blocks (u32 (addr + 1)) (off + bs)
             bs num
    else k
  end.

(** [true] when the scan finds a block whose stored address differs
    ([k < blocks] after the loops). *)
Definition chkaddr_fails (c_addr : Z) (buf : list Z) (iblk blocks bs : Z)
    : bool :=
  let num := if c_addr =? 1 then 4 else bs - 3 in
  chk_blocks (Z.to_nat blocks) buf 0 blocks (u32 iblk) 0 bs num <? blocks.

(** The address check of [read_write_thread], done after the read half. *)
Definition chkaddr_step (c_addr blocks : Z) : M unit :=
  rep ← get_rep;
  if negb (c_addr =? 0) && (3 <? R.bs rep) then
    if chkaddr_fails c_addr (R.buffp rep) (R.iblk rep) blocks (R.bs rep) then
      upd_glob (fun g =>
        Glob.set_num_miscompare (Glob.num_miscompare g + 1)
          (Glob.set_exit_status SG_LIB_CAT_MISCOMPARE g));;
      stop_both
    else mret tt
  else mret tt.

End Seg.
Import Seg.

(** ** The worker thread *)

Module Thread.

(** The locals of [read_write_thread] that live across loop turns. *)
Record locals := mk_locals {
  in_is_sg : bool;
  out_is_sg : bool;
  share_and_ofreg : bool;
  c_addr : Z;
  blocks : Z;
  stop_after_write : bool
}.

Definition set_blocks (v : Z) (l : locals) : locals :=
  mk_locals (in_is_sg l) (out_is_sg l) (share_and_ofreg l) (c_addr l) v
    (stop_after_write l).
Definition set_stop_after_write (v : bool) (l : locals) : locals :=
  mk_locals (in_is_sg l) (out_is_sg l) (share_and_ofreg l) (c_addr l)
    (blocks l) v.

(** The set-up of [read_write_thread] before its main loop, for a worker
    that uses the global file descriptors.  [share_ok] says that the
    driver is recent enough and that [sg_share_prepare] succeeded; [buf]
    is the content of the freshly allocated buffer. *)
Definition thread_setup (clp : G.t) (id : Z) (share_ok : bool) (buf : list Z)
    : R.t * locals :=
  let in_sg := G.in_type clp =? FT_SG in
  let out_sg := G.out_type clp =? FT_SG in
  let same_fd := G.infd clp =? G.outfd clp in
  let has_share := share_ok && negb (G.noshare clp) && in_sg && out_sg in
  let rep :=
    R.mk false has_share
      (negb same_fd && in_sg && out_sg)
      (same_fd && in_sg)
      (negb same_fd && negb (in_sg && out_sg) && in_sg)
      (negb same_fd && negb (in_sg && out_sg) && negb in_sg && out_sg)
      id (G.bs clp) (G.infd clp) (G.outfd clp) (G.out2fd clp)
      (G.outregfd clp) 0 0 0 buf h3_zero h4_zero h4_zero (replicate 16 0)
      0 0 0 0 0 0
      (if G.unbalanced_mrq clp && (0 <? G.nmrqs clp)
       then G.nmrqs clp - 1 else 0)
      0 0 in
  (rep,
   mk_locals in_sg out_sg (has_share && (0 <=? G.outregfd clp))
     (G.chkaddr clp) 0 false).

(** Why the main loop was left. *)
Inductive leave :=
| LeaveTail               (* [my_index >= dd_count]: at or beyond end *)
| LeaveStop               (* stop requested *)
| LeaveNoBlks             (* [0 == rep->num_blks]: read nothing *)
| LeaveStopAfterWrite.    (* [stop_after_write] after the write *)

(** The flush at the two tail ends of the main loop:
    [if ((clp->nmrqs > 0) && (deferred_arr.first.size() > 0))]. *)
Definition tail_flush (wr_blks : Z) : M unit :=
  s ← get;
  if (0 <? G.nmrqs (St.clp s)) && (0 <? Z.of_nat (length (St.def_arr s)))
  then
    (if 0 <? wr_blks
     then upd_rep (fun r =>
            R.set_out_mrq_q_blks (u32 (R.out_mrq_q_blks r + wr_blks)) r)
     else mret tt);;
    sgh_do_deferred_mrq;;
    mret tt
  else mret tt.

(** The READ half of a loop turn, from the top of the [while (1)] to the
    point where [out_mutex] is taken.  [inl l] goes on to the write half,
    [inr] leaves the loop. *)
Definition segment_read (l : locals) : M (locals + leave) :=
  upd_rep (R.set_wr false);;
  g ← get_glob;
  clp ← get_clp;
  let my_index := Glob.pos_index g in
  upd_glob (Glob.set_pos_index (my_index + G.bpt clp));;
  buffp_onto_next;;
  let dd_count := Glob.dd_count g in
  if (0 <=? dd_count) && (dd_count <=? my_index) then
    tail_flush 0;;
    mret (inr LeaveTail)
  else
    let blocks :=
      if (0 <=? dd_count) && (dd_count <? my_index + G.bpt clp)
      then dd_count - my_index else G.bpt clp in
    upd_rep (fun r =>
      R.set_num_blks blocks
        (R.set_oblk (G.seek clp + my_index)
           (R.set_iblk (G.skip clp + my_index) r)));;
    l ← (if in_is_sg l then sg_in_rd_cmd;; mret l
         else
           b ← normal_in_rd blocks;
           mret (set_stop_after_write b l));
    chkaddr_step (c_addr l) blocks;;
    upd_rep (fun r => R.set_wr true (R.set_rep_count (R.rep_count r + 1) r));;
    mret (inl (set_blocks blocks l)).

(** The ordering gate.  [force_out_sequence] says whether control reaches
    the [while] that waits on [out_sync_cv] (it does not after one of the
    two [goto skip_force_out_sequence], nor for a null sink without a
    shared tee); [must_wait] is that loop's condition. *)
Definition force_out_sequence (clp : G.t) (rep : R.t) (l : locals) : bool :=
  negb (Fl.random (G.in_flags clp))
  && negb ((R.outregfd rep <? 0) && in_is_sg l && out_is_sg l)
  && (share_and_ofreg l || negb (G.out_type clp =? FT_DEV_NULL)).

Definition must_wait (clp : G.t) (rep : R.t) (l : locals) : bool :=
  force_out_sequence clp rep l
  && negb (G.out_stop clp) && negb (R.oblk rep =? G.out_blk clp).

(** The tee write to [outregfd]; a failure is only reported. *)
Definition write_outreg : M unit :=
  rep ← get_rep;
  if 0 <=? R.outregfd rep then
    r ← syscall;
    match r with
    | SysErr _ => mret tt
    | SysOk _ _ _ =>
      emit (EvWrite (R.outregfd rep) (R.bs rep * R.num_blks rep))
    end
  else mret tt.

(** The WRITE half of a loop turn, from label [skip_force_out_sequence]
    to the bottom of the [while (1)].  [inl l] starts the next turn. *)
Definition segment_write (l : locals) : M (locals + leave) :=
  clp ← get_clp;
  if G.out_stop clp || (G.out_count clp <=? 0) then
    upd_clp (G.set_out_stop true);;
    mret (inr LeaveStop)
  else
    (if stop_after_write l then upd_clp (G.set_out_stop true) else mret tt);;
    upd_clp (fun c =>
      G.set_out_blk (G.out_blk c + blocks l)
        (G.set_out_count (G.out_count c - blocks l) c));;
    write_outreg;;
    rep ← get_rep;
    wr_blks ← (if out_is_sg l then
                 sg_out_wr_cmd false (G.prefetch clp);;
                 upd_rep (fun r => R.set_rep_count (R.rep_count r + 1) r);;
                 mret (R.num_blks rep)
               else if G.out_type clp =? FT_DEV_NULL then
                 upd_clp (fun c =>
                   G.set_out_rem_count (G.out_rem_count c - blocks l) c);;
                 mret 0
               else
                 normal_out_wr (blocks l);;
                 upd_rep (fun r => R.set_rep_count (R.rep_count r + 1) r);;
                 mret (R.num_blks rep));
    (if (0 <=? G.out2fd clp) && (G.out2_type clp =? FT_SG)
     then sg_out_wr_cmd true false else mret tt);;
    rep ← get_rep;
    if R.num_blks rep =? 0 then
      tail_flush wr_blks;;
      upd_clp (G.set_out_stop true);;
      mret (inr LeaveNoBlks)
    else if stop_after_write l then mret (inr LeaveStopAfterWrite)
    else mret (inl l).

(** How a run of the main loop by one worker ends in the model: the loop
    was left, the worker sleeps on [out_sync_cv] until another thread moves
    [out_blk] or stops the copy, or the turns allotted to the run are used
    up. *)
Inductive ending :=
| Left (why : leave)
| Parked
| Unfinished.

(** The main segment copy loop. *)
Fixpoint main_loop (turns : nat) (l : locals) : M (ending * locals) :=
  match turns with
  | O => mret (Unfinished, l)
  | S turns' =>
    r ← segment_read l;
    match r with
    | inr why => mret (Left why, l)
    | inl l =>
      s ← get;
      if must_wait (St.clp s) (St.rep s) l then mret (Parked, l)
      else
        w ← segment_write l;
        match w with
        | inr why =>
          mret (Left why,
                match why with
                | LeaveNoBlks => set_stop_after_write true l
                | _ => l
                end)
        | inl l => main_loop turns' l
        end
    end
  end.

(** [read_write_thread] from its main loop to the point where it flags
    the other workers to stop. *)
Definition read_write_thread (turns : nat) (l : locals)
    : M (ending * locals) :=
  r ← main_loop turns l;
  match fst r with
  | Left _ => upd_clp (G.set_in_stop true);; mret r
  | _ => mret r
  end.

End Thread.
Import Thread.

(** ** Exit status of the process *)

Module Main.

(** The tail of [main] from [res = exit_status;] to its [return]. *)
Definition main_exit (exit_status out_count dry_run : Z) : Z :=
  let res := exit_status in
  let res := if negb (out_count =? 0) && (dry_run =? 0)
             then (if res =? 0 then SG_LIB_CAT_OTHER else res)
             else res in
  if 0 <=? res then res else SG_LIB_CAT_OTHER.

Definition main_exit_of (s : St.t) : Z :=
  main_exit (Glob.exit_status (St.glob s)) (G.out_count (St.clp s))
    (G.dry_run (St.clp s)).

(** The guarded writes of [exit_status] made by the sg command paths
    ([sg_in_rd_cmd], [sg_out_wr_cmd]), in the order in which they run. *)
Fixpoint record_all (recs : list Z) : M unit :=
  match recs with
  | [] => mret tt
  | r :: recs' => record_exit_status r;; record_all recs'
  end.

(** The first positive value among the recorded ones: the first sense
    category. *)
Definition first_category (recs : list Z) : option Z :=
  List.find (fun r => 0 <? r) recs.

End Main.
Import Main.

(** ** Pack-ids over a run *)

Module Ids.

(** A run seen from the pack-id allocator: the calls of [sg_start_io] that
    reach the pack-id assignment, in the order in which they do, each by a
    worker (an index into the workers' request elements) for a READ
    ([false]) or a write-side command ([true]). *)
Definition call : Type := nat * bool.

(** A worker index beyond the list designates no worker: the call is
    skipped. *)
Fixpoint assign_run (mono : Z) (reps : list R.t) (calls : list call)
    : list (nat * bool * Z) :=
  match calls with
  | [] => []
  | (w, wr) :: calls' =>
    match reps !! w with
    | None => assign_run mono reps calls'
    | Some rep =>
      let '(pack_id, rep', mono') := assign_pack_id (R.set_wr wr rep) mono in
      (w, wr, pack_id) :: assign_run mono' (<[w := rep']> reps) calls'
    end
  end.

Definition ids (evs : list (nat * bool * Z)) : list Z := map snd evs.

Definition read_ids (evs : list (nat * bool * Z)) : list Z :=
  map snd (filter (fun e => snd (fst e) = false) evs).

(** The pack-id of the last READ of worker [w] in [evs], if any. *)
Definition last_read (w : nat) (evs : list (nat * bool * Z)) : option Z :=
  last (map snd (filter (fun e => fst (fst e) = w /\ snd (fst e) = false) evs)).

(** All workers have [both_sg] equal to [b]: it is computed from the
    shared configuration. *)
Definition all_both_sg (b : bool) (reps : list R.t) : Prop :=
  Forall (fun r => R.both_sg r = b) reps.

(** The [rd_p_id] of worker [w], 0 for an index that designates none. *)
Definition rd_of (reps : list R.t) (w : nat) : Z :=
  match reps !! w with Some rep => R.rd_p_id rep | None => 0 end.

(** The pack-ids carried by the commands that reached the kernel through
    single submits, oldest first. *)
Definition trace_pack_ids (tr : list kevent) : list Z :=
  omap (fun e => match e with
                 | EvWriteV3 _ h _ => Some (H3.pack_id h)
                 | EvSubmitV4 _ h _ => Some (H4.request_extra h)
                 | _ => None
                 end) tr.

(** The CDBs of the commands that reached the kernel on descriptor [fd]
    through single submits, oldest first. *)
Definition trace_cdbs (fd : Z) (tr : list kevent) : list (list Z) :=
  omap (fun e => match e with
                 | EvWriteV3 f _ c => if f =? fd then Some c else None
                 | EvSubmitV4 f _ c => if f =? fd then Some c else None
                 | _ => None
                 end) tr.

End Ids.
Import Ids.

(** ** Shapes of call results *)

Module Env.

(** The errors after which an ordinary [read] or [write] is repeated. *)
Definition retryable_rw (e : Z) : bool := (e =? EINTR) || (e =? EAGAIN).

(** A result that ends the retry loop of an ordinary [read] or [write]. *)
Definition final_rw (r : sysres) : bool :=
  match r with
  | SysErr e => negb (retryable_rw e)
  | SysOk _ _ _ => true
  end.

(** A completion without anything to report for worker [id]. *)
Definition clean (id : Z) : kresp :=
  mk_kresp 0 0 0 0 0 0 0 0 (RepPtr id) false SG_LIB_CAT_CLEAN None [].

(** A successful call that hands back a clean completion. *)
Definition ok (id : Z) : sysres := SysOk 0 (clean id) [].

(** The state in which a computation ended, whatever its outcome. *)
Definition final_state {A} (o : outcome A) : St.t :=
  match o with
  | Ret _ s => s
  | Exited _ s => s
  | Starved s => s
  end.

(** The configuration part of [clp]: the fields that workers update are
    blanked. *)
Definition config_of (c : G.t) : G.t :=
  G.set_in_rem_count 0 (G.set_in_partial 0 (G.set_in_stop false
    (G.set_out_blk 0 (G.set_out_count 0 (G.set_out_rem_count 0
      (G.set_out_partial 0 (G.set_out_stop false
        (G.set_dio_incomplete_count 0 (G.set_sum_of_resids 0 c))))))))).

(** The part of a request element that the next command is built from: the
    headers, the pack-id of the last command, the results of its
    completion and the counts of blocks queued for a multiple request are
    blanked. *)
Definition scrub (r : R.t) : R.t :=
  R.set_io_hdr h3_zero (R.set_io_hdr4_0 h4_zero (R.set_io_hdr4_1 h4_zero
    (R.set_dio_incomplete_count 0 (R.set_resid 0 (R.set_rq_id 0
      (R.set_in_mrq_q_blks 0 (R.set_out_mrq_q_blks 0 r))))))).

(** The v4 headers [h1] and [h2] describe the lower [k] blocks and the
    upper [c - k] blocks of one buffer of [c] blocks of [bs] bytes. *)
Definition split_headers (bs k c : Z) (h1 h2 : H4.t) : Prop :=
  (H4.dout_xfer_len h1 = u32 (bs * k)
   /\ H4.spare_in h1 = 0
   /\ has_flag (H4.flags h1) SGV4_FLAG_KEEP_SHARE = true)
  /\ (H4.dout_xfer_len h2 = u32 (bs * (c - k))
      /\ H4.spare_in h2 = u32 (bs * k)
      /\ has_flag (H4.flags h2) SGV4_FLAG_DOUT_OFFSET = true)
  /\ H4.dout_xferp h1 = H4.dout_xferp h2.

(** [ceil(a / b)] for positive [b]. *)
Definition ceil_div (a b : Z) : Z := (a + b - 1) / b.

(** How often [e] occurs among the errors [es]. *)
Definition occurrences (e : Z) (es : list Z) : Z :=
  Z.of_nat (length (filter (fun x => x = e) es)).

(** An [int] counter holding [v] after [n] increments, each of which
    wraps: unchanged when there is none, and else [v + n] brought back
    into the range of an [int]. *)
Definition bumped (v n : Z) : Z := if n =? 0 then v else s32 (v + n).

(** The counters after the retries [es] of a repeated call. *)
Definition count_retries (start : bool) (es : list Z) (g : Glob.t) : Glob.t :=
  let g := Glob.set_num_ebusy
             (bumped (Glob.num_ebusy g) (occurrences EBUSY es)) g in
  if start
  then Glob.set_num_start_eagain
         (bumped (Glob.num_start_eagain g) (occurrences EAGAIN es)) g
  else Glob.set_num_fin_eagain
         (bumped (Glob.num_fin_eagain g) (occurrences EAGAIN es)) g.

(** The errors after which a pass-through call is repeated. *)
Definition retried (e : Z) : bool := (e =? EINTR) || (e =? EAGAIN) || (e =? EBUSY).

(** [n] runs of [m] in a row. *)
Fixpoint repeat_m (n : nat) (m : M unit) : M unit :=
  match n with
  | O => mret tt
  | S n' => m;; repeat_m n' m
  end.

(** A [read] that delivers all the bytes asked for, with [data]. *)
Definition read_ok (n : Z) (data : list Z) : sysres :=
  SysOk n (mk_kresp 0 0 0 0 0 0 0 0 NullPtr false 0 None data) [].

(** The block count of the segment that starts at [my_index]: the ternary
    of [read_write_thread] for a known [dd_count]. *)
Definition seg_blocks (dd_count bpt my_index : Z) : Z :=
  if dd_count <? my_index + bpt then dd_count - my_index else bpt.

(** The calls of one segment copied between ordinary files: the [lseek],
    the [read] and the [write], all complete. *)
Definition copy_calls (bs : Z) (data : Z -> list Z) (seg : Z * Z)
    : list sysres :=
  [ok 0; read_ok (snd seg * bs) (data (fst seg));
   SysOk (snd seg * bs) (clean 0) []].

(** The segments of a copy of [dd_count] blocks from block [idx] on, as
    (first block, number of blocks); [n] bounds their number. *)
Fixpoint segments (n : nat) (idx dd_count bpt : Z) : list (Z * Z) :=
  match n with
  | O => []
  | S n' =>
    if dd_count <=? idx then []
    else (idx, seg_blocks dd_count bpt idx)
         :: segments n' (idx + bpt) dd_count bpt
  end.

(** What the kernel sees of one segment copied between ordinary files. *)
Definition copy_events (clp : G.t) (rep : R.t) (seg : Z * Z) : list kevent :=
  [EvLseek (R.infd rep) ((G.skip clp + fst seg) * R.bs rep);
   EvRead (G.infd clp) (snd seg * R.bs rep);
   EvWrite (G.outfd clp) (snd seg * R.bs rep)].

(** The blocks of a list of segments, added up. *)
Definition sum_blocks (segs : list (Z * Z)) : Z :=
  foldr Z.add 0 (map snd segs).

(** The pack-id of a READ: [mono_pack_id], or twice that when both sides
    are sg devices. *)
Definition rd_pack_id (rep : R.t) (mono : Z) : Z :=
  if R.both_sg rep then s32 (2 * mono) else mono.

(** The v4 header of the READ of the segment with pack-id [p]. *)
Definition rd_hdr4 (clp : G.t) (rep : R.t) (p : Z) : H4.t :=
  let f := start_io_v4_flags clp rep None (R.infd rep)
             (start_io_flags clp rep) in
  start_io_hdr4 clp rep None p f.1.1 f.1.2 f.2.

(** The completion of a READ with sense category [c]. *)
Definition retry_resp (id c : Z) : kresp :=
  mk_kresp 0 0 0 0 0 0 0 0 (RepPtr id) false c None [].

(** What a READ attempt leaves alone in the request element. *)
Definition rd_view (r : R.t) : R.t :=
  R.set_cmd [] (R.set_rq_id 0 (R.set_rd_p_id 0 (R.set_io_hdr4_0 h4_zero r))).

(** The results of the attempts of one READ, given the category of each
    completion: every submit is accepted. *)
Definition rd_attempts (id : Z) (cats : list Z) : list sysres :=
  flat_map (fun c => [ok id; SysOk 0 (retry_resp id c) []]) cats.

(** What the kernel sees of [n] attempts of the READ [cmd], the first with
    the pack-id made from [mono]. *)
Fixpoint rd_events (clp : G.t) (rep : R.t) (cmd : list Z) (mono : Z)
    (n : nat) : list kevent :=
  match n with
  | O => []
  | S n' =>
    let p := rd_pack_id rep mono in
    EvSubmitV4 (R.infd rep) (rd_hdr4 clp rep p) cmd
    :: EvReceiveV4 (R.infd rep) p :: rd_events clp rep cmd (mono + 1) n'
  end.

(** Every event but an ordinary [write]. *)
Definition no_write (e : kevent) : bool :=
  match e with EvWrite _ _ => false | _ => true end.

(** What a computation that starts in [s] and ends in [s'] has kept: the
    configuration, [out_blk], and the trace, to which it has added events
    that [q] accepts. *)
Definition keeps (q : kevent -> bool) (s s' : St.t) : Prop :=
  config_of (St.clp s') = config_of (St.clp s)
  /\ G.out_blk (St.clp s') = G.out_blk (St.clp s)
  /\ exists evs, St.ktrace s' = St.ktrace s ++ evs /\ forallb q evs = true.

(** [m] keeps that from every state, however it ends. *)
Definition quiet {A} (q : kevent -> bool) (m : M A) : Prop :=
  forall s, keeps q s (final_state (m s)).


(** Every event. *)
Definition any_ev (e : kevent) : bool := true.

End Env.
Import Env.

(** ** The workers of a copy, interleaved *)

Module Sched.

(** Where a worker is in [read_write_thread]: about to start a turn of
    the main loop, at the ordering gate with its segment read, or past the
    loop. *)
Inductive place := AtTop | AtGate | Gone.

(** What belongs to one worker: its request element, its deferred array,
    the locals of [read_write_thread] and its place. *)
Record worker := mk_worker {
  w_rep : R.t;
  w_def_arr : mrq_arr_t;
  w_locals : locals;
  w_place : place
}.

(** The copy with all its workers: what they share, what each has, and
    whether the process has come to an end ([err_exit], or a call that
    does not return). *)
Record sys := mk_sys {
  sh_clp : G.t;
  sh_glob : Glob.t;
  sh_ktrace : list kevent;
  sh_oracle : list sysres;
  workers : list worker;
  halted : bool
}.

(** The state in which worker [w] runs. *)
Definition view (y : sys) (w : worker) : St.t :=
  St.mk (sh_clp y) (sh_glob y) (w_rep w) (w_def_arr w) (sh_ktrace y)
    (sh_oracle y).

(** What a worker does from its place up to the next point at which it
    may have to wait for another worker: from the top of the loop the
    READ half of the turn ([segment_read]); at the gate another wait on
    [out_sync_cv] or, when [must_wait] does not hold, the WRITE half
    ([segment_write]).  The loop is that of [main_loop], and a worker that
    leaves it sets [in_stop] as in [read_write_thread].  For an output
    that is not an sg device the source holds [out_mutex] from the gate to
    the return of [normal_out_wr], so that no other worker is at work
    between its gate and its [write]. *)
Definition half (p : place) (l : locals) : M (place * locals) :=
  match p with
  | AtTop =>
    r ← segment_read l;
    match r with
    | inl l => mret (AtGate, l)
    | inr _ => upd_clp (G.set_in_stop true);; mret (Gone, l)
    end
  | AtGate =>
    s ← get;
    if must_wait (St.clp s) (St.rep s) l then mret (AtGate, l)
    else
      w ← segment_write l;
      match w with
      | inl l => mret (AtTop, l)
      | inr why =>
        upd_clp (G.set_in_stop true);;
        mret (Gone,
              match why with
              | LeaveNoBlks => set_stop_after_write true l
              | _ => l
              end)
      end
  | Gone => mret (Gone, l)
  end.

(** What threads do to the shared state outside the steps of the
    schedule (the signal thread, the thread that aborts a multiple
    request, a worker between the unlock of [out_mutex] and the end of
    its turn when another worker is already past the gate): [drift c y]
    is [sh_clp y] with the counters and flags that workers update taken
    from [c], all but [out_blk], which is only written under [out_mutex]
    by the WRITE half. *)
Definition drift (c : G.t) (y : sys) : G.t :=
  G.set_in_rem_count (G.in_rem_count c)
    (G.set_in_partial (G.in_partial c)
      (G.set_in_stop (G.in_stop c)
        (G.set_out_count (G.out_count c)
          (G.set_out_rem_count (G.out_rem_count c)
            (G.set_out_partial (G.out_partial c)
              (G.set_out_stop (G.out_stop c)
                (G.set_dio_incomplete_count (G.dio_incomplete_count c)
                  (G.set_sum_of_resids (G.sum_of_resids c) (sh_clp y))))))))).

(** A schedule names, step by step, the worker that runs its next half;
    or has [stop_both] called from outside the workers, as the signal
    thread does; or has the shared state changed in any way that leaves
    the configuration and [out_blk] alone and adds no [write] to the
    trace ([Meddle]: counters and flags from [c], globals [g], further
    events, the call results to come [o]).  A step of a worker that does
    not exist, or after the process has come to an end, changes
    nothing. *)
Inductive action :=
| Turn (i : nat)
| Stop
| Meddle (c : G.t) (g : Glob.t) (evs : list kevent) (o : list sysres).

Definition step (a : action) (y : sys) : sys :=
  if halted y then y
  else
    match a with
    | Stop =>
      mk_sys (G.set_out_stop true (G.set_in_stop true (sh_clp y)))
        (sh_glob y) (sh_ktrace y) (sh_oracle y) (workers y) false
    | Meddle c g evs o =>
      mk_sys (drift c y) g (sh_ktrace y ++ List.filter no_write evs) o
        (workers y) false
    | Turn i =>
      match workers y !! i with
      | None => y
      | Some w =>
        let o := half (w_place w) (w_locals w) (view y w) in
        let s := final_state o in
        let '(p, l, h) :=
          match o with
          | Ret (p, l) _ => (p, l, false)
          | _ => (w_place w, w_locals w, true)
          end in
        mk_sys (St.clp s) (St.glob s) (St.ktrace s) (St.oracle s)
          (<[i := mk_worker (St.rep s) (St.def_arr s) l p]> (workers y)) h
      end
    end.

(** Is there a [write] on descriptor [fd] among the events? *)
Definition out_writes (fd : Z) (evs : list kevent) : bool :=
  existsb (fun e => match e with EvWrite f _ => f =? fd | _ => false end) evs.

(** The output LBA of the segment of the worker that ran, when the step
    from [y] to [y'] has written to the primary output. *)
Definition written (a : action) (y y' : sys) : list Z :=
  match a with
  | Turn i =>
    match workers y !! i with
    | Some w =>
      if out_writes (G.outfd (sh_clp y))
           (drop (length (sh_ktrace y)) (sh_ktrace y'))
      then [R.oblk (w_rep w)] else []
    | None => []
    end
  | Stop | Meddle _ _ _ _ => []
  end.

(** A run under a schedule: the state it ends in and the output LBAs of
    the segments written to the primary output, in the order of the
    writes. *)
Fixpoint run (sched : list action) (y : sys) : sys * list Z :=
  match sched with
  | [] => (y, [])
  | a :: sched' =>
    let y' := step a y in
    let r := run sched' y' in
    (fst r, written a y y' ++ snd r)
  end.

(** The copy as [main] starts it: the workers [ws] (request element and
    locals of each, as [thread_setup] makes them) at the top of their
    loops. *)
Definition init (clp : G.t) (glob : Glob.t) (ws : list (R.t * locals))
    (oracle : list sysres) : sys :=
  mk_sys clp glob [] oracle
    (map (fun w => mk_worker (fst w) [] (snd w) AtTop) ws) false.





End Sched.

(** ** Sample runs *)

Module Ex.

(** Per-side flags with only the interface version chosen. *)
Definition fl (v4 : bool) : Fl.t :=
  Fl.mk false false false false false false false false false false false
    false false v4 false 0.

(** [iflag=00,ff]: the address-as-data source. *)
Definition fl_addr : Fl.t :=
  Fl.mk false false false true false false false false false false false
    false false true true 0.


(** [bs=512 bpt=4 count=dd_count], 10-byte CDBs, descriptors 3 (in) and 4
    (out), no secondary target and no tee. *)
Definition clp (in_type out_type : Z) (in_flags out_flags : Fl.t)
    (nmrqs ofsplit dd_count chkaddr : Z) (unbalanced_mrq : bool) : G.t :=
  G.mk 3 0 in_type 10 in_flags dd_count 0 false nmrqs
    4 0 out_type (-1) FT_DEV_NULL 10 0 0 out_flags
    0 dd_count dd_count 0 false
    512 4 60000 (-1) ofsplit 0 0 0 0 chkaddr
    false false false false unbalanced_mrq false false.

Definition glob (dd_count : Z) : Glob.t :=
  Glob.mk 1 MONO_MRQ_ID_INIT 0 0 0 0 0 0 0 0 0 dd_count.

(** The state of worker 0 at the top of its main loop, and its locals. *)
Definition start (c : G.t) (dd_count : Z) (share_ok : bool)
    (oracle : list sysres) : St.t * locals :=
  let '(rep, l) := thread_setup c 0 share_ok (replicate 2048 0) in
  (St.mk c (glob dd_count) rep [] [] oracle, l).

(** sg to sg, v4 on both sides, [ofsplit=2], one segment of four blocks:
    the READ, then the two halves of the write, each submitted and
    received. *)
Definition sg_sg_split : St.t * locals :=
  start (clp FT_SG FT_SG (fl true) (fl true) 0 2 4 0 false) 4 true
    [ok 0; ok 0; ok 0; ok 0; ok 0; ok 0].

(** Worker 0 of a sample run on entry to [sg_out_wr_cmd] for a segment of
    [num_blks] blocks. *)
Definition at_write (sl : St.t * locals) (num_blks : Z) : St.t :=
  St.set_rep (R.set_wr true (R.set_num_blks num_blks (St.rep (fst sl))))
    (fst sl).

(** The same copy with [mrq=9]. *)
Definition sg_sg_split_mrq : St.t * locals :=
  start (clp FT_SG FT_SG (fl true) (fl true) 9 2 4 0 false) 4 true [].

(** The same copy with the v3 interface on the write side. *)
Definition sg_sg_split_v3 : St.t * locals :=
  start (clp FT_SG FT_SG (fl true) (fl false) 0 2 4 0 false) 4 true
    [ok 0; ok 0; ok 0; ok 0; ok 0; ok 0].

(** Regular file to sg with [mrq=4]: [lseek], then a [read] that delivers
    two of the four blocks asked for. *)
Definition file_sg_mrq : St.t * locals :=
  start (clp FT_OTHER FT_SG (fl false) (fl true) 4 0 8 0 true) 8 false
    [ok 0; SysOk 1024 (mk_kresp 0 0 0 0 0 0 0 0 NullPtr false 0 None
                         (replicate 1024 7)) []].

(** The same copy when the first [read] delivers all four blocks and the
    second none: the multiple request is then sent, and answered without
    per-element responses. *)
Definition file_sg_mrq_eof : St.t * locals :=
  start (clp FT_OTHER FT_SG (fl false) (fl true) 4 0 8 0 true) 8 false
    [ok 0; SysOk 2048 (mk_kresp 0 0 0 0 0 0 0 0 NullPtr false 0 None
                         (replicate 2048 7)) [];
     ok 0; SysOk 0 (mk_kresp 0 0 0 0 0 0 0 0 NullPtr false 0 None []) [];
     SysOk 0 (mk_kresp 0 0 0 0 0 0 0 0 NullPtr false 0 None []) []].

(** Worker 0 of [file_sg_mrq] after its short read, with one write in the
    deferred array; the driver will answer a flush with [EBUSY] once and
    then complete the one command. *)
Definition pending : St.t :=
  St.set_oracle
    [SysErr EBUSY;
     SysOk 0 (mk_kresp 1 0 0 0 0 0 0 0 NullPtr true 0 None [])
       [mk_kresp SG_INFO_MRQ_FINI 0 0 0 0 0 0 0 (RepPtr 0) false 0 None []]]
    (final_state (read_write_thread 2 (snd file_sg_mrq) (fst file_sg_mrq))).

(** Regular file to regular file. *)
Definition file_file : G.t :=
  clp FT_OTHER FT_OTHER (fl false) (fl false) 0 0 8 0 false.

(** Worker 0 of a copy of eight blocks on [file_file], given the results
    of the calls to come. *)
Definition file_file_start (oracle : list sysres) : St.t :=
  fst (start file_file 8 false oracle).








(** sg to sg with a secondary sg target on descriptor 5 and no tee. *)
Definition sg_sg_out2 : G.t :=
  G.mk 3 0 FT_SG 10 (fl true) 8 0 false 0
    4 0 FT_SG 5 FT_SG 10 0 0 (fl true)
    0 8 8 0 false
    512 4 60000 (-1) 0 0 0 0 0 0
    true false false false false false false.

(** Worker 0 of a copy of ten blocks between ordinary files, four to a
    segment, given the results of the calls to come. *)
Definition ten_blocks (oracle : list sysres) : St.t * locals :=
  start (clp FT_OTHER FT_OTHER (fl false) (fl false) 0 0 10 0 false) 10 false
    oracle.

(** The whole copy: every call complete, each [read] delivering bytes of
    value 7. *)
Definition file_file_ten : St.t * locals :=
  ten_blocks
    (flat_map (copy_calls 512 (fun _ => replicate 2048 7))
       (segments 3 0 10 4)).

(** The same copy when the first [write] fails with [ENOMEM]. *)
Definition write_fails : St.t * locals :=
  ten_blocks
    [ok 0; read_ok 2048 (replicate 2048 7); SysErr ENOMEM;
     ok 0; read_ok 2048 (replicate 2048 7)].

(** The same copy when the first [read] delivers 700 bytes. *)
Definition short_read : St.t * locals :=
  ten_blocks
    [ok 0; read_ok 700 (replicate 700 7); SysOk 2048 (clean 0) []].

(** [iflag=ff] *)
Definition fl_ff : Fl.t :=
  Fl.mk false false false true false false false false false false false
    false false false false 0.

(** Worker 0 of a copy of synthetic 0xff bytes to a regular file. *)
Definition ff_file : St.t :=
  fst (start (clp FT_RANDOM_0_FF FT_OTHER fl_ff (fl false) 0 0 8 0 false) 8
         false []).

(** [oflag=coe] *)
Definition fl_coe : Fl.t :=
  Fl.mk true false false false false false false false false false false
    false false false false 0.

(** Worker 0 of a copy of eight blocks between ordinary files with
    [oflag=coe], given the results of the calls to come. *)
Definition coe_file (oracle : list sysres) : St.t * locals :=
  start (clp FT_OTHER FT_OTHER (fl false) fl_coe 0 0 8 0 false) 8 false
    oracle.

(** Worker 0 of [sl] on entry to [sg_in_rd_cmd] for a segment of
    [num_blks] blocks, given the results of the calls to come. *)
Definition at_read (sl : St.t * locals) (num_blks : Z)
    (oracle : list sysres) : St.t :=
  St.set_oracle oracle
    (St.set_rep (R.set_num_blks num_blks (St.rep (fst sl))) (fst sl)).

End Ex.

(** * Properties *)

(** ** Facts about the machine-integer wraps *)

Lemma u8_range x : 0 <= u8 x < 256.
Proof. unfold u8. apply Z.mod_pos_bound. lia. Qed.

Lemma u32_range x : 0 <= u32 x < 4294967296.
Proof. unfold u32. apply Z.mod_pos_bound. lia. Qed.

Lemma u32_small x : 0 <= x < 4294967296 -> u32 x = x.
Proof. intros H. unfold u32. apply Z.mod_small. exact H. Qed.

Lemma u8_small x : 0 <= x < 256 -> u8 x = x.
Proof. intros H. unfold u8. apply Z.mod_small. exact H. Qed.

Lemma s32_small x : - 2147483648 <= x <= INT_MAX -> s32 x = x.
Proof.
  unfold s32, u32, INT_MAX. intros H.
  destruct (Z.ltb_spec (x mod 4294967296) 2147483648) as [Hlt|Hge].
  - destruct (Z_lt_le_dec x 0) as [Hn|Hp].
    + exfalso.
      assert (Hm : x mod 4294967296 = x + 4294967296).
      { symmetry. apply Z.mod_unique with (q := -1); lia. }
      lia.
    + apply Z.mod_small. lia.
  - destruct (Z_lt_le_dec x 0) as [Hn|Hp].
    + assert (Hm : x mod 4294967296 = x + 4294967296).
      { symmetry. apply Z.mod_unique with (q := -1); lia. }
      lia.
    + exfalso. rewrite Z.mod_small in Hge by lia. lia.
Qed.

Lemma s32_even x : Z.even (s32 (2 * x)) = true.
Proof.
  unfold s32, u32.
  assert (He : Z.even ((2 * x) mod 4294967296) = true).
  { replace 4294967296 with (2 * 2147483648) by reflexivity.
    rewrite Z.mul_mod_distr_l by lia. apply Z.even_mul. }
  destruct (_ <? _); [exact He|].
  rewrite Z.even_sub, He. reflexivity.
Qed.


(** ** Sanity checks of the CDB builder *)

Example build_read6 :
sg_build_scsi_cdb (replicate 16 0xee) 6 256 0x12345 false false false false
= (0, [0x08; 0x01; 0x23; 0x45; 0; 0] ++ replicate 10 0xee).
Proof. reflexivity. Qed.

Example build_write10 :
sg_build_scsi_cdb (replicate 16 0) 10 8 0x01020304 false true true false
= (0, [0x2a; 0x08; 1; 2; 3; 4; 0; 0; 8; 0; 0; 0; 0; 0; 0; 0]).
Proof. reflexivity. Qed.

(** ** Big-endian stores read back *)

Lemma byte_at_insert_eq (buf : list Z) (i : nat) (v : Z) :
  (i < length buf)%nat -> byte_at (<[i := v]> buf) i = v.
Proof.
  intros H. unfold byte_at. rewrite list_lookup_insert_eq by exact H.
  reflexivity.
Qed.

Lemma byte_at_insert_ne (buf : list Z) (i j : nat) (v : Z) :
  i <> j -> byte_at (<[i := v]> buf) j = byte_at buf j.
Proof.
  intros H. unfold byte_at. rewrite list_lookup_insert_ne by exact H.
  reflexivity.
Qed.

Lemma be24_combine (v : Z) :
  0 <= v < 16777216 ->
  Z.shiftl (u8 (Z.shiftr v 16)) 16 + Z.shiftl (u8 (Z.shiftr v 8)) 8 + u8 v = v.
Proof.
  intros Hv. unfold u8.
  rewrite !Z.shiftl_mul_pow2, !Z.shiftr_div_pow2 by lia.
  change (2 ^ 16) with 65536. change (2 ^ 8) with 256.
  assert (H1 : v = 256 * (v / 256) + v mod 256) by (apply Z.div_mod; lia).
  assert (H2 : v / 256 = 256 * (v / 256 / 256) + (v / 256) mod 256)
    by (apply Z.div_mod; lia).
  assert (H3 : v / 256 / 256 = v / 65536)
    by (rewrite Z.div_div by lia; reflexivity).
  assert (H4 : (v / 65536) mod 256 = v / 65536).
  { apply Z.mod_small. split; [apply Z.div_pos; lia|].
    apply Z.div_lt_upper_bound; lia. }
  lia.
Qed.

Lemma be32_combine (v : Z) :
  0 <= v < 4294967296 ->
  Z.shiftl (u8 (Z.shiftr v 24)) 24 + Z.shiftl (u8 (Z.shiftr v 16)) 16
  + Z.shiftl (u8 (Z.shiftr v 8)) 8 + u8 v = v.
Proof.
  intros Hv. unfold u8.
  rewrite !Z.shiftl_mul_pow2, !Z.shiftr_div_pow2 by lia.
  change (2 ^ 24) with 16777216. change (2 ^ 16) with 65536.
  change (2 ^ 8) with 256.
  assert (H1 : v = 256 * (v / 256) + v mod 256) by (apply Z.div_mod; lia).
  assert (H2 : v / 256 = 256 * (v / 256 / 256) + (v / 256) mod 256)
    by (apply Z.div_mod; lia).
  assert (H3 : v / 256 / 256 = v / 65536)
    by (rewrite Z.div_div by lia; reflexivity).
  assert (H5 : v / 65536 = 256 * (v / 65536 / 256) + (v / 65536) mod 256)
    by (apply Z.div_mod; lia).
  assert (H6 : v / 65536 / 256 = v / 16777216)
    by (rewrite Z.div_div by lia; reflexivity).
  assert (H4 : (v / 16777216) mod 256 = v / 16777216).
  { apply Z.mod_small. split; [apply Z.div_pos; lia|].
    apply Z.div_lt_upper_bound; lia. }
  lia.
Qed.

Lemma length_put_be32 (v : Z) (p : nat) (buf : list Z) :
  length (sg_put_unaligned_be32 v p buf) = length buf.
Proof. unfold sg_put_unaligned_be32. rewrite !length_insert. reflexivity. Qed.

Lemma get_put_be32 (v : Z) (p : nat) (buf : list Z) :
  0 <= v < 4294967296 -> (p + 3 < length buf)%nat ->
  sg_get_unaligned_be32 (sg_put_unaligned_be32 v p buf) p = v.
Proof.
  intros Hv Hp. unfold sg_get_unaligned_be32, sg_put_unaligned_be32.
  rewrite (byte_at_insert_eq _ (p + 3)) by (rewrite !length_insert; lia).
  rewrite (byte_at_insert_ne _ (p + 3) (p + 2)) by lia.
  rewrite (byte_at_insert_eq _ (p + 2)) by (rewrite !length_insert; lia).
  rewrite (byte_at_insert_ne _ (p + 3) (p + 1)) by lia.
  rewrite (byte_at_insert_ne _ (p + 2) (p + 1)) by lia.
  rewrite (byte_at_insert_eq _ (p + 1)) by (rewrite !length_insert; lia).
  rewrite (byte_at_insert_ne _ (p + 3) p) by lia.
  rewrite (byte_at_insert_ne _ (p + 2) p) by lia.
  rewrite (byte_at_insert_ne _ (p + 1) p) by lia.
  rewrite (byte_at_insert_eq _ p) by lia.
  apply be32_combine. exact Hv.
Qed.

(** A store leaves a word at a disjoint place as it was. *)
Lemma get_put_be32_other (v : Z) (p q : nat) (buf : list Z) :
  (q + 3 < p \/ p + 3 < q)%nat ->
  sg_get_unaligned_be32 (sg_put_unaligned_be32 v p buf) q
  = sg_get_unaligned_be32 buf q.
Proof.
  intros Hd. unfold sg_get_unaligned_be32, sg_put_unaligned_be32.
  rewrite !byte_at_insert_ne by lia. reflexivity.
Qed.

Lemma get_put_be24 (v : Z) (p : nat) (buf : list Z) :
  0 <= v < 16777216 -> (p + 2 < length buf)%nat ->
  sg_get_unaligned_be24 (sg_put_unaligned_be24 v p buf) p = v.
Proof.
  intros Hv Hp. unfold sg_get_unaligned_be24, sg_put_unaligned_be24.
  rewrite (byte_at_insert_eq _ (p + 2)) by (rewrite !length_insert; lia).
  rewrite (byte_at_insert_ne _ (p + 2) (p + 1)) by lia.
  rewrite (byte_at_insert_eq _ (p + 1)) by (rewrite !length_insert; lia).
  rewrite (byte_at_insert_ne _ (p + 2) p) by lia.
  rewrite (byte_at_insert_ne _ (p + 1) p) by lia.
  rewrite (byte_at_insert_eq _ p) by lia.
  apply be24_combine. exact Hv.
Qed.

(** ** The 6-byte CDB *)

(** [x & ~0x1fffff] is zero exactly for [x] in [0, 0x1fffff]; a negative
    [x] has all its high bits set. *)
Lemma land_lnot_1fffff (x : Z) :
  Z.land x (Z.lnot 0x1fffff) = 0 <-> 0 <= x <= 0x1fffff.
Proof.
  change 0x1fffff with (Z.ones 21).
  change (Z.land x (Z.lnot (Z.ones 21))) with (Z.ldiff x (Z.ones 21)).
  rewrite Z.ldiff_ones_r by lia.
  rewrite Z.shiftl_mul_pow2, Z.shiftr_div_pow2 by lia.
  change (2 ^ 21) with 2097152. change (Z.ones 21) with 2097151.
  split.
  - intros H. assert (Hq : x / 2097152 = 0) by lia.
    apply Z.div_small_iff in Hq; lia.
  - intros H. rewrite Z.div_small by lia. reflexivity.
Qed.

Lemma land_1fffff (x : Z) : Z.land 0x1fffff x = x mod 2097152.
Proof.
  rewrite Z.land_comm. change 0x1fffff with (Z.ones 21).
  rewrite Z.land_ones by lia. reflexivity.
Qed.

Lemma length_memset0 (n : Z) (buf : list Z) :
  length (memset0 n buf) = length buf.
Proof.
  unfold memset0. rewrite length_app, length_replicate, length_drop. lia.
Qed.

(** C6, the claim as stated fails: a request for zero blocks at LBA 0 with
    neither DPO nor FUA has a last addressed LBA of [-1], which does not
    exceed [0x1FFFFF], and a block count that does not exceed 256, yet
    [sg_build_scsi_cdb] returns 1. *)
Lemma cdb6_zero_blocks_rejected :
  fst (sg_build_scsi_cdb (replicate 16 0) 6 0 0 false false false false) = 1
  /\ ~ (256 < 0 \/ 0x1fffff < 0 + 0 - 1 \/ false = true \/ false = true).
Proof. split; [reflexivity | intros [H|[H|[H|H]]]; [lia | lia | discriminate..]]. Qed.

(** C6 (amended): a 6-byte READ or WRITE build fails exactly when the block
    count exceeds 256, or the last addressed LBA [start_block + blocks - 1]
    lies outside [0, 0x1FFFFF] (above it, or below zero as for a
    zero-block request at LBA 0), or DPO or FUA is requested; otherwise it
    returns 0 with the READ(6)/WRITE(6) opcode in byte 0, the low 21 bits
    of the LBA in bytes 1 to 3 and the block count in byte 4, where 256 is
    encoded as 0. *)
Theorem sg_build_scsi_cdb_6byte (cdbp : list Z) (blocks start_block : Z)
    (write_true fua dpo : bool) :
  length cdbp = 16%nat -> 0 <= blocks < 4294967296 ->
  let r := sg_build_scsi_cdb cdbp 6 blocks start_block false write_true
             fua dpo in
  (fst r <> 0 <->
     256 < blocks \/ start_block + blocks - 1 < 0
     \/ 0x1fffff < start_block + blocks - 1 \/ dpo = true \/ fua = true)
  /\ (fst r = 0 ->
      snd r !! 0%nat = Some (if write_true then 0x0a else 0x08)
      /\ sg_get_unaligned_be24 (snd r) 1 = start_block mod 2097152
      /\ snd r !! 4%nat = Some (if blocks =? 256 then 0 else blocks)).
Proof.
  intros Hlen Hb. cbv zeta.
  unfold sg_build_scsi_cdb. cbn [andb].
  change (6 =? 6) with true. cbv iota.
  set (c0 := memset0 6 cdbp).
  assert (Hc0 : length c0 = 16%nat) by (unfold c0; rewrite length_memset0; exact Hlen).
  set (c1 := if dpo then or_byte 1 16 c0 else c0).
  assert (Hc1 : length c1 = 16%nat).
  { unfold c1, or_byte. destruct dpo; rewrite ?length_insert; exact Hc0. }
  set (c2 := if fua then or_byte 1 8 c1 else c1).
  assert (Hc2 : length c2 = 16%nat).
  { unfold c2, or_byte. destruct fua; rewrite ?length_insert; exact Hc1. }
  set (c3 := <[0%nat := rw_opcode write_true 0]> c2).
  assert (Hc3 : length c3 = 16%nat) by (unfold c3; rewrite length_insert; exact Hc2).
  set (c4 := sg_put_unaligned_be24 (Z.land 2097151 start_block) 1 c3).
  set (c5 := <[4%nat := if blocks =? 256 then 0 else u8 blocks]> c4).
  pose proof (land_lnot_1fffff (start_block + blocks - 1)) as Hmask.
  destruct (Z.ltb_spec 256 blocks) as [Hbig|Hsmall]; cbn [fst snd].
  { split; [split; [intros _; left; exact Hbig | intros _; lia] | intros H; lia]. }
  destruct (Z.eqb_spec (Z.land (start_block + blocks - 1) (Z.lnot 2097151)) 0)
    as [Hz|Hnz]; cbn [negb fst snd].
  2:{ split; [split; [intros _ | intros _; lia] | intros H; lia].
      assert (Hr : ~ 0 <= start_block + blocks - 1 <= 2097151)
        by (intros Hr; apply Hnz, Hmask, Hr).
      lia. }
  apply Hmask in Hz.
  destruct dpo, fua; cbn [orb fst snd];
    try (split; [split; [intros _; auto | intros _; lia] | intros H; lia]).
  split.
  { split; [intros H; exfalso; apply H; reflexivity|].
    intros [H|[H|[H|[H|H]]]]; try lia; discriminate. }
  intros _.
  assert (Hland : 0 <= Z.land 2097151 start_block < 16777216).
  { rewrite land_1fffff.
    pose proof (Z.mod_pos_bound start_block 2097152). lia. }
  split; [|split].
  - unfold c5, c4, sg_put_unaligned_be24.
    rewrite !list_lookup_insert_ne by lia.
    unfold c3. rewrite list_lookup_insert_eq by lia.
    destruct write_true; reflexivity.
  - unfold c5, sg_get_unaligned_be24.
    rewrite !(byte_at_insert_ne _ 4) by lia.
    fold (sg_get_unaligned_be24 c4 1).
    unfold c4. rewrite get_put_be24 by (rewrite ?Hc3; lia).
    apply land_1fffff.
  - unfold c5. rewrite list_lookup_insert_eq.
    + destruct (Z.eqb_spec blocks 256); [reflexivity|].
      rewrite u8_small by lia. reflexivity.
    + unfold c4, sg_put_unaligned_be24. rewrite !length_insert. lia.
Qed.

(** A run of C6's theorem on a READ(6) of 256 blocks at LBA 0x12345. *)
Lemma sg_build_scsi_cdb_6byte_witness :
  let r := sg_build_scsi_cdb (replicate 16 0xee) 6 256 0x12345 false false
             false false in
  (fst r <> 0 <->
     256 < 256 \/ 0x12345 + 256 - 1 < 0
     \/ 0x1fffff < 0x12345 + 256 - 1 \/ false = true \/ false = true)
  /\ (fst r = 0 ->
      snd r !! 0%nat = Some (if false then 0x0a else 0x08)
      /\ sg_get_unaligned_be24 (snd r) 1 = 0x12345 mod 2097152
      /\ snd r !! 4%nat = Some (if 256 =? 256 then 0 else 256)).
Proof.
  apply (sg_build_scsi_cdb_6byte (replicate 16 0xee) 256 0x12345 false false
           false); [reflexivity | lia].
Defined.

(** ** Ordinary reads: the short read *)

Lemma set_oracle_twice o o' s : St.set_oracle o (St.set_oracle o' s) = St.set_oracle o s.
Proof. destruct s; reflexivity. Qed.

(** The retry loop skips the retryable errors and yields the first other
    result. *)
Lemma retry_rw_skips (retries : list Z) : forall fuel s r rest,
  St.oracle s = map SysErr retries ++ r :: rest ->
  forallb retryable_rw retries = true -> final_rw r = true ->
  (length retries < fuel)%nat ->
  retry_rw fuel s = Ret r (St.set_oracle rest s).
Proof.
  induction retries as [|e retries IH]; intros fuel s r rest Ho Hall Hfin Hf.
  - destruct fuel as [|fuel]; [simpl in Hf; lia|].
    simpl. unfold mbind, M_bind, bind, syscall. rewrite Ho. simpl.
    destruct r as [e|]; [|reflexivity].
    simpl in Hfin. unfold retryable_rw in Hfin.
    destruct ((e =? EINTR) || (e =? EAGAIN)); [discriminate|reflexivity].
  - destruct fuel as [|fuel]; [simpl in Hf; lia|].
    simpl in Hall. apply andb_prop in Hall as [He Hall].
    simpl. unfold mbind, M_bind, bind, syscall. rewrite Ho. simpl.
    unfold retryable_rw in He. rewrite He.
    erewrite (IH fuel _ r rest); [|destruct s; reflexivity|exact Hall|exact Hfin|simpl in Hf; lia].
    rewrite set_oracle_twice. reflexivity.
Qed.

Lemma quot_rem_ceil (res bs : Z) :
  0 <= res -> 0 < bs ->
  Z.quot res bs + (if 0 <? Z.rem res bs then 1 else 0) = ceil_div res bs.
Proof.
  intros Hr Hb. unfold ceil_div.
  rewrite Z.quot_div_nonneg, Z.rem_mod_nonneg by lia.
  pose proof (Z.div_mod res bs ltac:(lia)) as Hdm.
  pose proof (Z.mod_pos_bound res bs Hb) as Hm.
  destruct (Z.ltb_spec 0 (res mod bs)) as [Hp|Hz].
  - apply Z.div_unique with (r := res mod bs - 1); lia.
  - apply Z.div_unique with (r := bs - 1); lia.
Qed.

Lemma in_rd_tail_short (s : St.t) (res blocks : Z) :
  0 < R.bs (St.rep s) -> 0 <= res < blocks * R.bs (St.rep s) ->
  - 2147483648 <= G.in_partial (St.clp s) < INT_MAX ->
  exists s',
    in_rd_tail res blocks s = Ret true s'
    /\ R.num_blks (St.rep s') = ceil_div res (R.bs (St.rep s))
    /\ G.in_partial (St.clp s')
       = G.in_partial (St.clp s)
         + (if res mod R.bs (St.rep s) =? 0 then 0 else 1)
    /\ G.in_rem_count (St.clp s')
       = G.in_rem_count (St.clp s) - ceil_div res (R.bs (St.rep s))
    /\ St.oracle s' = St.oracle s.
Proof.
  intros Hbs Hres Hpart.
  unfold in_rd_tail.
  unfold mbind, M_bind, mret, M_ret, bind, ret, get_rep.
  destruct (Z.ltb_spec res (blocks * R.bs (St.rep s))) as [_|Hge]; [|lia].
  rewrite quot_rem_ceil by lia.
  rewrite Z.rem_mod_nonneg by lia.
  pose proof (Z.mod_pos_bound res (R.bs (St.rep s)) Hbs) as Hm.
  destruct (Z.ltb_spec 0 (res mod R.bs (St.rep s))) as [Hp|Hz].
  - eexists. split; [reflexivity|].
    destruct s as [clp g rep da kt o]. cbn in *.
    destruct (Z.eqb_spec (res mod R.bs rep) 0) as [He|_]; [lia|].
    repeat split; try reflexivity.
    rewrite s32_small by (unfold INT_MAX in *; lia). reflexivity.
  - eexists. split; [reflexivity|].
    destruct s as [clp g rep da kt o]. cbn in *.
    destruct (Z.eqb_spec (res mod R.bs rep) 0) as [_|Hne]; [|lia].
    repeat split; try reflexivity. lia.
Qed.

(** C7: on a regular file or block device, when the [read] (after the
    [lseek] of a worker with its own descriptor, and after any number of
    [EINTR]/[EAGAIN] retries) delivers [res] bytes with
    [0 <= res < blocks * bs], [normal_in_rd] returns [true] (the caller's
    [stop_after_write]), sets the segment's block count to
    [ceil(res / bs)], increments [in_partial] exactly when [res] is not a
    multiple of [bs], and takes the reduced block count off
    [in_rem_count]. *)
Theorem normal_in_rd_short_read (s : St.t) (blocks res : Z)
    (retries : list Z) (seek_res : sysres) (resp : kresp)
    (elems : list kresp) (rest : list sysres) :
  let clp := St.clp s in
  let rep := St.rep s in
  let same_fds := Fl.same_fds (G.in_flags clp) || Fl.same_fds (G.out_flags clp) in
  let bs := R.bs rep in
  G.in_type clp = FT_OTHER \/ G.in_type clp = FT_BLOCK ->
  forallb retryable_rw retries = true ->
  St.oracle s
  = (if same_fds then [] else [seek_res])
    ++ map SysErr retries ++ SysOk res resp elems :: rest ->
  (exists r0 resp0 el0, seek_res = SysOk r0 resp0 el0) ->
  0 < bs -> 0 <= res < blocks * bs ->
  - 2147483648 <= G.in_partial clp < INT_MAX ->
  exists s',
    normal_in_rd blocks s = Ret true s'
    /\ R.num_blks (St.rep s') = ceil_div res bs
    /\ G.in_partial (St.clp s')
       = G.in_partial clp + (if res mod bs =? 0 then 0 else 1)
    /\ G.in_rem_count (St.clp s') = G.in_rem_count clp - ceil_div res bs
    /\ St.oracle s' = rest.
Proof.
  destruct s as [clp g rep da kt o]. cbn [St.clp St.rep St.oracle].
  intros Hty Hall Ho (r0 & resp0 & el0 & ->) Hbs Hres Hpart.
  assert (Hnr : (G.in_type clp =? FT_RANDOM_0_FF) = false).
  { apply Z.eqb_neq. destruct Hty as [-> | ->]; discriminate. }
  unfold normal_in_rd.
  unfold mbind, M_bind, mret, M_ret, bind, ret, get_clp, get_rep.
  cbn [St.clp St.rep]. rewrite Hnr.
  destruct (Fl.same_fds (G.in_flags clp) || Fl.same_fds (G.out_flags clp));
    cbn [negb app] in Ho |- *; subst o.
  - unfold with_fuel.
    erewrite (retry_rw_skips retries);
      [| reflexivity | exact Hall | reflexivity
       | cbn [St.oracle]; rewrite ?length_app, ?length_map; simpl;
         rewrite ?length_app, ?length_map; simpl; lia].
    unfold emit, upd_rep, modify. cbn.
    match goal with
    | |- exists s', in_rd_tail ?r ?b ?st = _ /\ _ =>
      destruct (in_rd_tail_short st r b) as (s' & Hrun & H1 & H2 & H3 & H4);
        [exact Hbs | exact Hres | exact Hpart |]
    end.
    exists s'. cbn in *. auto.
  - unfold syscall. cbn [St.oracle app].
    unfold emit, modify.
    cbn [St.set_oracle St.set_ktrace St.clp St.glob St.rep St.def_arr St.ktrace St.oracle].
    unfold with_fuel. cbn [negb]. cbv beta iota. cbn [St.oracle].
    erewrite (retry_rw_skips retries);
      [| reflexivity | exact Hall | reflexivity
       | cbn [St.oracle]; rewrite ?length_app, ?length_map; simpl;
         rewrite ?length_app, ?length_map; simpl; lia].
    unfold emit, upd_rep, modify. cbn.
    match goal with
    | |- exists s', in_rd_tail ?r ?b ?st = _ /\ _ =>
      destruct (in_rd_tail_short st r b) as (s' & Hrun & H1 & H2 & H3 & H4);
        [exact Hbs | exact Hres | exact Hpart |]
    end.
    exists s'. cbn in *. auto.
Qed.

(** C7 at work on [Ex.file_sg_mrq]: 1024 of 2048 bytes read. *)
Lemma normal_in_rd_short_read_witness :
  (G.in_type (St.clp (fst Ex.file_sg_mrq)) = FT_OTHER
   \/ G.in_type (St.clp (fst Ex.file_sg_mrq)) = FT_BLOCK)
  /\ 0 <= 1024 < 4 * R.bs (St.rep (fst Ex.file_sg_mrq))
  /\ exists s',
       normal_in_rd 4 (fst Ex.file_sg_mrq) = Ret true s'
       /\ R.num_blks (St.rep s') = 2
       /\ G.in_partial (St.clp s') = 0
       /\ G.in_rem_count (St.clp s') = 6
       /\ St.oracle s' = [].
Proof.
  split; [left; reflexivity|]. split; [cbn; lia|].
  apply (normal_in_rd_short_read (fst Ex.file_sg_mrq) 4 1024 [] (ok 0)
           (mk_kresp 0 0 0 0 0 0 0 0 NullPtr false 0 None (replicate 1024 7))
           [] []).
  - left; reflexivity.
  - reflexivity.
  - reflexivity.
  - eexists _, _, _; reflexivity.
  - cbn; lia.
  - cbn; lia.
  - cbn; unfold INT_MAX; lia.
Defined.

(** ** The address pattern and the address check *)

Lemma length_fill_words (fuel : nat) : forall pos off j bs buf,
  length (fill_words fuel pos off j bs buf) = length buf.
Proof.
  induction fuel as [|fuel IH]; intros pos off j bs buf; simpl; [reflexivity|].
  destruct (j <? bs - 3); [|reflexivity].
  rewrite IH. apply length_put_be32.
Qed.

(** After the inner filler loop every aligned word of the block from
    offset [j] on holds [pos]; words outside the block are as before. *)
Lemma fill_words_spec (fuel : nat) : forall pos off j bs buf,
  0 <= pos < 4294967296 -> 0 <= off -> 0 <= j ->
  off + bs <= Z.of_nat (length buf) ->
  bs - 3 - j <= 4 * Z.of_nat fuel ->
  let res := fill_words fuel pos off j bs buf in
  (forall i, 0 <= i -> j + 4 * i < bs - 3 ->
     sg_get_unaligned_be32 res (Z.to_nat (off + j + 4 * i)) = pos)
  /\ (forall q, (q + 3 < Z.to_nat (off + j) \/ Z.to_nat (off + bs) <= q)%nat ->
        sg_get_unaligned_be32 res q = sg_get_unaligned_be32 buf q).
Proof.
  induction fuel as [|fuel IH]; intros pos off j bs buf Hpos Hoff Hj Hlen Hfuel.
  - simpl. split; [intros i Hi Hlt; lia | reflexivity].
  - simpl. destruct (Z.ltb_spec j (bs - 3)) as [Hlt|Hge].
    2:{ split; [intros i Hi Hlt; lia | reflexivity]. }
    set (buf' := sg_put_unaligned_be32 pos (Z.to_nat (off + j)) buf).
    assert (Hlen' : off + bs <= Z.of_nat (length buf'))
      by (unfold buf'; rewrite length_put_be32; exact Hlen).
    destruct (IH pos off (j + 4) bs buf' Hpos Hoff ltac:(lia) Hlen' ltac:(lia))
      as [Hin Hout].
    split.
    + intros i Hi Hlti.
      destruct (Z.eq_dec i 0) as [->|Hne].
      * rewrite Hout by lia.
        replace (off + j + 4 * 0) with (off + j) by lia.
        unfold buf'. apply get_put_be32; [exact Hpos | lia].
      * replace (off + j + 4 * i) with (off + (j + 4) + 4 * (i - 1)) by lia.
        apply Hin; lia.
    + intros q Hq. rewrite Hout by lia.
      unfold buf'. apply get_put_be32_other. lia.
Qed.

Lemma u32_add_l (a b : Z) : u32 (u32 a + b) = u32 (a + b).
Proof. unfold u32. apply Zplus_mod_idemp_l. Qed.

Lemma length_fill_blocks (fuel : nat) : forall k blocks pos off bs buf,
  length (fill_blocks fuel k blocks pos off bs buf) = length buf.
Proof.
  induction fuel as [|fuel IH]; intros k n pos off bs buf; simpl;
    [reflexivity|].
  destruct (k <? n); [|reflexivity].
  rewrite IH. apply length_fill_words.
Qed.

(** After the outer filler loop block [k + m] holds [pos + m] in every
    aligned word; earlier blocks are as before. *)
Lemma fill_blocks_spec (fuel : nat) : forall k blocks pos bs buf,
  4 <= bs -> 0 <= k -> 0 <= pos < 4294967296 ->
  blocks * bs <= Z.of_nat (length buf) ->
  Z.of_nat (length buf) < 4294967296 ->
  blocks - k <= Z.of_nat fuel ->
  let res := fill_blocks fuel k blocks pos (k * bs) bs buf in
  (forall m i, 0 <= m -> k + m < blocks -> 0 <= i -> 4 * i < bs - 3 ->
     sg_get_unaligned_be32 res (Z.to_nat ((k + m) * bs + 4 * i))
     = u32 (pos + m))
  /\ (forall q, (q + 3 < Z.to_nat (k * bs))%nat ->
        sg_get_unaligned_be32 res q = sg_get_unaligned_be32 buf q).
Proof.
  induction fuel as [|fuel IH];
    intros k blocks pos bs buf Hbs Hk Hpos Hlen Hmax Hfuel.
  - simpl. split; [intros m i Hm Hlt; lia | reflexivity].
  - simpl. destruct (Z.ltb_spec k blocks) as [Hlt|Hge].
    2:{ split; [intros m i Hm Hkm; lia | reflexivity]. }
    assert (Hk1 : (k + 1) * bs <= blocks * bs) by nia.
    set (buf' := fill_words (Z.to_nat bs) pos (k * bs) 0 bs buf).
    assert (Hl' : length buf' = length buf) by apply length_fill_words.
    destruct (fill_words_spec (Z.to_nat bs) pos (k * bs) 0 bs buf Hpos
                ltac:(nia) ltac:(lia) ltac:(nia) ltac:(lia)) as [Hin Hout].
    fold buf' in Hin, Hout.
    replace (u32 (k * bs + bs)) with ((k + 1) * bs)
      by (rewrite u32_small by nia; lia).
    destruct (IH (k + 1) blocks (u32 (pos + 1)) bs buf' Hbs ltac:(lia)
                (u32_range _) ltac:(lia) ltac:(lia) ltac:(lia))
      as [Hin' Hout'].
    split.
    + intros m i Hm Hkm Hi H4i.
      destruct (Z.eq_dec m 0) as [->|Hne].
      * rewrite Hout' by nia.
        replace ((k + 0) * bs + 4 * i) with (k * bs + 0 + 4 * i) by lia.
        rewrite Hin by lia. rewrite Z.add_0_r, u32_small by lia. reflexivity.
      * replace ((k + m) * bs + 4 * i) with ((k + 1 + (m - 1)) * bs + 4 * i)
          by lia.
        rewrite Hin' by lia. rewrite u32_add_l. f_equal. lia.
    + intros q Hq. rewrite Hout' by nia. apply Hout. lia.
Qed.

Lemma chk_words_pass (fuel : nat) : forall buf addr off j num,
  0 <= j -> num - j <= 4 * Z.of_nat fuel ->
  (forall i, 0 <= i -> j + 4 * i < num ->
     sg_get_unaligned_be32 buf (Z.to_nat (off + j + 4 * i)) = addr) ->
  num <= chk_words fuel buf addr off j num.
Proof.
  induction fuel as [|fuel IH]; intros buf addr off j num Hj Hfuel Hall.
  - simpl. lia.
  - simpl. destruct (Z.ltb_spec j num) as [Hlt|Hge]; [|lia].
    specialize (Hall 0 ltac:(lia) ltac:(lia)) as H0.
    replace (off + j + 4 * 0) with (off + j) in H0 by lia.
    rewrite H0, Z.eqb_refl. cbn [negb].
    apply IH; [lia | lia |].
    intros i Hi Hlti.
    replace (off + (j + 4) + 4 * i) with (off + j + 4 * (i + 1)) by lia.
    apply Hall; lia.
Qed.

Lemma chk_blocks_pass (fuel : nat) : forall buf k blocks addr bs num,
  0 <= k -> 0 <= num ->
  (forall m i, 0 <= m -> k + m < blocks -> 0 <= i -> 4 * i < num ->
     sg_get_unaligned_be32 buf (Z.to_nat ((k + m) * bs + 4 * i))
     = u32 (addr + m)) ->
  0 <= addr < 4294967296 ->
  blocks <= chk_blocks fuel buf k blocks addr (k * bs) bs num
  \/ (Z.of_nat fuel < blocks - k).
Proof.
  induction fuel as [|fuel IH]; intros buf k blocks addr bs num Hk Hnum Hall Ha.
  - simpl. lia.
  - simpl. destruct (Z.ltb_spec k blocks) as [Hlt|Hge]; [|left; lia].
    assert (Hw : num <= chk_words (Z.to_nat num) buf addr (k * bs) 0 num).
    { apply chk_words_pass; [lia | lia |].
      intros i Hi Hlti.
      replace (k * bs + 0 + 4 * i) with ((k + 0) * bs + 4 * i) by lia.
      rewrite Hall by lia. rewrite Z.add_0_r. apply u32_small. exact Ha. }
    destruct (Z.ltb_spec (chk_words (Z.to_nat num) buf addr (k * bs) 0 num) num)
      as [Hbad|_]; [lia|].
    replace (k * bs + bs) with ((k + 1) * bs) by lia.
    destruct (IH buf (k + 1) blocks (u32 (addr + 1)) bs num ltac:(lia) Hnum)
      as [Hok|Hf].
    + intros m i Hm Hkm Hi H4i.
      replace (k + 1 + m) with (k + (m + 1)) by lia.
      rewrite Hall by lia. rewrite u32_add_l. f_equal. lia.
    + apply u32_range.
    + left. exact Hok.
    + right. lia.
Qed.

(** C9: a segment of [blocks] blocks of [bs >= 4] bytes filled by the
    [iflag=00,ff] source for block address [iblk] passes the address check
    for [iblk], for the single-word check ([c_addr = 1]) and for the
    whole-block check (any other [c_addr]).  The buffer holds the segment
    and is addressable with 32 bits, as the filler's [uint32_t] offset
    requires. *)
Theorem addr_fill_passes_chkaddr (buf : list Z) (iblk blocks bs c_addr : Z) :
  4 <= bs -> 0 <= blocks ->
  blocks * bs <= Z.of_nat (length buf) ->
  Z.of_nat (length buf) < 4294967296 ->
  chkaddr_fails c_addr (fill_addr iblk blocks bs buf) iblk blocks bs = false.
Proof.
  intros Hbs Hb Hlen Hmax. unfold chkaddr_fails, fill_addr.
  set (num := if c_addr =? 1 then 4 else bs - 3).
  assert (Hnum : 0 <= num /\ forall i, 0 <= i -> 4 * i < num -> 4 * i < bs - 3).
  { unfold num. destruct (c_addr =? 1); split; intros; lia. }
  destruct Hnum as [Hnum0 Hnum].
  destruct (fill_blocks_spec (Z.to_nat blocks) 0 blocks (u32 iblk) bs buf Hbs
              ltac:(lia) (u32_range _) Hlen Hmax ltac:(lia)) as [Hin _].
  change (0 * bs) with 0 in Hin.
  apply Z.ltb_ge.
  destruct (chk_blocks_pass (Z.to_nat blocks)
              (fill_blocks (Z.to_nat blocks) 0 blocks (u32 iblk) 0 bs buf)
              0 blocks (u32 iblk) bs num) as [Hok|Hf].
  - lia.
  - exact Hnum0.
  - intros m i Hm Hkm Hi H4i. apply Hin; try lia. apply Hnum; lia.
  - apply u32_range.
  - exact Hok.
  - lia.
Qed.

(** C9 at work: four blocks of 512 bytes from block address 0x01020304,
    whole-block check. *)
Lemma addr_fill_passes_chkaddr_witness :
  4 <= 512 /\ 0 <= 4
  /\ 4 * 512 <= Z.of_nat (length (replicate 2048 0))
  /\ chkaddr_fails 2 (fill_addr 0x01020304 4 512 (replicate 2048 0))
       0x01020304 4 512 = false.
Proof.
  split; [lia|]. split; [lia|]. split; [rewrite length_replicate; lia|].
  apply (addr_fill_passes_chkaddr (replicate 2048 0) 0x01020304 4 512 2);
    rewrite ?length_replicate; lia.
Defined.

(** ** Finishing a deferred command *)

(** C10: with MRQ batching on ([nmrqs > 0]) and the v4 interface on the
    side in question, [sg_finish_io] returns 0 and sets [resid] to 0 and
    does nothing else: no call result is consumed and no call reaches the
    kernel, whatever completion (clean or failed, with or without a
    residual) is waiting.  Errors of deferred commands thus never show
    through this path. *)
Theorem sg_finish_io_mrq_v4 (s : St.t) (wr : bool) (pack_id : Z)
    (xtrp : option X.t) :
  0 < G.nmrqs (St.clp s) ->
  Fl.v4 (side_flags wr (St.clp s)) = true ->
  sg_finish_io wr pack_id xtrp s
  = Ret 0 (St.set_rep (R.set_resid 0 (St.rep s)) s).
Proof.
  intros Hn Hv4. unfold sg_finish_io.
  unfold mbind, M_bind, mret, M_ret, bind, ret, get_clp, get_rep.
  rewrite Hv4.
  destruct (Z.ltb_spec 0 (G.nmrqs (St.clp s))) as [_|Hle]; [|lia].
  reflexivity.
Qed.

(** C10 at work on [Ex.file_sg_mrq], whose next call result is unused. *)
Lemma sg_finish_io_mrq_v4_witness :
  0 < G.nmrqs (St.clp (fst Ex.file_sg_mrq))
  /\ Fl.v4 (side_flags true (St.clp (fst Ex.file_sg_mrq))) = true
  /\ sg_finish_io true 7 None (fst Ex.file_sg_mrq)
     = Ret 0 (St.set_rep (R.set_resid 0 (St.rep (fst Ex.file_sg_mrq)))
                (fst Ex.file_sg_mrq)).
Proof.
  split; [cbn; lia|]. split; [reflexivity|].
  apply (sg_finish_io_mrq_v4 (fst Ex.file_sg_mrq) true 7 None);
    [cbn; lia | reflexivity].
Defined.

(** Without MRQ the same call does take a completion: the early return is
    what hides it. *)
Example sg_finish_io_single_sees_error :
  exists s', sg_finish_io true 3 None
               (St.set_oracle
                  [SysOk 0 (mk_kresp 1 0 0 2 0 0 18 0 (RepPtr 0) false
                              SG_LIB_CAT_MEDIUM_HARD (Some 0x70) []) []]
                  (fst Ex.sg_sg_split))
             = Ret SG_LIB_CAT_MEDIUM_HARD s'.
Proof. eexists. vm_compute. reflexivity. Qed.

(** ** Exit status *)

(** The guarded writers ([if (exit_status <= 0) exit_status = res;]) in
    the order in which they run. *)
Lemma record_exit_status_run (res : Z) (s : St.t) :
  record_exit_status res s
  = Ret tt (St.set_glob
              (if Glob.exit_status (St.glob s) <=? 0
               then Glob.set_exit_status res (St.glob s)
               else St.glob s) s).
Proof. reflexivity. Qed.

Lemma main_exit_positive (c out_count dry_run : Z) :
  0 < c -> main_exit c out_count dry_run = c.
Proof.
  intros Hc. unfold main_exit.
  destruct (negb (out_count =? 0) && (dry_run =? 0)).
  - destruct (Z.eqb_spec c 0); [lia|].
    destruct (Z.leb_spec 0 c); [reflexivity | lia].
  - destruct (Z.leb_spec 0 c); [reflexivity | lia].
Qed.

(** C2, the claim as stated fails: after [--dry-run] the out-count is still
    the whole count and no error was classified, and [main] returns 0, not
    [SG_LIB_CAT_OTHER]. *)
Lemma main_exit_dry_run_is_zero :
  main_exit 0 8 1 = 0 /\ 8 <> 0 /\ 0 <> SG_LIB_CAT_OTHER.
Proof. repeat split; discriminate. Qed.

Lemma last_cons_default (z : Z) (l : list Z) (d d' : Z) :
  List.last (z :: l) d = List.last (z :: l) d'.
Proof.
  revert z. induction l as [|y l IH]; intros z; [reflexivity|].
  change (List.last (y :: l) d = List.last (y :: l) d'). apply IH.
Qed.

Lemma record_all_exit_status (recs : list Z) : forall s,
  Glob.exit_status (St.glob s) <= 0 ->
  exists s',
    record_all recs s = Ret tt s'
    /\ St.clp s' = St.clp s
    /\ Glob.exit_status (St.glob s')
       = match first_category recs with
         | Some c => c
         | None => List.last recs (Glob.exit_status (St.glob s))
         end
    /\ (first_category recs = None -> Glob.exit_status (St.glob s') <= 0).
Proof.
  induction recs as [|r recs IH]; intros s He.
  - exists s. cbn. auto.
  - cbn [record_all]. unfold mbind, M_bind, bind.
    rewrite record_exit_status_run.
    destruct (Z.leb_spec (Glob.exit_status (St.glob s)) 0) as [_|Hgt]; [|lia].
    unfold first_category. cbn [find].
    destruct (Z.ltb_spec 0 r) as [Hpos|Hnp].
    + (* the first category: later writers find [exit_status > 0] *)
      clear IH. revert s He.
      assert (Hkeep : forall recs s, Glob.exit_status (St.glob s) = r ->
                exists s', record_all recs s = Ret tt s'
                           /\ St.clp s' = St.clp s
                           /\ Glob.exit_status (St.glob s') = r).
      { clear recs. induction recs as [|r' recs IH']; intros s Hs.
        - exists s. cbn. auto.
        - cbn [record_all]. unfold mbind, M_bind, bind.
          rewrite record_exit_status_run.
          destruct (Z.leb_spec (Glob.exit_status (St.glob s)) 0); [lia|].
          destruct (IH' (St.set_glob (St.glob s) s)) as (s' & H1 & H2 & H3).
          { destruct s; exact Hs. }
          exists s'. split; [exact H1|]. split; [|exact H3].
          rewrite H2. destruct s; reflexivity. }
      intros s He.
      destruct (Hkeep recs (St.set_glob (Glob.set_exit_status r (St.glob s)) s))
        as (s' & H1 & H2 & H3).
      { destruct s as [c g rp d k o]; destruct g; reflexivity. }
      exists s'. split; [exact H1|]. split; [|split; [exact H3|discriminate]].
      rewrite H2. destruct s; reflexivity.
    + destruct (IH (St.set_glob (Glob.set_exit_status r (St.glob s)) s))
        as (s' & H1 & H2 & H3 & H4).
      { destruct s as [c g rp d k o]; destruct g; cbn; lia. }
      exists s'. split; [exact H1|]. split; [|split].
      * rewrite H2. destruct s; reflexivity.
      * rewrite H3. fold (first_category recs).
        destruct (first_category recs); [reflexivity|].
        destruct s as [c g rp d k o]; destruct g; cbn [St.glob St.set_glob
          Glob.set_exit_status Glob.exit_status].
        destruct recs as [|z recs']; [reflexivity|].
        change (List.last (z :: recs') r = List.last (z :: recs') exit_status).
        apply last_cons_default.
      * exact H4.
Qed.

(** C2 (amended): starting from [exit_status = 0], after the guarded
    writes [recs] of the sg command paths the process returns the first
    positive (sense category) value recorded, whatever was recorded before
    or after it; when no positive value was recorded it returns
    [SG_LIB_CAT_OTHER] if the last recorded value is negative, or if the
    out-count is non-zero and [--dry-run] was not given, and 0 otherwise
    (a clean copy, or a dry run). *)
Theorem exit_code_first_category (recs : list Z) (s : St.t) :
  Glob.exit_status (St.glob s) = 0 ->
  exists s',
    record_all recs s = Ret tt s'
    /\ main_exit_of s'
       = match first_category recs with
         | Some c => c
         | None =>
           if (List.last recs 0 <? 0)
              || (negb (G.out_count (St.clp s) =? 0)
                  && (G.dry_run (St.clp s) =? 0))
           then SG_LIB_CAT_OTHER else 0
         end.
Proof.
  intros He.
  destruct (record_all_exit_status recs s ltac:(lia)) as (s' & H1 & H2 & H3 & H4).
  exists s'. split; [exact H1|].
  unfold main_exit_of. rewrite H2, H3, He.
  destruct (first_category recs) as [c|] eqn:Hf.
  - apply main_exit_positive.
    unfold first_category in Hf. apply find_some in Hf as [_ Hc]. lia.
  - specialize (H4 eq_refl). rewrite H3, He in H4.
    unfold main_exit.
    destruct (negb (G.out_count (St.clp s) =? 0) && (G.dry_run (St.clp s) =? 0)).
    + destruct (Z.eqb_spec (List.last recs 0) 0) as [->|Hne]; [reflexivity|].
      destruct (Z.ltb_spec (List.last recs 0) 0); [|lia].
      destruct (Z.leb_spec 0 (List.last recs 0)); [lia|reflexivity].
    + rewrite orb_false_r.
      destruct (Z.ltb_spec (List.last recs 0) 0).
      * destruct (Z.leb_spec 0 (List.last recs 0)); [lia|reflexivity].
      * destruct (Z.leb_spec 0 (List.last recs 0)); lia.
Qed.

(** C2 at work: a worker records [-1], then one records MediumHard (3),
    then one records Miscompare (14): the exit code is 3. *)
Lemma exit_code_first_category_witness :
  Glob.exit_status (St.glob (fst Ex.sg_sg_split)) = 0
  /\ exists s',
       record_all [-1; 3; 14] (fst Ex.sg_sg_split) = Ret tt s'
       /\ main_exit_of s' = 3.
Proof.
  split; [reflexivity|].
  apply (exit_code_first_category [-1; 3; 14] (fst Ex.sg_sg_split)).
  reflexivity.
Defined.

(** The address check writes [exit_status] without the guard: after a
    recorded MediumHard a failed check leaves Miscompare.  The theorem
    above says nothing about this writer. *)
Example chkaddr_overwrites_exit_status :
  exists s1 s2,
    record_exit_status SG_LIB_CAT_MEDIUM_HARD (fst Ex.sg_sg_split) = Ret tt s1
    /\ chkaddr_step 1 1 (St.set_rep (R.set_iblk 5 (St.rep s1)) s1) = Ret tt s2
    /\ Glob.exit_status (St.glob s1) = SG_LIB_CAT_MEDIUM_HARD
    /\ Glob.exit_status (St.glob s2) = SG_LIB_CAT_MISCOMPARE.
Proof. eexists _, _. vm_compute. repeat split; reflexivity. Qed.

(** ** Pack-ids *)

Lemma s32_shift (x : Z) : exists k, s32 x = x + k * 4294967296.
Proof.
  unfold s32, u32.
  pose proof (Z.div_mod x 4294967296 ltac:(lia)) as Hdm.
  destruct (_ <? _).
  - exists (- (x / 4294967296)). lia.
  - exists (- (x / 4294967296) - 1). lia.
Qed.

Lemma s32_range (x : Z) : - 2147483648 <= s32 x < 2147483648.
Proof.
  unfold s32. pose proof (u32_range x) as Hr.
  destruct (Z.ltb_spec (u32 x) 2147483648); lia.
Qed.

Lemma s32_congr (x y k : Z) : x = y + k * 4294967296 -> s32 x = s32 y.
Proof.
  intros ->. unfold s32, u32. rewrite Z_mod_plus_full. reflexivity.
Qed.

Lemma s32_idem (x : Z) : s32 (s32 x) = s32 x.
Proof. apply s32_small. pose proof (s32_range x). unfold INT_MAX. lia. Qed.

Lemma s32_add_l (a b : Z) : s32 (s32 a + b) = s32 (a + b).
Proof.
  destruct (s32_shift a) as [k Hk]. apply s32_congr with (k := k). lia.
Qed.

Lemma s32_double_add (a b : Z) : s32 (2 * (s32 a + b)) = s32 (2 * (a + b)).
Proof.
  destruct (s32_shift a) as [k Hk]. apply s32_congr with (k := 2 * k). lia.
Qed.

(** Two integers less than [2^32] apart with the same wrap are equal. *)
Lemma s32_inj_near (x y : Z) :
  s32 x = s32 y -> - 4294967296 < x - y < 4294967296 -> x = y.
Proof.
  intros He Hd.
  destruct (s32_shift x) as [k Hk]. destruct (s32_shift y) as [m Hm].
  assert (x - y = (m - k) * 4294967296) by lia.
  assert (m - k = 0) by nia. lia.
Qed.

Lemma assign_pack_id_both_sg (rep : R.t) (mono : Z) :
  R.both_sg (snd (fst (assign_pack_id rep mono))) = R.both_sg rep.
Proof.
  unfold assign_pack_id.
  destruct (R.both_sg rep) eqn:Hb; [destruct (R.wr rep)|]; cbn; auto.
Qed.

Lemma assign_pack_id_mono_range (rep : R.t) (mono : Z) :
  s32 mono = mono -> s32 (snd (assign_pack_id rep mono)) = snd (assign_pack_id rep mono).
Proof.
  intros Hm. unfold assign_pack_id.
  destruct (R.both_sg rep); [destruct (R.wr rep)|]; cbn; auto using s32_idem.
Qed.

Lemma all_both_sg_insert (b : bool) (reps : list R.t) (w : nat) (rep : R.t)
    (mono : Z) :
  all_both_sg b reps -> reps !! w = Some rep ->
  all_both_sg b (<[w := snd (fst (assign_pack_id (R.set_wr false rep) mono))]> reps)
  /\ all_both_sg b (<[w := snd (fst (assign_pack_id (R.set_wr true rep) mono))]> reps).
Proof.
  intros Hall Hw.
  assert (Hb : R.both_sg rep = b).
  { unfold all_both_sg in Hall. rewrite Forall_lookup in Hall. exact (Hall _ _ Hw). }
  split; apply Forall_insert; try exact Hall;
    rewrite assign_pack_id_both_sg; destruct rep; exact Hb.
Qed.

(** Without the both-sg pairing the ids are the successive values of the
    allocator. *)
Lemma assign_run_ids_plain (calls : list call) : forall mono reps,
  all_both_sg false reps -> s32 mono = mono ->
  exists n, (n <= length calls)%nat
    /\ ids (assign_run mono reps calls)
       = map (fun i => s32 (mono + Z.of_nat i)) (seq 0 n).
Proof.
  induction calls as [|[w wr] calls IH]; intros mono reps Hall Hm.
  - exists 0%nat. split; [reflexivity|reflexivity].
  - cbn [assign_run]. destruct (reps !! w) as [rep|] eqn:Hw.
    2:{ destruct (IH mono reps Hall Hm) as (n & Hn & Hids).
        exists n. split; [simpl; lia | exact Hids]. }
    assert (Hb : R.both_sg rep = false).
    { unfold all_both_sg in Hall. rewrite Forall_lookup in Hall. exact (Hall _ _ Hw). }
    destruct (assign_pack_id (R.set_wr wr rep) mono) as [[p rep'] mono'] eqn:Ha.
    assert (Hp : p = mono /\ mono' = s32 (mono + 1)).
    { unfold assign_pack_id in Ha.
      replace (R.both_sg (R.set_wr wr rep)) with false in Ha
        by (destruct rep; symmetry; exact Hb).
      cbn in Ha. inversion Ha. auto. }
    destruct Hp as [-> ->].
    assert (Hall' : all_both_sg false (<[w := rep']> reps)).
    { pose proof (all_both_sg_insert false reps w rep mono Hall Hw) as [H1 H2].
      destruct wr; [rewrite Ha in H2; exact H2 | rewrite Ha in H1; exact H1]. }
    destruct (IH (s32 (mono + 1)) (<[w := rep']> reps) Hall' (s32_idem _))
      as (n & Hn & Hids).
    exists (S n). split; [simpl; lia|].
    unfold ids in *. cbn [map seq snd]. rewrite Hids.
    f_equal; [rewrite Z.add_0_r; symmetry; exact Hm|].
    rewrite <- seq_shift, map_map. apply map_ext. intros i.
    rewrite s32_add_l. f_equal. lia.
Qed.

Lemma NoDup_wrapped_seq (f : Z -> Z) (n : nat) :
  (forall i j, 0 <= i < Z.of_nat n -> 0 <= j < Z.of_nat n ->
     f i = f j -> i = j) ->
  NoDup (map (fun i => f (Z.of_nat i)) (seq 0 n)).
Proof.
  intros Hinj. apply (NoDup_fmap_2_strong (fun i => f (Z.of_nat i))).
  - intros i j Hi Hj He.
    apply elem_of_seq in Hi, Hj.
    apply Nat2Z.inj. apply Hinj; [lia | lia | exact He].
  - apply NoDup_seq.
Qed.

(** With the both-sg pairing only READs draw from the allocator, and the
    READ ids are twice its successive values. *)
Lemma assign_run_read_ids (calls : list call) : forall mono reps,
  all_both_sg true reps -> s32 mono = mono ->
  exists n, (n <= length calls)%nat
    /\ read_ids (assign_run mono reps calls)
       = map (fun i => s32 (2 * (mono + Z.of_nat i))) (seq 0 n).
Proof.
  induction calls as [|[w wr] calls IH]; intros mono reps Hall Hm.
  - exists 0%nat. split; reflexivity.
  - cbn [assign_run]. destruct (reps !! w) as [rep|] eqn:Hw.
    2:{ destruct (IH mono reps Hall Hm) as (n & Hn & Hids).
        exists n. split; [simpl; lia | exact Hids]. }
    assert (Hb : R.both_sg rep = true).
    { unfold all_both_sg in Hall. rewrite Forall_lookup in Hall. exact (Hall _ _ Hw). }
    destruct (assign_pack_id (R.set_wr wr rep) mono) as [[p rep'] mono'] eqn:Ha.
    assert (Hall' : all_both_sg true (<[w := rep']> reps)).
    { pose proof (all_both_sg_insert true reps w rep mono Hall Hw) as [H1 H2].
      destruct wr; [rewrite Ha in H2; exact H2 | rewrite Ha in H1; exact H1]. }
    unfold assign_pack_id in Ha.
    replace (R.both_sg (R.set_wr wr rep)) with true in Ha
      by (destruct rep; symmetry; exact Hb).
    destruct wr.
    + replace (R.wr (R.set_wr true rep)) with true in Ha by (destruct rep; reflexivity).
      cbn in Ha. inversion Ha; subst p rep' mono'. clear Ha.
      destruct (IH mono _ Hall' Hm) as (n & Hn & Hids).
      exists n. split; [simpl; lia|].
      unfold read_ids in *. rewrite filter_cons_False by (cbn; discriminate).
      exact Hids.
    + replace (R.wr (R.set_wr false rep)) with false in Ha by (destruct rep; reflexivity).
      cbn in Ha. inversion Ha; subst p rep' mono'. clear Ha.
      destruct (IH (s32 (mono + 1)) _ Hall' (s32_idem _)) as (n & Hn & Hids).
      exists (S n). split; [simpl; lia|].
      unfold read_ids in *. rewrite filter_cons_True by reflexivity.
      cbn [map seq snd]. rewrite Hids.
      f_equal; [rewrite Z.add_0_r; reflexivity|].
      rewrite <- seq_shift, map_map. apply map_ext. intros i.
      rewrite s32_double_add. f_equal. lia.
Qed.

(** A write-side command carries the id of its worker's last READ plus
    one ([rd_p_id] when the worker has not read yet). *)
Lemma assign_run_write_id (calls : list call) : forall mono reps pre w p post,
  all_both_sg true reps ->
  assign_run mono reps calls = pre ++ (w, true, p) :: post ->
  p = s32 (match last_read w pre with
           | Some q => q
           | None => rd_of reps w
           end + 1).
Proof.
  induction calls as [|[w0 wr0] calls IH]; intros mono reps pre w p post Hall He.
  - cbn in He. destruct pre; discriminate.
  - cbn [assign_run] in He. destruct (reps !! w0) as [rep|] eqn:Hw.
    2:{ eapply IH; eassumption. }
    assert (Hb : R.both_sg rep = true).
    { unfold all_both_sg in Hall. rewrite Forall_lookup in Hall. exact (Hall _ _ Hw). }
    destruct (assign_pack_id (R.set_wr wr0 rep) mono) as [[p0 rep'] mono'] eqn:Ha.
    assert (Hall' : all_both_sg true (<[w0 := rep']> reps)).
    { pose proof (all_both_sg_insert true reps w0 rep mono Hall Hw) as [H1 H2].
      destruct wr0; [rewrite Ha in H2; exact H2 | rewrite Ha in H1; exact H1]. }
    unfold assign_pack_id in Ha.
    replace (R.both_sg (R.set_wr wr0 rep)) with true in Ha
      by (destruct rep; symmetry; exact Hb).
    assert (Hlt : (w0 < length reps)%nat) by (eapply lookup_lt_Some; exact Hw).
    destruct pre as [|e0 pre].
    + (* the command at the head *)
      cbn in He. inversion He; subst w0 wr0 p0 post. clear He.
      replace (R.wr (R.set_wr true rep)) with true in Ha by (destruct rep; reflexivity).
      cbn in Ha. inversion Ha. cbn. unfold rd_of. rewrite Hw.
      destruct rep; reflexivity.
    + cbn in He. inversion He as [[He0 Hrest]]. clear He.
      rewrite (IH _ _ _ _ _ _ Hall' Hrest).
      f_equal. f_equal.
      unfold last_read. subst e0.
      destruct wr0.
      * (* a write before: no read added, [rd_p_id] as it was *)
        rewrite filter_cons_False by (cbn; intros [_ H]; discriminate).
        fold (last_read w pre). destruct (last_read w pre); [reflexivity|].
        replace (R.wr (R.set_wr true rep)) with true in Ha by (destruct rep; reflexivity).
        cbn in Ha. inversion Ha; subst.
        unfold rd_of. destruct (decide (w0 = w)) as [->|Hne].
        -- rewrite list_lookup_insert_eq by exact Hlt. rewrite Hw.
           destruct rep; reflexivity.
        -- rewrite list_lookup_insert_ne by exact Hne. reflexivity.
      * replace (R.wr (R.set_wr false rep)) with false in Ha by (destruct rep; reflexivity).
        cbn in Ha. inversion Ha; subst.
        destruct (decide (w0 = w)) as [->|Hne].
        -- rewrite filter_cons_True by (cbn; auto).
           cbn [map snd]. fold (last_read w pre).
           unfold last_read at 1.
           rewrite last_cons.
           fold (last_read w pre).
           destruct (last_read w pre) eqn:Hl; [reflexivity|].
           unfold rd_of. rewrite list_lookup_insert_eq by exact Hlt.
           destruct rep; reflexivity.
        -- rewrite filter_cons_False by (cbn; intros [H _]; congruence).
           fold (last_read w pre). destruct (last_read w pre); [reflexivity|].
           unfold rd_of. rewrite list_lookup_insert_ne by exact Hne. reflexivity.
Qed.

Lemma read_ids_app (a b : list (nat * bool * Z)) :
  read_ids (a ++ b) = read_ids a ++ read_ids b.
Proof. unfold read_ids. rewrite filter_app, map_app. reflexivity. Qed.

Lemma last_read_in_read_ids (w : nat) (pre : list (nat * bool * Z)) (q : Z) :
  last_read w pre = Some q -> In q (read_ids pre).
Proof.
  unfold last_read, read_ids. intros Hl.
  apply last_Some_elem_of in Hl. apply list_elem_of_In in Hl.
  apply in_map_iff in Hl as (e & He & Hin).
  apply list_elem_of_In, list_elem_of_filter in Hin as [[_ Hrd] Hin].
  apply in_map_iff. exists e. split; [exact He|].
  apply list_elem_of_In, list_elem_of_filter. split; [exact Hrd | exact Hin].
Qed.

(** A front part of the images of [0, 1, ..., n-1] is the images of the
    first indices. *)
Lemma front_of_map_seq {A} (f : nat -> A) (n : nat) (a b : list A) :
  a ++ b = map f (seq 0 n) -> a = map f (seq 0 (length a)).
Proof.
  intros He.
  assert (Hlen : (length a <= n)%nat).
  { apply (f_equal (@length A)) in He.
    rewrite length_app, length_map, length_seq in He. lia. }
  rewrite <- (take_app_length a b) at 1.
  rewrite He, firstn_map. change (@firstn nat) with (@take nat). rewrite take_seq, Nat.min_l by exact Hlen.
  reflexivity.
Qed.

Lemma ids_app (a b : list (nat * bool * Z)) : ids (a ++ b) = ids a ++ ids b.
Proof. unfold ids. apply map_app. Qed.

(** A worker that has not read in [mid] has the last READ it had before. *)
Lemma last_read_skip (w : nat) (pre mid : list (nat * bool * Z)) (p : Z) :
  last_read w mid = None ->
  last_read w (pre ++ (w, true, p) :: mid) = last_read w pre.
Proof.
  unfold last_read. intros Hn.
  apply last_None in Hn. apply map_eq_nil in Hn.
  rewrite filter_app, filter_cons_False by (cbn; intros [_ H]; discriminate).
  rewrite Hn, app_nil_r. reflexivity.
Qed.

(** C3, the claim as stated fails: in the sg to sg copy [Ex.sg_sg_split] the
    READ is submitted with pack-id 2 and both halves of the split write
    with pack-id 3. *)
Lemma split_halves_share_pack_id :
  let tr := St.ktrace (final_state (main_loop 2 (snd Ex.sg_sg_split)
                                      (fst Ex.sg_sg_split))) in
  trace_pack_ids tr = [2; 3; 3] /\ ~ NoDup (trace_pack_ids tr).
Proof.
  cbv zeta.
  assert (He : trace_pack_ids
                 (St.ktrace (final_state (main_loop 2 (snd Ex.sg_sg_split)
                                            (fst Ex.sg_sg_split))))
               = [2; 3; 3]) by (vm_compute; reflexivity).
  split; [exact He|]. rewrite He. intros Hnd.
  apply NoDup_cons in Hnd as [_ Hnd]. apply NoDup_cons in Hnd as [Hni _].
  apply Hni. left.
Qed.

(** C3 (amended): pack-ids are assigned from a run-wide allocator that
    starts at 1.  When the two sides are not both sg every command takes a
    fresh value, so no two of the first [2^32] commands of a run share a
    pack-id.  When both sides are sg every READ takes a fresh even value,
    so no two of the first [2^31] READs of a run share a pack-id (however
    many write-side commands lie between them), while every write-side
    command (PRE-FETCH, write or verify, either half of a split write, the
    write to a secondary target, and each re-issue of those) carries the
    pack-id of its worker's last READ plus one: the write-side commands
    that a worker submits without a READ of its own in between, those of
    one segment, share their pack-id. *)
Theorem pack_ids_fresh_or_paired (both : bool) (reps : list R.t)
    (calls : list call) :
  all_both_sg both reps ->
  let evs := assign_run 1 reps calls in
  (both = false ->
   forall pre post, evs = pre ++ post ->
     Z.of_nat (length pre) <= 4294967296 -> NoDup (ids pre))
  /\ (both = true ->
      (forall pre post, evs = pre ++ post ->
         Z.of_nat (length (read_ids pre)) <= 2147483648 ->
         NoDup (read_ids pre))
      /\ (forall q, In q (read_ids evs) -> Z.even q = true)
      /\ (forall pre w p post, evs = pre ++ (w, true, p) :: post ->
            p = s32 (match last_read w pre with
                     | Some q => q
                     | None => rd_of reps w
                     end + 1))
      /\ (forall pre w p mid p' post,
            evs = pre ++ (w, true, p) :: mid ++ (w, true, p') :: post ->
            last_read w mid = None -> p' = p)).
Proof.
  intros Hall evs. split.
  - intros -> pre post He Hlen.
    destruct (assign_run_ids_plain calls 1 reps Hall eq_refl)
      as (n & _ & Hids).
    fold evs in Hids. rewrite He, ids_app in Hids.
    rewrite (front_of_map_seq _ n _ _ Hids).
    unfold ids at 1. rewrite length_map.
    apply (NoDup_wrapped_seq (fun i => s32 (1 + i)) (length pre)).
    intros i j Hi Hj Hs. apply s32_inj_near in Hs; lia.
  - intros ->.
    destruct (assign_run_read_ids calls 1 reps Hall eq_refl)
      as (n & _ & Hids).
    fold evs in Hids.
    assert (Hwr : forall pre w p post, evs = pre ++ (w, true, p) :: post ->
              p = s32 (match last_read w pre with
                       | Some q => q
                       | None => rd_of reps w
                       end + 1)).
    { intros pre w p post He.
      exact (assign_run_write_id calls 1 reps pre w p post Hall He). }
    split; [|split; [|split; [exact Hwr|]]].
    + intros pre post He Hlen.
      rewrite He, read_ids_app in Hids.
      rewrite (front_of_map_seq _ n _ _ Hids).
      apply (NoDup_wrapped_seq (fun i => s32 (2 * (1 + i)))
               (length (read_ids pre))).
      intros i j Hi Hj Hs. apply s32_inj_near in Hs; lia.
    + intros q Hq. rewrite Hids in Hq.
      apply in_map_iff in Hq as (i & <- & _). apply s32_even.
    + intros pre w p mid p' post He Hn.
      rewrite (Hwr pre w p (mid ++ (w, true, p') :: post) He).
      rewrite (Hwr (pre ++ (w, true, p) :: mid) w p' post).
      * rewrite (last_read_skip w pre mid p Hn). reflexivity.
      * rewrite He, <- app_assoc. reflexivity.
Qed.

(** C3 at work.  Not both sg: one worker submits three commands, with
    three distinct ids.  Both sg: worker 0 of [Ex.sg_sg_split] reads and
    then submits the two halves of its write, with the ids 2, 3 and 3. *)
Lemma pack_ids_fresh_or_paired_witness :
  (all_both_sg false
     [fst (thread_setup (St.clp (fst Ex.file_sg_mrq)) 0 false [])]
   /\ NoDup (ids (assign_run 1
                    [fst (thread_setup (St.clp (fst Ex.file_sg_mrq)) 0 false [])]
                    [(0%nat, true); (0%nat, true); (0%nat, true)])))
  /\ (all_both_sg true [St.rep (fst Ex.sg_sg_split)]
      /\ ids (assign_run 1 [St.rep (fst Ex.sg_sg_split)]
                [(0%nat, false); (0%nat, true); (0%nat, true)])
         = [2; 3; 3]
      /\ NoDup (read_ids (assign_run 1 [St.rep (fst Ex.sg_sg_split)]
                            [(0%nat, false); (0%nat, true); (0%nat, true)]))
      /\ (forall q,
            In q (read_ids (assign_run 1 [St.rep (fst Ex.sg_sg_split)]
                              [(0%nat, false); (0%nat, true); (0%nat, true)])) ->
            Z.even q = true)).
Proof.
  assert (Hf : all_both_sg false
            [fst (thread_setup (St.clp (fst Ex.file_sg_mrq)) 0 false [])])
    by (repeat constructor).
  assert (Ht : all_both_sg true [St.rep (fst Ex.sg_sg_split)])
    by (repeat constructor).
  split.
  - split; [exact Hf|].
    destruct (pack_ids_fresh_or_paired false _
                [(0%nat, true); (0%nat, true); (0%nat, true)] Hf)
      as [Hplain _].
    apply (Hplain eq_refl _ []); [symmetry; apply app_nil_r | vm_compute; discriminate].
  - split; [exact Ht|]. split; [reflexivity|].
    destruct (pack_ids_fresh_or_paired true _
                [(0%nat, false); (0%nat, true); (0%nat, true)] Ht)
      as [_ Hpair].
    destruct (Hpair eq_refl) as (Hfresh & Heven & _).
    split; [|exact Heven].
    apply (Hfresh _ []); [symmetry; apply app_nil_r | vm_compute; discriminate].
Defined.

(** C4: when both sides are sg, every READ is assigned an even pack-id;
    the READ ids of a run are 2, 4, 6, ... in the order of assignment (as
    long as they fit an [int]: fewer than [2^30] commands); and every
    write-side command is assigned the pack-id of its worker's last READ
    plus one. *)
Theorem paired_pack_ids (reps : list R.t) (calls : list call) :
  all_both_sg true reps ->
  let evs := assign_run 1 reps calls in
  (forall q, In q (read_ids evs) -> Z.even q = true)
  /\ (Z.of_nat (length calls) < 1073741824 ->
      exists n, read_ids evs
                = map (fun i => 2 * (Z.of_nat i + 1)) (seq 0 n))
  /\ (forall pre w p post q,
        evs = pre ++ (w, true, p) :: post -> last_read w pre = Some q ->
        p = q + 1).
Proof.
  intros Hall evs.
  destruct (assign_run_read_ids calls 1 reps Hall eq_refl) as (n & Hn & Hids).
  fold evs in Hids.
  assert (Heven : forall q, In q (read_ids evs) -> Z.even q = true).
  { intros q Hq. rewrite Hids in Hq.
    apply in_map_iff in Hq as (i & <- & _). apply s32_even. }
  split; [exact Heven|]. split.
  - intros Hlen. exists n. rewrite Hids. apply map_ext_in.
    intros i Hi. apply in_seq in Hi.
    rewrite s32_small by (unfold INT_MAX; lia). lia.
  - intros pre w p post q He Hl.
    rewrite (assign_run_write_id calls 1 reps pre w p post Hall He), Hl.
    assert (Hq : In q (read_ids evs)).
    { rewrite He, read_ids_app. apply in_or_app. left.
      apply (last_read_in_read_ids w). exact Hl. }
    pose proof (Heven q Hq) as Hev.
    rewrite Hids in Hq. apply in_map_iff in Hq as (i & Hi & _).
    pose proof (s32_range (2 * (1 + Z.of_nat i))) as Hr. rewrite Hi in Hr.
    apply Z.even_spec in Hev as [k Hk].
    apply s32_small. unfold INT_MAX. lia.
Qed.

(** C4 at work: worker 0 of the sg to sg copy reads, writes, reads and
    writes again: the ids are 2, 3, 4, 5. *)
Lemma paired_pack_ids_witness :
  all_both_sg true [St.rep (fst Ex.sg_sg_split)]
  /\ ids (assign_run 1 [St.rep (fst Ex.sg_sg_split)]
            [(0%nat, false); (0%nat, true); (0%nat, false); (0%nat, true)])
     = [2; 3; 4; 5]
  /\ (forall q,
        In q (read_ids
                (assign_run 1 [St.rep (fst Ex.sg_sg_split)]
                   [(0%nat, false); (0%nat, true); (0%nat, false);
                    (0%nat, true)])) ->
        Z.even q = true).
Proof.
  assert (Hall : all_both_sg true [St.rep (fst Ex.sg_sg_split)])
    by (repeat constructor).
  split; [exact Hall|]. split; [reflexivity|].
  apply (paired_pack_ids [St.rep (fst Ex.sg_sg_split)]
           [(0%nat, false); (0%nat, true); (0%nat, false); (0%nat, true)]
           Hall).
Defined.

(** ** The ordering gate *)

Import Sched.

(** *** What the embedded functions keep *)

Lemma keeps_refl q s : keeps q s s.
Proof.
  split; [reflexivity|]. split; [reflexivity|].
  exists []. split; [symmetry; apply app_nil_r | reflexivity].
Qed.

Lemma keeps_same q s s' :
  St.clp s' = St.clp s -> St.ktrace s' = St.ktrace s -> keeps q s s'.
Proof.
  intros Hc Hk. unfold keeps. rewrite Hc, Hk.
  split; [reflexivity|]. split; [reflexivity|].
  exists []. split; [symmetry; apply app_nil_r | reflexivity].
Qed.

Lemma keeps_trans q s1 s2 s3 : keeps q s1 s2 -> keeps q s2 s3 -> keeps q s1 s3.
Proof.
  intros (Hc1 & Hb1 & e1 & Ht1 & Hq1) (Hc2 & Hb2 & e2 & Ht2 & Hq2).
  split; [congruence|]. split; [congruence|].
  exists (e1 ++ e2). split.
  - rewrite Ht2, Ht1, app_assoc. reflexivity.
  - rewrite forallb_app, Hq1, Hq2. reflexivity.
Qed.

Lemma keeps_weaken (q q' : kevent -> bool) s s' :
  (forall e, q e = true -> q' e = true) -> keeps q s s' -> keeps q' s s'.
Proof.
  intros Hw (Hc & Hb & evs & Ht & Hq).
  split; [exact Hc|]. split; [exact Hb|]. exists evs. split; [exact Ht|].
  apply forallb_forall. intros e He.
  apply Hw. rewrite forallb_forall in Hq. apply Hq. exact He.
Qed.

Lemma quiet_weaken {A} (q q' : kevent -> bool) (m : M A) :
  (forall e, q e = true -> q' e = true) -> quiet q m -> quiet q' m.
Proof. intros Hw Hm s. apply (keeps_weaken q q' _ _ Hw), Hm. Qed.

Section Quiet.
Variable q : kevent -> bool.

Lemma quiet_ret {A} (a : A) : quiet q (mret a).
Proof. intros s. apply keeps_refl. Qed.

Lemma quiet_bind {A B} (m : M A) (k : A -> M B) :
  quiet q m -> (forall a, quiet q (k a)) -> quiet q (m ≫= k).
Proof.
  intros Hm Hk s. unfold mbind, M_bind, bind.
  pose proof (Hm s) as H1. destruct (m s) as [a s1|c s1|s1]; cbn in *.
  - apply (keeps_trans q s s1); [exact H1 | apply Hk].
  - exact H1.
  - exact H1.
Qed.

Lemma quiet_starved {A} : quiet q (fun s => @Starved A s).
Proof. intros s. apply keeps_refl. Qed.

Lemma quiet_exit {A} (c : Z) : quiet q (@Drv.err_exit A c).
Proof. intros s. apply keeps_refl. Qed.

Lemma quiet_get : quiet q get.
Proof. intros s. apply keeps_refl. Qed.

Lemma quiet_get_clp : quiet q get_clp.
Proof. intros s. apply keeps_refl. Qed.

Lemma quiet_get_rep : quiet q get_rep.
Proof. intros s. apply keeps_refl. Qed.

Lemma quiet_get_glob : quiet q get_glob.
Proof. intros s. apply keeps_refl. Qed.

Lemma quiet_upd_rep f : quiet q (upd_rep f).
Proof. intros [c g r d k o]. apply keeps_same; reflexivity. Qed.

Lemma quiet_upd_glob f : quiet q (upd_glob f).
Proof. intros [c g r d k o]. apply keeps_same; reflexivity. Qed.

Lemma quiet_set_def_arr (f : St.t -> mrq_arr_t) :
  quiet q (modify (fun s => St.set_def_arr (f s) s)).
Proof. intros [c g r d k o]. apply keeps_same; reflexivity. Qed.

Lemma quiet_upd_clp f :
  (forall c, config_of (f c) = config_of c /\ G.out_blk (f c) = G.out_blk c) ->
  quiet q (upd_clp f).
Proof.
  intros Hf [c g r d k o]. destruct (Hf c) as [Hc Hb].
  split; [exact Hc|]. split; [exact Hb|].
  exists []. split; [symmetry; apply app_nil_r | reflexivity].
Qed.

Lemma quiet_emit e : q e = true -> quiet q (emit e).
Proof.
  intros He [c g r d k o]. split; [reflexivity|]. split; [reflexivity|].
  exists [e]. split; [reflexivity|]. cbn. rewrite He. reflexivity.
Qed.

Lemma quiet_syscall : quiet q syscall.
Proof.
  intros [c g r d k o]. unfold syscall. cbn [St.oracle].
  destruct o; apply keeps_same; reflexivity.
Qed.

Lemma quiet_with_fuel {A} (f : nat -> M A) :
  (forall n, quiet q (f n)) -> quiet q (with_fuel f).
Proof. intros Hf s. unfold with_fuel. apply Hf. Qed.

End Quiet.

(** The setters of the fields that workers update leave the configuration
    alone, and all of them but [set_out_blk] leave [out_blk] alone. *)
Lemma cfg_in_rem_count v c :
  config_of (G.set_in_rem_count v c) = config_of c
  /\ G.out_blk (G.set_in_rem_count v c) = G.out_blk c.
Proof. destruct c; split; reflexivity. Qed.
Lemma cfg_in_partial v c :
  config_of (G.set_in_partial v c) = config_of c
  /\ G.out_blk (G.set_in_partial v c) = G.out_blk c.
Proof. destruct c; split; reflexivity. Qed.
Lemma cfg_in_stop v c :
  config_of (G.set_in_stop v c) = config_of c
  /\ G.out_blk (G.set_in_stop v c) = G.out_blk c.
Proof. destruct c; split; reflexivity. Qed.
Lemma cfg_out_count v c :
  config_of (G.set_out_count v c) = config_of c
  /\ G.out_blk (G.set_out_count v c) = G.out_blk c.
Proof. destruct c; split; reflexivity. Qed.
Lemma cfg_out_rem_count v c :
  config_of (G.set_out_rem_count v c) = config_of c
  /\ G.out_blk (G.set_out_rem_count v c) = G.out_blk c.
Proof. destruct c; split; reflexivity. Qed.
Lemma cfg_out_partial v c :
  config_of (G.set_out_partial v c) = config_of c
  /\ G.out_blk (G.set_out_partial v c) = G.out_blk c.
Proof. destruct c; split; reflexivity. Qed.
Lemma cfg_out_stop v c :
  config_of (G.set_out_stop v c) = config_of c
  /\ G.out_blk (G.set_out_stop v c) = G.out_blk c.
Proof. destruct c; split; reflexivity. Qed.
Lemma cfg_dio_incomplete_count v c :
  config_of (G.set_dio_incomplete_count v c) = config_of c
  /\ G.out_blk (G.set_dio_incomplete_count v c) = G.out_blk c.
Proof. destruct c; split; reflexivity. Qed.
Lemma cfg_sum_of_resids v c :
  config_of (G.set_sum_of_resids v c) = config_of c
  /\ G.out_blk (G.set_sum_of_resids v c) = G.out_blk c.
Proof. destruct c; split; reflexivity. Qed.

Lemma cfg_trans (f : G.t -> G.t) c c' :
  config_of c' = config_of c /\ G.out_blk c' = G.out_blk c ->
  config_of (f c') = config_of c' /\ G.out_blk (f c') = G.out_blk c' ->
  config_of (f c') = config_of c /\ G.out_blk (f c') = G.out_blk c.
Proof. intros [H1 H2] [H3 H4]. split; congruence. Qed.

Ltac cfg_tac :=
  repeat lazymatch goal with
  | |- config_of ?c = config_of ?c /\ _ => split; reflexivity
  | |- config_of (if ?b then _ else _) = _ /\ _ => destruct b
  | |- config_of (G.set_in_rem_count _ ?c') = config_of ?c /\ _ =>
    apply (cfg_trans (G.set_in_rem_count _) c c'); [|apply cfg_in_rem_count]
  | |- config_of (G.set_in_partial _ ?c') = config_of ?c /\ _ =>
    apply (cfg_trans (G.set_in_partial _) c c'); [|apply cfg_in_partial]
  | |- config_of (G.set_in_stop _ ?c') = config_of ?c /\ _ =>
    apply (cfg_trans (G.set_in_stop _) c c'); [|apply cfg_in_stop]
  | |- config_of (G.set_out_count _ ?c') = config_of ?c /\ _ =>
    apply (cfg_trans (G.set_out_count _) c c'); [|apply cfg_out_count]
  | |- config_of (G.set_out_rem_count _ ?c') = config_of ?c /\ _ =>
    apply (cfg_trans (G.set_out_rem_count _) c c'); [|apply cfg_out_rem_count]
  | |- config_of (G.set_out_partial _ ?c') = config_of ?c /\ _ =>
    apply (cfg_trans (G.set_out_partial _) c c'); [|apply cfg_out_partial]
  | |- config_of (G.set_out_stop _ ?c') = config_of ?c /\ _ =>
    apply (cfg_trans (G.set_out_stop _) c c'); [|apply cfg_out_stop]
  | |- config_of (G.set_dio_incomplete_count _ ?c') = config_of ?c /\ _ =>
    apply (cfg_trans (G.set_dio_incomplete_count _) c c');
    [|apply cfg_dio_incomplete_count]
  | |- config_of (G.set_sum_of_resids _ ?c') = config_of ?c /\ _ =>
    apply (cfg_trans (G.set_sum_of_resids _) c c'); [|apply cfg_sum_of_resids]
  end.

Create HintDb quiet.

Ltac quiet_go :=
  repeat lazymatch goal with
  | |- quiet _ (mret _) => apply quiet_ret
  | |- quiet _ (_ ≫= _) => apply quiet_bind; [|intros ?]
  | |- quiet _ (if ?b then _ else _) => destruct b
  | |- quiet _ (match ?x with _ => _ end) => destruct x
  | |- quiet _ get => apply quiet_get
  | |- quiet _ get_clp => apply quiet_get_clp
  | |- quiet _ get_rep => apply quiet_get_rep
  | |- quiet _ get_glob => apply quiet_get_glob
  | |- quiet _ (upd_rep _) => apply quiet_upd_rep
  | |- quiet _ (upd_glob _) => apply quiet_upd_glob
  | |- quiet _ (upd_clp _) => apply quiet_upd_clp; intros ?; cbv zeta; cfg_tac
  | |- quiet _ (emit _) => apply quiet_emit; reflexivity
  | |- quiet _ syscall => apply quiet_syscall
  | |- quiet _ (with_fuel _) => apply quiet_with_fuel; intros ?
  | |- quiet _ (Drv.err_exit _) => apply quiet_exit
  | |- quiet _ (modify (fun s => St.set_def_arr _ s)) =>
    apply quiet_set_def_arr
  | |- quiet _ (modify (St.set_def_arr ?x)) =>
    apply (quiet_set_def_arr _ (fun _ => x))
  | |- quiet _ (fun s => Starved s) => apply quiet_starved
  | |- quiet _ _ => solve [auto with quiet]
  end.

Lemma quiet_stop_both : quiet no_write stop_both.
Proof. unfold stop_both. quiet_go. Qed.
#[export] Hint Resolve quiet_stop_both : quiet.

Lemma quiet_buffp_onto_next : quiet no_write buffp_onto_next.
Proof. unfold buffp_onto_next. quiet_go. Qed.
#[export] Hint Resolve quiet_buffp_onto_next : quiet.

Lemma quiet_fetch_add_mono_mrq_id : quiet no_write fetch_add_mono_mrq_id.
Proof. unfold fetch_add_mono_mrq_id. quiet_go. Qed.
#[export] Hint Resolve quiet_fetch_add_mono_mrq_id : quiet.

Lemma quiet_count_retry start e : quiet no_write (count_retry start e).
Proof. unfold count_retry. quiet_go. Qed.
#[export] Hint Resolve quiet_count_retry : quiet.

Lemma quiet_retry_call start fuel : quiet no_write (retry_call start fuel).
Proof. induction fuel as [|fuel IH]; cbn [retry_call]; quiet_go. Qed.
#[export] Hint Resolve quiet_retry_call : quiet.

Lemma quiet_mrq_add_back a b : quiet no_write (mrq_add_back a b).
Proof. unfold mrq_add_back. quiet_go. Qed.
#[export] Hint Resolve quiet_mrq_add_back : quiet.

Lemma quiet_poll_num_waiting fd want turns :
  quiet no_write (poll_num_waiting fd want turns).
Proof.
  induction turns as [|turns IH]; cbn [poll_num_waiting]; quiet_go.
Qed.
#[export] Hint Resolve quiet_poll_num_waiting : quiet.

Lemma quiet_async_receive rarr off fd ctl last :
  quiet no_write (async_receive rarr off fd ctl last).
Proof. unfold async_receive. quiet_go. Qed.
#[export] Hint Resolve quiet_async_receive : quiet.

Lemma quiet_sgh_do_async_mrq arr fd ctlop nrq :
  quiet no_write (sgh_do_async_mrq arr fd ctlop nrq).
Proof. unfold sgh_do_async_mrq. quiet_go. Qed.
#[export] Hint Resolve quiet_sgh_do_async_mrq : quiet.

Lemma quiet_mrq_try_again fd ctl nrq fuel :
  quiet no_write (mrq_try_again fd ctl nrq fuel).
Proof. induction fuel as [|fuel IH]; cbn [mrq_try_again]; quiet_go. Qed.
#[export] Hint Resolve quiet_mrq_try_again : quiet.

Lemma quiet_mrq_submit nrq : quiet no_write (mrq_submit nrq).
Proof. unfold mrq_submit. quiet_go. Qed.
#[export] Hint Resolve quiet_mrq_submit : quiet.

Lemma quiet_sgh_do_deferred_mrq : quiet no_write sgh_do_deferred_mrq.
Proof. unfold sgh_do_deferred_mrq. quiet_go. Qed.
#[export] Hint Resolve quiet_sgh_do_deferred_mrq : quiet.

Lemma quiet_start_io_pack_id : quiet no_write start_io_pack_id.
Proof. unfold start_io_pack_id. quiet_go. Qed.
#[export] Hint Resolve quiet_start_io_pack_id : quiet.

Lemma quiet_start_io_abort fd pack_id : quiet no_write (start_io_abort fd pack_id).
Proof. unfold start_io_abort. quiet_go. Qed.
#[export] Hint Resolve quiet_start_io_abort : quiet.

Lemma quiet_sg_start_io pack_id xtrp : quiet no_write (sg_start_io pack_id xtrp).
Proof. unfold sg_start_io. quiet_go. Qed.
#[export] Hint Resolve quiet_sg_start_io : quiet.

Lemma quiet_finish_category res : quiet no_write (finish_category res).
Proof. unfold finish_category. quiet_go. Qed.
#[export] Hint Resolve quiet_finish_category : quiet.

Lemma quiet_sg_finish_io wr pack_id xtrp :
  quiet no_write (sg_finish_io wr pack_id xtrp).
Proof. unfold sg_finish_io. quiet_go. Qed.
#[export] Hint Resolve quiet_sg_finish_io : quiet.

Lemma quiet_record_exit_status res : quiet no_write (record_exit_status res).
Proof. unfold record_exit_status. quiet_go. Qed.
#[export] Hint Resolve quiet_record_exit_status : quiet.

Lemma quiet_account_resid : quiet no_write account_resid.
Proof. unfold account_resid. quiet_go. Qed.
#[export] Hint Resolve quiet_account_resid : quiet.

Lemma quiet_in_rd_done : quiet no_write in_rd_done.
Proof. unfold in_rd_done. quiet_go. Qed.
#[export] Hint Resolve quiet_in_rd_done : quiet.

Lemma quiet_sg_in_rd_loop pack_id fuel : quiet no_write (sg_in_rd_loop pack_id fuel).
Proof.
  revert pack_id. induction fuel as [|fuel IH]; intros pack_id;
    cbn [sg_in_rd_loop]; quiet_go.
Qed.
#[export] Hint Resolve quiet_sg_in_rd_loop : quiet.

Lemma quiet_sg_in_rd_cmd : quiet no_write sg_in_rd_cmd.
Proof. unfold sg_in_rd_cmd. quiet_go. Qed.
#[export] Hint Resolve quiet_sg_in_rd_cmd : quiet.

Lemma quiet_swap_share_loop fdr to_fd before fuel :
  forall k, quiet no_write (swap_share_loop fdr to_fd before k fuel).
Proof.
  induction fuel as [|fuel IH]; intros k; cbn [swap_share_loop]; quiet_go.
Qed.
#[export] Hint Resolve quiet_swap_share_loop : quiet.

Lemma quiet_sg_wr_swap_share to_fd before :
  quiet no_write (sg_wr_swap_share to_fd before).
Proof. unfold sg_wr_swap_share. quiet_go. Qed.
#[export] Hint Resolve quiet_sg_wr_swap_share : quiet.

Lemma quiet_out_prefetch xtr fuel :
  forall pack_id, quiet no_write (out_prefetch xtr pack_id fuel).
Proof.
  induction fuel as [|fuel IH]; intros pack_id; cbn [out_prefetch]; quiet_go.
Qed.
#[export] Hint Resolve quiet_out_prefetch : quiet.

Lemma quiet_out_write xtr nblks fuel :
  forall pack_id, quiet no_write (out_write xtr nblks pack_id fuel).
Proof.
  induction fuel as [|fuel IH]; intros pack_id; cbn [out_write]; quiet_go.
Qed.
#[export] Hint Resolve quiet_out_write : quiet.

Lemma quiet_sg_out_wr_cmd is_wr2 prefetch :
  quiet no_write (sg_out_wr_cmd is_wr2 prefetch).
Proof. unfold sg_out_wr_cmd. quiet_go. Qed.
#[export] Hint Resolve quiet_sg_out_wr_cmd : quiet.

Lemma quiet_retry_rw fuel : quiet no_write (retry_rw fuel).
Proof. induction fuel as [|fuel IH]; cbn [retry_rw]; quiet_go. Qed.
#[export] Hint Resolve quiet_retry_rw : quiet.

Lemma quiet_in_rd_tail res blocks : quiet no_write (in_rd_tail res blocks).
Proof. unfold in_rd_tail. quiet_go. Qed.
#[export] Hint Resolve quiet_in_rd_tail : quiet.

Lemma quiet_normal_in_rd blocks : quiet no_write (normal_in_rd blocks).
Proof. unfold normal_in_rd. quiet_go. Qed.
#[export] Hint Resolve quiet_normal_in_rd : quiet.

Lemma quiet_chkaddr_step c_addr blocks : quiet no_write (chkaddr_step c_addr blocks).
Proof. unfold chkaddr_step. quiet_go. Qed.
#[export] Hint Resolve quiet_chkaddr_step : quiet.

Lemma quiet_tail_flush wr_blks : quiet no_write (tail_flush wr_blks).
Proof. unfold tail_flush. quiet_go. Qed.
#[export] Hint Resolve quiet_tail_flush : quiet.


Create HintDb quiet_wr.

Ltac quiet_any :=
  repeat lazymatch goal with
  | |- quiet _ (mret _) => apply quiet_ret
  | |- quiet _ (_ ≫= _) => apply quiet_bind; [|intros ?]
  | |- quiet _ (if ?b then _ else _) => destruct b
  | |- quiet _ (match ?x with _ => _ end) => destruct x
  | |- quiet _ get => apply quiet_get
  | |- quiet _ get_clp => apply quiet_get_clp
  | |- quiet _ get_rep => apply quiet_get_rep
  | |- quiet _ get_glob => apply quiet_get_glob
  | |- quiet _ (upd_rep _) => apply quiet_upd_rep
  | |- quiet _ (upd_glob _) => apply quiet_upd_glob
  | |- quiet _ (upd_clp _) => apply quiet_upd_clp; intros ?; cbv zeta; cfg_tac
  | |- quiet _ (emit _) => apply quiet_emit; reflexivity
  | |- quiet _ syscall => apply quiet_syscall
  | |- quiet _ (with_fuel _) => apply quiet_with_fuel; intros ?
  | |- quiet _ _ =>
    first [ solve [auto with quiet_wr]
          | solve [apply (quiet_weaken no_write);
                   [reflexivity | auto with quiet]] ]
  end.

Lemma quiet_write_outreg : quiet any_ev write_outreg.
Proof. unfold write_outreg. quiet_any. Qed.
#[export] Hint Resolve quiet_write_outreg : quiet_wr.

Lemma quiet_normal_out_wr blocks : quiet any_ev (normal_out_wr blocks).
Proof. unfold normal_out_wr. quiet_any. Qed.
#[export] Hint Resolve quiet_normal_out_wr : quiet_wr.


(** *** What the halves of a turn return *)





Lemma cfg_out_blk v c : config_of (G.set_out_blk v c) = config_of c.
Proof. destruct c; reflexivity. Qed.


Lemma config_outfd c c' : config_of c' = config_of c -> G.outfd c' = G.outfd c.
Proof. intros H. exact (f_equal G.outfd H). Qed.












(** *** The gate and the order of the writes *)







(** The gate is skipped for a copy from sg to sg without a tee even when a
    secondary target is written to. *)
Example secondary_target_no_gate :
  let w := thread_setup Ex.sg_sg_out2 0 true (replicate 2048 0) in
  0 <= G.out2fd Ex.sg_sg_out2 /\ G.out2_type Ex.sg_sg_out2 = FT_SG
  /\ force_out_sequence Ex.sg_sg_out2 (fst w) (snd w) = false.
Proof. cbv zeta. split; [discriminate|]. split; reflexivity. Qed.

(** One worker under the scheduler does what [read_write_thread] does:
    the copy of ten blocks between ordinary files. *)
Example one_worker_is_read_write_thread :
  let s := fst Ex.file_file_ten in
  let y := init (St.clp s) (St.glob s) [(St.rep s, snd Ex.file_file_ten)]
             (St.oracle s) in
  let s' := final_state (read_write_thread 4 (snd Ex.file_file_ten) s) in
  let y' := fst (run (replicate 7 (Turn 0)) y) in
  sh_ktrace y' = St.ktrace s' /\ sh_clp y' = St.clp s'
  /\ sh_glob y' = St.glob s' /\ sh_oracle y' = St.oracle s'
  /\ snd (run (replicate 7 (Turn 0)) y) = [0; 4; 8].
Proof. cbv zeta. vm_compute. repeat split. Qed.


(** ** The split write of [sg_out_wr_cmd] *)

(** A single v4 submit by [sg_start_io] that goes through at once. *)
Lemma sg_start_io_v4_single (s : St.t) (pid : Z) (xtr : X.t) (cmd : list Z)
    (r : Z) (resp : kresp) (el : list kresp) (rest : list sysres) :
  let clp := St.clp s in
  let rep := St.rep s in
  R.wr rep = true -> Fl.v4 (G.out_flags clp) = true ->
  G.nmrqs clp <= 0 -> G.aen clp <= 0 ->
  X.is_wr2 xtr = false ->
  start_io_cdb clp rep (Some xtr) = (Some cmd, cmd) ->
  St.oracle s = SysOk r resp el :: rest ->
  let '(p, rep1, mono1) :=
    assign_pack_id (R.set_cmd cmd rep) (Glob.mono_pack_id (St.glob s)) in
  let '(flags, nblks, spare_in) :=
    start_io_v4_flags clp rep (Some xtr) (R.outfd rep) (start_io_flags clp rep) in
  let h4 := start_io_hdr4 clp rep (Some xtr) p flags nblks spare_in in
  sg_start_io pid (Some xtr) s
  = Ret (0, p)
      (St.mk clp (Glob.set_mono_pack_id mono1 (St.glob s))
         (set_io_hdr4 (X.hpv4_ind xtr) h4 rep1) (St.def_arr s)
         (St.ktrace s ++ [EvSubmitV4 (R.outfd rep) h4 cmd]) rest).
Proof.
  destruct s as [clp g rep da kt o]. cbn [St.clp St.rep St.glob St.oracle St.def_arr St.ktrace].
  intros Hwr Hv4 Hn Ha Hw2 Hcdb Ho. subst o.
  destruct (assign_pack_id (R.set_cmd cmd rep) (Glob.mono_pack_id g))
    as [[p rep1] mono1] eqn:Hap.
  destruct (start_io_v4_flags clp rep (Some xtr) (R.outfd rep)
              (start_io_flags clp rep)) as [[flags nblks] spare_in] eqn:Hfl.
  unfold sg_start_io.
  unfold mbind, M_bind, mret, M_ret, bind, ret, get_clp, get_rep.
  cbn [St.clp St.rep].
  rewrite Hwr. unfold side_flags. rewrite Hv4. unfold x_is_wr2. rewrite Hw2.
  rewrite Hcdb.
  unfold upd_rep, modify. cbn [St.rep St.set_rep St.clp St.glob St.def_arr St.ktrace St.oracle].
  unfold start_io_pack_id.
  unfold mbind, M_bind, mret, M_ret, bind, ret, get, upd_glob, upd_rep, modify.
  cbn [St.rep St.set_rep St.clp St.glob St.def_arr St.ktrace St.oracle St.set_glob].
  rewrite Hap.
  cbn [St.rep St.set_rep St.clp St.glob St.def_arr St.ktrace St.oracle St.set_glob].
  rewrite Hfl.
  destruct (Z.ltb_spec 0 (G.nmrqs clp)) as [Hlt|_]; [lia|].
  unfold with_fuel.
  cbn [St.rep St.set_rep St.clp St.glob St.def_arr St.ktrace St.oracle
       St.set_glob length retry_call].
  unfold mbind, M_bind, mret, M_ret, bind, ret, syscall.
  cbn [St.rep St.set_rep St.clp St.glob St.def_arr St.ktrace St.oracle
       St.set_glob St.set_oracle].
  unfold emit, modify.
  cbn [St.rep St.set_rep St.clp St.glob St.def_arr St.ktrace St.oracle
       St.set_glob St.set_oracle St.set_ktrace].
  unfold start_io_abort.
  unfold mbind, M_bind, mret, M_ret, bind, ret, get_clp, get_rep.
  cbn [St.rep St.set_rep St.clp St.glob St.def_arr St.ktrace St.oracle
       St.set_glob St.set_oracle St.set_ktrace].
  destruct (Z.ltb_spec 0 (G.aen clp)) as [Hlt|_]; [lia|].
  cbn [andb]. unfold x_hpv4_ind. reflexivity.
Qed.

(** A v4 receive by [sg_finish_io] that finds a clean completion. *)
Lemma sg_finish_io_v4_clean (s : St.t) (pid : Z) (xtr : X.t)
    (r : Z) (resp : kresp) (el : list kresp) (rest : list sysres) :
  let clp := St.clp s in
  let rep := St.rep s in
  Fl.v4 (G.out_flags clp) = true -> G.nmrqs clp <= 0 ->
  X.is_wr2 xtr = false ->
  St.oracle s = SysOk r resp el :: rest ->
  k_usr_ptr resp = RepPtr (R.id rep) -> k_category resp = SG_LIB_CAT_CLEAN ->
  exists rep',
    sg_finish_io true pid (Some xtr) s
    = Ret 0 (St.mk clp (St.glob s) rep' (St.def_arr s)
               (St.ktrace s ++ [EvReceiveV4 (R.outfd rep) pid]) rest)
    /\ R.set_dio_incomplete_count 0
         (R.set_resid 0 (R.set_io_hdr4_1 h4_zero (R.set_io_hdr4_0 h4_zero rep')))
       = R.set_dio_incomplete_count 0
           (R.set_resid 0 (R.set_io_hdr4_1 h4_zero (R.set_io_hdr4_0 h4_zero rep))).
Proof.
  destruct s as [clp g rep da kt o].
  cbn [St.clp St.rep St.glob St.oracle St.def_arr St.ktrace].
  intros Hv4 Hn Hw2 Ho Hup Hcat. subst o.
  unfold sg_finish_io.
  unfold mbind, M_bind, mret, M_ret, bind, ret, get_clp, get_rep.
  cbn [St.clp St.rep]. unfold side_flags. rewrite Hv4.
  destruct (Z.ltb_spec 0 (G.nmrqs clp)) as [Hlt|_]; [lia|].
  unfold upd_rep, modify, with_fuel.
  cbn [St.rep St.set_rep St.clp St.glob St.def_arr St.ktrace St.oracle
       St.set_glob length retry_call].
  unfold mbind, M_bind, mret, M_ret, bind, ret, syscall.
  cbn [St.rep St.set_rep St.clp St.glob St.def_arr St.ktrace St.oracle
       St.set_glob St.set_oracle].
  unfold emit, modify.
  cbn [St.rep St.set_rep St.clp St.glob St.def_arr St.ktrace St.oracle
       St.set_glob St.set_oracle St.set_ktrace].
  unfold x_is_wr2. rewrite Hw2.
  set (h4 := apply_resp resp _).
  assert (Hu : H4.usr_ptr h4 = RepPtr (R.id rep)) by (exact Hup).
  rewrite Hu.
  rewrite bool_decide_eq_true_2 by reflexivity. cbn [negb].
  rewrite Hcat. unfold finish_category. cbn [Z.eqb SG_LIB_CAT_CLEAN orb].
  unfold mbind, M_bind, mret, M_ret, bind, ret.
  destruct (Fl.mout_if (G.out_flags clp) && (H4.info h4 =? 0)
            && (H4.din_resid h4 =? 0)).
  - eexists. split; [reflexivity|].
    unfold set_io_hdr4, x_hpv4_ind. destruct (X.hpv4_ind xtr =? 0);
      destruct rep; reflexivity.
  - cbn [St.rep St.set_rep St.clp St.glob St.def_arr St.ktrace St.oracle
         St.set_glob St.set_oracle St.set_ktrace].
    eexists. split; [reflexivity|].
    unfold set_io_hdr4, x_hpv4_ind. destruct (X.hpv4_ind xtr =? 0);
      destruct rep; reflexivity.
Qed.

Lemma scrub_finish rep rep' :
  R.set_dio_incomplete_count 0
    (R.set_resid 0 (R.set_io_hdr4_1 h4_zero (R.set_io_hdr4_0 h4_zero rep')))
  = R.set_dio_incomplete_count 0
      (R.set_resid 0 (R.set_io_hdr4_1 h4_zero (R.set_io_hdr4_0 h4_zero rep))) ->
  scrub rep' = scrub rep.
Proof.
  intros H. destruct rep, rep'. injection H; intros; subst. reflexivity.
Qed.

Lemma scrub_set_io_hdr4 ind h rep : scrub (set_io_hdr4 ind h rep) = scrub rep.
Proof. unfold set_io_hdr4. destruct (ind =? 0); destruct rep; reflexivity. Qed.

Lemma scrub_set_rq_id p rep : scrub (R.set_rq_id p rep) = scrub rep.
Proof. destruct rep; reflexivity. Qed.

Lemma assign_pack_id_wr rep mono :
  R.wr rep = true ->
  assign_pack_id rep mono
  = (if R.both_sg rep then s32 (R.rd_p_id rep + 1) else mono,
     R.set_rq_id (if R.both_sg rep then s32 (R.rd_p_id rep + 1) else mono) rep,
     if R.both_sg rep then mono else s32 (mono + 1)).
Proof. intros H. unfold assign_pack_id. rewrite H. destruct (R.both_sg rep); reflexivity. Qed.

Lemma out_write_clean (s : St.t) (pid nblks : Z) (xtr : X.t) (cmd : list Z)
    (fuel : nat) (r1 : Z) (resp1 : kresp) (el1 : list kresp)
    (r2 : Z) (resp2 : kresp) (el2 : list kresp) (rest : list sysres) :
  let clp := St.clp s in
  let rep := St.rep s in
  R.wr rep = true -> Fl.v4 (G.out_flags clp) = true ->
  G.nmrqs clp <= 0 -> G.aen clp <= 0 ->
  X.is_wr2 xtr = false ->
  start_io_cdb clp rep (Some xtr) = (Some cmd, cmd) ->
  St.oracle s = SysOk r1 resp1 el1 :: SysOk r2 resp2 el2 :: rest ->
  k_usr_ptr resp2 = RepPtr (R.id rep) -> k_category resp2 = SG_LIB_CAT_CLEAN ->
  let fl := start_io_v4_flags clp rep (Some xtr) (R.outfd rep)
              (start_io_flags clp rep) in
  exists clp' g' rep' p,
    out_write xtr nblks pid (S fuel) s
    = Ret p (St.mk clp' g' rep' (St.def_arr s)
               (St.ktrace s
                ++ [EvSubmitV4 (R.outfd rep)
                      (start_io_hdr4 clp rep (Some xtr) p fl.1.1 fl.1.2 fl.2) cmd;
                    EvReceiveV4 (R.outfd rep) p]) rest)
    /\ config_of clp' = config_of clp
    /\ scrub rep' = scrub (R.set_cmd cmd rep)
    /\ G.in_stop clp' = G.in_stop clp /\ G.out_stop clp' = G.out_stop clp.
Proof.
  intros clp rep Hwr Hv4 Hn Ha Hw2 Hcdb Ho Hup Hcat fl.
  pose proof (sg_start_io_v4_single s pid xtr cmd r1 resp1 el1 _ Hwr Hv4 Hn Ha Hw2 Hcdb Ho) as Hst.
  fold clp rep in Hst.
  rewrite assign_pack_id_wr in Hst by (destruct rep; exact Hwr).
  fold fl in Hst. destruct fl as [[flags nb] spare] eqn:Hfl.
  cbn [fst snd].
  set (p := if R.both_sg (R.set_cmd cmd rep) then _ else _) in Hst.
  cbv zeta in Hst.
  set (s1 := St.mk _ _ _ _ _ _) in Hst.
  destruct (sg_finish_io_v4_clean s1 p xtr r2 resp2 el2 rest) as (rep' & Hfin & Hscr).
  - exact Hv4.
  - exact Hn.
  - exact Hw2.
  - reflexivity.
  - subst s1. cbn [St.rep]. rewrite Hup. f_equal.
    unfold set_io_hdr4. destruct (X.hpv4_ind xtr =? 0); destruct rep; reflexivity.
  - exact Hcat.
  - apply scrub_finish in Hscr. subst s1.
    cbn [St.rep St.clp St.glob St.def_arr St.ktrace St.oracle] in Hfin, Hscr.
    rewrite scrub_set_io_hdr4, scrub_set_rq_id in Hscr.
    assert (Hwr1 : R.wr (set_io_hdr4 (X.hpv4_ind xtr)
        (start_io_hdr4 clp rep (Some xtr) p flags nb spare)
        (R.set_rq_id p (R.set_cmd cmd rep))) = true).
    { unfold set_io_hdr4. destruct (X.hpv4_ind xtr =? 0); destruct rep; exact Hwr. }
    assert (Hfd : R.outfd (set_io_hdr4 (X.hpv4_ind xtr)
        (start_io_hdr4 clp rep (Some xtr) p flags nb spare)
        (R.set_rq_id p (R.set_cmd cmd rep))) = R.outfd rep).
    { unfold set_io_hdr4. destruct (X.hpv4_ind xtr =? 0); destruct rep; reflexivity. }
    rewrite Hfd in Hfin.
    cbn [out_write].
    unfold mbind at 1. unfold M_bind at 1. unfold bind at 1.
    rewrite Hst.
    cbn [Z.eqb Z.ltb Z.compare].
    unfold mbind at 1. unfold M_bind at 1. unfold bind at 1. unfold get_rep at 1.
    cbn [St.rep].
    unfold mbind at 1. unfold M_bind at 1. unfold bind at 1. unfold get_clp at 1.
    unfold mbind at 1. unfold M_bind at 1. unfold bind at 1.
    rewrite Hwr1, Hfin.
    cbn [Z.eqb orb andb SG_LIB_CAT_ABORTED_COMMAND SG_LIB_CAT_UNIT_ATTENTION
         SG_LIB_CAT_MEDIUM_HARD SG_LIB_CAT_CONDITION_MET].
    rewrite Hw2. cbn [negb].
    unfold account_resid.
    unfold mbind, M_bind, mret, M_ret, bind, ret, get_rep, upd_clp, modify.
    cbn [St.rep St.set_rep St.clp St.glob St.def_arr St.ktrace St.oracle
         St.set_glob St.set_oracle St.set_ktrace St.set_clp].
    rewrite <- app_assoc. cbn [app].
    destruct (negb (R.dio_incomplete_count rep' =? 0) || negb (R.resid rep' =? 0)).
    + cbn [St.rep St.set_rep St.clp St.glob St.def_arr St.ktrace St.oracle
         St.set_glob St.set_oracle St.set_ktrace St.set_clp].
      eexists _, _, _, _. split; [reflexivity|].
      split; [destruct (St.clp s); reflexivity|]. split; [exact Hscr|].
      destruct (St.clp s); split; reflexivity.
    + cbn [St.rep St.set_rep St.clp St.glob St.def_arr St.ktrace St.oracle
         St.set_glob St.set_oracle St.set_ktrace St.set_clp].
      eexists _, _, _, _. split; [reflexivity|].
      split; [destruct (St.clp s); reflexivity|]. split; [exact Hscr|].
      destruct (St.clp s); split; reflexivity.
Qed.

Lemma start_io_cdb_congr clp clp' rep rep' x :
  config_of clp' = config_of clp -> scrub rep' = scrub rep ->
  start_io_cdb clp' rep' x = start_io_cdb clp rep x.
Proof.
  intros Hc Hr. destruct clp, clp', rep, rep'.
  injection Hc; injection Hr; intros; subst. reflexivity.
Qed.

Lemma start_io_hdr4_congr clp clp' rep rep' x p :
  config_of clp' = config_of clp -> scrub rep' = scrub rep ->
  let fl' := start_io_v4_flags clp' rep' x (R.outfd rep')
               (start_io_flags clp' rep') in
  let fl := start_io_v4_flags clp rep x (R.outfd rep)
              (start_io_flags clp rep) in
  start_io_hdr4 clp' rep' x p fl'.1.1 fl'.1.2 fl'.2
  = start_io_hdr4 clp rep x p fl.1.1 fl.1.2 fl.2.
Proof.
  intros Hc Hr. destruct clp, clp', rep, rep'.
  injection Hc; injection Hr; intros; subst. reflexivity.
Qed.

Lemma has_flag_lor_same a f : f <> 0 -> has_flag (Z.lor a f) f = true.
Proof.
  intros Hf. unfold has_flag. apply negb_true_iff, Z.eqb_neq.
  rewrite Z.land_lor_distr_l, Z.land_diag. intros H.
  apply Z.lor_eq_0_iff in H. tauto.
Qed.

Lemma has_flag_lor_mono a g f : has_flag a f = true -> has_flag (Z.lor a g) f = true.
Proof.
  unfold has_flag. rewrite !negb_true_iff, !Z.eqb_neq.
  intros H H1. rewrite Z.land_lor_distr_l in H1.
  apply Z.lor_eq_0_iff in H1. tauto.
Qed.

Lemma has_flag_or_if_mono c a g f :
  has_flag a f = true -> has_flag (or_if c g a) f = true.
Proof. destruct c; cbn [or_if]; [apply has_flag_lor_mono|trivial]. Qed.

(** What [start_io_v4_flags] yields for the lower half of a split. *)
Lemma start_io_v4_flags_lower clp rep k fd fl0 :
  0 < k < R.num_blks rep ->
  let fl := start_io_v4_flags clp rep (Some (X.mk false false true 0 0 k)) fd fl0 in
  has_flag fl.1.1 SGV4_FLAG_KEEP_SHARE = true /\ fl.1.2 = k /\ fl.2 = 0.
Proof.
  intros Hk. unfold start_io_v4_flags.
  cbn [x_dout_is_split x_hpv4_ind x_blks x_blk_offset x_is_wr2 X.dout_is_split
       X.hpv4_ind X.blks X.blk_offset X.is_wr2 andb Z.eqb fst snd].
  destruct (Z.ltb_spec 0 (R.num_blks rep)) as [_|?]; [|lia].
  destruct (Z.ltb_spec k (R.num_blks rep)) as [_|?]; [|lia].
  cbn [fst snd or_if].
  match goal with |- context [if ?b then _ else _] => destruct b end;
    cbn [fst snd]; (split; [|split; reflexivity]).
  - apply has_flag_lor_mono, has_flag_lor_same. discriminate.
  - apply has_flag_or_if_mono, has_flag_lor_same. discriminate.
Qed.

(** ... and for the upper half. *)
Lemma start_io_v4_flags_upper clp rep off blks fd fl0 :
  0 < R.num_blks rep ->
  let fl := start_io_v4_flags clp rep (Some (X.mk false false true 1 off blks))
              fd fl0 in
  has_flag fl.1.1 SGV4_FLAG_DOUT_OFFSET = true /\ fl.1.2 = blks
  /\ fl.2 = u32 (G.bs clp * off).
Proof.
  intros Hk. unfold start_io_v4_flags.
  cbn [x_dout_is_split x_hpv4_ind x_blks x_blk_offset x_is_wr2 X.dout_is_split
       X.hpv4_ind X.blks X.blk_offset X.is_wr2 andb Z.eqb fst snd Pos.eqb].
  destruct (Z.ltb_spec 0 (R.num_blks rep)) as [_|?]; [|lia].
  cbn [fst snd or_if].
  match goal with |- context [if ?b then _ else _] => destruct b end;
    cbn [fst snd]; (split; [|split; reflexivity]).
  - apply has_flag_lor_mono, has_flag_lor_same. discriminate.
  - apply has_flag_or_if_mono, has_flag_lor_same. discriminate.
Qed.

Lemma scrub_fields a b :
  scrub a = scrub b ->
  R.wr a = R.wr b /\ R.num_blks a = R.num_blks b /\ R.id a = R.id b
  /\ R.outfd a = R.outfd b.
Proof. intros H. destruct a, b. injection H; intros; subst. repeat split. Qed.

Lemma config_fields a b :
  config_of a = config_of b ->
  G.out_flags a = G.out_flags b /\ G.nmrqs a = G.nmrqs b /\ G.aen a = G.aen b
  /\ G.bs a = G.bs b.
Proof. intros H. destruct a, b. injection H; intros; subst. repeat split. Qed.

Lemma scrub_set_out_mrq_q_blks n rep :
  scrub (R.set_out_mrq_q_blks n rep) = scrub rep.
Proof. destruct rep; reflexivity. Qed.

Lemma scrub_set_resid n rep : scrub (R.set_resid n rep) = scrub rep.
Proof. destruct rep; reflexivity. Qed.

(** A write-side command that does not fill the deferred array: the
    command is appended and the write counted as done, without a call. *)
Lemma out_write_deferred (s : St.t) (pid nblks : Z) (xtr : X.t)
    (cmd : list Z) (fuel : nat) :
  let clp := St.clp s in
  let rep := St.rep s in
  R.wr rep = true -> Fl.v4 (G.out_flags clp) = true ->
  Z.of_nat (length (St.def_arr s)) + 1 < G.nmrqs clp ->
  X.is_wr2 xtr = false ->
  start_io_cdb clp rep (Some xtr) = (Some cmd, cmd) ->
  let fl := start_io_v4_flags clp rep (Some xtr) (R.outfd rep)
              (start_io_flags clp rep) in
  exists clp' g' rep' p,
    out_write xtr nblks pid (S fuel) s
    = Ret p (St.mk clp' g' rep'
               (St.def_arr s
                ++ [(start_io_hdr4 clp rep (Some xtr) p fl.1.1 fl.1.2 fl.2,
                     take (Z.to_nat (G.cdbsz_out clp)) cmd)])
               (St.ktrace s) (St.oracle s))
    /\ config_of clp' = config_of clp
    /\ scrub rep' = scrub (R.set_cmd cmd rep)
    /\ G.in_stop clp' = G.in_stop clp /\ G.out_stop clp' = G.out_stop clp.
Proof.
  destruct s as [clp g rep da kt o].
  cbn [St.clp St.rep St.def_arr St.ktrace St.oracle].
  intros Hwr Hv4 Hlen Hw2 Hcdb.
  cbn [out_write]. unfold sg_start_io.
  unfold mbind at 1. unfold M_bind at 1. unfold bind at 1.
  unfold mbind at 1. unfold M_bind at 1. unfold bind at 1. unfold get_clp at 1.
  unfold mbind at 1. unfold M_bind at 1. unfold bind at 1. unfold get_rep at 1.
  cbn [St.clp St.rep]. rewrite Hcdb, Hwr. unfold side_flags at 1. rewrite Hv4.
  unfold x_is_wr2 at 1. rewrite Hw2.
  unfold mbind at 1. unfold M_bind at 1. unfold bind at 1.
  unfold upd_rep at 1. unfold modify at 1.
  unfold mbind at 1. unfold M_bind at 1. unfold bind at 1.
  unfold start_io_pack_id.
  unfold mbind at 1. unfold M_bind at 1. unfold bind at 1. unfold get at 1.
  cbn [St.set_rep St.clp St.glob St.rep St.def_arr St.ktrace St.oracle].
  rewrite assign_pack_id_wr by exact Hwr.
  set (p := if R.both_sg (R.set_cmd cmd rep) then _ else _).
  set (mono1 := if R.both_sg (R.set_cmd cmd rep) then _ else _).
  destruct (start_io_v4_flags clp rep (Some xtr) (R.outfd rep)
              (start_io_flags clp rep)) as [[flags nb] spare] eqn:Hfl.
  cbn [fst snd].
  destruct (Z.ltb_spec 0 (G.nmrqs clp)) as [_|?]; [|lia].
  unfold mbind, M_bind, bind, upd_rep, upd_glob, modify, get, get_rep, get_clp,
    mret, M_ret, ret.
  cbn [St.set_rep St.set_glob St.set_def_arr St.clp St.glob St.rep
       St.def_arr St.ktrace St.oracle].
  rewrite length_app. cbn [length].
  destruct (Z.leb_spec (G.nmrqs clp) (Z.of_nat (length da + 1))) as [?|_];
    [lia|].
  cbn [St.set_rep St.set_glob St.set_def_arr St.clp St.glob St.rep
       St.def_arr St.ktrace St.oracle Z.eqb Z.ltb Z.compare].
  set (rep2 := R.set_out_mrq_q_blks _ _).
  assert (Hwr2 : R.wr rep2 = true).
  { subst rep2. unfold set_io_hdr4, x_hpv4_ind.
    destruct (X.hpv4_ind xtr =? 0); destruct rep; exact Hwr. }
  rewrite Hwr2.
  unfold sg_finish_io.
  unfold mbind, M_bind, bind, upd_rep, upd_glob, modify, get, get_rep, get_clp,
    mret, M_ret, ret.
  cbn [St.set_rep St.set_glob St.set_def_arr St.clp St.glob St.rep
       St.def_arr St.ktrace St.oracle].
  unfold side_flags. rewrite Hv4.
  destruct (Z.ltb_spec 0 (G.nmrqs clp)) as [_|?]; [|lia].
  cbn [St.set_rep St.set_glob St.set_def_arr St.clp St.glob St.rep
       St.def_arr St.ktrace St.oracle Z.eqb orb andb
       SG_LIB_CAT_ABORTED_COMMAND SG_LIB_CAT_UNIT_ATTENTION
       SG_LIB_CAT_MEDIUM_HARD SG_LIB_CAT_CONDITION_MET].
  cbn [negb]. unfold account_resid.
  unfold mbind, M_bind, bind, upd_rep, upd_clp, upd_glob, modify, get, get_rep,
    get_clp, mret, M_ret, ret.
  cbn [St.set_rep St.set_glob St.set_def_arr St.set_clp St.clp St.glob St.rep
       St.def_arr St.ktrace St.oracle].
  assert (Hscr : scrub (R.set_resid 0 rep2) = scrub (R.set_cmd cmd rep)).
  { subst rep2. rewrite scrub_set_resid, scrub_set_out_mrq_q_blks.
    unfold x_hpv4_ind. rewrite scrub_set_io_hdr4, scrub_set_rq_id.
    reflexivity. }
  destruct (negb (R.dio_incomplete_count (R.set_resid 0 rep2) =? 0)
            || negb (R.resid (R.set_resid 0 rep2) =? 0));
    cbn [St.set_rep St.set_glob St.set_def_arr St.set_clp St.clp St.glob
         St.rep St.def_arr St.ktrace St.oracle];
    (eexists _, _, _, _; split; [reflexivity|];
     split; [destruct clp; reflexivity|]; split; [exact Hscr|]);
    destruct clp; split; reflexivity.
Qed.

(** A write-side command whose CDB cannot be built: no command is made,
    and a stop of both sides is requested. *)
Lemma out_write_bad_cdb (s : St.t) (pid nblks : Z) (xtr : X.t)
    (cmd : list Z) (fuel : nat) :
  start_io_cdb (St.clp s) (St.rep s) (Some xtr) = (None, cmd) ->
  out_write xtr nblks pid (S fuel) s
  = Ret pid (St.mk (G.set_out_stop true (G.set_in_stop true (St.clp s)))
               (St.glob s) (R.set_cmd cmd (St.rep s)) (St.def_arr s)
               (St.ktrace s) (St.oracle s)).
Proof.
  destruct s as [clp g rep da kt o].
  cbn [St.clp St.rep St.glob St.def_arr St.ktrace St.oracle].
  intros Hcdb. cbn [out_write]. unfold sg_start_io.
  unfold mbind at 1. unfold M_bind at 1. unfold bind at 1.
  unfold mbind at 1. unfold M_bind at 1. unfold bind at 1. unfold get_clp at 1.
  unfold mbind at 1. unfold M_bind at 1. unfold bind at 1. unfold get_rep at 1.
  cbn [St.clp St.rep]. rewrite Hcdb.
  unfold mbind, M_bind, bind, upd_rep, modify, mret, M_ret, ret, stop_both,
    upd_clp.
  cbn [St.set_rep St.set_clp St.clp St.glob St.rep St.def_arr St.ktrace
       St.oracle Z.eqb Z.ltb Z.compare].
  reflexivity.
Qed.

(** One half with single submits: a command that completes cleanly at its
    first receive when the CDB can be built ([ok]), and else none. *)
Lemma out_write_half_single (s : St.t) (pid nblks : Z) (xtr : X.t)
    (ok : bool) (cmd : list Z) (fuel : nat)
    (r1 : Z) (resp1 : kresp) (el1 : list kresp)
    (r2 : Z) (resp2 : kresp) (el2 : list kresp) (rest : list sysres) :
  let clp := St.clp s in
  let rep := St.rep s in
  R.wr rep = true -> Fl.v4 (G.out_flags clp) = true ->
  G.nmrqs clp <= 0 -> G.aen clp <= 0 ->
  X.is_wr2 xtr = false ->
  start_io_cdb clp rep (Some xtr) = (if ok then Some cmd else None, cmd) ->
  St.oracle s
  = (if ok then [SysOk r1 resp1 el1; SysOk r2 resp2 el2] else []) ++ rest ->
  k_usr_ptr resp2 = RepPtr (R.id rep) -> k_category resp2 = SG_LIB_CAT_CLEAN ->
  let fl := start_io_v4_flags clp rep (Some xtr) (R.outfd rep)
              (start_io_flags clp rep) in
  exists clp' g' rep' p,
    out_write xtr nblks pid (S fuel) s
    = Ret p (St.mk clp' g' rep' (St.def_arr s)
               (St.ktrace s
                ++ (if ok
                    then [EvSubmitV4 (R.outfd rep)
                            (start_io_hdr4 clp rep (Some xtr) p
                               fl.1.1 fl.1.2 fl.2) cmd;
                          EvReceiveV4 (R.outfd rep) p]
                    else [])) rest)
    /\ config_of clp' = config_of clp
    /\ scrub rep' = scrub (R.set_cmd cmd rep)
    /\ G.in_stop clp' = (if ok then G.in_stop clp else true)
    /\ G.out_stop clp' = (if ok then G.out_stop clp else true).
Proof.
  intros clp rep Hwr Hv4 Hn Ha Hw2 Hcdb Ho Hup Hcat fl.
  destruct ok.
  - exact (out_write_clean s pid nblks xtr cmd fuel r1 resp1 el1 r2 resp2 el2
             rest Hwr Hv4 Hn Ha Hw2 Hcdb Ho Hup Hcat).
  - rewrite (out_write_bad_cdb s pid nblks xtr cmd fuel Hcdb).
    cbn [app] in Ho. rewrite Ho, app_nil_r.
    eexists _, _, _, _. split; [reflexivity|].
    split; [destruct (St.clp s); reflexivity|].
    split; [reflexivity|]. destruct (St.clp s); split; reflexivity.
Qed.

(** One half with [mrq=] given: the command is appended to the deferred
    array, which it does not fill, when the CDB can be built ([ok]);
    else nothing is. *)
Lemma out_write_half_deferred (s : St.t) (pid nblks : Z) (xtr : X.t)
    (ok : bool) (cmd : list Z) (fuel : nat) :
  let clp := St.clp s in
  let rep := St.rep s in
  R.wr rep = true -> Fl.v4 (G.out_flags clp) = true ->
  Z.of_nat (length (St.def_arr s)) + (if ok then 1 else 0) < G.nmrqs clp ->
  X.is_wr2 xtr = false ->
  start_io_cdb clp rep (Some xtr) = (if ok then Some cmd else None, cmd) ->
  let fl := start_io_v4_flags clp rep (Some xtr) (R.outfd rep)
              (start_io_flags clp rep) in
  exists clp' g' rep' p,
    out_write xtr nblks pid (S fuel) s
    = Ret p (St.mk clp' g' rep'
               (St.def_arr s
                ++ (if ok
                    then [(start_io_hdr4 clp rep (Some xtr) p
                             fl.1.1 fl.1.2 fl.2,
                           take (Z.to_nat (G.cdbsz_out clp)) cmd)]
                    else []))
               (St.ktrace s) (St.oracle s))
    /\ config_of clp' = config_of clp
    /\ scrub rep' = scrub (R.set_cmd cmd rep)
    /\ G.in_stop clp' = (if ok then G.in_stop clp else true)
    /\ G.out_stop clp' = (if ok then G.out_stop clp else true).
Proof.
  intros clp rep Hwr Hv4 Hlen Hw2 Hcdb fl.
  destruct ok.
  - exact (out_write_deferred s pid nblks xtr cmd fuel Hwr Hv4 Hlen Hw2 Hcdb).
  - rewrite (out_write_bad_cdb s pid nblks xtr cmd fuel Hcdb).
    rewrite app_nil_r.
    eexists _, _, _, _. split; [reflexivity|].
    split; [destruct (St.clp s); reflexivity|].
    split; [reflexivity|]. destruct (St.clp s); split; reflexivity.
Qed.

Section Split.

(** A segment of [c] blocks on the write side of a worker, split at
    [0 < k < c], with the v4 interface; [res1], [cdb1] and [res2], [cdb2]
    are what [sg_build_scsi_cdb] yields for the two halves. *)
Variables (clp : G.t) (rep : R.t) (k c : Z) (res1 res2 : Z)
  (cdb1 cdb2 : list Z).
Let ofl := G.out_flags clp.
Let x1 := X.mk false false true 0 0 k.
Let x2 := X.mk false false true 1 k (c - k).
Hypothesis Hwr : R.wr rep = true.
Hypothesis Hv4 : Fl.v4 ofl = true.
Hypothesis Hk : G.ofsplit clp = k.
Hypothesis Hc : R.num_blks rep = c.
Hypothesis Hkc : 0 < k < c.
Hypothesis Hmax : c <= INT_MAX.
Hypothesis Hb1 :
  sg_build_scsi_cdb (R.cmd rep) (G.cdbsz_out clp) k (R.oblk rep)
    (G.verify clp) true (Fl.fua ofl) (Fl.dpo ofl) = (res1, cdb1).
Hypothesis Hb2 :
  sg_build_scsi_cdb cdb1 (G.cdbsz_out clp) (c - k) (R.oblk rep + k)
    (G.verify clp) true (Fl.fua ofl) (Fl.dpo ofl) = (res2, cdb2).

Lemma split_u32_k : u32 k = k.
Proof. apply u32_small. unfold INT_MAX in Hmax. lia. Qed.

Lemma split_s32_k : s32 k = k.
Proof. apply s32_small. lia. Qed.

Lemma split_upper_blks : s32 (u32 c - k) = c - k.
Proof.
  rewrite u32_small by (unfold INT_MAX in Hmax; lia). apply s32_small. lia.
Qed.

(** The CDB of the lower half. *)
Lemma split_cdb_lower :
  start_io_cdb clp rep (Some x1)
  = (if res1 =? 0 then Some cdb1 else None, cdb1).
Proof.
  unfold start_io_cdb. rewrite Hwr. unfold side_flags. fold ofl. rewrite Hv4.
  cbn [x1 x_dout_is_split x_blks x_blk_offset x_prefetch X.dout_is_split
       X.blks X.blk_offset X.prefetch andb].
  rewrite split_u32_k. change (u32 0) with 0. rewrite Z.add_0_r, Hb1.
  destruct (res1 =? 0); reflexivity.
Qed.

(** The CDB of the upper half, built once the lower half is done with. *)
Lemma split_cdb_upper (clp1 : G.t) (rep1 : R.t) :
  config_of clp1 = config_of clp -> scrub rep1 = scrub (R.set_cmd cdb1 rep) ->
  start_io_cdb clp1 rep1 (Some x2)
  = (if res2 =? 0 then Some cdb2 else None, cdb2).
Proof.
  intros Hcfg Hscr. rewrite (start_io_cdb_congr _ _ _ _ _ Hcfg Hscr).
  unfold start_io_cdb.
  replace (R.wr (R.set_cmd cdb1 rep)) with true
    by (destruct rep; symmetry; exact Hwr).
  unfold side_flags. fold ofl. rewrite Hv4.
  cbn [x2 x_dout_is_split x_blks x_blk_offset x_prefetch X.dout_is_split
       X.blks X.blk_offset X.prefetch andb].
  rewrite split_u32_k.
  rewrite (u32_small (c - k)) by (unfold INT_MAX in Hmax; lia).
  replace (R.cmd (R.set_cmd cdb1 rep)) with cdb1 by (destruct rep; reflexivity).
  replace (R.oblk (R.set_cmd cdb1 rep)) with (R.oblk rep)
    by (destruct rep; reflexivity).
  rewrite Hb2. destruct (res2 =? 0); reflexivity.
Qed.

(** The headers of the two halves. *)
Lemma split_headers_built (p1 p2 : Z) :
  let fl1 := start_io_v4_flags clp rep (Some x1) (R.outfd rep)
               (start_io_flags clp rep) in
  let fl2 := start_io_v4_flags clp (R.set_cmd cdb1 rep) (Some x2)
               (R.outfd rep) (start_io_flags clp (R.set_cmd cdb1 rep)) in
  split_headers (G.bs clp) k c
    (start_io_hdr4 clp rep (Some x1) p1 fl1.1.1 fl1.1.2 fl1.2)
    (start_io_hdr4 clp (R.set_cmd cdb1 rep) (Some x2) p2
       fl2.1.1 fl2.1.2 fl2.2).
Proof.
  cbv zeta.
  pose proof (start_io_v4_flags_lower clp rep k (R.outfd rep)
                (start_io_flags clp rep)) as Hlo.
  pose proof (start_io_v4_flags_upper clp (R.set_cmd cdb1 rep) k (c - k)
                (R.outfd rep) (start_io_flags clp (R.set_cmd cdb1 rep))) as Hup.
  cbv zeta in Hlo, Hup. fold x1 in Hlo. fold x2 in Hup.
  destruct Hlo as (Hl1 & Hl2 & Hl3); [lia|].
  destruct Hup as (Hp1 & Hp2 & Hp3).
  { replace (R.num_blks (R.set_cmd cdb1 rep)) with (R.num_blks rep)
      by (destruct rep; reflexivity). lia. }
  unfold split_headers, start_io_hdr4.
  cbn [H4.dout_xfer_len H4.spare_in H4.flags H4.dout_xferp].
  replace (R.wr (R.set_cmd cdb1 rep)) with true
    by (destruct rep; symmetry; exact Hwr).
  rewrite Hwr. cbn [x1 x2 x_prefetch X.prefetch negb andb].
  fold x1 x2. rewrite Hl2, Hl3, Hp2, Hp3.
  repeat split; assumption.
Qed.

(** [sg_out_wr_cmd] comes to two runs of [out_write], one per half. *)
Lemma sg_out_wr_cmd_split (s s1 s2 : St.t) (p1 p2 : Z) :
  St.clp s = clp -> St.rep s = rep ->
  out_write x1 k 0 (S (length (St.oracle s))) s = Ret p1 s1 ->
  R.num_blks (St.rep s1) = c ->
  out_write x2 (c - k) p1 (S (length (St.oracle s1))) s1 = Ret p2 s2 ->
  sg_out_wr_cmd false false s = Ret tt s2.
Proof.
  intros Hclp Hrep Hrun1 Hnb1 Hrun2.
  unfold sg_out_wr_cmd.
  unfold mbind at 1. unfold M_bind at 1. unfold bind at 1. unfold get_clp at 1.
  unfold mbind at 1. unfold M_bind at 1. unfold bind at 1. unfold get_rep at 1.
  rewrite Hclp, Hrep, Hk, Hc, split_u32_k, split_s32_k, andb_false_r.
  destruct (Z.ltb_spec 0 k) as [_|?]; [|lia].
  destruct (Z.ltb_spec k c) as [_|?]; [|lia].
  cbn [andb]. fold x1.
  unfold mbind, M_bind, mret, M_ret, bind, ret, with_fuel.
  rewrite Hrun1. unfold get_rep. rewrite Hnb1.
  cbn [x1 X.dout_is_split andb].
  destruct (Z.ltb_spec k c) as [_|?]; [|lia].
  rewrite split_upper_blks. fold x2. rewrite Hrun2. reflexivity.
Qed.

(** The split write with single submits that complete cleanly. *)
Lemma split_write_single (g : Glob.t) (da : mrq_arr_t) (kt : list kevent)
    (r1 r2 r3 r4 : Z) (resp1 resp2 resp3 resp4 : kresp)
    (el1 el2 el3 el4 : list kresp) (rest : list sysres) :
  G.nmrqs clp <= 0 -> G.aen clp <= 0 ->
  k_usr_ptr resp2 = RepPtr (R.id rep) -> k_category resp2 = SG_LIB_CAT_CLEAN ->
  k_usr_ptr resp4 = RepPtr (R.id rep) -> k_category resp4 = SG_LIB_CAT_CLEAN ->
  exists s' p1 p2 h1 h2,
    sg_out_wr_cmd false false
      (St.mk clp g rep da kt
         ((if res1 =? 0
           then [SysOk r1 resp1 el1; SysOk r2 resp2 el2] else [])
          ++ (if res2 =? 0
              then [SysOk r3 resp3 el3; SysOk r4 resp4 el4] else [])
          ++ rest))
    = Ret tt s'
    /\ St.ktrace s'
       = kt
         ++ (if res1 =? 0
             then [EvSubmitV4 (R.outfd rep) h1 cdb1;
                   EvReceiveV4 (R.outfd rep) p1] else [])
         ++ (if res2 =? 0
             then [EvSubmitV4 (R.outfd rep) h2 cdb2;
                   EvReceiveV4 (R.outfd rep) p2] else [])
    /\ St.def_arr s' = da /\ St.oracle s' = rest
    /\ split_headers (G.bs clp) k c h1 h2
    /\ G.in_stop (St.clp s')
       = (if (res1 =? 0) && (res2 =? 0) then G.in_stop clp else true)
    /\ G.out_stop (St.clp s')
       = (if (res1 =? 0) && (res2 =? 0) then G.out_stop clp else true).
Proof.
  intros Hn Ha Hu2 Hc2 Hu4 Hc4.
  set (o2 := (if res2 =? 0 then _ else _) ++ rest).
  set (o := _ ++ o2).
  destruct (out_write_half_single (St.mk clp g rep da kt o) 0 k x1
              (res1 =? 0) cdb1 (length o) r1 resp1 el1 r2 resp2 el2 o2
              Hwr Hv4 Hn Ha eq_refl split_cdb_lower eq_refl Hu2 Hc2)
    as (clp1 & g1 & rep1 & p1 & Hrun1 & Hcfg1 & Hscr1 & Hin1 & Hout1).
  cbn [St.clp St.rep St.def_arr St.ktrace St.oracle]
    in Hrun1, Hcfg1, Hscr1, Hin1, Hout1.
  set (s1 := St.mk clp1 g1 rep1 _ _ _) in Hrun1.
  destruct (scrub_fields _ _ Hscr1) as (Hwr1 & Hnb1 & Hid1 & Hfd1).
  cbn [R.wr R.num_blks R.id R.outfd R.set_cmd] in Hwr1, Hnb1, Hid1, Hfd1.
  rewrite Hwr in Hwr1. rewrite Hc in Hnb1.
  destruct (config_fields _ _ Hcfg1) as (Hfl1 & Hnm1 & Hae1 & Hbs1).
  fold ofl in Hfl1.
  destruct (out_write_half_single s1 p1 (c - k) x2 (res2 =? 0) cdb2
              (length (St.oracle s1)) r3 resp3 el3 r4 resp4 el4 rest) as
      (clp2 & g2 & rep2 & p2 & Hrun2 & Hcfg2 & Hscr2 & Hin2 & Hout2).
  { exact Hwr1. }
  { cbn [s1 St.clp]. rewrite Hfl1. exact Hv4. }
  { cbn [s1 St.clp]. rewrite Hnm1. exact Hn. }
  { cbn [s1 St.clp]. rewrite Hae1. exact Ha. }
  { reflexivity. }
  { exact (split_cdb_upper _ _ Hcfg1 Hscr1). }
  { reflexivity. }
  { cbn [s1 St.rep]. rewrite Hid1. exact Hu4. }
  { exact Hc4. }
  cbn [s1 St.clp St.rep St.def_arr St.ktrace St.oracle]
    in Hrun2, Hcfg2, Hscr2, Hin2, Hout2.
  fold s1 in Hrun2.
  rewrite (start_io_hdr4_congr _ _ _ _ _ _ Hcfg1 Hscr1) in Hrun2.
  rewrite Hfd1 in Hrun2.
  replace (R.outfd (R.set_cmd cdb1 rep)) with (R.outfd rep) in Hrun2
    by (destruct rep; reflexivity).
  rewrite <- app_assoc in Hrun2.
  eexists _, p1, p2, _, _.
  split.
  { apply (sg_out_wr_cmd_split _ s1 _ p1 p2);
      [reflexivity | reflexivity | exact Hrun1 | exact Hnb1 | exact Hrun2]. }
  cbn [St.ktrace St.oracle St.def_arr St.clp].
  split; [reflexivity|]. split; [reflexivity|]. split; [reflexivity|].
  split; [apply split_headers_built|].
  rewrite Hin2, Hout2, Hin1, Hout1.
  destruct (res1 =? 0), (res2 =? 0); split; reflexivity.
Qed.

(** The split write with [mrq=] given, when the halves do not fill the
    deferred array. *)
Lemma split_write_deferred (g : Glob.t) (da : mrq_arr_t) (kt : list kevent)
    (o : list sysres) :
  Z.of_nat (length da) + (if res1 =? 0 then 1 else 0)
  + (if res2 =? 0 then 1 else 0) < G.nmrqs clp ->
  exists s' h1 h2,
    sg_out_wr_cmd false false (St.mk clp g rep da kt o) = Ret tt s'
    /\ St.def_arr s'
       = da
         ++ (if res1 =? 0
             then [(h1, take (Z.to_nat (G.cdbsz_out clp)) cdb1)] else [])
         ++ (if res2 =? 0
             then [(h2, take (Z.to_nat (G.cdbsz_out clp)) cdb2)] else [])
    /\ St.ktrace s' = kt /\ St.oracle s' = o
    /\ split_headers (G.bs clp) k c h1 h2
    /\ G.in_stop (St.clp s')
       = (if (res1 =? 0) && (res2 =? 0) then G.in_stop clp else true)
    /\ G.out_stop (St.clp s')
       = (if (res1 =? 0) && (res2 =? 0) then G.out_stop clp else true).
Proof.
  intros Hroom.
  destruct (out_write_half_deferred (St.mk clp g rep da kt o) 0 k x1
              (res1 =? 0) cdb1 (length o))
    as (clp1 & g1 & rep1 & p1 & Hrun1 & Hcfg1 & Hscr1 & Hin1 & Hout1).
  { exact Hwr. }
  { exact Hv4. }
  { cbn [St.def_arr St.clp]. destruct (res1 =? 0), (res2 =? 0); lia. }
  { reflexivity. }
  { exact split_cdb_lower. }
  cbn [St.clp St.rep St.def_arr St.ktrace St.oracle]
    in Hrun1, Hcfg1, Hscr1, Hin1, Hout1.
  set (s1 := St.mk clp1 g1 rep1 _ _ _) in Hrun1.
  destruct (scrub_fields _ _ Hscr1) as (Hwr1 & Hnb1 & Hid1 & Hfd1).
  cbn [R.wr R.num_blks R.id R.outfd R.set_cmd] in Hwr1, Hnb1, Hid1, Hfd1.
  rewrite Hwr in Hwr1. rewrite Hc in Hnb1.
  destruct (config_fields _ _ Hcfg1) as (Hfl1 & Hnm1 & Hae1 & Hbs1).
  fold ofl in Hfl1.
  destruct (out_write_half_deferred s1 p1 (c - k) x2 (res2 =? 0) cdb2
              (length (St.oracle s1)))
    as (clp2 & g2 & rep2 & p2 & Hrun2 & Hcfg2 & Hscr2 & Hin2 & Hout2).
  { exact Hwr1. }
  { cbn [s1 St.clp]. rewrite Hfl1. exact Hv4. }
  { cbn [s1 St.clp St.def_arr]. rewrite Hnm1, length_app.
    destruct (res1 =? 0), (res2 =? 0); cbn [length] in *; lia. }
  { reflexivity. }
  { exact (split_cdb_upper _ _ Hcfg1 Hscr1). }
  cbn [s1 St.clp St.rep St.def_arr St.ktrace St.oracle]
    in Hrun2, Hcfg2, Hscr2, Hin2, Hout2.
  fold s1 in Hrun2.
  rewrite (start_io_hdr4_congr _ _ _ _ _ _ Hcfg1 Hscr1) in Hrun2.
  replace (G.cdbsz_out clp1) with (G.cdbsz_out clp) in Hrun2
    by (pose proof (f_equal G.cdbsz_out Hcfg1) as H; destruct clp, clp1;
        symmetry; exact H).
  replace (R.outfd (R.set_cmd cdb1 rep)) with (R.outfd rep) in Hrun2
    by (destruct rep; reflexivity).
  rewrite <- app_assoc in Hrun2.
  eexists _, _, _.
  split.
  { apply (sg_out_wr_cmd_split _ s1 _ p1 p2);
      [reflexivity | reflexivity | exact Hrun1 | exact Hnb1 | exact Hrun2]. }
  cbn [St.ktrace St.oracle St.def_arr St.clp].
  split; [reflexivity|]. split; [reflexivity|]. split; [reflexivity|].
  split; [apply split_headers_built|].
  rewrite Hin2, Hout2, Hin1, Hout1.
  destruct (res1 =? 0), (res2 =? 0); split; reflexivity.
Qed.

End Split.

(** C5 (amended): with the v4 interface on the write side, the write of a
    segment of [c] blocks with split point [0 < k < c] to the primary
    target, with no PRE-FETCH asked for, is made half by half, the lower
    half first: [k] blocks at [oblk], then [c - k] blocks at [oblk + k].  A half whose CDB
    [sg_build_scsi_cdb] can build is made as one command: for the lower
    half with data length [bs*k], [spare_in = 0] and KEEP_SHARE set, for
    the upper half with data length [bs*(c-k)], DOUT_OFFSET set and
    [spare_in = bs*k], both from the same buffer.  A half whose CDB cannot
    be built is not made, and a stop of both sides is requested; the other
    half is still made.  So the write is made as exactly two commands
    when both CDBs can be built.  With single submits ([mrq=] not given,
    the abort test hook off) that complete cleanly at their first
    receive, the commands reach the kernel on the output descriptor in
    this order; with [mrq=] given, and as long as the deferred array stays
    below [nmrqs] entries (at [nmrqs] it is flushed), they are appended to
    the deferred array in this order and no call is made. *)
Theorem split_write_two_halves (s : St.t) (k c : Z) :
  let clp := St.clp s in
  let rep := St.rep s in
  let ofl := G.out_flags clp in
  let b1 := sg_build_scsi_cdb (R.cmd rep) (G.cdbsz_out clp) k (R.oblk rep)
              (G.verify clp) true (Fl.fua ofl) (Fl.dpo ofl) in
  let b2 := sg_build_scsi_cdb (snd b1) (G.cdbsz_out clp) (c - k)
              (R.oblk rep + k) (G.verify clp) true (Fl.fua ofl)
              (Fl.dpo ofl) in
  let ok1 := fst b1 =? 0 in
  let ok2 := fst b2 =? 0 in
  let cdb1 := snd b1 in
  let cdb2 := snd b2 in
  R.wr rep = true -> Fl.v4 ofl = true ->
  G.ofsplit clp = k -> R.num_blks rep = c -> 0 < k < c -> c <= INT_MAX ->
  (G.nmrqs clp <= 0 -> G.aen clp <= 0 ->
   forall (r1 r2 r3 r4 : Z) (resp1 resp2 resp3 resp4 : kresp)
          (el1 el2 el3 el4 : list kresp) (rest : list sysres),
     St.oracle s
     = (if ok1 then [SysOk r1 resp1 el1; SysOk r2 resp2 el2] else [])
       ++ (if ok2 then [SysOk r3 resp3 el3; SysOk r4 resp4 el4] else [])
       ++ rest ->
     k_usr_ptr resp2 = RepPtr (R.id rep) ->
     k_category resp2 = SG_LIB_CAT_CLEAN ->
     k_usr_ptr resp4 = RepPtr (R.id rep) ->
     k_category resp4 = SG_LIB_CAT_CLEAN ->
     exists s' p1 p2 h1 h2,
       sg_out_wr_cmd false false s = Ret tt s'
       /\ St.ktrace s'
          = St.ktrace s
            ++ (if ok1
                then [EvSubmitV4 (R.outfd rep) h1 cdb1;
                      EvReceiveV4 (R.outfd rep) p1] else [])
            ++ (if ok2
                then [EvSubmitV4 (R.outfd rep) h2 cdb2;
                      EvReceiveV4 (R.outfd rep) p2] else [])
       /\ St.def_arr s' = St.def_arr s /\ St.oracle s' = rest
       /\ split_headers (G.bs clp) k c h1 h2
       /\ G.in_stop (St.clp s')
          = (if ok1 && ok2 then G.in_stop clp else true)
       /\ G.out_stop (St.clp s')
          = (if ok1 && ok2 then G.out_stop clp else true))
  /\ (Z.of_nat (length (St.def_arr s)) + (if ok1 then 1 else 0)
      + (if ok2 then 1 else 0) < G.nmrqs clp ->
      exists s' h1 h2,
        sg_out_wr_cmd false false s = Ret tt s'
        /\ St.def_arr s'
           = St.def_arr s
             ++ (if ok1
                 then [(h1, take (Z.to_nat (G.cdbsz_out clp)) cdb1)] else [])
             ++ (if ok2
                 then [(h2, take (Z.to_nat (G.cdbsz_out clp)) cdb2)] else [])
        /\ St.ktrace s' = St.ktrace s /\ St.oracle s' = St.oracle s
        /\ split_headers (G.bs clp) k c h1 h2
        /\ G.in_stop (St.clp s')
           = (if ok1 && ok2 then G.in_stop clp else true)
        /\ G.out_stop (St.clp s')
           = (if ok1 && ok2 then G.out_stop clp else true)).
Proof.
  destruct s as [clp g rep da kt o].
  cbn [St.clp St.rep St.oracle St.ktrace St.def_arr].
  intros Hwr Hv4 Hk Hc Hkc Hmax.
  set (ofl := G.out_flags clp) in *.
  set (b1 := sg_build_scsi_cdb (R.cmd rep) (G.cdbsz_out clp) k (R.oblk rep)
               (G.verify clp) true (Fl.fua ofl) (Fl.dpo ofl)).
  set (cdb1 := snd b1).
  set (b2 := sg_build_scsi_cdb cdb1 (G.cdbsz_out clp) (c - k)
               (R.oblk rep + k) (G.verify clp) true (Fl.fua ofl)
               (Fl.dpo ofl)).
  set (cdb2 := snd b2).
  assert (Hb1 : sg_build_scsi_cdb (R.cmd rep) (G.cdbsz_out clp) k (R.oblk rep)
                  (G.verify clp) true (Fl.fua ofl) (Fl.dpo ofl)
                = (fst b1, cdb1)) by exact (surjective_pairing b1).
  assert (Hb2 : sg_build_scsi_cdb cdb1 (G.cdbsz_out clp) (c - k)
                  (R.oblk rep + k) (G.verify clp) true (Fl.fua ofl)
                  (Fl.dpo ofl)
                = (fst b2, cdb2)) by exact (surjective_pairing b2).
  split.
  - intros Hn Ha r1 r2 r3 r4 resp1 resp2 resp3 resp4 el1 el2 el3 el4 rest Ho.
    subst o.
    exact (split_write_single clp rep k c (fst b1) (fst b2) cdb1 cdb2
             Hwr Hv4 Hk Hc Hkc Hmax Hb1 Hb2 g da kt r1 r2 r3 r4
             resp1 resp2 resp3 resp4 el1 el2 el3 el4 rest Hn Ha).
  - exact (split_write_deferred clp rep k c (fst b1) (fst b2) cdb1 cdb2
             Hwr Hv4 Hk Hc Hkc Hmax Hb1 Hb2 g da kt o).
Qed.

(** The theorem applied to the sg to sg copy [Ex.sg_sg_split], whose
    segment of four blocks is split at two, and to a segment of 70000
    blocks there, for the upper half of which no 10-byte CDB can be
    built. *)
Lemma split_write_two_halves_witness :
  (exists s' p1 p2 h1 h2,
     sg_out_wr_cmd false false (Ex.at_write Ex.sg_sg_split 4) = Ret tt s'
     /\ St.ktrace s'
        = [EvSubmitV4 4 h1 [42; 0; 0; 0; 0; 0; 0; 0; 2; 0; 0; 0; 0; 0; 0; 0];
           EvReceiveV4 4 p1;
           EvSubmitV4 4 h2 [42; 0; 0; 0; 0; 2; 0; 0; 2; 0; 0; 0; 0; 0; 0; 0];
           EvReceiveV4 4 p2]
     /\ St.def_arr s' = [] /\ St.oracle s' = [ok 0; ok 0]
     /\ split_headers 512 2 4 h1 h2
     /\ G.in_stop (St.clp s') = false /\ G.out_stop (St.clp s') = false)
  /\ (exists s' p1 h1,
        sg_out_wr_cmd false false (Ex.at_write Ex.sg_sg_split 70000)
        = Ret tt s'
        /\ St.ktrace s'
           = [EvSubmitV4 4 h1
                [42; 0; 0; 0; 0; 0; 0; 0; 2; 0; 0; 0; 0; 0; 0; 0];
              EvReceiveV4 4 p1]
        /\ St.oracle s' = [ok 0; ok 0; ok 0; ok 0]
        /\ G.in_stop (St.clp s') = true /\ G.out_stop (St.clp s') = true).
Proof.
  split.
  - destruct (split_write_two_halves (Ex.at_write Ex.sg_sg_split 4) 2 4)
      as [Hsingle _];
      [reflexivity | reflexivity | reflexivity | reflexivity | lia
       | unfold INT_MAX; lia |].
    apply (Hsingle ltac:(vm_compute; discriminate)
             ltac:(vm_compute; discriminate)
             0 0 0 0 (clean 0) (clean 0) (clean 0) (clean 0) [] [] [] []
             [ok 0; ok 0]); reflexivity.
  - destruct (split_write_two_halves (Ex.at_write Ex.sg_sg_split 70000)
                2 70000)
      as [Hsingle _];
      [reflexivity | reflexivity | reflexivity | reflexivity | lia
       | unfold INT_MAX; lia |].
    destruct (Hsingle ltac:(vm_compute; discriminate)
                ltac:(vm_compute; discriminate)
                0 0 0 0 (clean 0) (clean 0) (clean 0) (clean 0) [] [] [] []
                [ok 0; ok 0; ok 0; ok 0])
      as (s' & p1 & p2 & h1 & h2 & Hrun & Hkt & Hda & Ho & Hh & Hin & Hout);
      [reflexivity | reflexivity | reflexivity | reflexivity | reflexivity |].
    exists s', p1, h1.
    split; [exact Hrun|]. split; [exact Hkt|]. split; [exact Ho|].
    split; [exact Hin | exact Hout].
Defined.

(** The halves in the deferred array: the same segment with [mrq=9]. *)
Example split_write_deferred_run :
  exists s' h1 h2,
    sg_out_wr_cmd false false (Ex.at_write Ex.sg_sg_split_mrq 4) = Ret tt s'
    /\ map snd (St.def_arr s')
       = [[42; 0; 0; 0; 0; 0; 0; 0; 2; 0]; [42; 0; 0; 0; 0; 2; 0; 0; 2; 0]]
    /\ map fst (St.def_arr s') = [h1; h2]
    /\ St.ktrace s' = []
    /\ H4.dout_xfer_len h1 = 1024 /\ H4.spare_in h1 = 0
    /\ H4.dout_xfer_len h2 = 1024 /\ H4.spare_in h2 = 1024.
Proof.
  eexists _, _, _. split; [vm_compute; reflexivity|].
  vm_compute. repeat split.
Qed.

(** C5, the claim as stated fails: in the sg to sg copy [Ex.sg_sg_split_v3]
    the write side uses the v3 interface, [ofsplit=2] lies inside the
    segment of four blocks, and the output descriptor receives the command
    for all four blocks at LBA 0 twice instead of the commands for the two
    halves. *)
Lemma v3_split_repeats_whole_write :
  let s := fst Ex.sg_sg_split_v3 in
  let tr := St.ktrace (final_state (main_loop 2 (snd Ex.sg_sg_split_v3) s)) in
  let build blocks start :=
    snd (sg_build_scsi_cdb (replicate 16 0) 10 blocks start false true
           false false) in
  G.ofsplit (St.clp s) = 2
  /\ trace_cdbs (G.outfd (St.clp s)) tr = [build 4 0; build 4 0]
  /\ trace_cdbs (G.outfd (St.clp s)) tr <> [build 2 0; build 2 2].
Proof.
  cbv zeta. split; [reflexivity|].
  split; [vm_compute; reflexivity | vm_compute; discriminate].
Qed.

(** ** The deferred array *)

(** The repeated call changes neither [clp], [rep] nor the array, and
    records nothing in the trace. *)
Lemma retry_call_frame (start : bool) (fuel : nat) (s s' : St.t) (r : sysres) :
  retry_call start fuel s = Ret r s' ->
  St.def_arr s' = St.def_arr s /\ St.ktrace s' = St.ktrace s
  /\ St.clp s' = St.clp s /\ St.rep s' = St.rep s.
Proof.
  revert s. induction fuel as [|fuel IH]; intros s; [discriminate|].
  cbn [retry_call]. unfold mbind, M_bind, bind, syscall.
  destruct s as [clp g rep da kt o]. cbn [St.oracle].
  destruct o as [|x o]; [discriminate|].
  cbn [St.set_oracle St.clp St.glob St.rep St.def_arr St.ktrace St.oracle].
  destruct x as [e|ret resp el].
  - destruct ((e =? EINTR) || (e =? EAGAIN) || (e =? EBUSY)).
    + unfold count_retry.
      destruct (e =? EAGAIN); [|destruct (e =? EBUSY)];
        unfold upd_glob, modify, mret, M_ret, Run.ret;
        cbn [St.set_glob St.clp St.glob St.rep St.def_arr St.ktrace St.oracle];
        intros H; apply IH in H; exact H.
    + intros H. inversion H; subst. auto.
  - intros H. inversion H; subst. auto.
Qed.

(** What a flush leaves in the array: nothing, unless the bulk CDB area
    could not be allocated, in which case the array is as it was. *)
Lemma sgh_do_deferred_mrq_def_arr (s s' : St.t) (res : Z) :
  sgh_do_deferred_mrq s = Ret res s' ->
  St.def_arr s' = [] \/ (res = 1 /\ St.def_arr s' = St.def_arr s).
Proof.
  unfold sgh_do_deferred_mrq.
  unfold mbind at 1. unfold M_bind at 1. unfold bind at 1. unfold get at 1.
  destruct (Z.ltb_spec (Z.of_nat (length (St.def_arr s))) 1) as [Hlt|Hge].
  - intros H. inversion H; subst. left.
    destruct (St.def_arr s'); [reflexivity|simpl in Hlt; lia].
  - unfold mbind at 1. unfold M_bind at 1. unfold bind at 1.
    destruct (G.mrq_cmds (St.clp s)).
    + unfold mbind at 1. unfold M_bind at 1. unfold bind at 1. unfold syscall.
      destruct s as [clp g rep da kt o]. cbn [St.oracle].
      destruct o as [|x o]; [discriminate|].
      unfold mret at 1. unfold M_ret at 1. unfold ret at 1.
      destruct x as [e|r0 resp el]; cbn [negb].
      * intros H. inversion H; subst. right. split; reflexivity.
      * unfold mbind, M_bind, bind, mret, M_ret, ret, modify.
        match goal with |- context [mrq_submit ?n ?st] =>
          destruct (mrq_submit n st) as [r s2|c s2|s2] end; [|discriminate..].
        intros H. inversion H; subst. left. destruct s2; reflexivity.
    + unfold mret at 1. unfold M_ret at 1. unfold ret at 1. cbn [negb].
      unfold mbind, M_bind, bind, mret, M_ret, ret, modify.
      match goal with |- context [mrq_submit ?n ?st] =>
        destruct (mrq_submit n st) as [r s2|c s2|s2] end; [|discriminate..].
      intros H. inversion H; subst. left. destruct s2; reflexivity.
Qed.

(** [sg_start_io] keeps the array within [nmrqs] entries: from an array
    that is not full it returns with an array that is not full, unless
    the flush it ran could not allocate the bulk CDB area. *)
Lemma sg_start_io_def_arr_bound (s s' : St.t) (pid res p : Z)
    (xtrp : option X.t) :
  0 < G.nmrqs (St.clp s) ->
  Z.of_nat (length (St.def_arr s)) < G.nmrqs (St.clp s) ->
  sg_start_io pid xtrp s = Ret (res, p) s' ->
  Z.of_nat (length (St.def_arr s')) <= G.nmrqs (St.clp s)
  /\ (res <> 1 -> Z.of_nat (length (St.def_arr s')) < G.nmrqs (St.clp s)).
Proof.
  destruct s as [clp g rep da kt o].
  cbn [St.clp St.def_arr]. intros Hn Hlen.
  unfold sg_start_io.
  unfold mbind at 1. unfold M_bind at 1. unfold bind at 1. unfold get_clp at 1.
  unfold mbind at 1. unfold M_bind at 1. unfold bind at 1. unfold get_rep at 1.
  cbn [St.clp St.rep].
  destruct (start_io_cdb clp rep xtrp) as [built cmd].
  unfold mbind at 1. unfold M_bind at 1. unfold bind at 1.
  unfold upd_rep at 1. unfold modify at 1.
  cbn [St.set_rep St.clp St.glob St.rep St.def_arr St.ktrace St.oracle].
  destruct built as [cmd'|].
  2:{ intros H. inversion H; subst. cbn [St.def_arr St.set_rep]. lia. }
  unfold mbind at 1. unfold M_bind at 1. unfold bind at 1.
  unfold start_io_pack_id.
  unfold mbind at 1. unfold M_bind at 1. unfold bind at 1. unfold get at 1.
  cbn [St.set_rep St.clp St.glob St.rep St.def_arr St.ktrace St.oracle].
  destruct (assign_pack_id (R.set_cmd cmd rep) (Glob.mono_pack_id g))
    as [[p0 rep1] mono1].
  unfold mbind at 1. unfold M_bind at 1. unfold bind at 1.
  unfold upd_glob at 1. unfold modify at 1.
  unfold mbind at 1. unfold M_bind at 1. unfold bind at 1.
  unfold upd_rep at 1. unfold modify at 1.
  unfold mret at 1. unfold M_ret at 1. unfold ret at 1.
  cbn [St.set_rep St.set_glob St.clp St.glob St.rep St.def_arr St.ktrace
       St.oracle].
  destruct (Fl.v4 (side_flags (R.wr rep) clp)).
  - destruct (start_io_v4_flags clp rep xtrp _ _) as [[flags nblks] spare_in].
    destruct (Z.ltb_spec 0 (G.nmrqs clp)) as [_|?]; [|lia].
    unfold mbind, M_bind, bind, upd_rep, modify, get, mret, M_ret, ret.
    cbn [St.set_rep St.set_glob St.set_def_arr St.clp St.glob St.rep
         St.def_arr St.ktrace St.oracle].
    rewrite length_app. cbn [length].
    destruct (Z.leb_spec (G.nmrqs clp) (Z.of_nat (length da + 1))) as [Hfull|Hroom].
    + match goal with |- context [sgh_do_deferred_mrq ?st] =>
        destruct (sgh_do_deferred_mrq st) as [r s2|c s2|s2] eqn:Hflush end;
        [|discriminate..].
      intros H. inversion H; subst.
      apply sgh_do_deferred_mrq_def_arr in Hflush as [He|[H1 He]].
      * rewrite He. cbn [length]. lia.
      * rewrite He.
        cbn [St.set_rep St.set_glob St.set_def_arr St.def_arr].
        rewrite length_app. cbn [length].
        split; [lia|intros Hne; contradiction].
    + intros H. inversion H; subst.
      cbn [St.set_rep St.set_glob St.set_def_arr St.def_arr].
      rewrite length_app. cbn [length]. lia.
  - unfold mbind at 1. unfold M_bind at 1. unfold bind at 1.
    unfold upd_rep at 1. unfold modify at 1.
    cbn [St.set_rep St.set_glob St.clp St.glob St.rep St.def_arr St.ktrace
         St.oracle].
    unfold mbind at 1. unfold M_bind at 1. unfold bind at 1. unfold with_fuel.
    match goal with |- context [retry_call ?b ?f ?st] =>
      destruct (retry_call b f st) as [r s2|c s2|s2] eqn:Hcall end;
      [|discriminate..].
    apply retry_call_frame in Hcall as (Hda & _).
    cbn [St.def_arr St.set_rep St.set_glob] in Hda.
    destruct r as [e|r0 resp el].
    + intros H. inversion H. subst s'. rewrite Hda. lia.
    + unfold mbind, M_bind, bind, emit, modify, mret, M_ret, ret.
      intros H. inversion H. subst s'.
      replace (St.def_arr (St.set_ktrace _ s2)) with (St.def_arr s2)
        by (destruct s2; reflexivity).
      rewrite Hda. lia.
Qed.

(** The first write of [Ex.file_sg_mrq], with [mrq=4]. *)
Lemma sg_start_io_def_arr_bound_witness :
  exists res p s',
    sg_start_io 0 None (Ex.at_write Ex.file_sg_mrq 4) = Ret (res, p) s'
    /\ Z.of_nat (length (St.def_arr s')) <= 4
    /\ (res <> 1 -> Z.of_nat (length (St.def_arr s')) < 4).
Proof.
  destruct (sg_start_io 0 None (Ex.at_write Ex.file_sg_mrq 4))
    as [[res p] s'|c s'|s'] eqn:Hrun;
    [|vm_compute in Hrun; discriminate..].
  exists res, p, s'. split; [reflexivity|].
  apply (sg_start_io_def_arr_bound (Ex.at_write Ex.file_sg_mrq 4) s' 0 res p
           None); [cbn; lia | cbn; lia | exact Hrun].
Defined.

(** A command that does not fill the array is only appended to it: no
    call is made and nothing reaches the kernel. *)
Lemma sg_start_io_defers (s : St.t) (pid : Z) (xtrp : option X.t)
    (cmd : list Z) :
  let clp := St.clp s in
  let rep := St.rep s in
  Fl.v4 (side_flags (R.wr rep) clp) = true ->
  start_io_cdb clp rep xtrp = (Some cmd, cmd) ->
  Z.of_nat (length (St.def_arr s)) + 1 < G.nmrqs clp ->
  exists p s' h,
    sg_start_io pid xtrp s = Ret (0, p) s'
    /\ St.def_arr s'
       = St.def_arr s
         ++ [(h, take (Z.to_nat (if R.wr rep then G.cdbsz_out clp
                                 else G.cdbsz_in clp)) cmd)]
    /\ H4.request_extra h = p
    /\ St.ktrace s' = St.ktrace s /\ St.oracle s' = St.oracle s.
Proof.
  destruct s as [clp g rep da kt o].
  cbn [St.clp St.rep St.def_arr St.ktrace St.oracle]. intros Hv4 Hcdb Hlen.
  unfold sg_start_io.
  unfold mbind at 1. unfold M_bind at 1. unfold bind at 1. unfold get_clp at 1.
  unfold mbind at 1. unfold M_bind at 1. unfold bind at 1. unfold get_rep at 1.
  cbn [St.clp St.rep]. rewrite Hcdb, Hv4.
  unfold mbind at 1. unfold M_bind at 1. unfold bind at 1.
  unfold upd_rep at 1. unfold modify at 1.
  unfold mbind at 1. unfold M_bind at 1. unfold bind at 1.
  unfold start_io_pack_id.
  unfold mbind at 1. unfold M_bind at 1. unfold bind at 1. unfold get at 1.
  cbn [St.set_rep St.clp St.glob St.rep St.def_arr St.ktrace St.oracle].
  destruct (assign_pack_id (R.set_cmd cmd rep) (Glob.mono_pack_id g))
    as [[p0 rep1] mono1].
  destruct (start_io_v4_flags clp rep xtrp _ _) as [[flags nblks] spare_in].
  destruct (Z.ltb_spec 0 (G.nmrqs clp)) as [_|?]; [|lia].
  unfold mbind, M_bind, bind, upd_rep, upd_glob, modify, get, mret, M_ret, ret.
  cbn [St.set_rep St.set_glob St.set_def_arr St.clp St.glob St.rep
       St.def_arr St.ktrace St.oracle].
  rewrite length_app. cbn [length].
  destruct (Z.leb_spec (G.nmrqs clp) (Z.of_nat (length da + 1))) as [Hfull|_];
    [lia|].
  eexists _, _, _. split; [reflexivity|].
  cbn [St.def_arr St.ktrace St.oracle]. repeat split.
Qed.

(** The first write of [Ex.file_sg_mrq] is queued, not sent. *)
Lemma sg_start_io_defers_witness :
  exists p s' h,
    sg_start_io 0 None (Ex.at_write Ex.file_sg_mrq 4) = Ret (0, p) s'
    /\ St.def_arr s' = [(h, [42; 0; 0; 0; 0; 0; 0; 0; 4; 0])]
    /\ H4.request_extra h = p
    /\ St.ktrace s' = [] /\ St.oracle s' = St.oracle (fst Ex.file_sg_mrq).
Proof.
  apply (sg_start_io_defers (Ex.at_write Ex.file_sg_mrq 4) 0 None
           [42; 0; 0; 0; 0; 0; 0; 0; 4; 0; 0; 0; 0; 0; 0; 0]);
    [reflexivity | reflexivity | cbn; lia].
Defined.

(** C8, the code misses a flush: [Ex.file_sg_mrq] copies a regular file to
    an sg device with [mrq=4]; the [read] of the first segment delivers two
    of the four blocks asked for.  The write of the two blocks is appended
    to the deferred array and counted as done in [out_rem_count], and the
    worker then leaves its main loop through [if (stop_after_write) break;]
    with the entry pending: no flush is made and no command reaches the
    kernel. *)
Theorem short_read_leaves_write_deferred :
  let s := fst Ex.file_sg_mrq in
  exists l' s',
    read_write_thread 2 (snd Ex.file_sg_mrq) s
    = Ret (Left LeaveStopAfterWrite, l') s'
    /\ G.nmrqs (St.clp s') = 4
    /\ map snd (St.def_arr s') = [[42; 0; 0; 0; 0; 0; 0; 0; 2; 0]]
    /\ St.ktrace s' = [EvLseek 3 0; EvRead 3 2048]
    /\ G.out_rem_count (St.clp s') = G.out_rem_count (St.clp s) - 2.
Proof.
  cbv zeta. eexists _, _. split; [vm_compute; reflexivity|].
  vm_compute. repeat split.
Qed.

(** The sibling exit: when the [read] delivers nothing, the worker leaves
    through [if (0 == rep->num_blks)] and the pending entries are flushed
    on the way. *)
Example empty_read_flushes :
  let sl := Ex.file_sg_mrq_eof in
  exists l' s' ctl arr,
    read_write_thread 3 (snd sl) (fst sl) = Ret (Left LeaveNoBlks, l') s'
    /\ St.def_arr s' = []
    /\ last (St.ktrace s') = Some (EvMrqSubmit 4 false ctl arr)
    /\ length arr = 2%nat.
Proof.
  cbv zeta. eexists _, _, _, _. split; [vm_compute; reflexivity|].
  vm_compute. repeat split.
Qed.

(** * Further properties of the copy engine *)

(** ** The longer CDBs *)

Lemma byte_at_memset0 (n : Z) (buf : list Z) (i : nat) :
  (i < Z.to_nat n)%nat -> byte_at (memset0 n buf) i = 0.
Proof.
  intros Hi. unfold byte_at, memset0.
  destruct (decide (i < length buf)%nat) as [Hl|Hl].
  - rewrite lookup_app_l by (rewrite length_replicate; lia).
    rewrite lookup_replicate_2 by lia. reflexivity.
  - rewrite lookup_ge_None_2; [reflexivity|].
    rewrite length_app, length_replicate, length_drop. lia.
Qed.

Lemma lookup_memset0_ge (n : Z) (buf : list Z) (i : nat) :
  (Z.to_nat n <= i)%nat -> memset0 n buf !! i = buf !! i.
Proof.
  intros Hi. unfold memset0.
  destruct (decide (Z.to_nat n <= length buf)%nat) as [Hl|Hl].
  - rewrite lookup_app_r by (rewrite length_replicate; lia).
    rewrite length_replicate, lookup_drop.
    f_equal. lia.
  - rewrite lookup_ge_None_2
      by (rewrite length_app, length_replicate, length_drop; lia).
    symmetry. apply lookup_ge_None_2. lia.
Qed.

Lemma length_or_byte i b buf : length (or_byte i b buf) = length buf.
Proof. unfold or_byte. apply length_insert. Qed.

Lemma length_put_be16 v p buf :
  length (sg_put_unaligned_be16 v p buf) = length buf.
Proof. unfold sg_put_unaligned_be16. rewrite !length_insert. reflexivity. Qed.

Lemma length_put_be64 v p buf :
  length (sg_put_unaligned_be64 v p buf) = length buf.
Proof. unfold sg_put_unaligned_be64. rewrite !length_put_be32. reflexivity. Qed.

Lemma byte_at_put_be32_other v p buf i :
  (i < p \/ p + 3 < i)%nat ->
  byte_at (sg_put_unaligned_be32 v p buf) i = byte_at buf i.
Proof.
  intros H. unfold sg_put_unaligned_be32.
  rewrite !byte_at_insert_ne by lia. reflexivity.
Qed.

Lemma byte_at_put_be16_other v p buf i :
  (i < p \/ p + 1 < i)%nat ->
  byte_at (sg_put_unaligned_be16 v p buf) i = byte_at buf i.
Proof.
  intros H. unfold sg_put_unaligned_be16.
  rewrite !byte_at_insert_ne by lia. reflexivity.
Qed.

Lemma be16_bytes (v : Z) (p : nat) (buf : list Z) :
  0 <= v < 65536 -> (p + 1 < length buf)%nat ->
  256 * byte_at (sg_put_unaligned_be16 v p buf) p
  + byte_at (sg_put_unaligned_be16 v p buf) (p + 1) = v.
Proof.
  intros Hv Hp. unfold sg_put_unaligned_be16.
  rewrite (byte_at_insert_eq _ (p + 1)) by (rewrite !length_insert; lia).
  rewrite (byte_at_insert_ne _ (p + 1) p) by lia.
  rewrite (byte_at_insert_eq _ p) by lia.
  unfold u8. rewrite Z.shiftr_div_pow2 by lia. change (2 ^ 8) with 256.
  rewrite (Z.mod_small (v / 256)).
  - pose proof (Z.div_mod v 256 ltac:(lia)). lia.
  - split; [apply Z.div_pos; lia | apply Z.div_lt_upper_bound; lia].
Qed.

(** [x & ~0xffff] is zero exactly for [x] in [0, 0xffff]. *)
Lemma land_lnot_ffff (x : Z) :
  Z.land x (Z.lnot 0xffff) = 0 <-> 0 <= x <= 0xffff.
Proof.
  change 0xffff with (Z.ones 16).
  change (Z.land x (Z.lnot (Z.ones 16))) with (Z.ldiff x (Z.ones 16)).
  rewrite Z.ldiff_ones_r by lia.
  rewrite Z.shiftl_mul_pow2, Z.shiftr_div_pow2 by lia.
  change (2 ^ 16) with 65536. change (Z.ones 16) with 65535.
  split.
  - intros H. assert (Hq : x / 65536 = 0) by lia.
    apply Z.div_small_iff in Hq; lia.
  - intros H. rewrite Z.div_small by lia. reflexivity.
Qed.

Lemma byte_at_or_byte_eq i b buf :
  (i < length buf)%nat -> byte_at (or_byte i b buf) i = Z.lor (byte_at buf i) b.
Proof. intros H. unfold or_byte. apply byte_at_insert_eq. exact H. Qed.

Lemma byte_at_or_byte_ne i j b buf :
  i <> j -> byte_at (or_byte i b buf) j = byte_at buf j.
Proof. intros H. unfold or_byte. apply byte_at_insert_ne. exact H. Qed.

(** Byte 1 after the DPO and FUA bits have been or-ed in. *)
Lemma dpo_fua_bytes (dpo fua : bool) (c : list Z) :
  (1 < length c)%nat ->
  let c1 := if dpo then or_byte 1 16 c else c in
  let c2 := if fua then or_byte 1 8 c1 else c1 in
  length c2 = length c
  /\ byte_at c2 1
     = Z.lor (Z.lor (byte_at c 1) (if dpo then 0x10 else 0))
         (if fua then 0x8 else 0)
  /\ forall i, i <> 1%nat -> byte_at c2 i = byte_at c i.
Proof.
  intros Hl. cbv zeta.
  destruct dpo, fua; rewrite ?length_or_byte;
    (split; [reflexivity|]); split;
    rewrite ?byte_at_or_byte_eq by (rewrite ?length_or_byte; lia);
    rewrite ?Z.lor_0_r; try reflexivity;
    intros i Hi; rewrite ?byte_at_or_byte_ne by lia; reflexivity.
Qed.

(** A 10-byte READ or WRITE build fails exactly when the block count
    exceeds [0xffff]; otherwise the command holds the READ(10)/WRITE(10)
    opcode, the DPO and FUA bits in byte 1, the low 32 bits of the LBA in
    bytes 2 to 5 and the block count in bytes 7 and 8, with bytes 6 and 9
    zero. *)
Theorem sg_build_scsi_cdb_10byte (cdbp : list Z) (blocks start_block : Z)
    (write_true fua dpo : bool) :
  (10 <= length cdbp)%nat -> 0 <= blocks < 4294967296 ->
  let r := sg_build_scsi_cdb cdbp 10 blocks start_block false write_true
             fua dpo in
  (fst r = 0 \/ fst r = 1)
  /\ (fst r = 0 <-> blocks <= 0xffff)
  /\ (fst r = 0 ->
      byte_at (snd r) 0 = (if write_true then 0x2a else 0x28)
      /\ byte_at (snd r) 1
         = Z.lor (if dpo then 0x10 else 0) (if fua then 0x8 else 0)
      /\ sg_get_unaligned_be32 (snd r) 2 = start_block mod 4294967296
      /\ byte_at (snd r) 6 = 0
      /\ 256 * byte_at (snd r) 7 + byte_at (snd r) 8 = blocks
      /\ byte_at (snd r) 9 = 0).
Proof.
  intros Hlen Hb. cbv zeta.
  unfold sg_build_scsi_cdb. cbn [andb].
  change (10 =? 6) with false. change (10 =? 10) with true. cbv iota.
  set (c0 := memset0 10 cdbp).
  assert (Hc0 : length c0 = length cdbp) by apply length_memset0.
  assert (Hz : forall i, (i < 10)%nat -> byte_at c0 i = 0)
    by (intros i Hi; apply byte_at_memset0; simpl; lia).
  destruct (dpo_fua_bytes dpo fua c0 ltac:(lia)) as (Hl2 & Hb1 & Hoth).
  cbv zeta in Hl2, Hb1, Hoth.
  set (c2 := if fua then or_byte 1 8 _ else _) in *.
  set (c3 := <[0%nat := rw_opcode write_true 1]> c2).
  assert (Hc3 : length c3 = length cdbp)
    by (unfold c3; rewrite length_insert; lia).
  set (c4 := sg_put_unaligned_be32 (u32 start_block) 2 c3).
  assert (Hc4 : length c4 = length cdbp)
    by (unfold c4; rewrite length_put_be32; exact Hc3).
  set (c5 := sg_put_unaligned_be16 (u16 blocks) 7 c4).
  pose proof (land_lnot_ffff blocks) as Hmask.
  destruct (Z.eqb_spec (Z.land blocks (Z.lnot 65535)) 0) as [Hz0|Hnz];
    cbn [negb fst snd].
  2:{ split; [right; reflexivity|]. split; [|intros H; discriminate].
      split; [intros H; discriminate|]. intros Hle. exfalso.
      apply Hnz, Hmask. lia. }
  apply Hmask in Hz0.
  split; [left; reflexivity|]. split; [split; [lia | reflexivity]|].
  intros _.
  assert (Hu16 : u16 blocks = blocks) by (unfold u16; apply Z.mod_small; lia).
  repeat split.
  - unfold c5, c4, c3.
    rewrite byte_at_put_be16_other, byte_at_put_be32_other by lia.
    rewrite byte_at_insert_eq by lia. destruct write_true; reflexivity.
  - unfold c5, c4, c3.
    rewrite byte_at_put_be16_other, byte_at_put_be32_other by lia.
    rewrite byte_at_insert_ne by lia. rewrite Hb1, Hz by lia.
    rewrite Z.lor_0_l. reflexivity.
  - unfold c5. unfold sg_get_unaligned_be32.
    rewrite !byte_at_put_be16_other by lia.
    change (sg_get_unaligned_be32 c4 2 = start_block mod 4294967296).
    unfold c4. rewrite get_put_be32; [reflexivity | apply u32_range | lia].
  - unfold c5, c4, c3.
    rewrite byte_at_put_be16_other, byte_at_put_be32_other by lia.
    rewrite byte_at_insert_ne by lia. rewrite Hoth, Hz by lia. reflexivity.
  - unfold c5. rewrite Hu16. apply (be16_bytes blocks 7 c4); lia.
  - unfold c5, c4, c3.
    rewrite byte_at_put_be16_other, byte_at_put_be32_other by lia.
    rewrite byte_at_insert_ne by lia. rewrite Hoth, Hz by lia. reflexivity.
Qed.

(** A 10 byte WRITE with FUA of 8 blocks at block 0x01020304. *)
Lemma sg_build_scsi_cdb_10byte_witness :
  let r := sg_build_scsi_cdb (replicate 16 0xee) 10 8 0x01020304 false true
             true false in
  (fst r = 0 \/ fst r = 1)
  /\ (fst r = 0 <-> 8 <= 0xffff)
  /\ (fst r = 0 ->
      byte_at (snd r) 0 = 0x2a
      /\ byte_at (snd r) 1 = Z.lor 0 0x8
      /\ sg_get_unaligned_be32 (snd r) 2 = 0x01020304 mod 4294967296
      /\ byte_at (snd r) 6 = 0
      /\ 256 * byte_at (snd r) 7 + byte_at (snd r) 8 = 8
      /\ byte_at (snd r) 9 = 0).
Proof.
  apply (sg_build_scsi_cdb_10byte (replicate 16 0xee) 8 0x01020304 true true
           false); [cbn; lia | lia].
Defined.

(** A 12-byte READ or WRITE build never fails: the command holds the
    READ(12)/WRITE(12) opcode, the DPO and FUA bits, the low 32 bits of the
    LBA in bytes 2 to 5 and the block count in bytes 6 to 9, with bytes 10
    and 11 zero. *)
Theorem sg_build_scsi_cdb_12byte (cdbp : list Z) (blocks start_block : Z)
    (write_true fua dpo : bool) :
  (12 <= length cdbp)%nat -> 0 <= blocks < 4294967296 ->
  let r := sg_build_scsi_cdb cdbp 12 blocks start_block false write_true
             fua dpo in
  fst r = 0
  /\ byte_at (snd r) 0 = (if write_true then 0xaa else 0xa8)
  /\ byte_at (snd r) 1
     = Z.lor (if dpo then 0x10 else 0) (if fua then 0x8 else 0)
  /\ sg_get_unaligned_be32 (snd r) 2 = start_block mod 4294967296
  /\ sg_get_unaligned_be32 (snd r) 6 = blocks
  /\ byte_at (snd r) 10 = 0 /\ byte_at (snd r) 11 = 0.
Proof.
  intros Hlen Hb. cbv zeta.
  unfold sg_build_scsi_cdb. cbn [andb].
  change (12 =? 6) with false. change (12 =? 10) with false.
  change (12 =? 12) with true. cbv iota. cbn [fst snd].
  set (c0 := memset0 12 cdbp).
  assert (Hc0 : length c0 = length cdbp) by apply length_memset0.
  assert (Hz : forall i, (i < 12)%nat -> byte_at c0 i = 0)
    by (intros i Hi; apply byte_at_memset0; simpl; lia).
  destruct (dpo_fua_bytes dpo fua c0 ltac:(lia)) as (Hl2 & Hb1 & Hoth).
  cbv zeta in Hl2, Hb1, Hoth.
  set (c2 := if fua then or_byte 1 8 _ else _) in *.
  set (c3 := <[0%nat := rw_opcode write_true 2]> c2).
  assert (Hc3 : length c3 = length cdbp)
    by (unfold c3; rewrite length_insert; lia).
  set (c4 := sg_put_unaligned_be32 (u32 start_block) 2 c3).
  assert (Hc4 : length c4 = length cdbp)
    by (unfold c4; rewrite length_put_be32; exact Hc3).
  set (c5 := sg_put_unaligned_be32 (u32 blocks) 6 c4).
  repeat split.
  - unfold c5, c4, c3. rewrite !byte_at_put_be32_other by lia.
    rewrite byte_at_insert_eq by lia. destruct write_true; reflexivity.
  - unfold c5, c4, c3. rewrite !byte_at_put_be32_other by lia.
    rewrite byte_at_insert_ne by lia. rewrite Hb1, Hz by lia.
    rewrite Z.lor_0_l. reflexivity.
  - unfold c5. rewrite get_put_be32_other by lia.
    unfold c4. rewrite get_put_be32; [reflexivity | apply u32_range | lia].
  - unfold c5. rewrite get_put_be32; [apply u32_small; lia | apply u32_range | lia].
  - unfold c5, c4, c3. rewrite !byte_at_put_be32_other by lia.
    rewrite byte_at_insert_ne by lia. rewrite Hoth, Hz by lia. reflexivity.
  - unfold c5, c4, c3. rewrite !byte_at_put_be32_other by lia.
    rewrite byte_at_insert_ne by lia. rewrite Hoth, Hz by lia. reflexivity.
Qed.

(** A 12 byte READ with DPO of 70000 blocks. *)
Lemma sg_build_scsi_cdb_12byte_witness :
  let r := sg_build_scsi_cdb (replicate 16 0xee) 12 70000 0x01020304 false
             false false true in
  fst r = 0
  /\ byte_at (snd r) 0 = 0xa8
  /\ byte_at (snd r) 1 = Z.lor 0x10 0
  /\ sg_get_unaligned_be32 (snd r) 2 = 0x01020304 mod 4294967296
  /\ sg_get_unaligned_be32 (snd r) 6 = 70000
  /\ byte_at (snd r) 10 = 0 /\ byte_at (snd r) 11 = 0.
Proof.
  apply (sg_build_scsi_cdb_12byte (replicate 16 0xee) 70000 0x01020304 false
           false true); [cbn; lia | lia].
Defined.

Lemma u64_halves (v : Z) :
  4294967296 * u32 (Z.shiftr (u64 v) 32) + u32 (u64 v)
  = v mod 18446744073709551616.
Proof.
  unfold u32, u64. rewrite Z.shiftr_div_pow2 by lia.
  change (2 ^ 32) with 4294967296.
  set (w := v mod 18446744073709551616).
  assert (Hw : 0 <= w < 18446744073709551616)
    by (apply Z.mod_pos_bound; lia).
  rewrite (Z.mod_small (w / 4294967296)).
  - pose proof (Z.div_mod w 4294967296 ltac:(lia)). lia.
  - split; [apply Z.div_pos; lia | apply Z.div_lt_upper_bound; lia].
Qed.

(** A 16-byte READ or WRITE build never fails: the command holds the
    READ(16)/WRITE(16) opcode, the DPO and FUA bits, the low 64 bits of the
    LBA in bytes 2 to 9 and the block count in bytes 10 to 13, with bytes
    14 and 15 zero. *)
Theorem sg_build_scsi_cdb_16byte (cdbp : list Z) (blocks start_block : Z)
    (write_true fua dpo : bool) :
  (16 <= length cdbp)%nat -> 0 <= blocks < 4294967296 ->
  let r := sg_build_scsi_cdb cdbp 16 blocks start_block false write_true
             fua dpo in
  fst r = 0
  /\ byte_at (snd r) 0 = (if write_true then 0x8a else 0x88)
  /\ byte_at (snd r) 1
     = Z.lor (if dpo then 0x10 else 0) (if fua then 0x8 else 0)
  /\ 4294967296 * sg_get_unaligned_be32 (snd r) 2
     + sg_get_unaligned_be32 (snd r) 6
     = start_block mod 18446744073709551616
  /\ sg_get_unaligned_be32 (snd r) 10 = blocks
  /\ byte_at (snd r) 14 = 0 /\ byte_at (snd r) 15 = 0.
Proof.
  intros Hlen Hb. cbv zeta.
  unfold sg_build_scsi_cdb. cbn [andb].
  change (16 =? 6) with false. change (16 =? 10) with false.
  change (16 =? 12) with false. change (16 =? 16) with true.
  cbv iota. cbn [fst snd].
  set (c0 := memset0 16 cdbp).
  assert (Hc0 : length c0 = length cdbp) by apply length_memset0.
  assert (Hz : forall i, (i < 16)%nat -> byte_at c0 i = 0)
    by (intros i Hi; apply byte_at_memset0; simpl; lia).
  destruct (dpo_fua_bytes dpo fua c0 ltac:(lia)) as (Hl2 & Hb1 & Hoth).
  cbv zeta in Hl2, Hb1, Hoth.
  set (c2 := if fua then or_byte 1 8 _ else _) in *.
  set (c3 := <[0%nat := rw_opcode write_true 3]> c2).
  assert (Hc3 : length c3 = length cdbp)
    by (unfold c3; rewrite length_insert; lia).
  unfold sg_put_unaligned_be64. cbn [Nat.add].
  set (c4 := sg_put_unaligned_be32 (u32 (Z.shiftr (u64 start_block) 32)) 2 c3).
  assert (Hc4 : length c4 = length cdbp)
    by (unfold c4; rewrite length_put_be32; exact Hc3).
  set (c5 := sg_put_unaligned_be32 (u32 (u64 start_block)) 6 c4).
  assert (Hc5 : length c5 = length cdbp)
    by (unfold c5; rewrite length_put_be32; exact Hc4).
  set (c6 := sg_put_unaligned_be32 (u32 blocks) 10 c5).
  repeat split.
  - unfold c6, c5, c4, c3. rewrite !byte_at_put_be32_other by lia.
    rewrite byte_at_insert_eq by lia. destruct write_true; reflexivity.
  - unfold c6, c5, c4, c3. rewrite !byte_at_put_be32_other by lia.
    rewrite byte_at_insert_ne by lia. rewrite Hb1, Hz by lia.
    rewrite Z.lor_0_l. reflexivity.
  - unfold c6. rewrite !get_put_be32_other by lia.
    unfold c5 at 2. rewrite get_put_be32 by (try apply u32_range; lia).
    unfold c5. rewrite get_put_be32_other by lia.
    unfold c4. rewrite get_put_be32 by (try apply u32_range; lia).
    apply u64_halves.
  - unfold c6. rewrite get_put_be32; [apply u32_small; lia | apply u32_range | lia].
  - unfold c6, c5, c4, c3. rewrite !byte_at_put_be32_other by lia.
    rewrite byte_at_insert_ne by lia. rewrite Hoth, Hz by lia. reflexivity.
  - unfold c6, c5, c4, c3. rewrite !byte_at_put_be32_other by lia.
    rewrite byte_at_insert_ne by lia. rewrite Hoth, Hz by lia. reflexivity.
Qed.

(** A 16 byte WRITE at a block address wider than 32 bits. *)
Lemma sg_build_scsi_cdb_16byte_witness :
  let r := sg_build_scsi_cdb (replicate 16 0xee) 16 70000 0x0102030405060708
             false true false false in
  fst r = 0
  /\ byte_at (snd r) 0 = 0x8a
  /\ byte_at (snd r) 1 = Z.lor 0 0
  /\ 4294967296 * sg_get_unaligned_be32 (snd r) 2
     + sg_get_unaligned_be32 (snd r) 6
     = 0x0102030405060708 mod 18446744073709551616
  /\ sg_get_unaligned_be32 (snd r) 10 = 70000
  /\ byte_at (snd r) 14 = 0 /\ byte_at (snd r) 15 = 0.
Proof.
  apply (sg_build_scsi_cdb_16byte (replicate 16 0xee) 70000
           0x0102030405060708 true false false); [cbn; lia | lia].
Defined.

(** With [ver_true] the builder makes a VERIFY(10) whatever size of at
    least 10 was asked for, and fails for a smaller size or a block count
    above [0xffff]: the command has BYTCHK set, carries DPO but never FUA,
    and holds the LBA and the block count where a 10-byte command has
    them. *)
Theorem sg_build_scsi_cdb_verify (cdbp : list Z) (cdb_sz blocks start_block : Z)
    (write_true fua dpo : bool) :
  (10 <= length cdbp)%nat -> 0 <= blocks < 4294967296 ->
  let r := sg_build_scsi_cdb cdbp cdb_sz blocks start_block true write_true
             fua dpo in
  (fst r = 0 <-> 10 <= cdb_sz /\ blocks <= 0xffff)
  /\ (fst r = 0 ->
      byte_at (snd r) 0 = 0x2f
      /\ byte_at (snd r) 1 = Z.lor 0x2 (if dpo then 0x10 else 0)
      /\ sg_get_unaligned_be32 (snd r) 2 = start_block mod 4294967296
      /\ 256 * byte_at (snd r) 7 + byte_at (snd r) 8 = blocks).
Proof.
  intros Hlen Hb. cbv zeta.
  unfold sg_build_scsi_cdb. cbn [andb].
  destruct (Z.ltb_spec cdb_sz 10) as [Hsmall|Hsz]; cbn [fst snd].
  { split; [split; [discriminate | lia] | discriminate]. }
  change (10 =? 6) with false. change (10 =? 10) with true. cbv iota.
  set (c0 := memset0 cdb_sz cdbp).
  assert (Hc0 : length c0 = length cdbp) by apply length_memset0.
  assert (Hz : forall i, (i < 10)%nat -> byte_at c0 i = 0)
    by (intros i Hi; apply byte_at_memset0; lia).
  set (c1 := <[0%nat := opcode ve_opcode 1]> (or_byte 1 2 c0)).
  assert (Hc1 : length c1 = length cdbp)
    by (unfold c1; rewrite length_insert, length_or_byte; exact Hc0).
  set (c2 := if dpo then or_byte 1 16 c1 else c1).
  assert (Hc2 : length c2 = length cdbp)
    by (unfold c2; destruct dpo; rewrite ?length_or_byte; exact Hc1).
  set (c4 := sg_put_unaligned_be32 (u32 start_block) 2 c2).
  assert (Hc4 : length c4 = length cdbp)
    by (unfold c4; rewrite length_put_be32; exact Hc2).
  set (c5 := sg_put_unaligned_be16 (u16 blocks) 7 c4).
  pose proof (land_lnot_ffff blocks) as Hmask.
  destruct (Z.eqb_spec (Z.land blocks (Z.lnot 65535)) 0) as [Hz0|Hnz];
    cbn [negb fst snd].
  2:{ split; [|intros H; discriminate].
      split; [intros H; discriminate|]. intros [_ Hle]. exfalso.
      apply Hnz, Hmask. lia. }
  apply Hmask in Hz0.
  split; [split; [lia | reflexivity]|]. intros _.
  assert (Hu16 : u16 blocks = blocks) by (unfold u16; apply Z.mod_small; lia).
  repeat split.
  - unfold c5, c4, c2, c1.
    rewrite byte_at_put_be16_other, byte_at_put_be32_other by lia.
    destruct dpo; rewrite ?byte_at_or_byte_ne by lia;
      rewrite byte_at_insert_eq by (rewrite length_or_byte; lia); reflexivity.
  - unfold c5, c4, c2, c1.
    rewrite byte_at_put_be16_other, byte_at_put_be32_other by lia.
    destruct dpo.
    + rewrite byte_at_or_byte_eq by (rewrite length_insert, length_or_byte; lia).
      rewrite byte_at_insert_ne by lia.
      rewrite byte_at_or_byte_eq by lia. rewrite Hz by lia. reflexivity.
    + rewrite byte_at_insert_ne by lia.
      rewrite byte_at_or_byte_eq by lia. rewrite Hz by lia. reflexivity.
  - unfold c5. unfold sg_get_unaligned_be32.
    rewrite !byte_at_put_be16_other by lia.
    change (sg_get_unaligned_be32 c4 2 = start_block mod 4294967296).
    unfold c4. rewrite get_put_be32; [reflexivity | apply u32_range | lia].
  - unfold c5. rewrite Hu16. apply (be16_bytes blocks 7 c4); lia.
Qed.

(** A VERIFY asked for with [cdb_sz] 16 is built as VERIFY(10). *)
Lemma sg_build_scsi_cdb_verify_witness :
  let r := sg_build_scsi_cdb (replicate 16 0xee) 16 8 0x01020304 true true
             true true in
  (fst r = 0 <-> 10 <= 16 /\ 8 <= 0xffff)
  /\ (fst r = 0 ->
      byte_at (snd r) 0 = 0x2f
      /\ byte_at (snd r) 1 = Z.lor 0x2 0x10
      /\ sg_get_unaligned_be32 (snd r) 2 = 0x01020304 mod 4294967296
      /\ 256 * byte_at (snd r) 7 + byte_at (snd r) 8 = 8).
Proof.
  apply (sg_build_scsi_cdb_verify (replicate 16 0xee) 16 8 0x01020304 true
           true true); [cbn; lia | lia].
Defined.

Lemma lookup_or_byte_ne i j b (buf : list Z) :
  i <> j -> or_byte i b buf !! j = buf !! j.
Proof. intros H. unfold or_byte. apply list_lookup_insert_ne. exact H. Qed.

Lemma lookup_put_be16_other v p (buf : list Z) i :
  (i < p \/ p + 1 < i)%nat -> sg_put_unaligned_be16 v p buf !! i = buf !! i.
Proof.
  intros H. unfold sg_put_unaligned_be16.
  rewrite !list_lookup_insert_ne by lia. reflexivity.
Qed.

Lemma lookup_put_be24_other v p (buf : list Z) i :
  (i < p \/ p + 2 < i)%nat -> sg_put_unaligned_be24 v p buf !! i = buf !! i.
Proof.
  intros H. unfold sg_put_unaligned_be24.
  rewrite !list_lookup_insert_ne by lia. reflexivity.
Qed.

Lemma lookup_put_be32_other v p (buf : list Z) i :
  (i < p \/ p + 3 < i)%nat -> sg_put_unaligned_be32 v p buf !! i = buf !! i.
Proof.
  intros H. unfold sg_put_unaligned_be32.
  rewrite !list_lookup_insert_ne by lia. reflexivity.
Qed.

Lemma lookup_put_be64_other v p (buf : list Z) i :
  (i < p \/ p + 7 < i)%nat -> sg_put_unaligned_be64 v p buf !! i = buf !! i.
Proof.
  intros H. unfold sg_put_unaligned_be64.
  rewrite !lookup_put_be32_other by lia. reflexivity.
Qed.

Lemma length_put_be24 v p buf :
  length (sg_put_unaligned_be24 v p buf) = length buf.
Proof. unfold sg_put_unaligned_be24. rewrite !length_insert. reflexivity. Qed.

(** [sg_build_scsi_cdb] keeps the length of the command area and its bytes
    from [cdb_sz] on. *)
Lemma build_frame (cdbp : list Z) (cdb_sz blocks start_block : Z)
    (ver_true write_true fua dpo : bool) (i : nat) :
  2 <= cdb_sz -> (Z.to_nat cdb_sz <= i)%nat ->
  let r := sg_build_scsi_cdb cdbp cdb_sz blocks start_block ver_true
             write_true fua dpo in
  length (snd r) = length cdbp /\ snd r !! i = cdbp !! i.
Proof.
  intros Hsz Hi. cbv zeta. unfold sg_build_scsi_cdb.
  pose proof (lookup_memset0_ge cdb_sz cdbp i Hi) as Hm.
  pose proof (length_memset0 cdb_sz cdbp) as Hl.
  set (c0 := memset0 cdb_sz cdbp) in *.
  destruct ver_true; cbn [andb].
  - destruct (Z.ltb_spec cdb_sz 10) as [Hsmall|Hge]; cbn [fst snd];
      [split; [exact Hl | exact Hm]|].
    change (10 =? 6) with false. change (10 =? 10) with true. cbv iota.
    destruct (negb _); cbn [snd];
      (split;
       [ rewrite length_put_be16, length_put_be32;
         destruct dpo; rewrite ?length_or_byte, length_insert, length_or_byte;
         exact Hl
       | rewrite lookup_put_be16_other, lookup_put_be32_other by lia;
         destruct dpo; rewrite ?lookup_or_byte_ne by lia;
         rewrite list_lookup_insert_ne by lia;
         rewrite lookup_or_byte_ne by lia; exact Hm ]).
  - set (c2 := if fua then or_byte 1 8 _ else _).
    assert (Hl2 : length c2 = length cdbp)
      by (unfold c2; destruct dpo, fua; rewrite ?length_or_byte; exact Hl).
    assert (Hm2 : c2 !! i = cdbp !! i)
      by (unfold c2; destruct dpo, fua; rewrite ?lookup_or_byte_ne by lia;
          exact Hm).
    destruct (Z.eqb_spec cdb_sz 6) as [->|_].
    { repeat match goal with
             | |- context [if ?b then (_, _) else _] => destruct b
             end; cbn [snd];
        (split;
         [ rewrite length_insert, length_put_be24, length_insert; exact Hl2
         | rewrite list_lookup_insert_ne by (simpl in Hi; lia);
           rewrite lookup_put_be24_other by (simpl in Hi; lia);
           rewrite list_lookup_insert_ne by (simpl in Hi; lia); exact Hm2 ]). }
    destruct (Z.eqb_spec cdb_sz 10) as [->|_].
    { destruct (negb _); cbn [snd];
        (split;
         [ rewrite length_put_be16, length_put_be32, length_insert; exact Hl2
         | rewrite lookup_put_be16_other, lookup_put_be32_other
             by (simpl in Hi; lia);
           rewrite list_lookup_insert_ne by (simpl in Hi; lia); exact Hm2 ]). }
    destruct (Z.eqb_spec cdb_sz 12) as [->|_].
    { cbn [snd]. split.
      - rewrite !length_put_be32, length_insert. exact Hl2.
      - rewrite !lookup_put_be32_other by (simpl in Hi; lia).
        rewrite list_lookup_insert_ne by (simpl in Hi; lia). exact Hm2. }
    destruct (Z.eqb_spec cdb_sz 16) as [->|_].
    { cbn [snd]. split.
      - rewrite length_put_be32, length_put_be64, length_insert. exact Hl2.
      - rewrite lookup_put_be32_other, lookup_put_be64_other
          by (simpl in Hi; lia).
        rewrite list_lookup_insert_ne by (simpl in Hi; lia). exact Hm2. }
    cbn [snd]. split; [exact Hl2 | exact Hm2].
Qed.

Lemma memset0_agree (n : Z) (c c' : list Z) :
  length c = length c' ->
  (forall i : nat, (Z.to_nat n <= i)%nat -> c !! i = c' !! i) ->
  memset0 n c = memset0 n c'.
Proof.
  intros Hl Hi. unfold memset0. rewrite Hl. f_equal.
  apply list_eq. intros i. rewrite !lookup_drop. apply Hi. lia.
Qed.

Lemma build_memset (c c' : list Z) (cdb_sz blocks start_block : Z)
    (ver_true write_true fua dpo : bool) :
  memset0 cdb_sz c = memset0 cdb_sz c' ->
  sg_build_scsi_cdb c cdb_sz blocks start_block ver_true write_true fua dpo
  = sg_build_scsi_cdb c' cdb_sz blocks start_block ver_true write_true fua
      dpo.
Proof. intros H. unfold sg_build_scsi_cdb. rewrite H. reflexivity. Qed.

(** Building the same command again in the area just built gives the same
    bytes: the result does not depend on the first [cdb_sz] bytes. *)
Lemma build_rebuild (c : list Z) (cdb_sz blocks start_block : Z)
    (ver_true write_true fua dpo : bool) :
  2 <= cdb_sz ->
  sg_build_scsi_cdb
    (snd (sg_build_scsi_cdb c cdb_sz blocks start_block ver_true write_true
            fua dpo))
    cdb_sz blocks start_block ver_true write_true fua dpo
  = sg_build_scsi_cdb c cdb_sz blocks start_block ver_true write_true fua dpo.
Proof.
  intros Hsz. apply build_memset. apply memset0_agree.
  - apply (build_frame c cdb_sz blocks start_block ver_true write_true fua dpo
             (Z.to_nat cdb_sz) Hsz (le_n _)).
  - intros i Hi.
    apply (build_frame c cdb_sz blocks start_block ver_true write_true fua dpo
             i Hsz Hi).
Qed.

(** The builder stays inside the [cdb_sz] bytes it was given: whatever it
    returns, the bytes from [cdb_sz] on are as they were and the buffer
    keeps its length.  What it builds does not depend on the first
    [cdb_sz] bytes it found: the same request built again in the area just
    filled gives the same result. *)
Theorem sg_build_scsi_cdb_frame (cdbp : list Z) (cdb_sz blocks start_block : Z)
    (ver_true write_true fua dpo : bool) (i : nat) :
  2 <= cdb_sz -> (Z.to_nat cdb_sz <= i)%nat ->
  let r := sg_build_scsi_cdb cdbp cdb_sz blocks start_block ver_true
             write_true fua dpo in
  length (snd r) = length cdbp /\ snd r !! i = cdbp !! i
  /\ sg_build_scsi_cdb (snd r) cdb_sz blocks start_block ver_true write_true
       fua dpo = r.
Proof.
  intros Hsz Hi. cbv zeta.
  destruct (build_frame cdbp cdb_sz blocks start_block ver_true write_true
              fua dpo i Hsz Hi) as [Hlen Hbyte].
  split; [exact Hlen|]. split; [exact Hbyte|].
  apply build_rebuild. exact Hsz.
Qed.

(** Byte 12 of a scratch area keeps its content under a 10 byte build. *)
Lemma sg_build_scsi_cdb_frame_witness :
  let r := sg_build_scsi_cdb (replicate 16 0xee) 10 8 0x01020304 false true
             true true in
  length (snd r) = 16%nat /\ snd r !! 12%nat = Some 0xee
  /\ sg_build_scsi_cdb (snd r) 10 8 0x01020304 false true true true = r.
Proof.
  apply (sg_build_scsi_cdb_frame (replicate 16 0xee) 10 8 0x01020304 false
           true true true 12); [lia | cbn; lia].
Defined.

(** ** Splitting and scanning the request array *)

Lemma has_flag_cleared (f d : Z) : has_flag (Z.land f (Z.lnot d)) d = false.
Proof.
  unfold has_flag. apply negb_false_iff, Z.eqb_eq.
  rewrite <- Z.land_assoc, (Z.land_comm (Z.lnot d)), Z.land_lnot_diag.
  apply Z.land_0_r.
Qed.

(** [split_def_arr] keeps the order of the commands and copies each
    command whole, its header and its CDB: the first array is the
    sub-list of the commands without DO_ON_OTHER, unchanged; the second is
    the sub-list of the others, each with that one bit taken out of the
    [flags] of its header and nothing else changed.  So no element of
    either array carries the flag, no command is lost and none is
    duplicated. *)
Theorem split_def_arr_partition (def_arr : list (H4.t * list Z)) :
  let other (hc : H4.t * list Z) :=
    has_flag (H4.flags (fst hc)) SGV4_FLAG_DO_ON_OTHER in
  let masked (hc : H4.t * list Z) :=
    (H4.set_flags
       (Z.land (H4.flags (fst hc)) (Z.lnot SGV4_FLAG_DO_ON_OTHER)) (fst hc),
     snd hc) in
  let fd_def_arr := fst (split_def_arr def_arr) in
  let o_fd_def_arr := snd (split_def_arr def_arr) in
  fd_def_arr = filter (fun hc => other hc = false) def_arr
  /\ o_fd_def_arr = map masked (filter (fun hc => other hc = true) def_arr)
  /\ (length fd_def_arr + length o_fd_def_arr = length def_arr)%nat
  /\ Forall (fun hc => other hc = false) (fd_def_arr ++ o_fd_def_arr)
  /\ Forall (fun hc =>
        forall b, Z.testbit SGV4_FLAG_DO_ON_OTHER b = false ->
          Z.testbit (H4.flags (fst (masked hc))) b
          = Z.testbit (H4.flags (fst hc)) b) def_arr.
Proof.
  cbv zeta. split; [|split; [|split; [|split]]].
  - induction def_arr as [|[h c] rest IH]; cbn [split_def_arr];
      [reflexivity|].
    destruct (split_def_arr rest) as [fd ofd]. cbn [fst snd] in IH.
    destruct (has_flag (H4.flags h) SGV4_FLAG_DO_ON_OTHER) eqn:Hf;
      cbn [fst snd].
    + rewrite filter_cons_False by (cbn [fst]; rewrite Hf; discriminate).
      exact IH.
    + rewrite filter_cons_True by (cbn [fst]; exact Hf).
      f_equal. exact IH.
  - induction def_arr as [|[h c] rest IH]; cbn [split_def_arr];
      [reflexivity|].
    destruct (split_def_arr rest) as [fd ofd]. cbn [fst snd] in IH.
    destruct (has_flag (H4.flags h) SGV4_FLAG_DO_ON_OTHER) eqn:Hf;
      cbn [fst snd].
    + rewrite filter_cons_True by (cbn [fst]; exact Hf).
      cbn [map fst snd]. f_equal. exact IH.
    + rewrite filter_cons_False by (cbn [fst]; rewrite Hf; discriminate).
      exact IH.
  - induction def_arr as [|[h c] rest IH]; cbn [split_def_arr];
      [reflexivity|].
    destruct (split_def_arr rest) as [fd ofd]. cbn [fst snd] in IH.
    destruct (has_flag (H4.flags h) SGV4_FLAG_DO_ON_OTHER);
      cbn [fst snd length]; lia.
  - induction def_arr as [|[h c] rest IH]; cbn [split_def_arr];
      [constructor|].
    destruct (split_def_arr rest) as [fd ofd]. cbn [fst snd] in IH.
    apply Forall_app in IH as [IH4 IH5].
    destruct (has_flag (H4.flags h) SGV4_FLAG_DO_ON_OTHER) eqn:Hf;
      cbn [fst snd].
    + apply Forall_app. split; [exact IH4|].
      constructor; [|exact IH5]. cbn [fst].
      destruct h; cbn [H4.flags H4.set_flags]. apply has_flag_cleared.
    + apply Forall_app. split; [|exact IH5].
      constructor; [exact Hf | exact IH4].
  - apply Forall_forall. intros [h c] _ b Hb. cbn [fst snd].
    destruct h; cbn [H4.flags H4.set_flags].
    destruct (Z.neg_nonneg_cases b) as [Hneg|Hpos].
    + rewrite !Z.testbit_neg_r by exact Hneg. reflexivity.
    + rewrite Z.land_spec, Z.lnot_spec, Hb, andb_true_r by exact Hpos.
      reflexivity.
Qed.

Lemma mrq_scan_bounds (bs : Z) (arr : list (H4.t * option Z)) :
  forall k j num_mrq n_subm n_good gin gout,
    let r := mrq_scan bs arr k j num_mrq n_subm (n_good, gin, gout) in
    n_good <= r.1.1
    /\ r.1.1 - n_good <= Z.of_nat (length arr)
    /\ r.1.1 - n_good <= Z.max 0 (num_mrq - k)
    /\ r.1.1 - n_good <= Z.max 0 (n_subm - j).
Proof.
  induction arr as [|[a sc] rest IH]; intros k j num_mrq n_subm n_good gin gout;
    cbn [mrq_scan length fst snd].
  - lia.
  - destruct (Z.ltb_spec k num_mrq) as [Hk|Hk];
      destruct (Z.ltb_spec j n_subm) as [Hj|Hj]; cbn [andb fst snd]; try lia.
    destruct (H4.info a =? 0) eqn:Hinfo.
    + rewrite andb_false_r.
      specialize (IH (k + 1) (j + 0) num_mrq n_subm n_good gin gout).
      cbv zeta in IH. lia.
    + change (1 =? 1) with true. rewrite andb_true_r.
      destruct (mrq_elem_good a sc).
      * match goal with
        | |- context [mrq_scan bs rest _ _ _ _ (?n, ?gi, ?go)] =>
          specialize (IH (k + 1) (j + 1) num_mrq n_subm n gi go)
        end.
        cbv zeta in IH. lia.
      * specialize (IH (k + 1) (j + 1) num_mrq n_subm n_good gin gout).
        cbv zeta in IH. lia.
Qed.

(** [process_mrq_response] answers [-1] exactly when the control object
    claims more unsubmitted requests than there are; otherwise the number
    of good commands it reports is at least 0, and at most the number of
    requests, of submitted requests and of array elements. *)
Theorem process_mrq_response_bounds (rep : R.t) (ctl : H4.t)
    (arr : list (H4.t * option Z)) (num_mrq : Z) :
  let n_good := (process_mrq_response rep ctl arr num_mrq).1.1 in
  let n_subm := num_mrq - H4.dout_resid ctl in
  (n_good = -1 <-> n_subm < 0)
  /\ (0 <= n_subm ->
      0 <= n_good /\ n_good <= n_subm /\ n_good <= Z.max 0 num_mrq
      /\ n_good <= Z.of_nat (length arr)).
Proof.
  cbv zeta. unfold process_mrq_response.
  destruct (Z.ltb_spec (num_mrq - H4.dout_resid ctl) 0) as [Hneg|Hpos];
    cbn [fst snd].
  - split; [split; [intros _; exact Hneg | reflexivity] | lia].
  - pose proof (mrq_scan_bounds (R.bs rep) arr 0 0 num_mrq
                  (num_mrq - H4.dout_resid ctl) 0 0 0) as H.
    cbv zeta in H. split; [split; lia | intros _; lia].
Qed.

(** Two responses, the second one with an info bit set. *)
Lemma process_mrq_response_bounds_witness :
  let arr := [(h4_zero, None); (H4.set_info 1 h4_zero, None)] in
  let n_good :=
    (process_mrq_response (St.rep (fst Ex.file_sg_mrq)) h4_zero arr 2).1.1 in
  0 <= n_good /\ n_good <= 2 - 0 /\ n_good <= Z.max 0 2
  /\ n_good <= Z.of_nat 2.
Proof.
  apply (process_mrq_response_bounds (St.rep (fst Ex.file_sg_mrq)) h4_zero
           [(h4_zero, None); (H4.set_info 1 h4_zero, None)] 2).
  cbn. lia.
Defined.

(** When every request was submitted and every element came back
    finished and without fault, all of them are counted as good. *)
Lemma mrq_scan_all_good (bs : Z) (arr : list (H4.t * option Z)) :
  forall k j num_mrq n_subm n_good gin gout,
    Forall (fun e => negb (H4.info (fst e) =? 0)
                     && mrq_elem_good (fst e) (snd e) = true) arr ->
    k + Z.of_nat (length arr) <= num_mrq ->
    j + Z.of_nat (length arr) <= n_subm ->
    (mrq_scan bs arr k j num_mrq n_subm (n_good, gin, gout)).1.1
    = n_good + Z.of_nat (length arr).
Proof.
  induction arr as [|[a sc] rest IH];
    intros k j num_mrq n_subm n_good gin gout Hall Hk Hj;
    cbn [mrq_scan length fst snd].
  - lia.
  - apply Forall_cons in Hall as [Ha Hall]. cbn [fst snd] in Ha.
    apply andb_true_iff in Ha as [Hinfo Hgood].
    apply negb_true_iff in Hinfo. rewrite Hinfo, Hgood.
    cbn [length] in Hk, Hj. rewrite Nat2Z.inj_succ in Hk, Hj.
    destruct (Z.ltb_spec k num_mrq) as [_|?]; [|lia].
    destruct (Z.ltb_spec j n_subm) as [_|?]; [|lia].
    cbn [andb]. change (1 =? 1) with true. cbv iota.
    match goal with
    | |- context [mrq_scan bs rest _ _ _ _ (?n, ?gi, ?go)] =>
      rewrite (IH (k + 1) (j + 1) num_mrq n_subm n gi go Hall)
    end; lia.
Qed.

Lemma process_mrq_response_all_good (rep : R.t) (ctl : H4.t)
    (arr : list (H4.t * option Z)) :
  H4.dout_resid ctl = 0 ->
  Forall (fun e => negb (H4.info (fst e) =? 0)
                   && mrq_elem_good (fst e) (snd e) = true) arr ->
  (process_mrq_response rep ctl arr (Z.of_nat (length arr))).1.1
  = Z.of_nat (length arr).
Proof.
  intros Hres Hall. unfold process_mrq_response. rewrite Hres, Z.sub_0_r.
  destruct (Z.ltb_spec (Z.of_nat (length arr)) 0) as [?|_]; [lia|].
  rewrite (mrq_scan_all_good (R.bs rep) arr 0 0 _ _ 0 0 0 Hall); lia.
Qed.

Lemma length_write_resp (elems : list kresp) (arr : list (H4.t * option Z)) :
  forall off, length (write_resp off elems arr) = length arr.
Proof.
  revert elems. induction arr as [|[h sc] arr IH]; intros elems off;
    [reflexivity|].
  cbn [write_resp]. destruct off as [|off].
  - destruct elems as [|r elems]; [reflexivity|].
    cbn [length]. rewrite IH. reflexivity.
  - cbn [length]. rewrite IH. reflexivity.
Qed.

(** Increments of a wrapping counter add up. *)
Lemma bumped_0 (v : Z) : bumped v 0 = v.
Proof. reflexivity. Qed.

Lemma bumped_bumped (v a b : Z) :
  0 <= a -> 0 <= b -> bumped (bumped v a) b = bumped v (a + b).
Proof.
  intros Ha Hb. unfold bumped.
  destruct (Z.eqb_spec a 0) as [->|Hna].
  - reflexivity.
  - destruct (Z.eqb_spec b 0) as [->|Hnb].
    + rewrite Z.add_0_r. destruct (Z.eqb_spec a 0); [contradiction|reflexivity].
    + destruct (Z.eqb_spec (a + b) 0); [lia|].
      rewrite s32_add_l. f_equal. lia.
Qed.

Lemma bumped_1 (v : Z) : bumped v 1 = s32 (v + 1).
Proof. reflexivity. Qed.

Lemma bumped_succ (v : Z) (n : nat) :
  bumped (s32 (v + 1)) (Z.of_nat n) = bumped v (Z.of_nat (S n)).
Proof.
  rewrite <- bumped_1, bumped_bumped by lia. f_equal. lia.
Qed.

(** The blocking submit after [n] answers of [EBUSY]. *)
Lemma mrq_try_again_busy (fd : Z) (ctl : H4.t) (nrq : Z) (n : nat) :
  forall (fuel : nat) (s : St.t) (rv : Z) (resp : kresp) (elems : list kresp)
         (rest : list sysres),
    St.oracle s = replicate n (SysErr EBUSY) ++ SysOk rv resp elems :: rest ->
    (n < fuel)%nat -> 0 <= nrq ->
    exists res g' clp' rep',
      mrq_try_again fd ctl nrq fuel s
      = Ret res (St.mk clp' g' rep' (St.def_arr s)
                   (St.ktrace s
                    ++ [EvMrqSubmit fd (mrq_uses_sg_io (St.clp s)) ctl
                          (St.def_arr s)])
                   rest)
      /\ g' = Glob.set_num_ebusy
                (bumped (Glob.num_ebusy (St.glob s)) (Z.of_nat n)) (St.glob s)
      /\ config_of clp' = config_of (St.clp s)
      /\ rep' = R.set_out_mrq_q_blks 0 (R.set_in_mrq_q_blks 0 (St.rep s))
      /\ (res = rv \/ res = -1)
      /\ (let good :=
            (process_mrq_response (St.rep s) (apply_resp resp ctl)
               (write_resp 0 elems (resp_arr_init (St.def_arr s))) nrq).1.1 in
          nrq <= good -> res = rv).
Proof.
  induction n as [|n IH]; intros fuel s rv resp elems rest Ho Hf Hnrq.
  - destruct fuel as [|fuel]; [lia|].
    destruct s as [clp g rep da kt o]. cbn [St.oracle] in Ho. subst o.
    cbn [replicate app mrq_try_again].
    unfold mbind, M_bind, bind, syscall, get, emit, modify, mret, M_ret, ret.
    cbn [St.oracle St.set_oracle St.clp St.glob St.rep St.def_arr St.ktrace
         St.set_ktrace].
    destruct (process_mrq_response rep (apply_resp resp ctl)
                (write_resp 0 elems (resp_arr_init da)) nrq)
      as [[num_good in_fin] out_fin] eqn:Hp.
    cbn [fst snd].
    destruct (Z.ltb_spec num_good 0) as [Hneg|Hpos].
    + unfold upd_rep, modify.
      cbn [St.oracle St.set_oracle St.clp St.glob St.rep St.def_arr St.ktrace
           St.set_ktrace St.set_rep].
      eexists _, _, _, _. split; [reflexivity|].
      change (Z.of_nat 0) with 0. rewrite bumped_0.
      repeat split; try (destruct g; reflexivity); auto.
      intros Hle. lia.
    + destruct (Z.ltb_spec num_good nrq) as [Hlt|Hge].
      * unfold mrq_add_back, upd_rep, upd_clp, modify.
        unfold mbind, M_bind, bind, get_rep, mret, M_ret, ret.
        cbn [St.oracle St.set_oracle St.clp St.glob St.rep St.def_arr
             St.ktrace St.set_ktrace St.set_rep St.set_clp].
        eexists _, _, _, _. split; [reflexivity|].
        change (Z.of_nat 0) with 0. rewrite bumped_0.
        repeat split; try (destruct g; reflexivity); auto; [|lia].
        destruct (0 <? _), (0 <? _); destruct clp; reflexivity.
      * unfold upd_rep, modify.
        cbn [St.oracle St.set_oracle St.clp St.glob St.rep St.def_arr
             St.ktrace St.set_ktrace St.set_rep].
        eexists _, _, _, _. split; [reflexivity|].
        change (Z.of_nat 0) with 0. rewrite bumped_0.
        repeat split; try (destruct g; reflexivity); auto.
  - destruct fuel as [|fuel]; [lia|].
    destruct s as [clp g rep da kt o]. cbn [St.oracle] in Ho. subst o.
    cbn [replicate app mrq_try_again].
    unfold mbind at 1. unfold M_bind at 1. unfold bind at 1. unfold syscall at 1.
    cbn [St.oracle St.set_oracle St.clp St.glob St.rep St.def_arr St.ktrace].
    change (EBUSY =? E2BIG) with false. change (EBUSY =? EBUSY) with true.
    cbv iota.
    unfold mbind at 1. unfold M_bind at 1. unfold bind at 1.
    unfold upd_glob at 1. unfold modify at 1.
    cbn [St.set_glob St.oracle St.set_oracle St.clp St.glob St.rep St.def_arr
         St.ktrace].
    match goal with
    | |- context [mrq_try_again fd ctl nrq fuel ?st] =>
      destruct (IH fuel st rv resp elems rest eq_refl ltac:(lia) Hnrq)
        as (res & g' & clp' & rep' & Hrun & Hg & Hc & Hr & Hres & Hgood)
    end.
    cbn [St.clp St.glob St.rep St.def_arr St.ktrace St.set_glob St.set_oracle]
      in Hrun, Hg, Hc, Hr, Hgood.
    rewrite Hrun. eexists _, _, _, _. split; [reflexivity|].
    cbn [St.clp St.glob St.rep St.def_arr St.ktrace].
    split; [|repeat split; auto].
    subst g'. destruct g.
    unfold Glob.set_num_ebusy. cbn -[Z.of_nat Z.add bumped s32]. f_equal.
    apply bumped_succ.
Qed.

(** A flush on the blocking path: after any number of [EBUSY] answers the
    multiple request goes out once, with all deferred commands in their
    order; the array is then empty, the queued-block counts are reset,
    [num_ebusy] has been incremented once for each [EBUSY] and the
    multiple-request id once, both wrapping as an [int] does, and the
    result is that of the [ioctl] when every element came back good and
    [-1] otherwise. *)
Theorem deferred_flush_blocking (s : St.t) (fd : Z) (n : nat) (a rv : Z)
    (rp resp : kresp) (el elems : list kresp) (rest : list sysres) :
  let clp := St.clp s in
  let rep := St.rep s in
  let arr := set_requests (G.mrq_cmds clp) (St.def_arr s) in
  St.def_arr s <> [] ->
  G.mrq_async clp && negb (R.both_sg rep) = false ->
  mrq_fd rep = Some fd ->
  St.oracle s
  = (if G.mrq_cmds clp then [SysOk a rp el] else [])
    ++ replicate n (SysErr EBUSY) ++ SysOk rv resp elems :: rest ->
  exists res s' ctl,
    sgh_do_deferred_mrq s = Ret res s'
    /\ St.def_arr s' = [] /\ St.oracle s' = rest
    /\ St.ktrace s'
       = St.ktrace s ++ [EvMrqSubmit fd (mrq_uses_sg_io clp) ctl arr]
    /\ H4.dout_xfer_len ctl
       = Z.of_nat (length (St.def_arr s)) * SIZEOF_SG_IO_V4
    /\ Glob.num_ebusy (St.glob s')
       = (if n is O then Glob.num_ebusy (St.glob s)
          else s32 (Glob.num_ebusy (St.glob s) + Z.of_nat n))
    /\ Glob.mono_mrq_id (St.glob s')
       = s32 (Glob.mono_mrq_id (St.glob s) + 1)
    /\ R.mrq_id (St.rep s') = Glob.mono_mrq_id (St.glob s)
    /\ R.in_mrq_q_blks (St.rep s') = 0 /\ R.out_mrq_q_blks (St.rep s') = 0
    /\ (res = rv \/ res = -1)
    /\ (k_dout_resid resp = 0 ->
        Forall (fun e => negb (H4.info (fst e) =? 0)
                         && mrq_elem_good (fst e) (snd e) = true)
          (write_resp 0 elems (resp_arr_init arr)) ->
        res = rv).
Proof.
  destruct s as [clp g rep da kt o].
  cbn [St.clp St.rep St.def_arr St.oracle St.ktrace St.glob].
  intros Hne Hblk Hfd Ho. subst o.
  unfold sgh_do_deferred_mrq.
  unfold mbind at 1. unfold M_bind at 1. unfold bind at 1. unfold get at 1.
  cbn [St.clp St.rep St.def_arr St.oracle St.ktrace St.glob].
  assert (Hlen : 1 <= Z.of_nat (length da))
    by (destruct da; [contradiction | cbn [length]; lia]).
  destruct (Z.ltb_spec (Z.of_nat (length da)) 1) as [?|_]; [lia|].
  set (alloc := if G.mrq_cmds clp then [SysOk a rp el] else []).
  set (o1 := replicate n (SysErr EBUSY) ++ SysOk rv resp elems :: rest).
  set (s1 := St.mk clp g rep da kt o1).
  assert (Halloc :
    (if G.mrq_cmds clp
     then r ← syscall;
          mret (match r with SysErr _ => false | SysOk _ _ _ => true end)
     else mret true) (St.mk clp g rep da kt (alloc ++ o1)) = Ret true s1).
  { unfold alloc. destruct (G.mrq_cmds clp); reflexivity. }
  unfold mbind at 1. unfold M_bind at 1. unfold bind at 1.
  rewrite Halloc. cbn [negb]. subst s1.
  unfold mbind at 1. unfold M_bind at 1. unfold bind at 1.
  unfold modify at 1. cbn [St.set_def_arr St.def_arr St.clp St.glob St.rep
    St.ktrace St.oracle].
  unfold mbind at 1. unfold M_bind at 1. unfold bind at 1.
  unfold mrq_submit.
  unfold mbind at 1. unfold M_bind at 1. unfold bind at 1. unfold get at 1.
  cbn [St.set_def_arr St.def_arr St.clp St.glob St.rep St.ktrace St.oracle].
  rewrite Hfd, Hblk.
  unfold mbind at 1. unfold M_bind at 1. unfold bind at 1.
  unfold fetch_add_mono_mrq_id.
  unfold mbind at 1. unfold M_bind at 1. unfold bind at 1. unfold get_glob at 1.
  unfold mbind at 1. unfold M_bind at 1. unfold bind at 1.
  unfold upd_glob at 1. unfold modify at 1.
  unfold mret at 1. unfold M_ret at 1. unfold ret at 1.
  cbn [St.set_glob St.set_def_arr St.def_arr St.clp St.glob St.rep St.ktrace
       St.oracle].
  unfold mbind at 1. unfold M_bind at 1. unfold bind at 1.
  unfold upd_rep at 1. unfold modify at 1.
  cbn [St.set_rep St.set_glob St.set_def_arr St.def_arr St.clp St.glob St.rep
       St.ktrace St.oracle].
  unfold with_fuel.
  cbn [St.set_rep St.set_glob St.set_def_arr St.def_arr St.clp St.glob St.rep
       St.ktrace St.oracle].
  set (ctl := mrq_ctl clp _ _).
  match goal with
  | |- context [mrq_try_again fd ctl ?nrq ?fuel ?st] =>
    destruct (mrq_try_again_busy fd ctl nrq n fuel st rv resp elems rest)
      as (res & g' & clp' & rep' & Hrun & Hg & Hc & Hr & Hres & Hgood)
  end.
  { reflexivity. }
  { cbn [St.oracle]. unfold o1. rewrite length_app, length_replicate.
    cbn [length]. lia. }
  { lia. }
  cbn [St.set_rep St.set_glob St.set_def_arr St.clp St.glob St.rep
       St.def_arr St.ktrace St.oracle] in Hrun, Hg, Hc, Hr, Hgood.
  rewrite Hrun.
  unfold mbind, M_bind, bind, modify, mret, M_ret, ret.
  cbn [St.set_def_arr St.def_arr St.clp St.glob St.rep St.ktrace St.oracle].
  exists res. eexists _, ctl. split; [reflexivity|].
  cbn [St.def_arr St.clp St.glob St.rep St.ktrace St.oracle].
  subst g' rep'.
  split; [reflexivity|]. split; [reflexivity|]. split; [reflexivity|].
  split; [unfold ctl, mrq_ctl; reflexivity|].
  split; [destruct g, n; reflexivity|].
  split; [destruct g; reflexivity|].
  split; [destruct rep; reflexivity|].
  split; [destruct rep; reflexivity|].
  split; [destruct rep; reflexivity|].
  split; [exact Hres|].
  intros Hresid Hall. apply Hgood. cbv zeta.
  assert (Hlen2 : length (write_resp 0 elems
                            (resp_arr_init (set_requests (G.mrq_cmds clp) da)))
                  = length da).
  { rewrite length_write_resp. unfold resp_arr_init, set_requests.
    rewrite !length_map. reflexivity. }
  assert (Hap : H4.dout_resid (apply_resp resp ctl) = 0) by exact Hresid.
  pose proof (process_mrq_response_all_good
                (R.set_mrq_id (Glob.mono_mrq_id g) rep) (apply_resp resp ctl)
                _ Hap Hall) as Hpg.
  rewrite Hlen2 in Hpg. rewrite Hpg. lia.
Qed.

(** The flush of [Ex.pending]: one [EBUSY], then the one command completes. *)
Lemma deferred_flush_blocking_witness :
  exists res s',
    sgh_do_deferred_mrq Ex.pending = Ret res s'
    /\ res = 0 /\ St.def_arr s' = [] /\ St.oracle s' = []
    /\ Glob.num_ebusy (St.glob s') = 1
    /\ Glob.mono_mrq_id (St.glob s') = MONO_MRQ_ID_INIT + 1.
Proof.
  destruct (deferred_flush_blocking Ex.pending 4 1 0 0
              (clean 0) (mk_kresp 1 0 0 0 0 0 0 0 NullPtr true 0 None [])
              []
              [mk_kresp SG_INFO_MRQ_FINI 0 0 0 0 0 0 0 (RepPtr 0) false 0
                 None []] [])
    as (res & s' & ctl & Hrun & Hda & Ho & Hkt & Hlen & Hbusy & Hid & Hmid
        & Hin & Hout & Hres & Hgood);
    [vm_compute; discriminate | reflexivity | reflexivity | reflexivity |].
  exists res, s'. split; [exact Hrun|].
  split; [apply Hgood; [reflexivity | vm_compute; repeat constructor]|].
  split; [exact Hda|]. split; [exact Ho|].
  split; [exact Hbusy | exact Hid].
Defined.

(** ** Repeated calls *)

Lemma occurrences_cons e x es :
  occurrences e (x :: es) = (if x =? e then 1 else 0) + occurrences e es.
Proof.
  unfold occurrences. destruct (Z.eqb_spec x e) as [He|He].
  - rewrite filter_cons_True by exact He. cbn [length]. lia.
  - rewrite filter_cons_False by exact He. lia.
Qed.

Lemma occurrences_nonneg e es : 0 <= occurrences e es.
Proof. unfold occurrences. lia. Qed.

Ltac glob_eq :=
  unfold Glob.set_num_ebusy, Glob.set_num_start_eagain,
    Glob.set_num_fin_eagain;
  cbn -[occurrences Z.add Z.eqb bumped s32];
  rewrite ?bumped_bumped
    by first [apply occurrences_nonneg | destruct (_ =? _); lia | lia];
  rewrite ?Z.add_0_r, ?bumped_0; reflexivity.

Lemma occurrences_nil e : occurrences e [] = 0.
Proof. reflexivity. Qed.

Lemma count_retry_run start e s :
  retried e = true ->
  count_retry start e s = Ret tt (St.set_glob (count_retries start [e] (St.glob s)) s).
Proof.
  unfold retried, count_retry, count_retries. intros He.
  rewrite !occurrences_cons, !occurrences_nil.
  destruct s as [clp g rep da kt o]. cbn [St.glob].
  destruct (Z.eqb_spec e EAGAIN) as [->|Hne].
  - change (EAGAIN =? EBUSY) with false.
    unfold upd_glob, modify. cbn [St.set_glob St.glob].
    destruct g, start; reflexivity.
  - destruct (Z.eqb_spec e EBUSY) as [->|Hne2].
    + unfold upd_glob, modify. cbn [St.set_glob St.glob].
      destruct g, start; reflexivity.
    + unfold mret, M_ret, ret. f_equal. unfold St.set_glob. cbn [St.glob
        St.clp St.rep St.def_arr St.ktrace St.oracle].
      destruct g, start; reflexivity.
Qed.

Lemma count_retries_cons start e es g :
  count_retries start es (count_retries start [e] g)
  = count_retries start (e :: es) g.
Proof.
  unfold count_retries. rewrite !occurrences_cons, !occurrences_nil.
  destruct g, start; glob_eq.
Qed.

Lemma count_retries_nil start g : count_retries start [] g = g.
Proof.
  unfold count_retries. rewrite !occurrences_nil.
  destruct g, start; glob_eq.
Qed.

Lemma retry_call_skips (start : bool) (retries : list Z) :
  forall fuel s r rest,
    St.oracle s = map SysErr retries ++ r :: rest ->
    forallb retried retries = true ->
    match r with SysErr e => retried e = false | SysOk _ _ _ => True end ->
    (length retries < fuel)%nat ->
    retry_call start fuel s
    = Ret r (St.mk (St.clp s) (count_retries start retries (St.glob s))
               (St.rep s) (St.def_arr s) (St.ktrace s) rest).
Proof.
  induction retries as [|e retries IH]; intros fuel s r rest Ho Hall Hfin Hf.
  - destruct fuel as [|fuel]; [simpl in Hf; lia|].
    destruct s as [clp g rep da kt o]. cbn [St.oracle] in Ho. subst o.
    cbn [map app retry_call]. unfold mbind, M_bind, bind, syscall.
    cbn [St.oracle St.set_oracle St.clp St.glob St.rep St.def_arr St.ktrace].
    rewrite count_retries_nil.
    destruct r as [e|]; [|reflexivity].
    unfold retried in Hfin. rewrite Hfin. reflexivity.
  - destruct fuel as [|fuel]; [simpl in Hf; lia|].
    cbn [forallb] in Hall. apply andb_prop in Hall as [He Hall].
    destruct s as [clp g rep da kt o]. cbn [St.oracle] in Ho. subst o.
    cbn [map app retry_call].
    unfold mbind at 1. unfold M_bind at 1. unfold bind at 1. unfold syscall at 1.
    cbn [St.oracle St.set_oracle St.clp St.glob St.rep St.def_arr St.ktrace].
    pose proof He as He'. unfold retried in He'. rewrite He'.
    unfold mbind at 1. unfold M_bind at 1. unfold bind at 1.
    rewrite (count_retry_run start e _ He).
    cbn [St.set_glob St.glob].
    erewrite (IH fuel _ r rest); [|reflexivity|exact Hall|exact Hfin|simpl in Hf; lia].
    cbn [St.oracle St.set_oracle St.set_glob St.clp St.glob St.rep St.def_arr
         St.ktrace].
    rewrite count_retries_cons. reflexivity.
Qed.

(** A call repeated after [EINTR], [EAGAIN] and [EBUSY] yields its first
    other result, having counted every [EBUSY] in [num_ebusy] and every
    [EAGAIN] in the counter of its side, each count wrapping as an [int]
    does ([bumped]); the state is otherwise as it was. *)
Theorem retry_call_counts (start : bool) (s : St.t) (retries : list Z)
    (r : sysres) (rest : list sysres) :
  St.oracle s = map SysErr retries ++ r :: rest ->
  forallb retried retries = true ->
  match r with SysErr e => retried e = false | SysOk _ _ _ => True end ->
  with_fuel (retry_call start) s
  = Ret r (St.mk (St.clp s) (count_retries start retries (St.glob s))
             (St.rep s) (St.def_arr s) (St.ktrace s) rest).
Proof.
  intros Ho Hall Hfin. unfold with_fuel.
  apply (retry_call_skips start retries _ s r rest Ho Hall Hfin).
  rewrite Ho, length_app, length_map. cbn [length]. lia.
Qed.

(** Three retries, two [EAGAIN] and one [EBUSY], before the call succeeds. *)
Lemma retry_call_counts_witness :
  with_fuel (retry_call true)
    (Ex.file_file_start [SysErr EAGAIN; SysErr EBUSY; SysErr EAGAIN; ok 0])
  = Ret (ok 0)
      (St.mk Ex.file_file
         (Glob.set_num_start_eagain 2 (Glob.set_num_ebusy 1 (Ex.glob 8)))
         (St.rep (Ex.file_file_start [])) [] [] []).
Proof.
  apply (retry_call_counts true
           (Ex.file_file_start [SysErr EAGAIN; SysErr EBUSY; SysErr EAGAIN; ok 0])
           [EAGAIN; EBUSY; EAGAIN] (ok 0) []); [reflexivity | reflexivity | exact I].
Defined.

(** ** Changing the write side of a share *)

Lemma swap_share_loop_busy (fdr to_fd : Z) (before : bool) (n : nat) :
  forall (k : Z) (fuel : nat) (s : St.t) (r : sysres) (rest : list sysres),
    St.oracle s = replicate n (SysErr EBUSY) ++ r :: rest ->
    r <> SysErr EBUSY ->
    0 <= k -> k + Z.of_nat n <= 10001 -> (n < fuel)%nat ->
    swap_share_loop fdr to_fd before k fuel s
    = Ret true
        (St.mk (St.clp s) (St.glob s) (St.rep s) (St.def_arr s)
           (St.ktrace s
            ++ match r with
               | SysOk _ _ _ => [EvSwapShare fdr to_fd before]
               | SysErr _ => []
               end) rest).
Proof.
  induction n as [|n IH]; intros k fuel s r rest Ho Hr Hk Hkn Hf.
  - destruct fuel as [|fuel]; [lia|].
    destruct s as [clp g rep da kt o]. cbn [St.oracle] in Ho. subst o.
    cbn [replicate app swap_share_loop].
    unfold mbind, M_bind, bind, syscall, emit, modify, mret, M_ret, ret.
    cbn [St.oracle St.set_oracle St.set_ktrace St.clp St.glob St.rep
         St.def_arr St.ktrace].
    destruct r as [e|]; [|reflexivity].
    destruct (Z.eqb_spec e EBUSY) as [->|_]; [contradiction|].
    rewrite app_nil_r. reflexivity.
  - destruct fuel as [|fuel]; [lia|].
    destruct s as [clp g rep da kt o]. cbn [St.oracle] in Ho. subst o.
    cbn [replicate app swap_share_loop].
    unfold mbind at 1. unfold M_bind at 1. unfold bind at 1. unfold syscall at 1.
    cbn [St.oracle St.set_oracle St.clp St.glob St.rep St.def_arr St.ktrace].
    change (EBUSY =? EBUSY) with true. cbv iota.
    destruct (Z.ltb_spec 10000 k) as [?|_]; [lia|].
    erewrite (IH (k + 1) fuel _ r rest);
      [reflexivity | reflexivity | exact Hr | lia | lia | lia].
Qed.

Lemma swap_share_loop_gives_up (fdr to_fd : Z) (before : bool) (m : nat) :
  forall (k : Z) (fuel : nat) (s : St.t) (rest : list sysres),
    St.oracle s = replicate (S m) (SysErr EBUSY) ++ rest ->
    0 <= k -> k + Z.of_nat m = 10001 -> (m < fuel)%nat ->
    swap_share_loop fdr to_fd before k fuel s
    = Ret false
        (St.mk (St.clp s) (St.glob s) (St.rep s) (St.def_arr s) (St.ktrace s)
           rest).
Proof.
  induction m as [|m IH]; intros k fuel s rest Ho Hk Hkm Hf;
    (destruct fuel as [|fuel]; [lia|]);
    destruct s as [clp g rep da kt o]; cbn [St.oracle] in Ho; subst o;
    cbn [replicate app swap_share_loop];
    unfold mbind at 1; unfold M_bind at 1; unfold bind at 1;
    unfold syscall at 1;
    cbn [St.oracle St.set_oracle St.clp St.glob St.rep St.def_arr St.ktrace];
    change (EBUSY =? EBUSY) with true; cbv iota.
  - destruct (Z.ltb_spec 10000 k) as [_|?]; [reflexivity | lia].
  - destruct (Z.ltb_spec 10000 k) as [?|_]; [lia|].
    erewrite (IH (k + 1) fuel _ rest);
      [reflexivity | reflexivity | lia | lia | lia].
Qed.

(** [sg_wr_swap_share] repeats its [ioctl] while the answer is [EBUSY]; it
    reports failure only when 10002 answers in a row were [EBUSY].  Every
    other answer ends the loop with a report of success, also when it is
    an error, in which case no change of the share reached the kernel. *)
Theorem sg_wr_swap_share_result (s : St.t) (to_fd : Z) (before : bool) :
  (forall (n : nat) (r : sysres) (rest : list sysres),
     St.oracle s = replicate n (SysErr EBUSY) ++ r :: rest ->
     r <> SysErr EBUSY -> Z.of_nat n <= 10001 ->
     sg_wr_swap_share to_fd before s
     = Ret true
         (St.mk (St.clp s) (St.glob s) (St.rep s) (St.def_arr s)
            (St.ktrace s
             ++ match r with
                | SysOk _ _ _ =>
                  [EvSwapShare (R.infd (St.rep s)) to_fd before]
                | SysErr _ => []
                end) rest))
  /\ (forall (rest : list sysres),
        St.oracle s = replicate (Z.to_nat 10002) (SysErr EBUSY) ++ rest ->
        sg_wr_swap_share to_fd before s
        = Ret false
            (St.mk (St.clp s) (St.glob s) (St.rep s) (St.def_arr s)
               (St.ktrace s) rest)).
Proof.
  split.
  - intros n r rest Ho Hr Hn. unfold sg_wr_swap_share.
    unfold mbind, M_bind, bind, get_rep, with_fuel.
    apply (swap_share_loop_busy _ to_fd before n 0 _ s r rest Ho Hr);
      [lia | lia |].
    rewrite Ho, length_app, length_replicate. cbn [length]. lia.
  - intros rest Ho. unfold sg_wr_swap_share.
    unfold mbind, M_bind, bind, get_rep, with_fuel.
    assert (He : Z.to_nat 10002 = S (Z.to_nat 10001)) by lia.
    rewrite He in Ho.
    apply (swap_share_loop_gives_up _ to_fd before (Z.to_nat 10001) 0 _ s
             rest Ho); [lia | lia |].
    rewrite Ho, length_app, length_replicate. lia.
Qed.

(** Two [EBUSY] and then [ENOMEM]: the swap is reported as done. *)
Lemma sg_wr_swap_share_result_witness :
  sg_wr_swap_share 5 true
    (Ex.file_file_start [SysErr EBUSY; SysErr EBUSY; SysErr ENOMEM])
  = Ret true
      (St.mk Ex.file_file (Ex.glob 8) (St.rep (Ex.file_file_start [])) [] []
         []).
Proof.
  destruct (sg_wr_swap_share_result
              (Ex.file_file_start [SysErr EBUSY; SysErr EBUSY; SysErr ENOMEM])
              5 true) as [Htrue _].
  apply (Htrue 2%nat (SysErr ENOMEM) []);
    [reflexivity | discriminate | lia].
Defined.

(** ** Ordinary writes *)

(** When the [write] (after any number of [EINTR]/[EAGAIN] retries)
    takes [res] bytes with [0 <= res < blocks * bs], [normal_out_wr] sets the
    segment's block count to [ceil(res / bs)], increments [out_partial]
    exactly when [res] is not a multiple of [bs], and takes the reduced
    block count off [out_rem_count]; it requests no stop and makes no
    second [write] for the rest. *)
Theorem normal_out_wr_short_write (s : St.t) (blocks res : Z)
    (retries : list Z) (resp : kresp) (elems : list kresp)
    (rest : list sysres) :
  let clp := St.clp s in
  let rep := St.rep s in
  let bs := R.bs rep in
  forallb retryable_rw retries = true ->
  St.oracle s = map SysErr retries ++ SysOk res resp elems :: rest ->
  0 < bs -> 0 <= res < blocks * bs ->
  - 2147483648 <= G.out_partial clp < INT_MAX ->
  exists s',
    normal_out_wr blocks s = Ret tt s'
    /\ R.num_blks (St.rep s') = ceil_div res bs
    /\ G.out_partial (St.clp s')
       = G.out_partial clp + (if res mod bs =? 0 then 0 else 1)
    /\ G.out_rem_count (St.clp s') = G.out_rem_count clp - ceil_div res bs
    /\ G.out_stop (St.clp s') = G.out_stop clp
    /\ G.in_stop (St.clp s') = G.in_stop clp
    /\ St.ktrace s' = St.ktrace s ++ [EvWrite (G.outfd clp) (blocks * bs)]
    /\ St.oracle s' = rest.
Proof.
  destruct s as [clp g rep da kt o].
  cbn [St.clp St.rep St.oracle St.ktrace].
  intros Hall Ho Hbs Hres Hpart. subst o.
  unfold normal_out_wr.
  unfold mbind at 1. unfold M_bind at 1. unfold bind at 1. unfold get_clp at 1.
  unfold mbind at 1. unfold M_bind at 1. unfold bind at 1. unfold get_rep at 1.
  cbn [St.clp St.rep].
  unfold mbind at 1. unfold M_bind at 1. unfold bind at 1. unfold with_fuel.
  erewrite (retry_rw_skips retries);
    [| reflexivity | exact Hall | reflexivity
     | cbn [St.oracle]; rewrite length_app, length_map; cbn [length]; lia].
  unfold mbind, M_bind, bind, emit, modify, upd_clp, upd_rep, mret, M_ret, ret.
  cbn [St.set_oracle St.set_ktrace St.set_clp St.set_rep St.clp St.glob St.rep
       St.def_arr St.ktrace St.oracle].
  destruct (Z.ltb_spec res (blocks * R.bs rep)) as [_|?]; [|lia].
  rewrite quot_rem_ceil by lia.
  rewrite Z.rem_mod_nonneg by lia.
  pose proof (Z.mod_pos_bound res (R.bs rep) Hbs) as Hm.
  destruct (Z.ltb_spec 0 (res mod R.bs rep)) as [Hp|Hz].
  - eexists. split; [reflexivity|].
    cbn [St.set_oracle St.set_ktrace St.set_clp St.set_rep St.clp St.glob
         St.rep St.def_arr St.ktrace St.oracle].
    destruct (Z.eqb_spec (res mod R.bs rep) 0) as [He|_]; [lia|].
    destruct clp, rep; cbn in *.
    rewrite s32_small by (unfold INT_MAX in *; lia). repeat split.
  - eexists. split; [reflexivity|].
    cbn [St.set_oracle St.set_ktrace St.set_clp St.set_rep St.clp St.glob
         St.rep St.def_arr St.ktrace St.oracle].
    destruct (Z.eqb_spec (res mod R.bs rep) 0) as [_|Hne]; [|lia].
    destruct clp, rep; cbn in *. repeat split; lia.
Qed.

(** A [write] of 2048 bytes that stores 700 after one [EINTR]. *)
Lemma normal_out_wr_short_write_witness :
  exists s',
    normal_out_wr 4 (Ex.file_file_start [SysErr EINTR; SysOk 700 (clean 0) []])
    = Ret tt s'
    /\ R.num_blks (St.rep s') = 2
    /\ G.out_partial (St.clp s') = 1
    /\ G.out_rem_count (St.clp s') = 6
    /\ G.out_stop (St.clp s') = false.
Proof.
  destruct (normal_out_wr_short_write
              (Ex.file_file_start [SysErr EINTR; SysOk 700 (clean 0) []])
              4 700 [EINTR] (clean 0) [] [])
    as (s' & Hrun & Hnb & Hpart & Hrem & Hstop & _);
    [reflexivity | reflexivity | reflexivity
     | vm_compute; intuition discriminate
     | vm_compute; intuition discriminate |].
  exists s'. split; [exact Hrun|].
  split; [exact Hnb|]. split; [exact Hpart|]. split; [exact Hrem | exact Hstop].
Defined.

(** When the [write] fails for good, [normal_out_wr] requests a stop of
    both sides and leaves the counts alone, unless [oflag=coe] is given:
    then the failed write is taken to have stored [rep->num_blks] blocks,
    so that the smaller of [blocks] and [rep->num_blks] is taken off
    [out_rem_count] (after a short read that is [rep->num_blks], fewer
    than the [blocks] asked for), nothing is counted in [out_partial] and
    no stop is requested.  In both cases [rep] is as it was. *)
Theorem normal_out_wr_error (s : St.t) (blocks e : Z) (retries : list Z)
    (rest : list sysres) :
  let clp := St.clp s in
  let rep := St.rep s in
  forallb retryable_rw retries = true -> retryable_rw e = false ->
  St.oracle s = map SysErr retries ++ SysErr e :: rest ->
  0 < R.bs rep ->
  exists s',
    normal_out_wr blocks s = Ret tt s'
    /\ St.ktrace s' = St.ktrace s /\ St.oracle s' = rest
    /\ St.rep s' = rep
    /\ if Fl.coe (G.out_flags clp)
       then St.clp s'
            = G.set_out_rem_count
                (G.out_rem_count clp - Z.min blocks (R.num_blks rep)) clp
       else St.clp s' = G.set_out_stop true (G.set_in_stop true clp).
Proof.
  destruct s as [clp g rep da kt o].
  cbn [St.clp St.rep St.oracle St.ktrace].
  intros Hall He Ho Hbs. subst o.
  unfold normal_out_wr.
  unfold mbind at 1. unfold M_bind at 1. unfold bind at 1. unfold get_clp at 1.
  unfold mbind at 1. unfold M_bind at 1. unfold bind at 1. unfold get_rep at 1.
  cbn [St.clp St.rep].
  unfold mbind at 1. unfold M_bind at 1. unfold bind at 1. unfold with_fuel.
  erewrite (retry_rw_skips retries);
    [| reflexivity | exact Hall | cbn [final_rw]; rewrite He; reflexivity
     | cbn [St.oracle]; rewrite length_app, length_map; cbn [length]; lia].
  destruct (Fl.coe (G.out_flags clp)).
  - destruct (Z.ltb_spec (R.num_blks rep * R.bs rep) (blocks * R.bs rep))
      as [Hlt|Hge].
    + rewrite Z.rem_mul, Z.quot_mul by lia.
      change (0 <? 0) with false. cbv iota. rewrite Z.add_0_r.
      rewrite Z.min_r by nia.
      unfold mbind, M_bind, bind, upd_clp, upd_rep, modify, mret, M_ret, ret.
      cbn [St.set_oracle St.set_clp St.set_rep St.clp St.glob St.rep
           St.def_arr St.ktrace St.oracle].
      eexists. split; [reflexivity|].
      cbn [St.clp St.glob St.rep St.def_arr St.ktrace St.oracle].
      repeat split. destruct rep; reflexivity.
    + rewrite Z.min_l by nia.
      unfold upd_clp, modify.
      cbn [St.set_oracle St.set_clp St.clp St.glob St.rep St.def_arr
           St.ktrace St.oracle].
      eexists. split; [reflexivity|]. repeat split.
  - unfold stop_both, upd_clp, modify.
    cbn [St.set_oracle St.set_clp St.clp St.glob St.rep St.def_arr St.ktrace
         St.oracle].
    eexists. split; [reflexivity|]. repeat split.
Qed.

(** After a short read of two blocks a [write] of four fails with
    [ENOMEM] under [oflag=coe]: two blocks are taken off. *)
Lemma normal_out_wr_error_witness :
  exists s',
    normal_out_wr 4 (Ex.at_write (Ex.coe_file [SysErr ENOMEM]) 2)
    = Ret tt s'
    /\ St.ktrace s' = [] /\ St.oracle s' = []
    /\ G.out_stop (St.clp s') = false /\ G.in_stop (St.clp s') = false
    /\ G.out_partial (St.clp s') = 0
    /\ G.out_rem_count (St.clp s') = 6.
Proof.
  destruct (normal_out_wr_error
              (Ex.at_write (Ex.coe_file [SysErr ENOMEM]) 2)
              4 ENOMEM [] [])
    as (s' & Hrun & Hkt & Ho & Hrep & Hclp);
    [reflexivity | reflexivity | reflexivity | reflexivity |].
  exists s'. split; [exact Hrun|]. split; [exact Hkt|]. split; [exact Ho|].
  cbn in Hclp. rewrite Hclp. repeat split.
Defined.

(** ** The worker's place in its buffer *)

(** With unbalanced multiple requests a worker's buffer holds [nmrqs]
    segments and [buffp_onto_next] steps through them in a cycle: after [n]
    steps from index [i] the index is [(i + n) mod nmrqs], and [get_buffp]
    points [index * bs * bpt] bytes into the buffer. *)
Theorem buffp_onto_next_cycle (n : nat) : forall (s : St.t),
  let clp := St.clp s in
  0 < G.nmrqs clp -> G.unbalanced_mrq clp = true ->
  0 <= R.mrq_index (St.rep s) < G.nmrqs clp ->
  exists s',
    repeat_m n buffp_onto_next s = Ret tt s'
    /\ s' = St.set_rep
              (R.set_mrq_index
                 ((R.mrq_index (St.rep s) + Z.of_nat n) mod G.nmrqs clp)
                 (St.rep s)) s
    /\ get_buffp_off clp (St.rep s')
       = ((R.mrq_index (St.rep s) + Z.of_nat n) mod G.nmrqs clp)
         * G.bs clp * G.bpt clp.
Proof.
  induction n as [|n IH]; intros s clp Hn Hu Hi.
  - cbn [repeat_m]. eexists. split; [reflexivity|].
    rewrite Z.add_0_r, Z.mod_small by exact Hi.
    assert (Hs : St.set_rep (R.set_mrq_index (R.mrq_index (St.rep s)) (St.rep s)) s = s).
    { destruct s as [c g r d k o]. destruct r; reflexivity. }
    rewrite Hs. split; [reflexivity|].
    unfold get_buffp_off. fold clp. rewrite Hu.
    destruct (Z.ltb_spec 0 (G.nmrqs clp)) as [_|?]; [|lia].
    destruct (Z.ltb_spec 0 (R.mrq_index (St.rep s))) as [_|Hz];
      cbn [andb]; [reflexivity|].
    assert (R.mrq_index (St.rep s) = 0) by lia. lia.
  - cbn [repeat_m].
    unfold mbind at 1. unfold M_bind at 1. unfold bind at 1.
    unfold buffp_onto_next at 1.
    unfold mbind at 1. unfold M_bind at 1. unfold bind at 1. unfold get_clp at 1.
    fold clp. rewrite Hu.
    destruct (Z.ltb_spec 0 (G.nmrqs clp)) as [_|?]; [|lia].
    cbn [andb]. unfold upd_rep, modify.
    set (i := R.mrq_index (St.rep s)) in *.
    set (i1 := if G.nmrqs clp <=? i + 1 then 0 else i + 1).
    assert (Hi1 : i1 = (i + 1) mod G.nmrqs clp).
    { unfold i1. destruct (Z.leb_spec (G.nmrqs clp) (i + 1)) as [Hw|Hw].
      - assert (i + 1 = G.nmrqs clp) by lia.
        replace (i + 1) with (G.nmrqs clp) by lia.
        rewrite Z.mod_same by lia. reflexivity.
      - rewrite Z.mod_small by lia. reflexivity. }
    assert (Hr1 : 0 <= i1 < G.nmrqs clp)
      by (rewrite Hi1; apply Z.mod_pos_bound; lia).
    destruct (IH (St.set_rep (R.set_mrq_index i1 (St.rep s)) s))
      as (s' & Hrun & Hs' & Hoff).
    { destruct s; exact Hn. }
    { destruct s; exact Hu. }
    { destruct s as [c g r d k o]; destruct r; exact Hr1. }
    exists s'. split; [exact Hrun|].
    assert (Hidx : (i1 + Z.of_nat n) mod G.nmrqs clp
                   = (i + Z.of_nat (S n)) mod G.nmrqs clp).
    { rewrite Hi1, Zplus_mod_idemp_l. f_equal. lia. }
    replace (St.clp (St.set_rep (R.set_mrq_index i1 (St.rep s)) s))
      with clp in Hs', Hoff by (destruct s; reflexivity).
    replace (R.mrq_index (St.rep (St.set_rep (R.set_mrq_index i1 (St.rep s)) s)))
      with i1 in Hs', Hoff by (destruct s as [c g r d k o]; destruct r; reflexivity).
    rewrite Hidx in Hs', Hoff.
    split; [|exact Hoff].
    rewrite Hs'. destruct s as [c g r d k o]; destruct r; reflexivity.
Qed.

(** Three steps from index 3 of 4 on [Ex.file_sg_mrq]. *)
Lemma buffp_onto_next_cycle_witness :
  exists s',
    repeat_m 3 buffp_onto_next (fst Ex.file_sg_mrq) = Ret tt s'
    /\ R.mrq_index (St.rep s') = 2
    /\ get_buffp_off (St.clp (fst Ex.file_sg_mrq)) (St.rep s') = 2 * 512 * 4.
Proof.
  destruct (buffp_onto_next_cycle 3 (fst Ex.file_sg_mrq))
    as (s' & Hrun & Hs' & Hoff); [reflexivity | reflexivity | cbn; lia |].
  exists s'. split; [exact Hrun|].
  split; [rewrite Hs'; reflexivity | exact Hoff].
Defined.

(** ** A whole copy between ordinary files *)

Ltac st :=
  cbn [St.set_rep St.set_glob St.set_def_arr St.set_clp St.set_oracle
       St.set_ktrace St.clp St.glob St.rep St.def_arr St.ktrace St.oracle].

(** The read of a full segment from an ordinary file. *)
Lemma normal_in_rd_full (s : St.t) (blocks : Z) (data : list Z)
    (rest : list sysres) :
  let clp := St.clp s in
  let rep := St.rep s in
  G.in_type clp <> FT_RANDOM_0_FF ->
  Fl.same_fds (G.in_flags clp) || Fl.same_fds (G.out_flags clp) = false ->
  St.oracle s = ok 0 :: read_ok (blocks * R.bs rep) data :: rest ->
  normal_in_rd blocks s
  = Ret false
      (St.mk (G.set_in_rem_count (G.in_rem_count clp - blocks) clp)
         (St.glob s)
         (R.set_buffp (take (Z.to_nat (blocks * R.bs rep)) data
                       ++ drop (Z.to_nat (blocks * R.bs rep)) (R.buffp rep))
            rep)
         (St.def_arr s)
         (St.ktrace s ++ [EvLseek (R.infd rep) (R.iblk rep * R.bs rep);
                          EvRead (G.infd clp) (blocks * R.bs rep)])
         rest).
Proof.
  destruct s as [clp g rep da kt o].
  cbn [St.clp St.rep St.oracle St.glob St.def_arr St.ktrace].
  intros Hty Hsame Ho. subst o.
  assert (Hnr : (G.in_type clp =? FT_RANDOM_0_FF) = false)
    by (apply Z.eqb_neq; exact Hty).
  unfold normal_in_rd.
  unfold mbind, M_bind, mret, M_ret, bind, ret, get_clp, get_rep.
  cbn [St.clp St.rep]. rewrite Hnr, Hsame.
  unfold syscall, ok, read_ok. cbn [St.oracle negb].
  unfold emit, modify. cbv beta iota.
  cbn [St.set_oracle St.set_ktrace St.clp St.glob St.rep St.def_arr St.ktrace
       St.oracle negb].
  cbv beta iota.
  unfold with_fuel. cbn [St.oracle length retry_rw].
  unfold mbind, M_bind, mret, M_ret, bind, ret, syscall.
  cbn [St.set_oracle St.set_ktrace St.clp St.glob St.rep St.def_arr St.ktrace
       St.oracle].
  unfold upd_rep, modify, in_rd_tail.
  unfold mbind, M_bind, mret, M_ret, bind, ret, get_rep, upd_clp, modify.
  cbn [St.set_oracle St.set_ktrace St.set_rep St.set_clp St.clp St.glob St.rep
       St.def_arr St.ktrace St.oracle k_data].
  replace (R.bs (R.set_buffp
                   (take (Z.to_nat (blocks * R.bs rep)) data
                    ++ drop (Z.to_nat (blocks * R.bs rep)) (R.buffp rep)) rep))
    with (R.bs rep) by (destruct rep; reflexivity).
  rewrite Z.ltb_irrefl.
  cbn [St.set_oracle St.set_ktrace St.set_rep St.set_clp St.clp St.glob St.rep
       St.def_arr St.ktrace St.oracle].
  rewrite <- app_assoc. reflexivity.
Qed.

(** The write of a full segment to an ordinary file. *)
Lemma normal_out_wr_full (s : St.t) (blocks : Z) (resp : kresp)
    (el : list kresp) (rest : list sysres) :
  let clp := St.clp s in
  let rep := St.rep s in
  St.oracle s = SysOk (blocks * R.bs rep) resp el :: rest ->
  normal_out_wr blocks s
  = Ret tt
      (St.mk (G.set_out_rem_count (G.out_rem_count clp - blocks) clp)
         (St.glob s) rep (St.def_arr s)
         (St.ktrace s ++ [EvWrite (G.outfd clp) (blocks * R.bs rep)])
         rest).
Proof.
  destruct s as [clp g rep da kt o].
  cbn [St.clp St.rep St.oracle St.glob St.def_arr St.ktrace].
  intros Ho. subst o.
  unfold normal_out_wr.
  unfold mbind, M_bind, bind, get_clp, get_rep, with_fuel.
  cbn [St.oracle St.clp St.rep length retry_rw].
  unfold mbind, M_bind, bind, syscall, emit, modify, mret, M_ret, ret,
    upd_clp, modify.
  cbn [St.oracle St.set_oracle St.set_ktrace St.set_rep St.set_clp St.clp
       St.glob St.rep St.def_arr St.ktrace].
  rewrite Z.ltb_irrefl. reflexivity.
Qed.

(** The read half of a loop turn on an ordinary file, the [lseek] and the
    [read] complete: the segment is fetched and the turn goes on to its
    write half. *)
Lemma plain_read (clp : G.t) (g : Glob.t) (rep : R.t) (da : mrq_arr_t)
    (kt : list kevent) (o : list sysres) (l : locals) (d : list Z) :
  let idx := Glob.pos_index g in
  let b := seg_blocks (Glob.dd_count g) (G.bpt clp) idx in
  G.in_type clp <> FT_RANDOM_0_FF ->
  Fl.same_fds (G.in_flags clp) || Fl.same_fds (G.out_flags clp) = false ->
  G.nmrqs clp <= 0 ->
  in_is_sg l = false -> c_addr l = 0 ->
  0 <= idx < Glob.dd_count g ->
  segment_read l
    (St.mk clp g rep da kt (ok 0 :: read_ok (b * R.bs rep) d :: o))
  = Ret (inl (set_blocks b (set_stop_after_write false l)))
    (St.mk (G.set_in_rem_count (G.in_rem_count clp - b) clp)
       (Glob.set_pos_index (idx + G.bpt clp) g)
       (R.set_rep_count (R.rep_count rep + 1)
          (R.set_wr true
             (R.set_buffp
                (take (Z.to_nat (b * R.bs rep)) d
                 ++ drop (Z.to_nat (b * R.bs rep)) (R.buffp rep))
                (R.set_num_blks b
                   (R.set_oblk (G.seek clp + idx)
                      (R.set_iblk (G.skip clp + idx) rep))))))
       da
       (kt ++ [EvLseek (R.infd rep) ((G.skip clp + idx) * R.bs rep);
               EvRead (G.infd clp) (b * R.bs rep)])
       o).
Proof.
  intros idx b Hin Hsame Hn Hisg Hca Hidx.
  unfold segment_read.
  unfold mbind at 1. unfold M_bind at 1. unfold bind at 1.
  unfold upd_rep at 1. unfold modify at 1.
  unfold mbind at 1. unfold M_bind at 1. unfold bind at 1.
  unfold get_glob at 1.
  unfold mbind at 1. unfold M_bind at 1. unfold bind at 1.
  unfold get_clp at 1. st.
  unfold mbind at 1. unfold M_bind at 1. unfold bind at 1.
  unfold upd_glob at 1. unfold modify at 1. st.
  unfold mbind at 1. unfold M_bind at 1. unfold bind at 1.
  unfold buffp_onto_next at 1.
  unfold mbind at 1. unfold M_bind at 1. unfold bind at 1.
  unfold get_clp at 1. st.
  destruct (Z.ltb_spec 0 (G.nmrqs clp)) as [?|_]; [lia|]. cbn [andb].
  unfold mret at 1. unfold M_ret at 1. unfold ret at 1.
  fold idx.
  destruct (Z.leb_spec 0 (Glob.dd_count g)) as [_|?]; [|lia].
  destruct (Z.leb_spec (Glob.dd_count g) idx) as [?|_]; [lia|].
  cbn [andb]. fold (seg_blocks (Glob.dd_count g) (G.bpt clp) idx). fold b.
  unfold mbind at 1. unfold M_bind at 1. unfold bind at 1.
  unfold upd_rep at 1. unfold modify at 1. st.
  rewrite Hisg.
  unfold mbind at 1. unfold M_bind at 1. unfold bind at 1.
  unfold mbind at 1. unfold M_bind at 1. unfold bind at 1.
  rewrite normal_in_rd_full with (data := d) (rest := o);
    [| exact Hin | exact Hsame
     | cbn [St.oracle St.rep]; destruct rep; reflexivity].
  st.
  unfold mret at 1. unfold M_ret at 1. unfold ret at 1.
  unfold chkaddr_step.
  unfold mbind at 1. unfold M_bind at 1. unfold bind at 1.
  unfold mbind at 1. unfold M_bind at 1. unfold bind at 1.
  unfold get_rep at 1.
  replace (c_addr (set_stop_after_write false l)) with 0
    by (destruct l; cbn in *; congruence).
  cbn [Z.eqb negb andb].
  unfold mret at 1. unfold M_ret at 1. unfold ret at 1.
  unfold mbind at 1. unfold M_bind at 1. unfold bind at 1.
  unfold upd_rep at 1. unfold modify at 1. st.
  unfold mret, M_ret, ret.
  reflexivity.
Qed.

(** One turn of the main loop between ordinary files, every call
    complete. *)
Lemma plain_turn (clp : G.t) (g : Glob.t) (rep : R.t) (da : mrq_arr_t)
    (kt : list kevent) (o : list sysres) (l : locals) (data : Z -> list Z)
    (turns : nat) :
  let idx := Glob.pos_index g in
  let b := seg_blocks (Glob.dd_count g) (G.bpt clp) idx in
  G.in_type clp <> FT_RANDOM_0_FF ->
  G.out_type clp <> FT_DEV_NULL ->
  Fl.same_fds (G.in_flags clp) || Fl.same_fds (G.out_flags clp) = false ->
  G.nmrqs clp <= 0 ->
  (0 <=? G.out2fd clp) && (G.out2_type clp =? FT_SG) = false ->
  R.outregfd rep < 0 ->
  in_is_sg l = false -> out_is_sg l = false -> c_addr l = 0 ->
  0 < G.bpt clp ->
  0 <= idx < Glob.dd_count g ->
  G.out_stop clp = false -> 0 < G.out_count clp ->
  G.out_blk clp = G.seek clp + idx ->
  main_loop (S turns) l
    (St.mk clp g rep da kt (copy_calls (R.bs rep) data (idx, b) ++ o))
  = main_loop turns (set_blocks b (set_stop_after_write false l))
      (St.mk
         (G.set_out_rem_count (G.out_rem_count clp - b)
            (G.set_out_blk (G.out_blk clp + b)
               (G.set_out_count (G.out_count clp - b)
                  (G.set_in_rem_count (G.in_rem_count clp - b) clp))))
         (Glob.set_pos_index (idx + G.bpt clp) g)
         (R.set_rep_count (R.rep_count rep + 1 + 1)
            (R.set_wr true
               (R.set_buffp
                  (take (Z.to_nat (b * R.bs rep)) (data idx)
                   ++ drop (Z.to_nat (b * R.bs rep)) (R.buffp rep))
                  (R.set_num_blks b
                     (R.set_oblk (G.seek clp + idx)
                        (R.set_iblk (G.skip clp + idx) rep))))))
         da
         (kt ++ [EvLseek (R.infd rep) ((G.skip clp + idx) * R.bs rep);
                 EvRead (G.infd clp) (b * R.bs rep);
                 EvWrite (G.outfd clp) (b * R.bs rep)])
         o).
Proof.
  intros idx b Hin Hout Hsame Hn Ho2 Hreg Hisg Hosg Hca Hbpt Hidx Hstop Hcnt
    Hblk.
  assert (Hb : 0 < b).
  { unfold b, seg_blocks. destruct (Z.ltb_spec (Glob.dd_count g) (idx + G.bpt clp)); lia. }
  cbn [main_loop].
  unfold mbind at 1. unfold M_bind at 1. unfold bind at 1.
  unfold copy_calls. cbn [fst snd app].
  pose proof (plain_read clp g rep da kt
                (SysOk (b * R.bs rep) (clean 0) [] :: o) l (data idx) Hin
                Hsame Hn Hisg Hca Hidx) as Hrd.
  cbv zeta in Hrd. fold idx in Hrd. fold b in Hrd.
  rewrite Hrd. clear Hrd.
  unfold mbind at 1. unfold M_bind at 1. unfold bind at 1.
  unfold get at 1. st.
  assert (Hmw : must_wait (G.set_in_rem_count (G.in_rem_count clp - b) clp)
           (R.set_rep_count (R.rep_count rep + 1)
              (R.set_wr true
                 (R.set_buffp
                    (take (Z.to_nat (b * R.bs rep)) (data idx)
                     ++ drop (Z.to_nat (b * R.bs rep)) (R.buffp rep))
                    (R.set_num_blks b
                       (R.set_oblk (G.seek clp + idx)
                          (R.set_iblk (G.skip clp + idx) rep))))))
           (set_blocks b (set_stop_after_write false l)) = false).
  { unfold must_wait.
    replace (R.oblk _) with (G.seek clp + idx) by (destruct rep; reflexivity).
    replace (G.out_blk _) with (G.seek clp + idx)
      by (rewrite <- Hblk; destruct clp; reflexivity).
    rewrite Z.eqb_refl. cbn [negb]. apply andb_false_r. }
  rewrite Hmw. clear Hmw.
  unfold mbind at 1. unfold M_bind at 1. unfold bind at 1.
  set (clp1 := G.set_in_rem_count (G.in_rem_count clp - b) clp).
  set (rep1 := R.set_rep_count (R.rep_count rep + 1) _).
  set (l1 := set_blocks b (set_stop_after_write false l)).
  assert (Hc1 : G.out_stop clp1 = false /\ G.out_count clp1 = G.out_count clp
                /\ G.out_type clp1 = G.out_type clp
                /\ G.out2fd clp1 = G.out2fd clp
                /\ G.out2_type clp1 = G.out2_type clp
                /\ G.nmrqs clp1 = G.nmrqs clp
                /\ G.outfd clp1 = G.outfd clp
                /\ G.out_blk clp1 = G.out_blk clp
                /\ G.out_rem_count clp1 = G.out_rem_count clp).
  { subst clp1. destruct clp; cbn in *. repeat split; assumption. }
  destruct Hc1 as (Hs1 & Hcnt1 & Hty1 & Hfd2 & Hty2 & Hn1 & Hofd & Hblk1 & Hrem1).
  assert (Hr1 : R.outregfd rep1 = R.outregfd rep /\ R.num_blks rep1 = b
                /\ R.bs rep1 = R.bs rep).
  { subst rep1. destruct rep; cbn. repeat split. }
  destruct Hr1 as (Hreg1 & Hnb1 & Hbs1).
  assert (Hl1 : stop_after_write l1 = false /\ out_is_sg l1 = false
                /\ blocks l1 = b).
  { subst l1. destruct l; cbn in *. repeat split; assumption. }
  destruct Hl1 as (Hsaw & Hosg1 & Hbl1).
  unfold segment_write.
  unfold mbind at 1. unfold M_bind at 1. unfold bind at 1.
  unfold get_clp at 1. st.
  rewrite Hs1, Hcnt1.
  destruct (Z.leb_spec (G.out_count clp) 0) as [?|_]; [lia|]. cbn [orb].
  rewrite Hsaw.
  unfold mbind at 1. unfold M_bind at 1. unfold bind at 1.
  unfold mret at 1. unfold M_ret at 1. unfold ret at 1.
  unfold mbind at 1. unfold M_bind at 1. unfold bind at 1.
  unfold upd_clp at 1. unfold modify at 1. st.
  unfold mbind at 1. unfold M_bind at 1. unfold bind at 1.
  unfold write_outreg at 1.
  unfold mbind at 1. unfold M_bind at 1. unfold bind at 1.
  unfold get_rep at 1. st.
  rewrite Hreg1.
  destruct (Z.leb_spec 0 (R.outregfd rep)) as [?|_]; [lia|].
  unfold mret at 1. unfold M_ret at 1. unfold ret at 1.
  unfold mbind at 1. unfold M_bind at 1. unfold bind at 1.
  unfold get_rep at 1. st.
  rewrite Hosg1, Hty1.
  destruct (Z.eqb_spec (G.out_type clp) FT_DEV_NULL) as [?|_];
    [contradiction|].
  unfold mbind at 1. unfold M_bind at 1. unfold bind at 1.
  unfold mbind at 1. unfold M_bind at 1. unfold bind at 1.
  unfold mbind at 1. unfold M_bind at 1. unfold bind at 1.
  rewrite Hbl1.
  rewrite normal_out_wr_full with (resp := clean 0) (el := []) (rest := o);
    [| st; rewrite Hbs1; reflexivity].
  st.
  unfold upd_rep at 1. unfold modify at 1. st.
  unfold mret at 1. unfold M_ret at 1. unfold ret at 1.
  rewrite Hfd2, Hty2, Ho2.
  unfold mbind at 1. unfold M_bind at 1. unfold bind at 1.
  unfold mret at 1. unfold M_ret at 1. unfold ret at 1.
  unfold mbind at 1. unfold M_bind at 1. unfold bind at 1.
  unfold get_rep at 1. st.
  replace (R.num_blks (R.set_rep_count (R.rep_count rep1 + 1) rep1)) with b
    by (rewrite <- Hnb1; destruct rep1; reflexivity).
  destruct (Z.eqb_spec b 0) as [?|_]; [lia|].
  unfold mret at 1. unfold M_ret at 1. unfold ret at 1. st.
  f_equal. subst clp1 rep1. unfold St.set_rep. st.
  rewrite <- app_assoc. reflexivity.
Qed.

(** The turn that finds the copy complete leaves the loop. *)
Lemma plain_tail (clp : G.t) (g : Glob.t) (rep : R.t) (da : mrq_arr_t)
    (kt : list kevent) (o : list sysres) (l : locals) (turns : nat) :
  G.nmrqs clp <= 0 ->
  0 <= Glob.dd_count g <= Glob.pos_index g ->
  main_loop (S turns) l (St.mk clp g rep da kt o)
  = Ret (Left LeaveTail, l)
      (St.mk clp (Glob.set_pos_index (Glob.pos_index g + G.bpt clp) g)
         (R.set_wr false rep) da kt o).
Proof.
  intros Hn Hdd.
  cbn [main_loop].
  unfold mbind at 1. unfold M_bind at 1. unfold bind at 1.
  unfold segment_read.
  unfold mbind at 1. unfold M_bind at 1. unfold bind at 1.
  unfold upd_rep at 1. unfold modify at 1.
  unfold mbind at 1. unfold M_bind at 1. unfold bind at 1.
  unfold get_glob at 1.
  unfold mbind at 1. unfold M_bind at 1. unfold bind at 1.
  unfold get_clp at 1. st.
  unfold mbind at 1. unfold M_bind at 1. unfold bind at 1.
  unfold upd_glob at 1. unfold modify at 1. st.
  unfold mbind at 1. unfold M_bind at 1. unfold bind at 1.
  unfold buffp_onto_next at 1.
  unfold mbind at 1. unfold M_bind at 1. unfold bind at 1.
  unfold get_clp at 1. st.
  destruct (Z.ltb_spec 0 (G.nmrqs clp)) as [?|_]; [lia|]. cbn [andb].
  unfold mret at 1. unfold M_ret at 1. unfold ret at 1.
  destruct (Z.leb_spec 0 (Glob.dd_count g)) as [_|?]; [|lia].
  destruct (Z.leb_spec (Glob.dd_count g) (Glob.pos_index g)) as [_|?]; [|lia].
  cbn [andb].
  unfold tail_flush.
  unfold mbind at 1. unfold M_bind at 1. unfold bind at 1.
  unfold mbind at 1. unfold M_bind at 1. unfold bind at 1.
  unfold get at 1. st.
  destruct (Z.ltb_spec 0 (G.nmrqs clp)) as [?|_]; [lia|]. cbn [andb].
  reflexivity.
Qed.

Lemma segments_sum (n : nat) : forall idx dd_count bpt,
  0 < bpt -> 0 <= idx -> dd_count <= idx + Z.of_nat n * bpt ->
  sum_blocks (segments n idx dd_count bpt) = Z.max 0 (dd_count - idx)
  /\ Forall (fun seg => 0 < snd seg <= bpt /\ idx <= fst seg
                        /\ fst seg + snd seg <= dd_count)
       (segments n idx dd_count bpt).
Proof.
  induction n as [|n IH]; intros idx dd bpt Hb Hi Hn.
  - cbn. split; [lia|constructor].
  - cbn [segments]. destruct (Z.leb_spec dd idx) as [Hle|Hlt].
    + cbn. split; [lia|constructor].
    + destruct (IH (idx + bpt) dd bpt Hb ltac:(lia) ltac:(lia)) as [Hs Hf].
      unfold sum_blocks in *. cbn [map foldr snd]. rewrite Hs.
      unfold seg_blocks.
      destruct (Z.ltb_spec dd (idx + bpt)); (split; [lia|]);
        (constructor; [cbn; lia|]);
        (eapply Forall_impl; [exact Hf|]); cbn; intros; lia.
Qed.

(** The main loop between ordinary files, from any segment on. *)
Lemma plain_loop (n : nat) : forall (clp : G.t) (g : Glob.t) (rep : R.t)
    (da : mrq_arr_t) (kt : list kevent) (l : locals) (data : Z -> list Z)
    (clp0 : G.t) (rep0 : R.t),
  let idx := Glob.pos_index g in
  let dd := Glob.dd_count g in
  let segs := segments n idx dd (G.bpt clp) in
  config_of clp = config_of clp0 ->
  R.bs rep = R.bs rep0 -> R.infd rep = R.infd rep0 ->
  R.outregfd rep = R.outregfd rep0 ->
  G.in_type clp0 <> FT_RANDOM_0_FF ->
  G.out_type clp0 <> FT_DEV_NULL ->
  Fl.same_fds (G.in_flags clp0) || Fl.same_fds (G.out_flags clp0) = false ->
  G.nmrqs clp0 <= 0 ->
  (0 <=? G.out2fd clp0) && (G.out2_type clp0 =? FT_SG) = false ->
  R.outregfd rep0 < 0 ->
  in_is_sg l = false -> out_is_sg l = false -> c_addr l = 0 ->
  0 < G.bpt clp0 ->
  0 <= idx -> 0 <= dd -> dd <= idx + Z.of_nat n * G.bpt clp0 ->
  G.out_stop clp = false ->
  G.out_count clp = Z.max 0 (dd - idx) ->
  G.out_blk clp = G.seek clp0 + Z.min idx dd ->
  exists l' clp' g' rep',
    main_loop (S n) l
      (St.mk clp g rep da kt (flat_map (copy_calls (R.bs rep0) data) segs))
    = Ret (Left LeaveTail, l')
        (St.mk clp' g' rep' da
           (kt ++ flat_map (copy_events clp0 rep0) segs) [])
    /\ config_of clp' = config_of clp0
    /\ G.in_stop clp' = G.in_stop clp
    /\ G.out_stop clp' = false
    /\ G.in_rem_count clp' = G.in_rem_count clp - sum_blocks segs
    /\ G.out_rem_count clp' = G.out_rem_count clp - sum_blocks segs
    /\ G.out_count clp' = G.out_count clp - sum_blocks segs
    /\ G.out_blk clp' = G.out_blk clp + sum_blocks segs
    /\ Glob.exit_status g' = Glob.exit_status g.
Proof.
  induction n as [|n IH];
    intros clp g rep da kt l data clp0 rep0 idx dd segs Hcfg Hbs Hifd Hreg
      Hin Hout Hsame Hn Ho2 Hreg0 Hisg Hosg Hca Hbpt Hidx Hdd Hfuel Hstop
      Hcnt Hblk.
  - pose proof (f_equal G.nmrqs Hcfg) as Hn'.
    change (G.nmrqs clp = G.nmrqs clp0) in Hn'.
    subst segs. cbn [segments flat_map]. rewrite app_nil_r.
    rewrite plain_tail by (fold idx dd; lia).
    eexists _, _, _, _. split; [reflexivity|].
    unfold sum_blocks. cbn [map foldr].
    repeat split; try assumption; try reflexivity; lia.
  - pose proof (f_equal G.nmrqs Hcfg) as Hn'.
    change (G.nmrqs clp = G.nmrqs clp0) in Hn'.
    pose proof (f_equal G.bpt Hcfg) as Hb'.
    change (G.bpt clp = G.bpt clp0) in Hb'.
    pose proof (f_equal G.in_type Hcfg) as Hit.
    change (G.in_type clp = G.in_type clp0) in Hit.
    pose proof (f_equal G.out_type Hcfg) as Hot.
    change (G.out_type clp = G.out_type clp0) in Hot.
    pose proof (f_equal G.in_flags Hcfg) as Hif.
    change (G.in_flags clp = G.in_flags clp0) in Hif.
    pose proof (f_equal G.out_flags Hcfg) as Hof.
    change (G.out_flags clp = G.out_flags clp0) in Hof.
    pose proof (f_equal G.out2fd Hcfg) as Ho2f.
    change (G.out2fd clp = G.out2fd clp0) in Ho2f.
    pose proof (f_equal G.out2_type Hcfg) as Ho2t.
    change (G.out2_type clp = G.out2_type clp0) in Ho2t.
    pose proof (f_equal G.seek Hcfg) as Hsk.
    change (G.seek clp = G.seek clp0) in Hsk.
    pose proof (f_equal G.skip Hcfg) as Hsp.
    change (G.skip clp = G.skip clp0) in Hsp.
    pose proof (f_equal G.infd Hcfg) as Hi'.
    change (G.infd clp = G.infd clp0) in Hi'.
    pose proof (f_equal G.outfd Hcfg) as Ho'.
    change (G.outfd clp = G.outfd clp0) in Ho'.
    subst segs. cbn [segments].
    destruct (Z.leb_spec dd idx) as [Hle|Hlt].
    + cbn [flat_map]. rewrite app_nil_r.
      rewrite plain_tail by (fold idx dd; lia).
      eexists _, _, _, _. split; [reflexivity|].
      unfold sum_blocks. cbn [map foldr].
      repeat split; try assumption; try reflexivity; lia.
    + cbn [flat_map]. rewrite <- Hbs.
      rewrite plain_turn;
        [| congruence | congruence | congruence | lia | congruence | lia
         | assumption | assumption | assumption | lia | fold idx dd; lia
         | assumption | fold idx dd; lia | fold idx; lia].
      fold idx dd. set (b := seg_blocks dd (G.bpt clp) idx).
      assert (Hb : 0 < b <= dd - idx
                   /\ (idx + G.bpt clp <= dd -> b = G.bpt clp)
                   /\ (dd < idx + G.bpt clp -> b = dd - idx)).
      { unfold b, seg_blocks.
        destruct (Z.ltb_spec dd (idx + G.bpt clp)); lia. }
      clearbody b. destruct Hb as (Hb & Hbfull & Hbpart).
      rewrite Nat2Z.inj_succ, Z.mul_succ_l in Hfuel.
      match goal with
      | |- context [main_loop (S n) ?l1 (St.mk ?c1 ?g1 ?r1 _ ?k1 _)] =>
        destruct (IH c1 g1 r1 da k1 l1 data clp0 rep0)
          as (l' & clp' & g' & rep' & Hrun & Hcfg' & Hin' & Hst' & Hirc
              & Horc & Hoc & Hob & Hex)
      end.
      * rewrite <- Hcfg. reflexivity.
      * exact Hbs.
      * exact Hifd.
      * exact Hreg.
      * assumption.
      * assumption.
      * assumption.
      * assumption.
      * assumption.
      * assumption.
      * exact Hisg.
      * exact Hosg.
      * exact Hca.
      * assumption.
      * change (0 <= idx + G.bpt clp). lia.
      * change (0 <= dd). lia.
      * change (dd <= idx + G.bpt clp + Z.of_nat n * G.bpt clp0). lia.
      * exact Hstop.
      * change (G.out_count clp - b = Z.max 0 (dd - (idx + G.bpt clp))). lia.
      * change (G.out_blk clp + b
                = G.seek clp0 + Z.min (idx + G.bpt clp) dd). lia.
      * change (Glob.pos_index (Glob.set_pos_index (idx + G.bpt clp) g))
          with (idx + G.bpt clp) in *.
        change (Glob.dd_count (Glob.set_pos_index (idx + G.bpt clp) g))
          with dd in *.
        change (G.bpt (G.set_out_rem_count (G.out_rem_count clp - b)
                  (G.set_out_blk (G.out_blk clp + b)
                     (G.set_out_count (G.out_count clp - b)
                        (G.set_in_rem_count (G.in_rem_count clp - b) clp)))))
          with (G.bpt clp) in *.
        cbn [G.in_rem_count G.out_rem_count G.out_count G.out_blk G.in_stop
             G.out_stop G.set_out_rem_count G.set_out_blk G.set_out_count
             G.set_in_rem_count Glob.exit_status Glob.set_pos_index]
          in Hin', Hirc, Horc, Hoc, Hob, Hex.
        exists l', clp', g', rep'.
        split.
        { rewrite <- Hbs in Hrun. rewrite Hrun.
          f_equal. f_equal.
          rewrite <- app_assoc. f_equal. cbn [app].
          unfold copy_events at 2. cbn [fst snd app].
          rewrite Hsp, Hbs, Hifd, Hi', Ho'. reflexivity. }
        unfold sum_blocks in *. cbn [map foldr snd].
        repeat split; try assumption; lia.
Qed.

(** A copy between ordinary files (or block devices) by one worker, with
    every [lseek], [read] and [write] complete: the main loop issues, for
    each segment of [bpt] blocks (the last one shorter) in ascending order,
    the seek, the read and the write of that segment, and nothing else; it
    leaves the loop at the end of the input with [out_count] zero, both
    remaining counts reduced by [dd_count], [out_blk] past the last block
    written, and the process exit status that of a completed copy. *)
Theorem plain_copy_completes (s : St.t) (l : locals) (data : Z -> list Z)
    (n : nat) :
  let clp := St.clp s in
  let g := St.glob s in
  let rep := St.rep s in
  let dd := Glob.dd_count g in
  let segs := segments n 0 dd (G.bpt clp) in
  G.in_type clp <> FT_RANDOM_0_FF -> G.out_type clp <> FT_DEV_NULL ->
  in_is_sg l = false -> out_is_sg l = false -> c_addr l = 0 ->
  Fl.same_fds (G.in_flags clp) || Fl.same_fds (G.out_flags clp) = false ->
  G.nmrqs clp <= 0 ->
  (0 <=? G.out2fd clp) && (G.out2_type clp =? FT_SG) = false ->
  R.outregfd rep < 0 ->
  0 < G.bpt clp -> 0 <= dd <= Z.of_nat n * G.bpt clp ->
  Glob.pos_index g = 0 -> G.out_stop clp = false ->
  G.out_count clp = dd -> G.out_blk clp = G.seek clp ->
  St.oracle s = flat_map (copy_calls (R.bs rep) data) segs ->
  exists l' s',
    read_write_thread (S n) l s = Ret (Left LeaveTail, l') s'
    /\ sum_blocks segs = dd
    /\ St.ktrace s' = St.ktrace s ++ flat_map (copy_events clp rep) segs
    /\ St.oracle s' = [] /\ St.def_arr s' = St.def_arr s
    /\ G.in_rem_count (St.clp s') = G.in_rem_count clp - dd
    /\ G.out_rem_count (St.clp s') = G.out_rem_count clp - dd
    /\ G.out_count (St.clp s') = 0
    /\ G.out_blk (St.clp s') = G.seek clp + dd
    /\ G.in_stop (St.clp s') = true /\ G.out_stop (St.clp s') = false
    /\ main_exit_of s' = main_exit (Glob.exit_status g) 0 (G.dry_run clp).
Proof.
  destruct s as [clp g rep da kt o]. st.
  intros Hin Hout Hisg Hosg Hca Hsame Hn Ho2 Hreg Hbpt Hdd Hpos Hstop Hcnt
    Hblk Ho. subst o.
  destruct (segments_sum n 0 (Glob.dd_count g) (G.bpt clp) Hbpt ltac:(lia)
              ltac:(lia)) as [Hsum _].
  rewrite Z.sub_0_r, Z.max_r in Hsum by lia.
  destruct (plain_loop n clp g rep da kt l data clp rep)
    as (l' & clp' & g' & rep' & Hrun & Hcfg & Hins & Hst & Hirc & Horc & Hoc
        & Hob & Hex);
    try assumption; try reflexivity; try (rewrite ?Hpos; lia).
  rewrite Hpos in Hrun, Hirc, Horc, Hoc, Hob.
  rewrite Hsum in Hirc, Horc, Hoc, Hob.
  unfold read_write_thread.
  unfold mbind at 1. unfold M_bind at 1. unfold bind at 1.
  rewrite Hrun. cbn [fst].
  unfold mbind, M_bind, bind, upd_clp, modify, mret, M_ret, ret. st.
  eexists _, _. split; [reflexivity|]. st.
  assert (Hdry : G.dry_run clp' = G.dry_run clp).
  { destruct clp', clp; injection Hcfg; intros; subst; reflexivity. }
  unfold main_exit_of. st.
  replace (G.in_rem_count (G.set_in_stop true clp'))
    with (G.in_rem_count clp') by (destruct clp'; reflexivity).
  replace (G.out_rem_count (G.set_in_stop true clp'))
    with (G.out_rem_count clp') by (destruct clp'; reflexivity).
  replace (G.out_count (G.set_in_stop true clp'))
    with (G.out_count clp') by (destruct clp'; reflexivity).
  replace (G.out_blk (G.set_in_stop true clp'))
    with (G.out_blk clp') by (destruct clp'; reflexivity).
  replace (G.out_stop (G.set_in_stop true clp'))
    with (G.out_stop clp') by (destruct clp'; reflexivity).
  replace (G.dry_run (G.set_in_stop true clp'))
    with (G.dry_run clp') by (destruct clp'; reflexivity).
  replace (G.in_stop (G.set_in_stop true clp')) with true
    by (destruct clp'; reflexivity).
  rewrite Hex, Hdry.
  replace (G.out_count clp') with 0 by lia.
  repeat split; try assumption; try lia.
Qed.

(** The copy of [Ex.file_file_ten]: three segments, of 4, 4 and 2 blocks. *)
Lemma plain_copy_completes_witness :
  exists l' s',
    read_write_thread 4 (snd Ex.file_file_ten) (fst Ex.file_file_ten)
    = Ret (Left LeaveTail, l') s'
    /\ St.ktrace s'
       = [EvLseek 3 0; EvRead 3 2048; EvWrite 4 2048;
          EvLseek 3 2048; EvRead 3 2048; EvWrite 4 2048;
          EvLseek 3 4096; EvRead 3 1024; EvWrite 4 1024]
    /\ G.out_count (St.clp s') = 0
    /\ main_exit_of s' = 0.
Proof.
  destruct (plain_copy_completes (fst Ex.file_file_ten) (snd Ex.file_file_ten)
              (fun _ => replicate 2048 7) 3)
    as (l' & s' & Hrun & _ & Hkt & _ & _ & _ & _ & Hoc & _ & _ & _ & Hex);
    [ vm_compute; discriminate | vm_compute; discriminate
    | reflexivity | reflexivity | reflexivity | reflexivity
    | vm_compute; discriminate | reflexivity | reflexivity | reflexivity
    | vm_compute; split; discriminate
    | reflexivity | reflexivity | reflexivity | reflexivity | reflexivity |].
  exists l', s'.
  split; [exact Hrun|]. split; [exact Hkt|]. split; [exact Hoc|exact Hex].
Defined.

(** ** A write that fails *)

(** One turn of the main loop whose [write] fails outright, without
    [oflag=coe]: both stop flags are set and the loop goes on to its next
    turn. *)
Lemma plain_turn_write_fails (clp : G.t) (g : Glob.t) (rep : R.t)
    (da : mrq_arr_t) (kt : list kevent) (o : list sysres) (l : locals)
    (d : list Z) (e : Z) (turns : nat) :
  let idx := Glob.pos_index g in
  let b := seg_blocks (Glob.dd_count g) (G.bpt clp) idx in
  G.in_type clp <> FT_RANDOM_0_FF ->
  G.out_type clp <> FT_DEV_NULL ->
  Fl.same_fds (G.in_flags clp) || Fl.same_fds (G.out_flags clp) = false ->
  G.nmrqs clp <= 0 ->
  (0 <=? G.out2fd clp) && (G.out2_type clp =? FT_SG) = false ->
  R.outregfd rep < 0 ->
  in_is_sg l = false -> out_is_sg l = false -> c_addr l = 0 ->
  0 < G.bpt clp ->
  0 <= idx < Glob.dd_count g ->
  G.out_stop clp = false -> 0 < G.out_count clp ->
  G.out_blk clp = G.seek clp + idx ->
  Fl.coe (G.out_flags clp) = false -> retryable_rw e = false ->
  main_loop (S turns) l
    (St.mk clp g rep da kt
       (ok 0 :: read_ok (b * R.bs rep) d :: SysErr e :: o))
  = main_loop turns (set_blocks b (set_stop_after_write false l))
      (St.mk
         (G.set_out_stop true
            (G.set_in_stop true
               (G.set_out_blk (G.out_blk clp + b)
                  (G.set_out_count (G.out_count clp - b)
                     (G.set_in_rem_count (G.in_rem_count clp - b) clp)))))
         (Glob.set_pos_index (idx + G.bpt clp) g)
         (R.set_rep_count (R.rep_count rep + 1 + 1)
            (R.set_wr true
               (R.set_buffp
                  (take (Z.to_nat (b * R.bs rep)) d
                   ++ drop (Z.to_nat (b * R.bs rep)) (R.buffp rep))
                  (R.set_num_blks b
                     (R.set_oblk (G.seek clp + idx)
                        (R.set_iblk (G.skip clp + idx) rep))))))
         da
         (kt ++ [EvLseek (R.infd rep) ((G.skip clp + idx) * R.bs rep);
                 EvRead (G.infd clp) (b * R.bs rep)])
         o).
Proof.
  intros idx b Hin Hout Hsame Hn Ho2 Hreg Hisg Hosg Hca Hbpt Hidx Hstop Hcnt
    Hblk Hcoe He.
  assert (Hb : 0 < b).
  { unfold b, seg_blocks.
    destruct (Z.ltb_spec (Glob.dd_count g) (idx + G.bpt clp)); lia. }
  cbn [main_loop].
  unfold mbind at 1. unfold M_bind at 1. unfold bind at 1.
  pose proof (plain_read clp g rep da kt (SysErr e :: o) l d Hin Hsame Hn
                Hisg Hca Hidx) as Hrd.
  cbv zeta in Hrd. fold idx in Hrd. fold b in Hrd.
  rewrite Hrd. clear Hrd.
  unfold mbind at 1. unfold M_bind at 1. unfold bind at 1.
  unfold get at 1. st.
  set (clp1 := G.set_in_rem_count (G.in_rem_count clp - b) clp).
  set (rep1 := R.set_rep_count (R.rep_count rep + 1) _).
  set (l1 := set_blocks b (set_stop_after_write false l)).
  assert (Hmw : must_wait clp1 rep1 l1 = false).
  { unfold must_wait.
    change (R.oblk rep1) with (G.seek clp + idx).
    change (G.out_blk clp1) with (G.out_blk clp).
    rewrite Hblk, Z.eqb_refl. cbn [negb]. apply andb_false_r. }
  rewrite Hmw. clear Hmw.
  unfold mbind at 1. unfold M_bind at 1. unfold bind at 1.
  unfold segment_write.
  unfold mbind at 1. unfold M_bind at 1. unfold bind at 1.
  unfold get_clp at 1. st.
  change (G.out_stop clp1) with (G.out_stop clp).
  change (G.out_count clp1) with (G.out_count clp).
  change (stop_after_write l1) with false.
  change (out_is_sg l1) with (out_is_sg l).
  change (blocks l1) with b.
  change (G.out_type clp1) with (G.out_type clp).
  change (G.out2fd clp1) with (G.out2fd clp).
  change (G.out2_type clp1) with (G.out2_type clp).
  rewrite Hstop, Hosg, Ho2.
  destruct (Z.leb_spec (G.out_count clp) 0) as [?|_]; [lia|]. cbn [orb].
  destruct (Z.eqb_spec (G.out_type clp) FT_DEV_NULL) as [?|_];
    [contradiction|].
  unfold mbind at 1. unfold M_bind at 1. unfold bind at 1.
  unfold mret at 1. unfold M_ret at 1. unfold ret at 1.
  unfold mbind at 1. unfold M_bind at 1. unfold bind at 1.
  unfold upd_clp at 1. unfold modify at 1. st.
  unfold mbind at 1. unfold M_bind at 1. unfold bind at 1.
  unfold write_outreg at 1.
  unfold mbind at 1. unfold M_bind at 1. unfold bind at 1.
  unfold get_rep at 1. st.
  change (R.outregfd rep1) with (R.outregfd rep).
  destruct (Z.leb_spec 0 (R.outregfd rep)) as [?|_]; [lia|].
  unfold mret at 1. unfold M_ret at 1. unfold ret at 1.
  unfold mbind at 1. unfold M_bind at 1. unfold bind at 1.
  unfold get_rep at 1. st.
  unfold mbind at 1. unfold M_bind at 1. unfold bind at 1.
  unfold mbind at 1. unfold M_bind at 1. unfold bind at 1.
  unfold mbind at 1. unfold M_bind at 1. unfold bind at 1.
  unfold normal_out_wr.
  unfold mbind at 1. unfold M_bind at 1. unfold bind at 1.
  unfold get_clp at 1.
  unfold mbind at 1. unfold M_bind at 1. unfold bind at 1.
  unfold get_rep at 1. st.
  unfold mbind at 1. unfold M_bind at 1. unfold bind at 1.
  unfold with_fuel. st.
  rewrite (retry_rw_skips [] _ _ (SysErr e) o);
    [| reflexivity | reflexivity | cbn [final_rw]; rewrite He; reflexivity
     | cbn [length]; lia].
  change (G.out_flags (G.set_out_blk (G.out_blk clp1 + b)
                         (G.set_out_count (G.out_count clp1 - b) clp1)))
    with (G.out_flags clp).
  rewrite Hcoe.
  unfold stop_both at 1. unfold upd_clp at 1. unfold modify at 1. st.
  unfold upd_rep at 1. unfold modify at 1. st.
  unfold mret at 1. unfold M_ret at 1. unfold ret at 1.
  unfold mbind at 1. unfold M_bind at 1. unfold bind at 1.
  unfold mret at 1. unfold M_ret at 1. unfold ret at 1.
  unfold mbind at 1. unfold M_bind at 1. unfold bind at 1.
  unfold get_rep at 1. st.
  change (R.num_blks (R.set_rep_count (R.rep_count rep1 + 1) rep1)) with b.
  destruct (Z.eqb_spec b 0) as [?|_]; [lia|].
  unfold mret at 1. unfold M_ret at 1. unfold ret at 1.
  reflexivity.
Qed.

(** A turn that finds [out_stop] set after its read leaves the loop
    without writing. *)
Lemma plain_turn_stopped (clp : G.t) (g : Glob.t) (rep : R.t)
    (da : mrq_arr_t) (kt : list kevent) (o : list sysres) (l : locals)
    (d : list Z) (turns : nat) :
  let idx := Glob.pos_index g in
  let b := seg_blocks (Glob.dd_count g) (G.bpt clp) idx in
  G.in_type clp <> FT_RANDOM_0_FF ->
  Fl.same_fds (G.in_flags clp) || Fl.same_fds (G.out_flags clp) = false ->
  G.nmrqs clp <= 0 ->
  in_is_sg l = false -> c_addr l = 0 ->
  0 <= idx < Glob.dd_count g ->
  G.out_stop clp = true ->
  main_loop (S turns) l
    (St.mk clp g rep da kt (ok 0 :: read_ok (b * R.bs rep) d :: o))
  = Ret (Left LeaveStop, set_blocks b (set_stop_after_write false l))
      (St.mk
         (G.set_out_stop true
            (G.set_in_rem_count (G.in_rem_count clp - b) clp))
         (Glob.set_pos_index (idx + G.bpt clp) g)
         (R.set_rep_count (R.rep_count rep + 1)
            (R.set_wr true
               (R.set_buffp
                  (take (Z.to_nat (b * R.bs rep)) d
                   ++ drop (Z.to_nat (b * R.bs rep)) (R.buffp rep))
                  (R.set_num_blks b
                     (R.set_oblk (G.seek clp + idx)
                        (R.set_iblk (G.skip clp + idx) rep))))))
         da
         (kt ++ [EvLseek (R.infd rep) ((G.skip clp + idx) * R.bs rep);
                 EvRead (G.infd clp) (b * R.bs rep)])
         o).
Proof.
  intros idx b Hin Hsame Hn Hisg Hca Hidx Hstop.
  cbn [main_loop].
  unfold mbind at 1. unfold M_bind at 1. unfold bind at 1.
  pose proof (plain_read clp g rep da kt o l d Hin Hsame Hn Hisg Hca Hidx)
    as Hrd.
  cbv zeta in Hrd. fold idx in Hrd. fold b in Hrd.
  rewrite Hrd. clear Hrd.
  unfold mbind at 1. unfold M_bind at 1. unfold bind at 1.
  unfold get at 1. st.
  set (clp1 := G.set_in_rem_count (G.in_rem_count clp - b) clp).
  set (rep1 := R.set_rep_count (R.rep_count rep + 1) _).
  set (l1 := set_blocks b (set_stop_after_write false l)).
  assert (Hmw : must_wait clp1 rep1 l1 = false).
  { unfold must_wait. change (G.out_stop clp1) with (G.out_stop clp).
    rewrite Hstop. cbn [negb]. rewrite andb_false_r. reflexivity. }
  rewrite Hmw. clear Hmw.
  unfold mbind at 1. unfold M_bind at 1. unfold bind at 1.
  unfold segment_write.
  unfold mbind at 1. unfold M_bind at 1. unfold bind at 1.
  unfold get_clp at 1. st.
  change (G.out_stop clp1) with (G.out_stop clp).
  rewrite Hstop. cbn [orb].
  unfold mbind, M_bind, bind, upd_clp, modify, mret, M_ret, ret. st.
  reflexivity.
Qed.

(** A [write] to an ordinary file that fails outright, without
    [oflag=coe], stops the copy: the worker writes nothing more; it still
    seeks and reads the next segment, if there is one, before it notices
    the stop and leaves its loop.  Both stop flags are set, nothing is
    taken off [out_rem_count], the failed segment stays taken off
    [out_count], and [exit_status] is not touched, so that the process
    exit status is that of [main_exit] for the blocks left in
    [out_count]. *)
Theorem write_failure_stops_copy (s : St.t) (l : locals) (e : Z)
    (d d2 : list Z) (rest : list sysres) (n : nat) :
  let clp := St.clp s in
  let g := St.glob s in
  let rep := St.rep s in
  let idx := Glob.pos_index g in
  let dd := Glob.dd_count g in
  let b := seg_blocks dd (G.bpt clp) idx in
  let b2 := seg_blocks dd (G.bpt clp) (idx + G.bpt clp) in
  let more := idx + G.bpt clp <? dd in
  G.in_type clp <> FT_RANDOM_0_FF -> G.out_type clp <> FT_DEV_NULL ->
  in_is_sg l = false -> out_is_sg l = false -> c_addr l = 0 ->
  Fl.same_fds (G.in_flags clp) || Fl.same_fds (G.out_flags clp) = false ->
  G.nmrqs clp <= 0 ->
  (0 <=? G.out2fd clp) && (G.out2_type clp =? FT_SG) = false ->
  R.outregfd rep < 0 ->
  0 < G.bpt clp -> 0 <= idx < dd ->
  G.out_stop clp = false -> 0 < G.out_count clp ->
  G.out_blk clp = G.seek clp + idx ->
  Fl.coe (G.out_flags clp) = false -> retryable_rw e = false ->
  St.oracle s
  = [ok 0; read_ok (b * R.bs rep) d; SysErr e]
    ++ (if more then [ok 0; read_ok (b2 * R.bs rep) d2] else []) ++ rest ->
  exists l' s',
    read_write_thread (S (S n)) l s
    = Ret (Left (if more then LeaveStop else LeaveTail), l') s'
    /\ St.ktrace s'
       = St.ktrace s
         ++ [EvLseek (R.infd rep) ((G.skip clp + idx) * R.bs rep);
             EvRead (G.infd clp) (b * R.bs rep)]
         ++ (if more
             then [EvLseek (R.infd rep)
                     ((G.skip clp + (idx + G.bpt clp)) * R.bs rep);
                   EvRead (G.infd clp) (b2 * R.bs rep)]
             else [])
    /\ St.oracle s' = rest
    /\ G.in_stop (St.clp s') = true /\ G.out_stop (St.clp s') = true
    /\ G.out_rem_count (St.clp s') = G.out_rem_count clp
    /\ G.out_count (St.clp s') = G.out_count clp - b
    /\ Glob.exit_status (St.glob s') = Glob.exit_status g
    /\ main_exit_of s'
       = main_exit (Glob.exit_status g) (G.out_count clp - b)
           (G.dry_run clp).
Proof.
  destruct s as [clp g rep da kt o]. st.
  intros Hin Hout Hisg Hosg Hca Hsame Hn Ho2 Hreg Hbpt Hidx Hstop Hcnt Hblk
    Hcoe He Ho. subst o.
  unfold read_write_thread.
  unfold mbind at 1. unfold M_bind at 1. unfold bind at 1.
  cbn [app].
  rewrite plain_turn_write_fails by assumption.
  destruct (Z.ltb_spec (Glob.pos_index g + G.bpt clp) (Glob.dd_count g))
    as [Hmore|Hlast].
  - cbn [app].
    match goal with
    | |- context [main_loop (S n) ?l1 (St.mk ?c1 ?g1 ?r1 _ ?k1 _)] =>
      pose proof (plain_turn_stopped c1 g1 r1 da k1 rest l1 d2 n) as Hnext
    end.
    cbv zeta in Hnext.
    specialize (Hnext Hin Hsame Hn Hisg Hca).
    assert (Hi2 : 0 <= Glob.pos_index g + G.bpt clp < Glob.dd_count g)
      by lia.
    specialize (Hnext Hi2 eq_refl).
    match type of Hnext with
    | ?lhs = _ =>
      match goal with
      | |- context [main_loop (S n) ?l1 ?st] =>
        change (main_loop (S n) l1 st) with lhs
      end
    end.
    rewrite Hnext.
    clear Hnext. cbn [fst].
    unfold mbind, M_bind, bind, upd_clp, modify, mret, M_ret, ret. st.
    eexists _, _. split; [reflexivity|]. st.
    unfold main_exit_of. st.
    rewrite <- app_assoc.
    repeat split.
  - cbn [app].
    rewrite plain_tail;
      [| exact Hn
       | change (0 <= Glob.dd_count g <= Glob.pos_index g + G.bpt clp); lia].
    cbn [fst].
    unfold mbind, M_bind, bind, upd_clp, modify, mret, M_ret, ret. st.
    eexists _, _. split; [reflexivity|]. st.
    unfold main_exit_of. st. cbn [app].
    repeat split.
Qed.

(** [Ex.write_fails]: the first write fails; one more segment is read, none written, and the exit status is [SG_LIB_CAT_OTHER]. *)
Lemma write_failure_stops_copy_witness :
  exists l' s',
    read_write_thread 2 (snd Ex.write_fails) (fst Ex.write_fails)
    = Ret (Left LeaveStop, l') s'
    /\ St.ktrace s'
       = [EvLseek 3 0; EvRead 3 2048; EvLseek 3 2048; EvRead 3 2048]
    /\ St.oracle s' = []
    /\ G.out_rem_count (St.clp s') = 10
    /\ G.out_count (St.clp s') = 6
    /\ main_exit_of s' = SG_LIB_CAT_OTHER.
Proof.
  destruct (write_failure_stops_copy (fst Ex.write_fails)
              (snd Ex.write_fails) ENOMEM (replicate 2048 7)
              (replicate 2048 7) [] 0)
    as (l' & s' & Hrun & Hkt & Ho & _ & _ & Hrem & Hcnt & _ & Hex);
    [ vm_compute; discriminate | vm_compute; discriminate
    | reflexivity | reflexivity | reflexivity | reflexivity
    | vm_compute; discriminate | reflexivity | reflexivity | reflexivity
    | vm_compute; split; [discriminate | reflexivity]
    | reflexivity | reflexivity | reflexivity | reflexivity | reflexivity
    | reflexivity |].
  exists l', s'. split; [exact Hrun|]. split; [exact Hkt|].
  split; [exact Ho|]. split; [exact Hrem|]. split; [exact Hcnt | exact Hex].
Defined.

(** ** A short read *)

(** When the [read] of a segment from an ordinary file delivers fewer bytes
    than asked for (end of file included), the worker still writes the
    whole segment of [blocks * bs] bytes from its buffer and takes all its
    blocks off [out_count] and [out_rem_count]; only [in_rem_count] is
    reduced by the [ceil(res / bs)] blocks read.  It then sets [out_stop]
    and [in_stop] and leaves its loop. *)
Theorem short_read_writes_whole_segment (s : St.t) (l : locals) (res : Z)
    (rresp wresp : kresp) (rel wel : list kresp) (rest : list sysres)
    (n : nat) :
  let clp := St.clp s in
  let g := St.glob s in
  let rep := St.rep s in
  let idx := Glob.pos_index g in
  let bs := R.bs rep in
  let b := seg_blocks (Glob.dd_count g) (G.bpt clp) idx in
  G.in_type clp <> FT_RANDOM_0_FF -> G.out_type clp <> FT_DEV_NULL ->
  in_is_sg l = false -> out_is_sg l = false -> c_addr l = 0 ->
  Fl.same_fds (G.in_flags clp) || Fl.same_fds (G.out_flags clp) = false ->
  G.nmrqs clp <= 0 ->
  (0 <=? G.out2fd clp) && (G.out2_type clp =? FT_SG) = false ->
  R.outregfd rep < 0 ->
  0 < G.bpt clp -> 0 <= idx < Glob.dd_count g ->
  G.out_stop clp = false -> 0 < G.out_count clp ->
  G.out_blk clp = G.seek clp + idx ->
  0 < bs -> 0 <= res < b * bs ->
  - 2147483648 <= G.in_partial clp < INT_MAX ->
  St.oracle s
  = ok 0 :: SysOk res rresp rel :: SysOk (b * bs) wresp wel :: rest ->
  exists l' s',
    read_write_thread (S n) l s
    = Ret (Left (if res =? 0 then LeaveNoBlks else LeaveStopAfterWrite), l')
        s'
    /\ St.ktrace s'
       = St.ktrace s
         ++ [EvLseek (R.infd rep) ((G.skip clp + idx) * bs);
             EvRead (G.infd clp) (b * bs); EvWrite (G.outfd clp) (b * bs)]
    /\ St.oracle s' = rest
    /\ R.num_blks (St.rep s') = ceil_div res bs
    /\ G.in_rem_count (St.clp s') = G.in_rem_count clp - ceil_div res bs
    /\ G.out_rem_count (St.clp s') = G.out_rem_count clp - b
    /\ G.out_count (St.clp s') = G.out_count clp - b
    /\ G.in_stop (St.clp s') = true /\ G.out_stop (St.clp s') = true.
Proof.
  destruct s as [clp g rep da kt o]. st.
  intros Hin Hout Hisg Hosg Hca Hsame Hn Ho2 Hreg Hbpt Hidx Hstop Hcnt Hblk
    Hbs Hres Hpart Ho. subst o.
  set (idx := Glob.pos_index g) in *.
  set (b := seg_blocks (Glob.dd_count g) (G.bpt clp) idx) in *.
  assert (Hb : 0 < b).
  { unfold b, seg_blocks.
    destruct (Z.ltb_spec (Glob.dd_count g) (idx + G.bpt clp)); lia. }
  assert (Hnr : (G.in_type clp =? FT_RANDOM_0_FF) = false)
    by (apply Z.eqb_neq; exact Hin).
  pose proof (quot_rem_ceil res (R.bs rep) ltac:(lia) Hbs) as Hceil.
  assert (Hc0 : ceil_div res (R.bs rep) = 0 <-> res = 0).
  { unfold ceil_div. split; intros H.
    - apply Z.div_small_iff in H; lia.
    - subst res. apply Z.div_small. lia. }
  assert (Hcpos : 0 <= ceil_div res (R.bs rep)).
  { unfold ceil_div. apply Z.div_pos; lia. }
  set (nb := ceil_div res (R.bs rep)) in *.
  unfold read_write_thread.
  unfold mbind at 1. unfold M_bind at 1. unfold bind at 1.
  cbn [main_loop].
  unfold mbind at 1. unfold M_bind at 1. unfold bind at 1.
  (* the read half *)
  unfold segment_read.
  unfold mbind at 1. unfold M_bind at 1. unfold bind at 1.
  unfold upd_rep at 1. unfold modify at 1.
  unfold mbind at 1. unfold M_bind at 1. unfold bind at 1.
  unfold get_glob at 1.
  unfold mbind at 1. unfold M_bind at 1. unfold bind at 1.
  unfold get_clp at 1. st.
  unfold mbind at 1. unfold M_bind at 1. unfold bind at 1.
  unfold upd_glob at 1. unfold modify at 1. st.
  unfold mbind at 1. unfold M_bind at 1. unfold bind at 1.
  unfold buffp_onto_next at 1.
  unfold mbind at 1. unfold M_bind at 1. unfold bind at 1.
  unfold get_clp at 1. st.
  destruct (Z.ltb_spec 0 (G.nmrqs clp)) as [?|_]; [lia|]. cbn [andb].
  unfold mret at 1. unfold M_ret at 1. unfold ret at 1.
  fold idx.
  destruct (Z.leb_spec 0 (Glob.dd_count g)) as [_|?]; [|lia].
  destruct (Z.leb_spec (Glob.dd_count g) idx) as [?|_]; [lia|].
  cbn [andb]. fold (seg_blocks (Glob.dd_count g) (G.bpt clp) idx). fold b.
  unfold mbind at 1. unfold M_bind at 1. unfold bind at 1.
  unfold upd_rep at 1. unfold modify at 1. st.
  rewrite Hisg.
  unfold mbind at 1. unfold M_bind at 1. unfold bind at 1.
  unfold mbind at 1. unfold M_bind at 1. unfold bind at 1.
  unfold normal_in_rd.
  unfold mbind at 1. unfold M_bind at 1. unfold bind at 1.
  unfold get_clp at 1.
  unfold mbind at 1. unfold M_bind at 1. unfold bind at 1.
  unfold get_rep at 1. st.
  rewrite Hnr, Hsame. cbn [negb].
  unfold mbind at 1. unfold M_bind at 1. unfold bind at 1.
  unfold mbind at 1. unfold M_bind at 1. unfold bind at 1.
  unfold syscall at 1. unfold ok at 1. st.
  unfold mbind at 1. unfold M_bind at 1. unfold bind at 1.
  unfold emit at 1. unfold modify at 1. st.
  unfold mret at 1. unfold M_ret at 1. unfold ret at 1. cbn [negb].
  unfold mbind at 1. unfold M_bind at 1. unfold bind at 1.
  unfold with_fuel at 1. st.
  rewrite (retry_rw_skips [] _ _ (SysOk res rresp rel)
             (SysOk (b * R.bs rep) wresp wel :: rest));
    [| reflexivity | reflexivity | reflexivity | cbn [length]; lia].
  st.
  unfold mbind at 1. unfold M_bind at 1. unfold bind at 1.
  unfold emit at 1. unfold modify at 1. st.
  unfold mbind at 1. unfold M_bind at 1. unfold bind at 1.
  unfold upd_rep at 1. unfold modify at 1. st.
  unfold in_rd_tail.
  unfold mbind at 1. unfold M_bind at 1. unfold bind at 1.
  unfold get_rep at 1. st.
  match goal with
  | |- context [St.set_rep ?r _] => set (rep0 := r)
  end.
  change (R.bs rep0) with (R.bs rep).
  destruct (Z.ltb_spec res (b * R.bs rep)) as [_|?]; [|lia].
  rewrite Hceil. fold nb.
  unfold St.set_rep, St.set_glob, St.set_clp, St.set_oracle, St.set_ktrace.
  st.
  change (R.infd (R.set_num_blks b
            (R.set_oblk (G.seek clp + idx)
               (R.set_iblk (G.skip clp + idx) (R.set_wr false rep)))))
    with (R.infd rep).
  change (R.iblk (R.set_num_blks b
            (R.set_oblk (G.seek clp + idx)
               (R.set_iblk (G.skip clp + idx) (R.set_wr false rep)))))
    with (G.skip clp + idx).
  change (R.bs (R.set_num_blks b
            (R.set_oblk (G.seek clp + idx)
               (R.set_iblk (G.skip clp + idx) (R.set_wr false rep)))))
    with (R.bs rep).
  rewrite <- app_assoc. cbn [app].
  set (clpp := if 0 <? Z.rem res (R.bs rep)
               then G.set_in_partial (s32 (G.in_partial clp + 1)) clp
               else clp).
  assert (Hpp : config_of clpp = config_of clp
                /\ G.out_stop clpp = G.out_stop clp
                /\ G.out_count clpp = G.out_count clp
                /\ G.out_blk clpp = G.out_blk clp
                /\ G.out_rem_count clpp = G.out_rem_count clp
                /\ G.in_rem_count clpp = G.in_rem_count clp).
  { unfold clpp. destruct (0 <? Z.rem res (R.bs rep)); repeat split. }
  destruct Hpp as (Hcfg & Hps & Hpc & Hpb & Hpr & Hpi).
  assert (Hrun1 :
    ((if 0 <? Z.rem res (R.bs rep)
      then upd_clp (fun c => G.set_in_partial (s32 (G.in_partial c + 1)) c)
      else mret tt);;
     upd_rep (R.set_num_blks nb);;
     upd_clp (fun c => G.set_in_rem_count (G.in_rem_count c - nb) c);;
     mret true)
      (St.mk clp (Glob.set_pos_index (idx + G.bpt clp) g) rep0 da
         (kt ++ [EvLseek (R.infd rep) ((G.skip clp + idx) * R.bs rep);
                 EvRead (G.infd clp) (b * R.bs rep)])
         (SysOk (b * R.bs rep) wresp wel :: rest))
    = Ret true
        (St.mk (G.set_in_rem_count (G.in_rem_count clp - nb) clpp)
           (Glob.set_pos_index (idx + G.bpt clp) g)
           (R.set_num_blks nb rep0) da
           (kt ++ [EvLseek (R.infd rep) ((G.skip clp + idx) * R.bs rep);
                   EvRead (G.infd clp) (b * R.bs rep)])
           (SysOk (b * R.bs rep) wresp wel :: rest))).
  { unfold clpp. destruct (0 <? Z.rem res (R.bs rep)); reflexivity. }
  rewrite Hrun1. clear Hrun1.
  unfold mret at 1. unfold M_ret at 1. unfold ret at 1.
  unfold chkaddr_step.
  unfold mbind at 1. unfold M_bind at 1. unfold bind at 1.
  unfold mbind at 1. unfold M_bind at 1. unfold bind at 1.
  unfold get_rep at 1. st.
  change (c_addr (set_stop_after_write true l)) with (c_addr l).
  rewrite Hca. cbn [Z.eqb negb andb].
  unfold mret at 1. unfold M_ret at 1. unfold ret at 1.
  unfold mbind at 1. unfold M_bind at 1. unfold bind at 1.
  unfold upd_rep at 1. unfold modify at 1. unfold St.set_rep. st.
  unfold mret at 1. unfold M_ret at 1. unfold ret at 1.
  unfold mbind at 1. unfold M_bind at 1. unfold bind at 1.
  unfold get at 1. st.
  set (clp1 := G.set_in_rem_count (G.in_rem_count clp - nb) clpp).
  set (rep1 := R.set_wr true _).
  set (l1 := set_blocks b (set_stop_after_write true l)).
  assert (Hmw : must_wait clp1 rep1 l1 = false).
  { unfold must_wait.
    change (R.oblk rep1) with (G.seek clp + idx).
    change (G.out_blk clp1) with (G.out_blk clpp).
    rewrite Hpb, Hblk, Z.eqb_refl. cbn [negb]. apply andb_false_r. }
  rewrite Hmw. clear Hmw.
  unfold mbind at 1. unfold M_bind at 1. unfold bind at 1.
  unfold segment_write.
  unfold mbind at 1. unfold M_bind at 1. unfold bind at 1.
  unfold get_clp at 1. st.
  change (G.out_stop clp1) with (G.out_stop clpp).
  change (G.out_count clp1) with (G.out_count clpp).
  change (stop_after_write l1) with true.
  change (out_is_sg l1) with (out_is_sg l).
  change (blocks l1) with b.
  change (G.out_type clp1) with (G.out_type clpp).
  change (G.out2fd clp1) with (G.out2fd clpp).
  change (G.out2_type clp1) with (G.out2_type clpp).
  pose proof (f_equal G.out_type Hcfg) as Hty'.
  change (G.out_type clpp = G.out_type clp) in Hty'.
  pose proof (f_equal G.out2fd Hcfg) as Hfd2.
  change (G.out2fd clpp = G.out2fd clp) in Hfd2.
  pose proof (f_equal G.out2_type Hcfg) as Hty2.
  change (G.out2_type clpp = G.out2_type clp) in Hty2.
  pose proof (f_equal G.nmrqs Hcfg) as Hn'.
  change (G.nmrqs clpp = G.nmrqs clp) in Hn'.
  pose proof (f_equal G.outfd Hcfg) as Hofd.
  change (G.outfd clpp = G.outfd clp) in Hofd.
  rewrite Hps, Hpc, Hstop, Hosg, Hty', Hfd2, Hty2, Ho2.
  destruct (Z.leb_spec (G.out_count clp) 0) as [?|_]; [lia|]. cbn [orb].
  destruct (Z.eqb_spec (G.out_type clp) FT_DEV_NULL) as [?|_];
    [contradiction|].
  unfold mbind at 1. unfold M_bind at 1. unfold bind at 1.
  unfold upd_clp at 1. unfold modify at 1. unfold St.set_clp. st.
  unfold mbind at 1. unfold M_bind at 1. unfold bind at 1.
  unfold upd_clp at 1. unfold modify at 1. unfold St.set_clp. st.
  unfold mbind at 1. unfold M_bind at 1. unfold bind at 1.
  unfold write_outreg at 1.
  unfold mbind at 1. unfold M_bind at 1. unfold bind at 1.
  unfold get_rep at 1. st.
  change (R.outregfd rep1) with (R.outregfd rep).
  destruct (Z.leb_spec 0 (R.outregfd rep)) as [?|_]; [lia|].
  unfold mret at 1. unfold M_ret at 1. unfold ret at 1.
  unfold mbind at 1. unfold M_bind at 1. unfold bind at 1.
  unfold get_rep at 1. st.
  unfold mbind at 1. unfold M_bind at 1. unfold bind at 1.
  unfold mbind at 1. unfold M_bind at 1. unfold bind at 1.
  unfold mbind at 1. unfold M_bind at 1. unfold bind at 1.
  rewrite normal_out_wr_full with (resp := wresp) (el := wel) (rest := rest);
    [| reflexivity].
  st.
  unfold upd_rep at 1. unfold modify at 1. unfold St.set_rep. st.
  unfold mret at 1. unfold M_ret at 1. unfold ret at 1.
  unfold mbind at 1. unfold M_bind at 1. unfold bind at 1.
  unfold mret at 1. unfold M_ret at 1. unfold ret at 1.
  unfold mbind at 1. unfold M_bind at 1. unfold bind at 1.
  unfold get_rep at 1. st.
  change (R.num_blks (R.set_rep_count (R.rep_count rep1 + 1) rep1)) with nb.
  change (R.bs rep1) with (R.bs rep).
  rewrite <- app_assoc. cbn [app].
  destruct (Z.eqb_spec nb 0) as [Hz|Hnz].
  - apply Hc0 in Hz. subst res. cbn [Z.eqb].
    unfold tail_flush.
    unfold mbind at 1. unfold M_bind at 1. unfold bind at 1.
    unfold mbind at 1. unfold M_bind at 1. unfold bind at 1.
    unfold get at 1. st.
    match goal with
    | |- context [0 <? G.nmrqs ?c] =>
      change (G.nmrqs c) with (G.nmrqs clpp)
    end.
    rewrite Hn'.
    destruct (Z.ltb_spec 0 (G.nmrqs clp)) as [?|_]; [lia|]. cbn [andb].
    unfold mbind, M_bind, bind, upd_clp, modify, mret, M_ret, ret.
    unfold St.set_clp. st. cbn [fst].
    eexists _, _. split; [reflexivity|]. st.
    cbn [G.in_rem_count G.out_rem_count G.out_count G.in_stop G.out_stop
         G.outfd G.set_in_stop G.set_out_stop G.set_out_rem_count
         G.set_out_blk G.set_out_count G.set_in_rem_count R.num_blks
         R.set_rep_count].
    fold clp1. change (G.out_count clp1) with (G.out_count clpp).
    change (G.out_rem_count clp1) with (G.out_rem_count clpp).
    change (G.outfd clp1) with (G.outfd clpp).
    rewrite Hpc, Hpr, Hofd.
    repeat split; reflexivity.
  - destruct (Z.eqb_spec res 0) as [Hr0|_]; [apply Hc0 in Hr0; contradiction|].
    unfold mbind, M_bind, bind, upd_clp, modify, mret, M_ret, ret.
    unfold St.set_clp. st. cbn [fst].
    eexists _, _. split; [reflexivity|]. st.
    cbn [G.in_rem_count G.out_rem_count G.out_count G.in_stop G.out_stop
         G.outfd G.set_in_stop G.set_out_stop G.set_out_rem_count
         G.set_out_blk G.set_out_count G.set_in_rem_count R.num_blks
         R.set_rep_count].
    fold clp1. change (G.out_count clp1) with (G.out_count clpp).
    change (G.out_rem_count clp1) with (G.out_rem_count clpp).
    change (G.outfd clp1) with (G.outfd clpp).
    rewrite Hpc, Hpr, Hofd.
    repeat split; reflexivity.
Qed.

(** [Ex.short_read]: 700 bytes read, 2048 written. *)
Lemma short_read_writes_whole_segment_witness :
  exists l' s',
    read_write_thread 1 (snd Ex.short_read) (fst Ex.short_read)
    = Ret (Left LeaveStopAfterWrite, l') s'
    /\ St.ktrace s' = [EvLseek 3 0; EvRead 3 2048; EvWrite 4 2048]
    /\ R.num_blks (St.rep s') = 2
    /\ G.in_rem_count (St.clp s') = 8
    /\ G.out_rem_count (St.clp s') = 6
    /\ G.out_count (St.clp s') = 6.
Proof.
  destruct (short_read_writes_whole_segment (fst Ex.short_read)
              (snd Ex.short_read) 700
              (mk_kresp 0 0 0 0 0 0 0 0 NullPtr false 0 None
                 (replicate 700 7))
              (clean 0) [] [] [] 0)
    as (l' & s' & Hrun & Hkt & _ & Hnb & Hirc & Horc & Hoc & _);
    [ vm_compute; discriminate | vm_compute; discriminate
    | reflexivity | reflexivity | reflexivity | reflexivity
    | vm_compute; discriminate | reflexivity | reflexivity | reflexivity
    | vm_compute; split; [discriminate | reflexivity]
    | reflexivity | reflexivity | reflexivity | reflexivity
    | vm_compute; split; [discriminate | reflexivity]
    | vm_compute; split; [discriminate | reflexivity]
    | reflexivity |].
  exists l', s'. split; [exact Hrun|]. split; [exact Hkt|].
  split; [exact Hnb|]. split; [exact Hirc|]. split; [exact Horc | exact Hoc].
Defined.

(** ** Failing and synthetic reads *)

(** When the [read] of an ordinary file fails with an error other than
    [EINTR]/[EAGAIN] (after the [lseek] of a worker with its own
    descriptor and any number of retries): with [iflag=coe],
    [normal_in_rd] zero-fills the segment's [num_blks * bs] bytes, takes
    the blocks off [in_rem_count] and lets the copy go on; without it, it
    sets [in_stop] and [out_stop] and returns [true].  No read is
    recorded. *)
Theorem normal_in_rd_error (s : St.t) (blocks e : Z) (retries : list Z)
    (seek_res : sysres) (rest : list sysres) :
  let clp := St.clp s in
  let rep := St.rep s in
  let same_fds :=
    Fl.same_fds (G.in_flags clp) || Fl.same_fds (G.out_flags clp) in
  G.in_type clp <> FT_RANDOM_0_FF ->
  forallb retryable_rw retries = true -> retryable_rw e = false ->
  St.oracle s
  = (if same_fds then [] else [seek_res])
    ++ map SysErr retries ++ SysErr e :: rest ->
  (exists r0 resp0 el0, seek_res = SysOk r0 resp0 el0) ->
  0 < R.bs rep -> blocks <= R.num_blks rep ->
  exists s',
    normal_in_rd blocks s = Ret (negb (Fl.coe (G.in_flags clp))) s'
    /\ St.ktrace s'
       = St.ktrace s
         ++ (if same_fds then []
             else [EvLseek (R.infd rep) (R.iblk rep * R.bs rep)])
    /\ St.oracle s' = rest
    /\ if Fl.coe (G.in_flags clp)
       then St.clp s' = G.set_in_rem_count (G.in_rem_count clp - blocks) clp
            /\ St.rep s'
               = R.set_buffp
                   (buf_fill 0 (R.num_blks rep * R.bs rep) 0 (R.buffp rep))
                   rep
       else St.clp s' = G.set_out_stop true (G.set_in_stop true clp)
            /\ St.rep s' = rep.
Proof.
  destruct s as [clp g rep da kt o].
  cbn [St.clp St.rep St.oracle St.ktrace].
  intros Hty Hall He Ho (r0 & resp0 & el0 & ->) Hbs Hblk.
  assert (Hnr : (G.in_type clp =? FT_RANDOM_0_FF) = false)
    by (apply Z.eqb_neq; exact Hty).
  unfold normal_in_rd.
  unfold mbind at 1. unfold M_bind at 1. unfold bind at 1. unfold get_clp at 1.
  unfold mbind at 1. unfold M_bind at 1. unfold bind at 1. unfold get_rep at 1.
  cbn [St.clp St.rep]. rewrite Hnr.
  unfold mbind at 1. unfold M_bind at 1. unfold bind at 1.
  assert (Htail : forall kt',
    (r ← with_fuel retry_rw;
     match r with
     | SysErr _ =>
       if Fl.coe (G.in_flags clp) then
         upd_rep (fun r =>
           R.set_buffp (buf_fill 0 (R.num_blks r * R.bs r) 0 (R.buffp r)) r);;
         in_rd_tail (R.num_blks rep * R.bs rep) blocks
       else stop_both;; mret true
     | SysOk res resp _ =>
       emit (EvRead (G.infd clp) (blocks * R.bs rep));;
       upd_rep (fun r =>
         R.set_buffp (take (Z.to_nat res) (k_data resp)
                      ++ drop (Z.to_nat res) (R.buffp r)) r);;
       in_rd_tail res blocks
     end)
      (St.mk clp g rep da kt' (map SysErr retries ++ SysErr e :: rest))
    = Ret (negb (Fl.coe (G.in_flags clp)))
        (if Fl.coe (G.in_flags clp)
         then St.mk (G.set_in_rem_count (G.in_rem_count clp - blocks) clp) g
                (R.set_buffp
                   (buf_fill 0 (R.num_blks rep * R.bs rep) 0 (R.buffp rep))
                   rep) da kt' rest
         else St.mk (G.set_out_stop true (G.set_in_stop true clp)) g rep da
                kt' rest)).
  { intros kt'.
    unfold mbind at 1. unfold M_bind at 1. unfold bind at 1. unfold with_fuel.
    erewrite (retry_rw_skips retries);
      [| reflexivity | exact Hall | cbn [final_rw]; rewrite He; reflexivity
       | cbn [St.oracle]; rewrite length_app, length_map; cbn [length]; lia].
    destruct (Fl.coe (G.in_flags clp)); cbn [negb].
    - unfold mbind at 1. unfold M_bind at 1. unfold bind at 1.
      unfold upd_rep at 1. unfold modify at 1.
      cbn [St.set_oracle St.set_rep St.set_clp St.clp St.glob St.rep
           St.def_arr St.ktrace St.oracle].
      unfold in_rd_tail.
      unfold mbind, M_bind, bind, get_rep, upd_clp, modify, mret, M_ret, ret.
      cbn [St.set_oracle St.set_rep St.set_clp St.clp St.glob St.rep
           St.def_arr St.ktrace St.oracle].
      change (R.bs (R.set_buffp
                (buf_fill 0 (R.num_blks rep * R.bs rep) 0 (R.buffp rep)) rep))
        with (R.bs rep).
      destruct (Z.ltb_spec (R.num_blks rep * R.bs rep) (blocks * R.bs rep))
        as [Hlt|_]; [nia|].
      cbn [St.set_oracle St.set_rep St.set_clp St.clp St.glob St.rep
           St.def_arr St.ktrace St.oracle].
      reflexivity.
    - unfold mbind, M_bind, bind, stop_both, upd_clp, modify, mret, M_ret,
        ret.
      cbn [St.set_oracle St.set_rep St.set_clp St.clp St.glob St.rep
           St.def_arr St.ktrace St.oracle].
      reflexivity. }
  destruct (Fl.same_fds (G.in_flags clp) || Fl.same_fds (G.out_flags clp));
    cbn [negb app] in Ho |- *; subst o.
  - unfold mret at 1. unfold M_ret at 1. unfold ret at 1. cbn [negb].
    eexists. split; [apply Htail|]. rewrite app_nil_r.
    destruct (Fl.coe (G.in_flags clp)); cbn; repeat split.
  - unfold mbind at 1. unfold M_bind at 1. unfold bind at 1.
    unfold syscall at 1. cbn [St.oracle].
    unfold mbind at 1. unfold M_bind at 1. unfold bind at 1.
    unfold emit at 1. unfold modify at 1.
    cbn [St.set_oracle St.set_ktrace St.set_clp St.clp St.glob St.rep
         St.def_arr St.ktrace St.oracle].
    unfold mret at 1. unfold M_ret at 1. unfold ret at 1. cbn [negb].
    eexists. split; [apply Htail|].
    destruct (Fl.coe (G.in_flags clp)); cbn; repeat split.
Qed.

(** A [read] that fails with [ENOMEM] after one [EINTR], without [coe]. *)
Lemma normal_in_rd_error_witness :
  exists s',
    normal_in_rd 4
      (Ex.at_write (Ex.ten_blocks [ok 0; SysErr EINTR; SysErr ENOMEM]) 4)
    = Ret true s'
    /\ St.ktrace s' = [EvLseek 3 0] /\ St.oracle s' = []
    /\ G.in_stop (St.clp s') = true /\ G.out_stop (St.clp s') = true
    /\ G.in_rem_count (St.clp s') = 10.
Proof.
  destruct (normal_in_rd_error
              (Ex.at_write (Ex.ten_blocks [ok 0; SysErr EINTR; SysErr ENOMEM])
                 4)
              4 ENOMEM [EINTR] (ok 0) [])
    as (s' & Hrun & Hkt & Ho & Hclp & _);
    [ vm_compute; discriminate | reflexivity | reflexivity | reflexivity
    | eexists _, _, _; reflexivity | reflexivity | cbn; lia |].
  exists s'. split; [exact Hrun|]. split; [exact Hkt|]. split; [exact Ho|].
  cbn in Hclp. rewrite Hclp. repeat split.
Defined.

Lemma buf_fill_spec (len v : Z) (buf : list Z) :
  length (buf_fill 0 len v buf) = length buf
  /\ (forall i : nat, (i < length buf)%nat -> Z.of_nat i < len ->
      buf_fill 0 len v buf !! i = Some v)
  /\ (forall i : nat, len <= Z.of_nat i ->
      buf_fill 0 len v buf !! i = buf !! i).
Proof.
  unfold buf_fill. change (Z.to_nat 0) with 0%nat.
  rewrite take_0, Nat.sub_0_r, Nat.add_0_l. cbn [app].
  split; [|split].
  - rewrite length_app, length_replicate, length_drop. lia.
  - intros i Hi Hlen.
    rewrite lookup_app_l by (rewrite length_replicate; lia).
    apply lookup_replicate_2. lia.
  - intros i Hlen.
    destruct (Nat.lt_ge_cases i (length buf)) as [Hi|Hi].
    + rewrite lookup_app_r by (rewrite length_replicate; lia).
      rewrite length_replicate, lookup_drop. f_equal. lia.
    + rewrite !lookup_ge_None_2; [reflexivity | lia |].
      rewrite length_app, length_replicate, length_drop. lia.
Qed.

(** Synthetic input with [iflag=00] or [iflag=ff] (not both with blocks of
    four bytes or more): [normal_in_rd] makes no call; it sets the first
    [blocks * bs] bytes of the buffer to 0, or to 0xff, leaves the bytes
    beyond them alone, takes [blocks] off [in_rem_count] and lets the copy
    go on. *)
Theorem normal_in_rd_fill (s : St.t) (blocks : Z) :
  let clp := St.clp s in
  let rep := St.rep s in
  let fl := G.in_flags clp in
  let v := if Fl.zero fl then 0 else 0xff in
  G.in_type clp = FT_RANDOM_0_FF ->
  Fl.zero fl || Fl.ff fl = true ->
  Fl.zero fl && Fl.ff fl && (4 <=? R.bs rep) = false ->
  0 <= blocks -> 0 < R.bs rep ->
  exists buf',
    normal_in_rd blocks s
    = Ret false
        (St.mk (G.set_in_rem_count (G.in_rem_count clp - blocks) clp)
           (St.glob s) (R.set_buffp buf' rep) (St.def_arr s) (St.ktrace s)
           (St.oracle s))
    /\ length buf' = length (R.buffp rep)
    /\ (forall i : nat, (i < length (R.buffp rep))%nat ->
        Z.of_nat i < blocks * R.bs rep -> buf' !! i = Some v)
    /\ (forall i : nat, blocks * R.bs rep <= Z.of_nat i ->
        buf' !! i = R.buffp rep !! i).
Proof.
  destruct s as [clp g rep da kt o].
  cbn [St.clp St.rep St.oracle St.ktrace St.glob St.def_arr].
  intros Hty Hfl Hboth _ _.
  exists (buf_fill 0 (blocks * R.bs rep)
            (if Fl.zero (G.in_flags clp) then 0 else 0xff) (R.buffp rep)).
  split; [|apply buf_fill_spec].
  unfold normal_in_rd.
  unfold mbind at 1. unfold M_bind at 1. unfold bind at 1. unfold get_clp at 1.
  unfold mbind at 1. unfold M_bind at 1. unfold bind at 1. unfold get_rep at 1.
  cbn [St.clp St.rep]. rewrite Hty, Z.eqb_refl, Hboth.
  destruct (Fl.zero (G.in_flags clp)).
  - unfold mbind, M_bind, bind, upd_rep, upd_clp, modify, mret, M_ret, ret.
    cbn [St.set_rep St.set_clp St.clp St.glob St.rep St.def_arr St.ktrace
         St.oracle].
    reflexivity.
  - cbn [orb] in Hfl. rewrite Hfl.
    unfold mbind, M_bind, bind, upd_rep, upd_clp, modify, mret, M_ret, ret.
    cbn [St.set_rep St.set_clp St.clp St.glob St.rep St.def_arr St.ktrace
         St.oracle].
    reflexivity.
Qed.

(** Four blocks of 0xff on [Ex.ff_file]. *)
Lemma normal_in_rd_fill_witness :
  exists buf',
    normal_in_rd 4 Ex.ff_file
    = Ret false
        (St.mk (G.set_in_rem_count 4 (St.clp Ex.ff_file)) (St.glob Ex.ff_file)
           (R.set_buffp buf' (St.rep Ex.ff_file)) [] [] [])
    /\ buf' !! 2047%nat = Some 0xff.
Proof.
  destruct (normal_in_rd_fill Ex.ff_file 4)
    as (buf' & Hrun & _ & Hin & _);
    [reflexivity | reflexivity | reflexivity | lia | reflexivity |].
  exists buf'. split; [exact Hrun|].
  apply Hin; [cbn; lia | cbn; lia].
Defined.

(** ** The address check *)

(** Where the scan of one block stops: at the first word that differs, or
    past the last word. *)
Lemma chk_words_stop (fuel : nat) : forall buf addr off j num,
  0 <= j -> num - j <= 4 * Z.of_nat fuel ->
  let r := chk_words fuel buf addr off j num in
  (forall i, 0 <= i -> j + 4 * i < r -> j + 4 * i < num ->
     sg_get_unaligned_be32 buf (Z.to_nat (off + j + 4 * i)) = addr)
  /\ (r < num ->
      exists i, 0 <= i /\ r = j + 4 * i
        /\ sg_get_unaligned_be32 buf (Z.to_nat (off + r)) <> addr)
  /\ j <= r.
Proof.
  induction fuel as [|fuel IH]; intros buf addr off j num Hj Hfuel.
  - cbn. repeat split; intros; lia.
  - cbn [chk_words]. destruct (Z.ltb_spec j num) as [Hlt|Hge].
    + destruct (Z.eqb_spec addr
                  (sg_get_unaligned_be32 buf (Z.to_nat (off + j))))
        as [Heq|Hne]; cbn [negb].
      * destruct (IH buf addr off (j + 4) num ltac:(lia) ltac:(lia))
          as (Hall & Hbad & Hle).
        split; [|split].
        -- intros i Hi Hr Hn.
           destruct (Z.eq_dec i 0) as [->|Hi0].
           ++ replace (off + j + 4 * 0) with (off + j) by lia. congruence.
           ++ replace (off + j + 4 * i) with (off + (j + 4) + 4 * (i - 1))
                by lia.
              apply Hall; lia.
        -- intros Hr. destruct (Hbad Hr) as (i & Hi & Hri & Hd).
           exists (i + 1). repeat split; [lia | lia | exact Hd].
        -- lia.
      * split; [|split].
        -- intros i Hi Hr Hn. lia.
        -- intros _. exists 0. repeat split; [lia | lia | congruence].
        -- lia.
    + repeat split; intros; lia.
Qed.

(** The scan of the blocks: its result is the first block with a word that
    differs from the block's address, or [blocks]. *)
Lemma chk_blocks_stop (fuel : nat) : forall buf k blocks addr bs num,
  0 <= k -> 0 <= num -> blocks - k <= Z.of_nat fuel ->
  0 <= addr < 4294967296 ->
  let r := chk_blocks fuel buf k blocks addr (k * bs) bs num in
  (forall m i, k <= m -> m < r -> m < blocks -> 0 <= i -> 4 * i < num ->
     sg_get_unaligned_be32 buf (Z.to_nat (m * bs + 4 * i))
     = u32 (addr + (m - k)))
  /\ (r < blocks ->
      exists i, 0 <= i /\ 4 * i < num /\ k <= r
        /\ sg_get_unaligned_be32 buf (Z.to_nat (r * bs + 4 * i))
           <> u32 (addr + (r - k)))
  /\ k <= r.
Proof.
  induction fuel as [|fuel IH];
    intros buf k blocks addr bs num Hk Hnum Hfuel Ha.
  - cbn. repeat split; intros; lia.
  - cbn [chk_blocks]. destruct (Z.ltb_spec k blocks) as [Hlt|Hge].
    + destruct (chk_words_stop (Z.to_nat num) buf addr (k * bs) 0 num
                  ltac:(lia) ltac:(lia)) as (Hall & Hbad & _).
      destruct (Z.ltb_spec
                  (chk_words (Z.to_nat num) buf addr (k * bs) 0 num) num)
        as [Hstop|Hpass].
      * split; [|split].
        -- intros; lia.
        -- intros _. destruct (Hbad Hstop) as (i & Hi & Hri & Hd).
           exists i. rewrite Hri in Hd, Hstop.
           replace (k - k) with 0 by lia. rewrite Z.add_0_r.
           rewrite u32_small by exact Ha.
           repeat split; [lia | lia | lia |].
           replace (k * bs + 4 * i) with (k * bs + (0 + 4 * i)) by lia.
           exact Hd.
        -- lia.
      * replace (k * bs + bs) with ((k + 1) * bs) by lia.
        destruct (IH buf (k + 1) blocks (u32 (addr + 1)) bs num ltac:(lia)
                    Hnum ltac:(lia) (u32_range _)) as (Hall' & Hbad' & Hle').
        split; [|split].
        -- intros m i Hkm Hmr Hmb Hi H4i.
           destruct (Z.eq_dec m k) as [->|Hmk].
           ++ replace (k - k) with 0 by lia. rewrite Z.add_0_r.
              rewrite u32_small by exact Ha.
              replace (k * bs + 4 * i) with (k * bs + 0 + 4 * i) by lia.
              apply Hall; lia.
           ++ rewrite Hall' by lia. rewrite u32_add_l. f_equal. lia.
        -- intros Hr. destruct (Hbad' Hr) as (i & Hi & H4i & Hkr & Hd).
           exists i. repeat split; [lia | lia | lia |].
           rewrite u32_add_l in Hd.
           replace (addr + (chk_blocks fuel buf (k + 1) blocks
                              (u32 (addr + 1)) ((k + 1) * bs) bs num - k))
             with (addr + 1
                   + (chk_blocks fuel buf (k + 1) blocks (u32 (addr + 1))
                        ((k + 1) * bs) bs num - (k + 1))) by lia.
           exact Hd.
        -- lia.
    + repeat split; intros; lia.
Qed.

(** The address check fails exactly when some checked word of some block
    of the segment differs from the block's address. *)
Lemma chkaddr_fails_spec (c_addr : Z) (buf : list Z) (iblk blocks bs : Z) :
  3 < bs -> 0 <= blocks ->
  let num := if c_addr =? 1 then 4 else bs - 3 in
  chkaddr_fails c_addr buf iblk blocks bs = false
  <-> (forall k i, 0 <= k < blocks -> 0 <= i -> 4 * i < num ->
         sg_get_unaligned_be32 buf (Z.to_nat (k * bs + 4 * i))
         = u32 (iblk + k)).
Proof.
  intros Hbs Hb num. unfold chkaddr_fails. fold num.
  assert (Hnum : 0 <= num) by (unfold num; destruct (c_addr =? 1); lia).
  destruct (chk_blocks_stop (Z.to_nat blocks) buf 0 blocks (u32 iblk) bs num
              ltac:(lia) Hnum ltac:(lia) (u32_range _))
    as (Hall & Hbad & Hle).
  change (0 * bs) with 0 in Hall, Hbad, Hle.
  split.
  - intros Hok k i Hk Hi H4i. apply Z.ltb_ge in Hok.
    rewrite Hall by lia. rewrite u32_add_l. f_equal. lia.
  - intros Hgood. apply Z.ltb_ge.
    destruct (Z.lt_ge_cases
                (chk_blocks (Z.to_nat blocks) buf 0 blocks (u32 iblk) 0 bs num)
                blocks) as [Hr|Hr]; [|lia].
    destruct (Hbad Hr) as (i & Hi & H4i & _ & Hd).
    exfalso. apply Hd. rewrite Hgood by lia.
    rewrite u32_add_l. f_equal. lia.
Qed.

(** With [--chkaddr] and blocks of more than three bytes, the check after
    the read passes, and changes nothing, exactly when every checked word
    (the first one of each block, or with [--chkaddr] given twice every
    aligned one) holds the 32 bit address of its block; otherwise it sets
    the exit status to MISCOMPARE, counts a miscompare and stops the copy.
    Without [--chkaddr], or with smaller blocks, nothing is checked. *)
Theorem chkaddr_step_detects (s : St.t) (c_addr blocks : Z) :
  let rep := St.rep s in
  let bs := R.bs rep in
  let num := if c_addr =? 1 then 4 else bs - 3 in
  let matches :=
    forall k i, 0 <= k < blocks -> 0 <= i -> 4 * i < num ->
      sg_get_unaligned_be32 (R.buffp rep) (Z.to_nat (k * bs + 4 * i))
      = u32 (R.iblk rep + k) in
  0 <= blocks ->
  (c_addr = 0 \/ bs <= 3 \/ matches -> chkaddr_step c_addr blocks s = Ret tt s)
  /\ (c_addr <> 0 -> 3 < bs -> ~ matches ->
      chkaddr_step c_addr blocks s
      = Ret tt
          (St.mk (G.set_out_stop true (G.set_in_stop true (St.clp s)))
             (Glob.set_num_miscompare (Glob.num_miscompare (St.glob s) + 1)
                (Glob.set_exit_status SG_LIB_CAT_MISCOMPARE (St.glob s)))
             rep (St.def_arr s) (St.ktrace s) (St.oracle s))).
Proof.
  destruct s as [clp g rep da kt o].
  cbn [St.clp St.rep St.glob St.def_arr St.ktrace St.oracle].
  intros Hb.
  assert (Hun : chkaddr_step c_addr blocks (St.mk clp g rep da kt o)
    = (if negb (c_addr =? 0) && (3 <? R.bs rep) then
         if chkaddr_fails c_addr (R.buffp rep) (R.iblk rep) blocks (R.bs rep)
         then
           upd_glob (fun g =>
             Glob.set_num_miscompare (Glob.num_miscompare g + 1)
               (Glob.set_exit_status SG_LIB_CAT_MISCOMPARE g));;
           stop_both
         else mret tt
       else mret tt) (St.mk clp g rep da kt o)) by reflexivity.
  rewrite Hun. clear Hun.
  split.
  - intros [-> | [Hbs | Hm]].
    + reflexivity.
    + destruct (Z.ltb_spec 3 (R.bs rep)) as [?|_]; [lia|].
      rewrite andb_false_r. reflexivity.
    + destruct (negb (c_addr =? 0) && (3 <? R.bs rep)) eqn:Hen;
        [|reflexivity].
      apply andb_prop in Hen as [_ Hbs]. apply Z.ltb_lt in Hbs.
      apply (chkaddr_fails_spec c_addr (R.buffp rep) (R.iblk rep) blocks
               (R.bs rep) Hbs Hb) in Hm.
      rewrite Hm. reflexivity.
  - intros Hc Hbs Hm.
    destruct (Z.eqb_spec c_addr 0) as [?|_]; [contradiction|].
    destruct (Z.ltb_spec 3 (R.bs rep)) as [_|?]; [|lia]. cbn [negb andb].
    destruct (chkaddr_fails c_addr (R.buffp rep) (R.iblk rep) blocks
                (R.bs rep)) eqn:Hf.
    + unfold mbind, M_bind, bind, upd_glob, stop_both, upd_clp, modify, mret,
        M_ret, ret.
      cbn [St.set_glob St.set_clp St.clp St.glob St.rep St.def_arr St.ktrace
           St.oracle].
      reflexivity.
    + exfalso. apply Hm.
      apply (chkaddr_fails_spec c_addr (R.buffp rep) (R.iblk rep) blocks
               (R.bs rep) Hbs Hb). exact Hf.
Qed.

(** A buffer of zeros fails the check of four blocks from block 0: block 1 does not hold its address. *)
Lemma chkaddr_step_detects_witness :
  chkaddr_step 1 4 (fst Ex.short_read)
  = Ret tt
      (St.mk
         (G.set_out_stop true (G.set_in_stop true (St.clp (fst Ex.short_read))))
         (Glob.set_num_miscompare 1
            (Glob.set_exit_status SG_LIB_CAT_MISCOMPARE
               (St.glob (fst Ex.short_read))))
         (St.rep (fst Ex.short_read)) [] []
         (St.oracle (fst Ex.short_read))).
Proof.
  apply (proj2 (chkaddr_step_detects (fst Ex.short_read) 1 4 ltac:(lia)));
    [discriminate | cbn; lia |].
  intros H. specialize (H 1 0 ltac:(lia) ltac:(lia) ltac:(cbn; lia)).
  vm_compute in H. discriminate.
Defined.

(** ** Reads from an sg device *)

Lemma build_ok_size (c : list Z) (cdb_sz blocks start_block : Z)
    (write_true fua dpo : bool) :
  fst (sg_build_scsi_cdb c cdb_sz blocks start_block false write_true fua dpo)
  = 0 ->
  2 <= cdb_sz.
Proof.
  unfold sg_build_scsi_cdb. cbn [andb].
  destruct (Z.eqb_spec cdb_sz 6) as [->|_]; [lia|].
  destruct (Z.eqb_spec cdb_sz 10) as [->|_]; [lia|].
  destruct (Z.eqb_spec cdb_sz 12) as [->|_]; [lia|].
  destruct (Z.eqb_spec cdb_sz 16) as [->|_]; [lia|].
  cbn [fst]. discriminate.
Qed.

(** The READ command of a segment, built again after an attempt, is the
    same command. *)
Lemma start_io_cdb_again (clp : G.t) (rep rep' : R.t) (cmd : list Z) :
  R.wr rep = false -> R.wr rep' = false ->
  R.iblk rep' = R.iblk rep -> R.num_blks rep' = R.num_blks rep ->
  R.cmd rep' = cmd ->
  start_io_cdb clp rep None = (Some cmd, cmd) ->
  start_io_cdb clp rep' None = (Some cmd, cmd).
Proof.
  intros Hwr Hwr' Hib Hnb Hcmd.
  unfold start_io_cdb. rewrite Hwr, Hwr', Hib, Hnb, Hcmd.
  cbn [x_dout_is_split x_prefetch andb].
  rewrite andb_false_r.
  destruct (sg_build_scsi_cdb (R.cmd rep) (G.cdbsz_in clp)
              (u32 (R.num_blks rep)) (R.iblk rep) false false
              (Fl.fua (side_flags false clp)) (Fl.dpo (side_flags false clp)))
    as [res c1] eqn:Hb.
  destruct (Z.eqb_spec res 0) as [->|Hne]; cbn [negb]; [|discriminate].
  intros H. injection H as <-.
  assert (Hsz : 2 <= G.cdbsz_in clp).
  { eapply build_ok_size. rewrite Hb. reflexivity. }
  pose proof (build_rebuild (R.cmd rep) (G.cdbsz_in clp)
                (u32 (R.num_blks rep)) (R.iblk rep) false false
                (Fl.fua (side_flags false clp))
                (Fl.dpo (side_flags false clp)) Hsz) as Hre.
  rewrite Hb in Hre. cbn [snd] in Hre. rewrite Hre.
  cbn [Z.eqb negb]. reflexivity.
Qed.

(** A v4 READ submitted by [sg_start_io] at once. *)
Lemma sg_start_io_v4_read (clp : G.t) (g : Glob.t) (rep : R.t)
    (da : mrq_arr_t) (kt : list kevent) (pid : Z) (cmd : list Z)
    (r : Z) (resp : kresp) (el : list kresp) (rest : list sysres) :
  R.wr rep = false -> Fl.v4 (G.in_flags clp) = true ->
  G.nmrqs clp <= 0 -> G.aen clp <= 0 ->
  start_io_cdb clp rep None = (Some cmd, cmd) ->
  let p := rd_pack_id rep (Glob.mono_pack_id g) in
  sg_start_io pid None (St.mk clp g rep da kt (SysOk r resp el :: rest))
  = Ret (0, p)
      (St.mk clp (Glob.set_mono_pack_id (s32 (Glob.mono_pack_id g + 1)) g)
         (R.set_io_hdr4_0 (rd_hdr4 clp rep p)
            (R.set_rq_id p
               (if R.both_sg rep
                then R.set_rd_p_id p (R.set_cmd cmd rep)
                else R.set_cmd cmd rep)))
         da
         (kt ++ [EvSubmitV4 (R.infd rep) (rd_hdr4 clp rep p) cmd]) rest).
Proof.
  intros Hwr Hv4 Hn Ha Hcdb p.
  unfold sg_start_io.
  unfold mbind at 1. unfold M_bind at 1. unfold bind at 1. unfold get_clp at 1.
  unfold mbind at 1. unfold M_bind at 1. unfold bind at 1. unfold get_rep at 1.
  st. rewrite Hwr. unfold side_flags. rewrite Hv4. rewrite Hcdb.
  unfold mbind at 1. unfold M_bind at 1. unfold bind at 1.
  unfold upd_rep at 1. unfold modify at 1. unfold St.set_rep. st.
  unfold mbind at 1. unfold M_bind at 1. unfold bind at 1.
  unfold start_io_pack_id.
  unfold mbind at 1. unfold M_bind at 1. unfold bind at 1. unfold get at 1.
  st.
  unfold assign_pack_id.
  change (R.both_sg (R.set_cmd cmd rep)) with (R.both_sg rep).
  change (R.wr (R.set_cmd cmd rep)) with (R.wr rep). rewrite Hwr.
  fold (start_io_v4_flags clp rep None (R.infd rep) (start_io_flags clp rep)).
  destruct (start_io_v4_flags clp rep None (R.infd rep)
              (start_io_flags clp rep)) as [[flags nblks] spare] eqn:Hfl.
  assert (Hh : forall q, rd_hdr4 clp rep q
                         = start_io_hdr4 clp rep None q flags nblks spare).
  { intros q. unfold rd_hdr4. rewrite Hfl. reflexivity. }
  destruct (Z.ltb_spec 0 (G.nmrqs clp)) as [?|_]; [lia|].
  destruct (Z.ltb_spec 0 (G.aen clp)) as [?|_]; [lia|].
  unfold p, rd_pack_id.
  destruct (R.both_sg rep);
    repeat (progress
              (unfold mbind, M_bind, bind, upd_glob, upd_rep, modify, mret,
                 M_ret, ret, with_fuel, get_clp, get_rep, syscall, emit,
                 start_io_abort, St.set_rep, St.set_glob, St.set_oracle,
                 St.set_ktrace;
               st; cbn [length retry_call]));
    rewrite ?Hh;
    destruct (Z.ltb_spec 0 (G.aen clp)) as [?|_]; try lia;
    cbn [andb x_hpv4_ind set_io_hdr4 Z.eqb]; reflexivity.
Qed.

(** A v4 READ received by [sg_finish_io] whose category is handed to the
    caller. *)
Lemma sg_finish_io_v4_cat (clp : G.t) (g : Glob.t) (rep : R.t)
    (da : mrq_arr_t) (kt : list kevent) (p c r : Z) (el : list kresp)
    (rest : list sysres) :
  Fl.v4 (G.in_flags clp) = true -> G.nmrqs clp <= 0 ->
  Fl.mout_if (G.in_flags clp) = false ->
  finish_category c = mret (Some c) ->
  sg_finish_io false p None
    (St.mk clp g rep da kt (SysOk r (retry_resp (R.id rep) c) el :: rest))
  = Ret c
      (St.mk clp g
         (R.set_io_hdr4_0
            (apply_resp (retry_resp (R.id rep) c)
               (H4.set_request_extra p (R.io_hdr4_0 rep))) rep)
         da (kt ++ [EvReceiveV4 (R.infd rep) p]) rest).
Proof.
  intros Hv4 Hn Hmo Hc.
  unfold sg_finish_io.
  unfold mbind at 1. unfold M_bind at 1. unfold bind at 1. unfold get_clp at 1.
  unfold mbind at 1. unfold M_bind at 1. unfold bind at 1. unfold get_rep at 1.
  st. unfold side_flags. rewrite Hv4, Hmo.
  destruct (Z.ltb_spec 0 (G.nmrqs clp)) as [?|_]; [lia|].
  cbn [x_hpv4_ind set_io_hdr4 io_hdr4 Z.eqb x_is_wr2 andb].
  unfold mbind at 1. unfold M_bind at 1. unfold bind at 1.
  unfold upd_rep at 1. unfold modify at 1. unfold St.set_rep. st.
  unfold mbind at 1. unfold M_bind at 1. unfold bind at 1.
  unfold with_fuel. st. cbn [length retry_call].
  unfold mbind at 1. unfold M_bind at 1. unfold bind at 1.
  unfold syscall at 1. st. unfold St.set_oracle. st.
  unfold mret at 1. unfold M_ret at 1. unfold ret at 1.
  unfold mbind at 1. unfold M_bind at 1. unfold bind at 1.
  unfold emit at 1. unfold modify at 1. unfold St.set_ktrace. st.
  unfold mbind at 1. unfold M_bind at 1. unfold bind at 1.
  unfold upd_rep at 1. unfold modify at 1. unfold St.set_rep. st.
  change (H4.usr_ptr (apply_resp (retry_resp (R.id rep) c)
            (H4.set_request_extra p (R.io_hdr4_0 rep))))
    with (RepPtr (R.id rep)).
  change (R.id (R.set_io_hdr4_0 (H4.set_request_extra p (R.io_hdr4_0 rep))
                  rep)) with (R.id rep).
  rewrite bool_decide_eq_true_2 by reflexivity. cbn [negb].
  change (k_category (retry_resp (R.id rep) c)) with c.
  rewrite Hc. reflexivity.
Qed.

(** A v4 READ received by [sg_finish_io] that completed. *)
Lemma sg_finish_io_v4_done (clp : G.t) (g : Glob.t) (rep : R.t)
    (da : mrq_arr_t) (kt : list kevent) (p r : Z) (el : list kresp)
    (rest : list sysres) :
  Fl.v4 (G.in_flags clp) = true -> G.nmrqs clp <= 0 ->
  Fl.mout_if (G.in_flags clp) = false ->
  sg_finish_io false p None
    (St.mk clp g rep da kt (SysOk r (clean (R.id rep)) el :: rest))
  = Ret 0
      (St.mk clp g
         (R.set_resid 0
            (R.set_dio_incomplete_count
               (if Fl.dio (G.in_flags clp) then 1 else 0)
               (R.set_io_hdr4_0
                  (apply_resp (clean (R.id rep))
                     (H4.set_request_extra p (R.io_hdr4_0 rep))) rep)))
         da (kt ++ [EvReceiveV4 (R.infd rep) p]) rest).
Proof.
  intros Hv4 Hn Hmo.
  unfold sg_finish_io.
  unfold mbind at 1. unfold M_bind at 1. unfold bind at 1. unfold get_clp at 1.
  unfold mbind at 1. unfold M_bind at 1. unfold bind at 1. unfold get_rep at 1.
  st. unfold side_flags. rewrite Hv4, Hmo.
  destruct (Z.ltb_spec 0 (G.nmrqs clp)) as [?|_]; [lia|].
  cbn [x_hpv4_ind set_io_hdr4 io_hdr4 Z.eqb x_is_wr2 andb].
  unfold mbind at 1. unfold M_bind at 1. unfold bind at 1.
  unfold upd_rep at 1. unfold modify at 1. unfold St.set_rep. st.
  unfold mbind at 1. unfold M_bind at 1. unfold bind at 1.
  unfold with_fuel. st. cbn [length retry_call].
  unfold mbind at 1. unfold M_bind at 1. unfold bind at 1.
  unfold syscall at 1. st. unfold St.set_oracle. st.
  unfold mret at 1. unfold M_ret at 1. unfold ret at 1.
  unfold mbind at 1. unfold M_bind at 1. unfold bind at 1.
  unfold emit at 1. unfold modify at 1. unfold St.set_ktrace. st.
  unfold mbind at 1. unfold M_bind at 1. unfold bind at 1.
  unfold upd_rep at 1. unfold modify at 1. unfold St.set_rep. st.
  change (H4.usr_ptr (apply_resp (clean (R.id rep))
            (H4.set_request_extra p (R.io_hdr4_0 rep))))
    with (RepPtr (R.id rep)).
  change (R.id (R.set_io_hdr4_0 (H4.set_request_extra p (R.io_hdr4_0 rep))
                  rep)) with (R.id rep).
  rewrite bool_decide_eq_true_2 by reflexivity. cbn [negb].
  change (k_category (clean (R.id rep))) with SG_LIB_CAT_CLEAN.
  unfold finish_category. cbn [Z.eqb SG_LIB_CAT_CLEAN orb].
  unfold mbind, M_bind, bind, upd_rep, modify, mret, M_ret, ret.
  unfold St.set_rep. st.
  change (has_flag (H4.info (apply_resp (clean (R.id rep))
            (H4.set_request_extra p (R.io_hdr4_0 rep)))) SG_INFO_DIRECT_IO)
    with (has_flag 0 SG_INFO_DIRECT_IO).
  replace (has_flag 0 SG_INFO_DIRECT_IO) with false by reflexivity.
  rewrite andb_true_r.
  reflexivity.
Qed.

Lemma rd_view_fields (clp : G.t) (a b : R.t) :
  rd_view a = rd_view b ->
  R.wr a = R.wr b /\ R.id a = R.id b /\ R.infd a = R.infd b
  /\ R.both_sg a = R.both_sg b /\ R.iblk a = R.iblk b
  /\ R.num_blks a = R.num_blks b
  /\ (forall p, rd_hdr4 clp a p = rd_hdr4 clp b p).
Proof.
  intros H. destruct a, b. injection H; intros; subst.
  repeat split.
Qed.

(** The loop of [sg_in_rd_cmd] over attempts that ask for a retry, up to
    the one that completes. *)
Lemma sg_in_rd_loop_retries (clp : G.t) (rep0 : R.t) (cmd : list Z)
    (da : mrq_arr_t) (rest : list sysres) :
  Fl.v4 (G.in_flags clp) = true -> G.nmrqs clp <= 0 -> G.aen clp <= 0 ->
  Fl.mout_if (G.in_flags clp) = false ->
  R.wr rep0 = false ->
  start_io_cdb clp rep0 None = (Some cmd, cmd) ->
  forall (cats : list Z) (fuel : nat) (pid : Z) (g : Glob.t) (rep : R.t)
         (kt : list kevent),
  rd_view rep = rd_view rep0 ->
  start_io_cdb clp rep None = (Some cmd, cmd) ->
  Forall (fun c => c = SG_LIB_CAT_ABORTED_COMMAND
                   \/ c = SG_LIB_CAT_UNIT_ATTENTION) cats ->
  (length cats < fuel)%nat ->
  - 2147483648 <= Glob.mono_pack_id g ->
  Glob.mono_pack_id g + Z.of_nat (length cats) < INT_MAX ->
  exists clp' g' rep',
    sg_in_rd_loop pid fuel
      (St.mk clp g rep da kt
         (rd_attempts (R.id rep0) (cats ++ [SG_LIB_CAT_CLEAN]) ++ rest))
    = Ret tt
        (St.mk clp' g' rep' da
           (kt ++ rd_events clp rep0 cmd (Glob.mono_pack_id g)
                    (S (length cats)))
           rest)
    /\ G.in_rem_count clp' = G.in_rem_count clp - R.num_blks rep0
    /\ G.in_stop clp' = G.in_stop clp /\ G.out_stop clp' = G.out_stop clp
    /\ Glob.exit_status g' = Glob.exit_status g
    /\ Glob.mono_pack_id g'
       = Glob.mono_pack_id g + Z.of_nat (length cats) + 1
    /\ R.num_blks rep' = R.num_blks rep0.
Proof.
  intros Hv4 Hn Ha Hmo Hwr0 Hcdb0.
  induction cats as [|c cats IH];
    intros fuel pid g rep kt Hview Hcdb Hcats Hfuel Hlo Hhi.
  - destruct fuel as [|fuel]; [cbn in Hfuel; lia|].
    destruct (rd_view_fields clp rep rep0 Hview)
      as (Hwr & Hid & Hfd & Hbs & Hib & Hnb & Hh).
    rewrite Hwr0 in Hwr.
    cbn [app rd_attempts flat_map length rd_events].
    change (retry_resp (R.id rep0) SG_LIB_CAT_CLEAN) with (clean (R.id rep0)).
    cbn [sg_in_rd_loop].
    unfold mbind at 1. unfold M_bind at 1. unfold bind at 1.
    unfold ok at 1.
    rewrite (sg_start_io_v4_read clp g rep da kt pid cmd 0
               (clean (R.id rep0)) [] _ Hwr Hv4 Hn Ha Hcdb).
    cbn [Z.eqb Z.ltb Z.compare].
    unfold mbind at 1. unfold M_bind at 1. unfold bind at 1.
    unfold get_rep at 1. st.
    unfold mbind at 1. unfold M_bind at 1. unfold bind at 1.
    unfold get_clp at 1. st.
    unfold mbind at 1. unfold M_bind at 1. unfold bind at 1.
    set (p := rd_pack_id rep (Glob.mono_pack_id g)).
    set (rep1 := R.set_io_hdr4_0 (rd_hdr4 clp rep p) _).
    assert (Hr1 : R.wr rep1 = false /\ R.id rep1 = R.id rep0
                  /\ R.infd rep1 = R.infd rep0
                  /\ R.num_blks rep1 = R.num_blks rep0).
    { unfold rep1. destruct (R.both_sg rep); cbn; auto. }
    destruct Hr1 as (Hwr1 & Hid1 & Hfd1 & Hnb1).
    rewrite Hwr1. rewrite <- Hid1.
    rewrite (sg_finish_io_v4_done clp _ rep1 da _ p 0 [] rest Hv4 Hn Hmo).
    cbn [Z.eqb orb SG_LIB_CAT_ABORTED_COMMAND SG_LIB_CAT_UNIT_ATTENTION
         SG_LIB_CAT_MEDIUM_HARD].
    unfold in_rd_done, account_resid.
    unfold mbind at 1. unfold M_bind at 1. unfold bind at 1.
    unfold mbind at 1. unfold M_bind at 1. unfold bind at 1.
    unfold get_rep at 1. st.
    rewrite Hfd, Hh, Hfd1. unfold p. unfold rd_pack_id. rewrite Hbs.
    fold (rd_pack_id rep0 (Glob.mono_pack_id g)).
    rewrite <- app_assoc. cbn [app].
    match goal with
    | |- context [if ?b then upd_clp ?f else mret tt] =>
      destruct b;
        unfold mbind, M_bind, bind, upd_clp, modify, get_rep, mret, M_ret,
          ret; unfold St.set_clp; st
    end.
    + eexists _, _, _. split; [reflexivity|].
      cbn [G.in_rem_count G.in_stop G.out_stop G.set_in_rem_count
           G.set_sum_of_resids G.set_dio_incomplete_count
           Glob.exit_status Glob.mono_pack_id Glob.set_mono_pack_id
           R.num_blks R.set_resid R.set_dio_incomplete_count
           R.set_io_hdr4_0].
      rewrite Hnb1. rewrite s32_small by (unfold INT_MAX in *; cbn in Hhi; lia).
      cbn [length Z.of_nat]. repeat split; lia.
    + eexists _, _, _. split; [reflexivity|].
      cbn [G.in_rem_count G.in_stop G.out_stop G.set_in_rem_count
           Glob.exit_status Glob.mono_pack_id Glob.set_mono_pack_id
           R.num_blks R.set_resid R.set_dio_incomplete_count
           R.set_io_hdr4_0].
      rewrite Hnb1. rewrite s32_small by (unfold INT_MAX in *; cbn in Hhi; lia).
      cbn [length Z.of_nat]. repeat split; lia.
  - destruct fuel as [|fuel]; [cbn in Hfuel; lia|].
    destruct (rd_view_fields clp rep rep0 Hview)
      as (Hwr & Hid & Hfd & Hbs & Hib & Hnb & Hh).
    rewrite Hwr0 in Hwr.
    apply Forall_cons in Hcats as [Hc Hcats].
    cbn [length] in Hfuel, Hhi. rewrite Nat2Z.inj_succ in Hhi.
    change (rd_attempts (R.id rep0) ((c :: cats) ++ [SG_LIB_CAT_CLEAN])
            ++ rest)
      with (ok (R.id rep0) :: SysOk 0 (retry_resp (R.id rep0) c) []
            :: rd_attempts (R.id rep0) (cats ++ [SG_LIB_CAT_CLEAN]) ++ rest).
    cbn [sg_in_rd_loop].
    unfold mbind at 1. unfold M_bind at 1. unfold bind at 1.
    unfold ok at 1.
    rewrite (sg_start_io_v4_read clp g rep da kt pid cmd 0
               (clean (R.id rep0)) [] _ Hwr Hv4 Hn Ha Hcdb).
    cbn [Z.eqb Z.ltb Z.compare].
    unfold mbind at 1. unfold M_bind at 1. unfold bind at 1.
    unfold get_rep at 1. st.
    unfold mbind at 1. unfold M_bind at 1. unfold bind at 1.
    unfold get_clp at 1. st.
    unfold mbind at 1. unfold M_bind at 1. unfold bind at 1.
    set (p := rd_pack_id rep (Glob.mono_pack_id g)).
    set (rep1 := R.set_io_hdr4_0 (rd_hdr4 clp rep p) _).
    assert (Hr1 : R.wr rep1 = false /\ R.id rep1 = R.id rep0
                  /\ R.infd rep1 = R.infd rep0
                  /\ R.cmd rep1 = cmd
                  /\ R.iblk rep1 = R.iblk rep
                  /\ R.num_blks rep1 = R.num_blks rep
                  /\ rd_view rep1 = rd_view rep0).
    { unfold rep1. rewrite <- Hview.
      destruct (R.both_sg rep); cbn; repeat split; auto. }
    destruct Hr1 as (Hwr1 & Hid1 & Hfd1 & Hcmd1 & Hib1 & Hnb1 & Hview1).
    rewrite Hwr1. rewrite <- Hid1.
    rewrite (sg_finish_io_v4_cat clp _ rep1 da _ p c 0 [] _ Hv4 Hn Hmo)
      by (destruct Hc as [-> | ->]; reflexivity).
    rewrite Hid1.
    assert (Hloop : (c =? SG_LIB_CAT_ABORTED_COMMAND)
                    || (c =? SG_LIB_CAT_UNIT_ATTENTION) = true)
      by (destruct Hc as [-> | ->]; reflexivity).
    rewrite Hloop.
    set (rep2 := R.set_io_hdr4_0 _ rep1).
    set (g2 := Glob.set_mono_pack_id _ g).
    assert (Hm2 : Glob.mono_pack_id g2 = Glob.mono_pack_id g + 1).
    { unfold g2. change (Glob.mono_pack_id (Glob.set_mono_pack_id ?x g))
        with x.
      cbn [Glob.mono_pack_id Glob.set_mono_pack_id].
      apply s32_small. unfold INT_MAX in *. lia. }
    destruct (IH fuel p g2 rep2
                ((kt ++ [EvSubmitV4 (R.infd rep) (rd_hdr4 clp rep p) cmd])
                 ++ [EvReceiveV4 (R.infd rep1) p]))
      as (clp' & g' & rep' & Hrun & Hirc & Hins & Houts & Hex & Hmono & Hnb');
      [ exact Hview1
      | apply (start_io_cdb_again clp rep rep2 cmd Hwr Hwr1 Hib1 Hnb1 Hcmd1
                 Hcdb)
      | exact Hcats | lia | rewrite Hm2; lia | rewrite Hm2; lia |].
    match type of Hrun with
    | ?lhs = _ =>
      match goal with
      | |- context [sg_in_rd_loop p fuel ?st] =>
        change (sg_in_rd_loop p fuel st) with lhs
      end
    end.
    rewrite Hrun.
    exists clp', g', rep'. split.
    + f_equal. f_equal. rewrite Hm2.
      cbn [rd_events length]. rewrite <- !app_assoc. cbn [app].
      rewrite Hfd, Hh, Hfd1. unfold p. unfold rd_pack_id. rewrite Hbs.
      reflexivity.
    + rewrite Hm2 in Hmono.
      change (Glob.exit_status g2) with (Glob.exit_status g) in Hex.
      cbn [length]. rewrite Nat2Z.inj_succ.
      repeat split; try assumption; lia.
Qed.

Lemma length_rd_attempts (id : Z) (cats : list Z) :
  length (rd_attempts id cats) = (2 * length cats)%nat.
Proof.
  induction cats as [|c cats IH]; [reflexivity|].
  change (rd_attempts id (c :: cats))
    with (ok id :: SysOk 0 (retry_resp id c) [] :: rd_attempts id cats).
  cbn [length]. rewrite IH. lia.
Qed.

(** A v4 READ of a segment from an sg device (no mrq) that the driver
    completes with Aborted Command or Unit Attention is sent again, as
    often as that happens: every attempt submits the same CDB with the
    same header apart from a fresh pack-id, and the attempt that completes
    cleanly takes the segment's blocks off [in_rem_count] once.  The copy
    is not stopped and [exit_status] is not touched. *)
Theorem sg_in_rd_cmd_retries (s : St.t) (cats : list Z) (cmd : list Z)
    (rest : list sysres) :
  let clp := St.clp s in
  let rep := St.rep s in
  let mono := Glob.mono_pack_id (St.glob s) in
  R.wr rep = false -> Fl.v4 (G.in_flags clp) = true ->
  G.nmrqs clp <= 0 -> G.aen clp <= 0 ->
  Fl.mout_if (G.in_flags clp) = false ->
  start_io_cdb clp rep None = (Some cmd, cmd) ->
  Forall (fun c => c = SG_LIB_CAT_ABORTED_COMMAND
                   \/ c = SG_LIB_CAT_UNIT_ATTENTION) cats ->
  - 2147483648 <= mono -> mono + Z.of_nat (length cats) < INT_MAX ->
  St.oracle s
  = rd_attempts (R.id rep) (cats ++ [SG_LIB_CAT_CLEAN]) ++ rest ->
  exists s',
    sg_in_rd_cmd s = Ret tt s'
    /\ St.ktrace s'
       = St.ktrace s ++ rd_events clp rep cmd mono (S (length cats))
    /\ St.oracle s' = rest /\ St.def_arr s' = St.def_arr s
    /\ G.in_rem_count (St.clp s') = G.in_rem_count clp - R.num_blks rep
    /\ G.in_stop (St.clp s') = G.in_stop clp
    /\ G.out_stop (St.clp s') = G.out_stop clp
    /\ Glob.exit_status (St.glob s') = Glob.exit_status (St.glob s)
    /\ Glob.mono_pack_id (St.glob s') = mono + Z.of_nat (length cats) + 1.
Proof.
  destruct s as [clp g rep da kt o]. st.
  intros Hwr Hv4 Hn Ha Hmo Hcdb Hcats Hlo Hhi Ho. subst o.
  unfold sg_in_rd_cmd, with_fuel. st.
  destruct (sg_in_rd_loop_retries clp rep cmd da rest Hv4 Hn Ha Hmo Hwr Hcdb
              cats
              (S (length (rd_attempts (R.id rep) (cats ++ [SG_LIB_CAT_CLEAN])
                          ++ rest)))
              0 g rep kt eq_refl Hcdb Hcats)
    as (clp' & g' & rep' & Hrun & Hirc & Hins & Houts & Hex & Hmono & _);
    [ rewrite length_app, length_rd_attempts, length_app; cbn [length]; lia
    | exact Hlo | exact Hhi |].
  rewrite Hrun. eexists. split; [reflexivity|]. st.
  repeat split; assumption.
Qed.

(** Worker 0 of [Ex.sg_sg_split] reading four blocks: Unit Attention
    first, then a clean completion.  Both sides are sg devices, so the
    pack-ids are twice [mono_pack_id]: 2 and 4. *)
Lemma sg_in_rd_cmd_retries_witness :
  exists s' h1 h2,
    sg_in_rd_cmd
      (Ex.at_read Ex.sg_sg_split 4
         (rd_attempts 0 [SG_LIB_CAT_UNIT_ATTENTION; SG_LIB_CAT_CLEAN]))
    = Ret tt s'
    /\ St.ktrace s'
       = [EvSubmitV4 3 h1 [0x28; 0; 0; 0; 0; 0; 0; 0; 4; 0; 0; 0; 0; 0; 0; 0];
          EvReceiveV4 3 2;
          EvSubmitV4 3 h2 [0x28; 0; 0; 0; 0; 0; 0; 0; 4; 0; 0; 0; 0; 0; 0; 0];
          EvReceiveV4 3 4]
    /\ H4.request_extra h1 = 2 /\ H4.request_extra h2 = 4
    /\ H4.din_xfer_len h1 = 2048 /\ H4.din_xfer_len h2 = 2048
    /\ G.in_rem_count (St.clp s') = 0.
Proof.
  destruct (sg_in_rd_cmd_retries
              (Ex.at_read Ex.sg_sg_split 4
                 (rd_attempts 0 [SG_LIB_CAT_UNIT_ATTENTION; SG_LIB_CAT_CLEAN]))
              [SG_LIB_CAT_UNIT_ATTENTION]
              [0x28; 0; 0; 0; 0; 0; 0; 0; 4; 0; 0; 0; 0; 0; 0; 0] [])
    as (s' & Hrun & Hkt & _ & _ & Hirc & _);
    [ reflexivity | reflexivity | vm_compute; discriminate
    | vm_compute; discriminate | reflexivity | reflexivity
    | constructor; [right; reflexivity | constructor]
    | vm_compute; discriminate | reflexivity | reflexivity |].
  exists s'. eexists. eexists. split; [exact Hrun|]. split; [exact Hkt|].
  split; [reflexivity|]. split; [reflexivity|].
  split; [reflexivity|]. split; [reflexivity|]. exact Hirc.
Defined.

(** A v4 READ of a segment from an sg device (no mrq) that completes with
    an error category: for a medium or hardware error with [iflag=coe] the
    segment is replaced by zeros and counted as read; otherwise the
    category becomes the exit status, unless one is set already, and the
    copy is stopped with [in_rem_count] as it was.  One command was
    submitted and received. *)
Theorem sg_in_rd_cmd_error (s : St.t) (c : Z) (cmd : list Z)
    (rest : list sysres) :
  let clp := St.clp s in
  let rep := St.rep s in
  let g := St.glob s in
  let p := rd_pack_id rep (Glob.mono_pack_id g) in
  R.wr rep = false -> Fl.v4 (G.in_flags clp) = true ->
  G.nmrqs clp <= 0 -> G.aen clp <= 0 ->
  Fl.mout_if (G.in_flags clp) = false ->
  start_io_cdb clp rep None = (Some cmd, cmd) ->
  ~ In c [SG_LIB_CAT_CLEAN; SG_LIB_CAT_CONDITION_MET; SG_LIB_CAT_RECOVERED;
          SG_LIB_CAT_ABORTED_COMMAND; SG_LIB_CAT_UNIT_ATTENTION;
          SG_LIB_CAT_MISCOMPARE] ->
  St.oracle s = rd_attempts (R.id rep) [c] ++ rest ->
  exists s',
    sg_in_rd_cmd s = Ret tt s'
    /\ St.ktrace s'
       = St.ktrace s
         ++ [EvSubmitV4 (R.infd rep) (rd_hdr4 clp rep p) cmd;
             EvReceiveV4 (R.infd rep) p]
    /\ St.oracle s' = rest /\ St.def_arr s' = St.def_arr s
    /\ if (c =? SG_LIB_CAT_MEDIUM_HARD) && Fl.coe (G.in_flags clp)
       then R.buffp (St.rep s')
            = buf_fill (get_buffp_off clp rep) (R.num_blks rep * R.bs rep) 0
                (R.buffp rep)
            /\ G.in_rem_count (St.clp s')
               = G.in_rem_count clp - R.num_blks rep
            /\ G.in_stop (St.clp s') = G.in_stop clp
            /\ G.out_stop (St.clp s') = G.out_stop clp
            /\ Glob.exit_status (St.glob s') = Glob.exit_status g
       else R.buffp (St.rep s') = R.buffp rep
            /\ G.in_rem_count (St.clp s') = G.in_rem_count clp
            /\ G.in_stop (St.clp s') = true
            /\ G.out_stop (St.clp s') = true
            /\ Glob.exit_status (St.glob s')
               = (if Glob.exit_status g <=? 0 then c
                  else Glob.exit_status g).
Proof.
  destruct s as [clp g rep da kt o]. st.
  intros Hwr Hv4 Hn Ha Hmo Hcdb Hc Ho. subst o.
  assert (Hne : c <> 0 /\ c <> 25 /\ c <> 20 /\ c <> 11 /\ c <> 6
                /\ c <> 14).
  { repeat split; intros ->; apply Hc; cbn [In];
      repeat (first [left; reflexivity | right]). }
  destruct Hne as (H0 & H25 & H20 & H11 & H6 & H14).
  assert (Hfc : finish_category c = mret (Some c)).
  { unfold finish_category, SG_LIB_CAT_CLEAN, SG_LIB_CAT_CONDITION_MET,
      SG_LIB_CAT_RECOVERED, SG_LIB_CAT_ABORTED_COMMAND,
      SG_LIB_CAT_UNIT_ATTENTION, SG_LIB_CAT_MISCOMPARE.
    destruct (Z.eqb_spec c 0); [contradiction|].
    destruct (Z.eqb_spec c 25); [contradiction|].
    destruct (Z.eqb_spec c 20); [contradiction|].
    destruct (Z.eqb_spec c 11); [contradiction|].
    destruct (Z.eqb_spec c 6); [contradiction|].
    destruct (Z.eqb_spec c 14); [contradiction|].
    reflexivity. }
  unfold sg_in_rd_cmd, with_fuel. st.
  cbn [rd_attempts flat_map app length sg_in_rd_loop].
  unfold mbind at 1. unfold M_bind at 1. unfold bind at 1.
  unfold ok at 1.
  rewrite (sg_start_io_v4_read clp g rep da kt 0 cmd 0 (clean (R.id rep)) []
             _ Hwr Hv4 Hn Ha Hcdb).
  cbn [Z.eqb Z.ltb Z.compare].
  unfold mbind at 1. unfold M_bind at 1. unfold bind at 1.
  unfold get_rep at 1. st.
  unfold mbind at 1. unfold M_bind at 1. unfold bind at 1.
  unfold get_clp at 1. st.
  unfold mbind at 1. unfold M_bind at 1. unfold bind at 1.
  set (p := rd_pack_id rep (Glob.mono_pack_id g)).
  set (rep1 := R.set_io_hdr4_0 (rd_hdr4 clp rep p) _).
  assert (Hr1 : R.wr rep1 = false /\ R.id rep1 = R.id rep
                /\ R.infd rep1 = R.infd rep
                /\ R.num_blks rep1 = R.num_blks rep
                /\ R.bs rep1 = R.bs rep /\ R.buffp rep1 = R.buffp rep
                /\ R.mrq_index rep1 = R.mrq_index rep).
  { unfold rep1. destruct (R.both_sg rep); cbn; repeat split; exact Hwr. }
  destruct Hr1 as (Hwr1 & Hid1 & Hfd1 & Hnb1 & Hbs1 & Hbuf1 & Hmi1).
  rewrite Hwr1. rewrite <- Hid1.
  rewrite (sg_finish_io_v4_cat clp _ rep1 da _ p c 0 [] _ Hv4 Hn Hmo Hfc).
  rewrite Hfd1, <- app_assoc. cbn [app].
  unfold SG_LIB_CAT_ABORTED_COMMAND, SG_LIB_CAT_UNIT_ATTENTION.
  destruct (Z.eqb_spec c 11); [contradiction|].
  destruct (Z.eqb_spec c 6); [contradiction|]. cbn [orb].
  destruct (Z.eqb_spec c 0); [contradiction|].
  destruct (c =? SG_LIB_CAT_MEDIUM_HARD); cbn [andb].
  - destruct (Fl.coe (G.in_flags clp)); cbn [negb].
    + unfold in_rd_done, account_resid.
      unfold mbind at 1. unfold M_bind at 1. unfold bind at 1.
      unfold upd_rep at 1. unfold modify at 1. unfold St.set_rep. st.
      unfold mbind at 1. unfold M_bind at 1. unfold bind at 1.
      unfold mbind at 1. unfold M_bind at 1. unfold bind at 1.
      unfold get_rep at 1. st.
      match goal with
      | |- context [if ?b then upd_clp ?f else mret tt] =>
        destruct b;
          unfold mbind, M_bind, bind, upd_clp, modify, get_rep, mret, M_ret,
            ret; unfold St.set_clp; st
      end;
        (eexists; split; [reflexivity|]; st;
         cbn [G.in_rem_count G.in_stop G.out_stop G.set_in_rem_count
              G.set_sum_of_resids G.set_dio_incomplete_count
              Glob.exit_status Glob.set_mono_pack_id
              R.num_blks R.buffp R.bs R.mrq_index R.set_buffp
              R.set_io_hdr4_0];
         change (get_buffp_off clp (R.set_io_hdr4_0
                   (apply_resp (retry_resp (R.id rep1) c)
                      (H4.set_request_extra p (R.io_hdr4_0 rep1))) rep1))
           with (get_buffp_off clp rep1);
         unfold get_buffp_off; rewrite ?Hmi1, ?Hnb1, ?Hbs1, ?Hbuf1;
         repeat split).
    + unfold mbind, M_bind, bind, record_exit_status, stop_both, upd_glob,
        upd_clp, modify, mret, M_ret, ret.
      unfold St.set_clp, St.set_glob. st.
      eexists. split; [reflexivity|]. st.
      cbn [R.buffp R.set_io_hdr4_0]. rewrite Hbuf1.
      destruct (Glob.exit_status g <=? 0) eqn:He;
        change (Glob.exit_status (Glob.set_mono_pack_id
                  (s32 (Glob.mono_pack_id g + 1)) g))
          with (Glob.exit_status g); rewrite He; repeat split.
  - unfold mbind, M_bind, bind, record_exit_status, stop_both, upd_glob,
      upd_clp, modify, mret, M_ret, ret.
    unfold St.set_clp, St.set_glob. st.
    eexists. split; [reflexivity|]. st.
    cbn [R.buffp R.set_io_hdr4_0]. rewrite Hbuf1.
    destruct (Glob.exit_status g <=? 0) eqn:He;
      change (Glob.exit_status (Glob.set_mono_pack_id
                (s32 (Glob.mono_pack_id g + 1)) g))
        with (Glob.exit_status g); rewrite He; repeat split.
Qed.

(** Worker 0 of [Ex.sg_sg_split] reading four blocks that end in a medium error, without [coe]. *)
Lemma sg_in_rd_cmd_error_witness :
  exists s',
    sg_in_rd_cmd
      (Ex.at_read Ex.sg_sg_split 4 (rd_attempts 0 [SG_LIB_CAT_MEDIUM_HARD]))
    = Ret tt s'
    /\ length (St.ktrace s') = 2%nat /\ St.oracle s' = []
    /\ G.in_rem_count (St.clp s') = 4
    /\ G.in_stop (St.clp s') = true /\ G.out_stop (St.clp s') = true
    /\ Glob.exit_status (St.glob s') = SG_LIB_CAT_MEDIUM_HARD.
Proof.
  destruct (sg_in_rd_cmd_error
              (Ex.at_read Ex.sg_sg_split 4
                 (rd_attempts 0 [SG_LIB_CAT_MEDIUM_HARD]))
              SG_LIB_CAT_MEDIUM_HARD
              [0x28; 0; 0; 0; 0; 0; 0; 0; 4; 0; 0; 0; 0; 0; 0; 0] [])
    as (s' & Hrun & Hkt & Ho & _ & Hif);
    [ reflexivity | reflexivity | vm_compute; discriminate
    | vm_compute; discriminate | reflexivity | reflexivity
    | vm_compute; intuition discriminate | reflexivity |].
  exists s'. split; [exact Hrun|].
  split; [rewrite Hkt; reflexivity|]. split; [exact Ho|].
  cbn in Hif. destruct Hif as (_ & Hirc & Hins & Houts & Hex).
  repeat split; assumption.
Defined.

(** A READ that cannot be put into a CDB, because the CDB size for the
    input is none of 6, 10, 12 and 16 or because the segment has more than
    65535 blocks for a 10 byte CDB, stops the copy before anything is sent:
    [sg_in_rd_cmd] makes no call and takes no pack-id; it sets [in_stop]
    and [out_stop] and leaves [exit_status] and [in_rem_count] as they
    were. *)
Theorem sg_in_rd_cmd_bad_cdb (s : St.t) :
  let clp := St.clp s in
  let rep := St.rep s in
  R.wr rep = false ->
  ~ In (G.cdbsz_in clp) [6; 10; 12; 16]
  \/ (G.cdbsz_in clp = 10 /\ 0xffff < R.num_blks rep < 4294967296) ->
  exists cmd,
    sg_in_rd_cmd s
    = Ret tt
        (St.mk (G.set_out_stop true (G.set_in_stop true clp)) (St.glob s)
           (R.set_cmd cmd rep) (St.def_arr s) (St.ktrace s) (St.oracle s)).
Proof.
  destruct s as [clp g rep da kt o]. st.
  intros Hwr Hbad.
  assert (Hcdb : exists cmd, start_io_cdb clp rep None = (None, cmd)).
  { unfold start_io_cdb. rewrite Hwr.
    cbn [x_dout_is_split x_prefetch andb]. rewrite andb_false_r.
    unfold sg_build_scsi_cdb. cbn [andb].
    destruct Hbad as [Hsz | [Hsz Hnb]].
    - destruct (Z.eqb_spec (G.cdbsz_in clp) 6) as [E|_];
        [exfalso; apply Hsz; rewrite E; cbn; auto|].
      destruct (Z.eqb_spec (G.cdbsz_in clp) 10) as [E|_];
        [exfalso; apply Hsz; rewrite E; cbn; auto|].
      destruct (Z.eqb_spec (G.cdbsz_in clp) 12) as [E|_];
        [exfalso; apply Hsz; rewrite E; cbn; auto|].
      destruct (Z.eqb_spec (G.cdbsz_in clp) 16) as [E|_];
        [exfalso; apply Hsz; rewrite E; cbn; auto|].
      cbn [Z.eqb negb]. eexists. reflexivity.
    - rewrite Hsz. cbn [Z.eqb Pos.eqb].
      rewrite u32_small by lia.
      destruct (Z.eqb_spec (Z.land (R.num_blks rep) (Z.lnot 0xffff)) 0)
        as [E|_]; [apply land_lnot_ffff in E; lia|].
      cbn [negb Z.eqb]. eexists. reflexivity. }
  destruct Hcdb as [cmd Hcdb]. exists cmd.
  unfold sg_in_rd_cmd, with_fuel. st. cbn [sg_in_rd_loop].
  unfold mbind at 1. unfold M_bind at 1. unfold bind at 1.
  unfold sg_start_io.
  unfold mbind at 1. unfold M_bind at 1. unfold bind at 1. unfold get_clp at 1.
  unfold mbind at 1. unfold M_bind at 1. unfold bind at 1. unfold get_rep at 1.
  st. rewrite Hcdb.
  unfold mbind, M_bind, bind, upd_rep, modify, mret, M_ret, ret, stop_both,
    upd_clp.
  unfold St.set_rep, St.set_clp. st.
  reflexivity.
Qed.

(** Worker 0 of [Ex.sg_sg_split] asked to read 70000 blocks with its
    10 byte CDBs. *)
Lemma sg_in_rd_cmd_bad_cdb_witness :
  exists cmd,
    sg_in_rd_cmd (Ex.at_read Ex.sg_sg_split 70000 [ok 0; ok 0])
    = Ret tt
        (St.mk
           (G.set_out_stop true
              (G.set_in_stop true (St.clp (fst Ex.sg_sg_split))))
           (St.glob (fst Ex.sg_sg_split))
           (R.set_cmd cmd
              (R.set_num_blks 70000 (St.rep (fst Ex.sg_sg_split))))
           [] [] [ok 0; ok 0]).
Proof.
  apply (sg_in_rd_cmd_bad_cdb
           (Ex.at_read Ex.sg_sg_split 70000 [ok 0; ok 0]));
    [reflexivity | right; split; [reflexivity | cbn; lia]].
Defined.
